(* ===== verification/_CoqProject ===== *)
-Q . S2P
Prelude.v
SpotMerge.v
ImageFrame.v
InkSelection.v
SpotMergeMain.v
PartialImage.v
PartialMain.v
Progress.v
Dom.v
Overprint.v
TreeWalk.v
OptionalContent.v
TextTransform.v
Shapes.v
ColorShapes.v
Layout.v
OutputIntent.v
Recolor.v
PageInsert.v
Apex.v
Scripts.v
