(* ===== verification/Prelude.v ===== *)
(** * Raster sample programs of the Mako SDK: a verification development

    The repository is a set of Python sample programs written against the
    Mako document SDK ([jawsmakoIF_python]).  Each program opens or builds
    documents through the SDK and does its own work on pixels, ink lists,
    page trees or progress events.  The development models that work as
    Rocq functions over explicit state, with the SDK behind interfaces, and
    proves what the code computes.

    ** Parts of the program and where they are modelled

    - Ink Compositor, [OverprintSimulation/custom_spot_merge.py]
      ([SpotMerge.v], Module [SpotMerge]).  Per page: raster size (lines
      40-43, [raster_extent]), one zeroed 8-bit plane per process and spot
      ink (lines 60-73), rendering through the [SeparationRenderer] class,
      the component vectors (lines 103-110, [build_components]) and the
      loop nest of lines 112-129 ([spot_step], [channel_step], [pixel_step],
      [row_step], [custom_spot_merge_loop]), with every [bytearray] store
      range-checked; [custom_spot_merge_page] composes them.
      [SpotMergeMain.v] models the driver [custom_spot_merge] (lines
      21-151) against the [MergeSDK] class: the page loop
      ([merge_page_iteration]: raster size, inks, merge, raw writer,
      JPEG encode, print), its handlers ([merge_report]) and exit status.
      What the pages before an exception wrote survives it ([py_for_st]),
      and the loop is also a transition system ([loop_step]) with an
      inductive [eventually].
    - Scanline Codec Pipeline, [GetPartialImage/main.py]
      ([ImageFrame.v], [PartialImage.v]).  [ImageFrame.v] holds the SDK
      contracts the function relies on: image frames with a forward-only
      cursor ([Cursor], [skip_scan_lines], [read_scan_line], step relation
      [cursor_step]), the bit scaler class [ImageBitScaler], the LZ4
      temporary store class [TempCodec], the raw-image writer.
      [PartialImage.v] models [get_partial_image] (lines 48-119) whole:
      [normalize_bit_depth], the containment guard, writer creation,
      [copy_row] in a [for_range] loop, [flush_data].  [PartialMain.v] models the
      sample's [main] (lines 18-45): decode, [get_partial_image] on
      [FRect(230, 230, 400, 250)], PNG encode, handlers.
    - Separation rendering client, [RenderSeparationsToFrameBuffers/...py]
      ([InkSelection.v]).  [main] whole: argument checks ([parse_args]),
      Python's [str.find] ([str_find]), the ink partition ([ink_step],
      [select_inks]), buffer allocation ([alloc_frame_buffers]), both
      rendering branches against the [SeparationsSDK] class
      ([regular_outputs], [write_frame_buffer], [frame_buffer_outputs]),
      exit codes ([run], [main]).
    - Progress monitoring, [ProgressMonitoring/progress_monitoring.py]
      ([Progress.v]).  [format_from_path] with the dict of lines 37-48,
      [ConverterParams], the tick counter, the event callback
      [handleEvent] as a step function, a step relation [cb_step] and runs
      of events, the document and page [while] loops of
      [output_iterate_by_page] ([doc_body], [page_body]) and [main].
    - Page tree samples ([Dom.v] for the shared tree and the SDK's
      traversals: [Node], addresses with [update_at], [find_paths] for
      [findChildrenOfType], [walk] for [walkTree]); [Overprint.v]
      ([OverprintMethods.py]), [TreeWalk.v] ([walk_tree_example.py]),
      [OptionalContent.v] ([OptionalContentSearch/main.py]) and
      [TextTransform.v] ([custom_text_transform.py]) model each sample's
      functions and [main].
    - Document assembly samples.  [Shapes.v] holds the SDK's page
      content (rectangles, path geometries, colour spaces and colours,
      brushes, path nodes) and models [CreateShapes/spot_color_shapes.py]:
      [make_separation_color], [create_target] (its spoke loop, with
      [math.cos]/[math.sin] on [R]), [create_geometry], [draw_row] as a
      [py_for] over its brushes, [main].  [ColorShapes.v] models
      [CreateColorsAndShapes/spot_color_shapes.py] on the same data
      ([make_deviceN_color], the set displays of lines 65-68 as
      [set_literal], the rows, the top row and the border, [main] behind
      the [ColorsSDK] class).  [Layout.v] models [ILayoutExample/main.py]
      ([PT2XPS], [MM2XPS], [get_open_type_font], [draw_frame],
      [add_frame], [create_paragraph], [get_image], [main]) behind the
      [LayoutSDK] class.  [OutputIntent.v] models
      [SaveWithOutputIntent/save_with_output_intent.py]: the layout phase,
      the two writes with one and three output intents ([three_intents]
      for the second), the read-back checks, with the files written as
      explicit state.  [Recolor.v]
      models [RecolorImageWithSpot/...py] (image bounds from the
      resolution, the filter chain, the masked path and its matrix onto
      the crop box), [PageInsert.v] [PageInsert/main.py], [Apex.v]
      [ApexGettingStarted.py], and [Scripts.v] the four module-level
      scripts [GettingStarted], [AddImageToPdf], [CreatePdf], [OpenPdf].

    This file, [Prelude.v], holds the Python semantics the models share:
    the result monad for raised exceptions ([result], [x <- c ;; k] in
    [py_scope]), [seq[i]] raising [IndexError] ([py_get]), [bytearray]
    stores raising [ValueError] outside [range(256)] ([bytearray_set]),
    slices with Python's clamping ([py_slice]), [int()] and [round()] on
    floats, [for i in range(n)] ([for_range], its loop rule
    [for_range_inv]), [for x in l] over a state ([py_for]), [while] loops
    with fuel ([py_while], its rule with a variant [py_while_inv]),
    [s.split(sep)[-1]] ([after_last]), loops inside a [try] that keep
    what the iterations before an exception committed ([py_for_st],
    [for_range_st]), the exit status [sys.exit(code)] leaves to the shell
    ([sys_exit_status], [code & 0xFF]), the hint database [pysem] and the
    tactics [py_simpl], [py_run], [div_lia].  Every sample whose [main]
    is run through [sys.exit(main())] has a [process_status] for it.

    ** What the theorems show

    - Merge loop: it raises nothing on renderer-shaped input and writes
      the spot-by-spot rounded blend of every pixel and channel; inks only
      add and every value is a byte; no spots copies the process planes;
      the rounded blend refines the spec's exact blend within k/2 levels;
      reordering spots changes a byte by at most one level per spot, and
      three spots reach a difference of 2 (the spec promises +-1); the
      spec's scenario gives 178, not the stated 196.
    - Spot merge driver: with every page rendering, [output_<i>.jpg] is
      written for each page in order and reads back as that page's merged
      rows, exit 0; an exception on page [k] keeps the files of pages
      before [k], prints the exception and exits 1; the page loop always
      reaches a final configuration (the one the function computes), and
      the file of page [i] is eventually written when pages [0 .. i]
      render (liveness over [loop_step]).
    - [get_partial_image]: for a rectangle inside the image it returns
      the crop of the normalised rows, with exactly one skip then [dY]
      reads of the source; outside it returns the null image before any
      SDK call; a negative width passes the guard and then raises; whole
      extraction is the identity; normalisation yields 8 or 16 bits.
      GetPartialImage's [main] writes the 400 x 250 crop for a source of
      at least 630 x 480 pixels, and hands a null image to the encoder
      unchecked for a smaller one.
    - Ink selection: the loop is two filters of the page's inks (retain
      requires absence from the ignore argument); the two output modes
      write the same planes; buffers are allocated 8 times too large;
      names match as substrings and missing requests are dropped silently;
      bad arguments print the usage or the rejected value and return -1,
      which the shell sees as 255.
    - Progress: only page 0 of each document is written; the callback
      keeps an increasing stack of open node ids bounded by its counter
      (rule induction over [cb_step]); well-nested node events give the
      right count and no mismatch, and an unmatched pair can hide a
      mismatch; [main]'s exit codes and lines; a [MakoException] exits with
      its error code modulo 256, so a code that is a multiple of 256 ends
      a failed run with status 0 (the spec requires a non-zero status).
    - Tree samples: updating paths one by one through their addresses
      equals updating all paths; the collected optional-content groups are
      duplicate-free and exact per page thanks to [reset()]; black CMYK
      text is recoloured and nothing else, and [changed] never reaches the
      caller; the tree dump prints one line per node at indent [2 d].
    - Shapes: the 40 boxes of [CreateShapes] lie pairwise apart inside
      one rectangle of the page; a separation colour is well formed
      exactly for 3 or 4 components (any other length gets the CMYK
      alternate); every spoke of a target ends on its box's ellipse.
      [CreateColorsAndShapes] never writes its PDF (the target with zero
      lines divides by zero), its set displays collapse [1,1,1,1] to one
      component, and its border misses the eighth top-row box.
    - Layout: [ILayoutExample]'s four frames lie apart inside the page
      margins; [main] builds its ten paragraphs with each text run in the
      paragraph appended just before it; the font fallback returns the
      first font found (Arial otherwise), and [get_image] keeps the
      aspect ratio.
    - Output intents: with the SDK calls succeeding, both files are
      written and verified, but all three intents embed the Probe
      profile; the layout frame runs 35 mm past the 250 mm page.
    - Recolour: the image path has the image's size at 96 dpi and is
      mapped corner to corner onto the crop box; a zero resolution ends
      in the division error and nothing is written.
    - [PageInsert] with two arguments dies on [sys.argv[3]] instead of
      printing its usage; [ApexGettingStarted] renders at
      [int(size / 96 * 300)] pixels.

    ** Bounds and fuel

    Floats are exact rationals [Q]: the merge theorems concern the blend
    formula and the byte rounding of line 126, not IEEE rounding of the
    intermediate products (the order counterexample also holds with
    doubles).  [math.cos] and [math.sin] in [create_target] are the real
    functions of [Reals], with spoke ends as real points; [Q] values enter
    [R] through [Q2R].  Sizes and indices are [nat] where the code cannot
    make them negative, [Z] where it can (rectangle coordinates, pixel
    sizes passed to the SDK's unsigned parameters through [to_uint]); exit
    statuses are [Z] reduced to 8 bits with [Z.land] as [exit] does.  The
    only fuel is that of [py_while] in [Progress.v]: the document loop
    needs one unit per document and the page loop two, so the theorems
    assume [length asm < fuel] and [2 <= fuel], and they conclude that
    the loops end ([Some]); no theorem is stated only for runs that end.

    ** Not modelled

    The SDK itself (rendering, layout of text into frames, decoders,
    filters, writers, colour conversion, ICC profile parsing, JPEG/PNG/
    TIFF encoding) is modelled only through the interfaces named above:
    its results are inputs of the models (an image's frame, a font's
    type, the number of intents read back) and the theorems hold for
    every SDK that returns them.  The console output of timing lines is
    kept as text with the elapsed time as an input.  Every sample of the
    repository is modelled; what the map leaves out is imports, blank
    lines and comments, and the SDK wiring that only registers callbacks
    ([ProgressEventHandler.__init__], the empty [ICustomTransform]
    implementation, [TextTransformImplementation.__init__], which only
    stores the ink value the model passes as an argument). *)

From stdpp Require Export base list strings.
From Stdlib Require Export ZArith QArith Qround Qabs Lia Lqa.
From Stdlib Require Import Ascii.
Open Scope nat_scope.

(** ** Python exceptions and the result monad *)

Inductive PyExc :=
  | IndexError
  | ValueError (what : string)
  | KeyError
  | ZeroDivisionError (what : string)
  | AttributeError (what : string)
  | Exception (what : string)        (** [raise Exception(what)] *)
  | FileNotFoundError (what : string)
  | MakoException (what : string).

Inductive result (A : Type) :=
  | Ok (a : A)
  | Raise (e : PyExc).
Arguments Ok {A} a.
Arguments Raise {A} e.

Definition res_bind {A B} (c : result A) (k : A -> result B) : result B :=
  match c with
  | Ok a => k a
  | Raise e => Raise e
  end.

Declare Scope py_scope.
Delimit Scope py_scope with py.
Notation "x <- c ;; k" := (res_bind c (fun x => k))
  (at level 100, c at next level, right associativity) : py_scope.
Open Scope py_scope.

Definition raised {A} (c : result A) : bool :=
  match c with Ok _ => false | Raise _ => true end.

(** ** Lists as Python sequences *)

(** [seq[i]] for [0 <= i]: [IndexError] past the end. *)
Definition py_get {A} (l : list A) (i : nat) : result A :=
  match l !! i with
  | Some x => Ok x
  | None => Raise IndexError
  end.

Definition is_byte (v : Z) : bool := (0 <=? v)%Z && (v <? 256)%Z.

(** [ba[i] = v] on a [bytearray]: the index is checked first, then the
    value must lie in [range(256)]. *)
Definition bytearray_set (ba : list Z) (i : nat) (v : Z) : result (list Z) :=
  if decide (i < length ba) then
    if is_byte v then Ok (<[i:=v]> ba) else Raise (ValueError "byte must be in range(0, 256)")
  else Raise IndexError.

(** [seq[start:stop]] for [0 <= start], [0 <= stop]: Python clamps both
    bounds to the length and yields [] when [stop <= start]. *)
Definition py_slice {A} (l : list A) (start stop : nat) : list A :=
  take (stop - start) (drop start l).

(** [int(x)] for a float [x]: truncation toward zero. *)
Definition py_int (q : Q) : Z :=
  if Qle_bool 0 q then Qfloor q else Qceiling q.

(** [bytearray(n)]: [n] zero bytes, [ValueError] for a negative count. *)
Definition py_bytearray (n : Z) : result (list Z) :=
  if decide (n < 0)%Z then Raise (ValueError "negative count") else Ok (repeat 0%Z (Z.to_nat n)).

(** [round(x)] for a float [x]: to the nearest integer, ties to even. *)
Definition py_round (q : Q) : Z :=
  let f := Qfloor q in
  match Qcompare (q - inject_Z f) (1 # 2) with
  | Lt => f
  | Gt => f + 1
  | Eq => if Z.even f then f else f + 1
  end.

(** [sys.exit(code)] for an int [code] that fits a C [long]: CPython
    passes it to [exit], and the status the parent process sees is its low
    8 bits, [code & 0xFF]. *)
Definition sys_exit_status (code : Z) : Z := Z.land code 255.

(** [for i in range(n): s = body(i, s)], an exception stopping the loop. *)
Definition for_range {St} (n : nat) (body : nat -> St -> result St) (s : St) : result St :=
  fold_left (fun acc i => res_bind acc (body i)) (seq 0 n) (Ok s).

(** [for x in l: s = body(x, s)], an exception stopping the loop. *)
Fixpoint py_for {A St} (l : list A) (body : A -> St -> result St) (s : St) : result St :=
  match l with
  | [] => Ok s
  | x :: l' => s' <- body x s ;; py_for l' body s'
  end.

(** The same loop seen from outside a [try]: the state the iterations
    before an exception committed (files written, lines printed), with
    the exception that ended the loop, if any. *)
Fixpoint py_for_st {A St} (l : list A) (body : A -> St -> result St) (s : St) : St * option PyExc :=
  match l with
  | [] => (s, None)
  | x :: l' =>
      match body x s with
      | Ok s' => py_for_st l' body s'
      | Raise e => (s, Some e)
      end
  end.

(** [for i in range(n)] inside a [try]: what the iterations before an
    exception committed, and the exception. *)
Definition for_range_st {St} (n : nat) (body : nat -> St -> result St) (s : St) : St * option PyExc :=
  py_for_st (seq 0 n) body s.

(** ** Generic lemmas *)

Lemma res_bind_Ok {A B} (a : A) (k : A -> result B) : res_bind (Ok a) k = k a.
Proof. reflexivity. Qed.

Lemma res_bind_Raise {A B} e (k : A -> result B) : res_bind (Raise e) k = Raise e.
Proof. reflexivity. Qed.

Lemma res_bind_assoc {A B C} (c : result A) (f : A -> result B) (g : B -> result C) :
  res_bind (res_bind c f) g = res_bind c (fun a => res_bind (f a) g).
Proof. by destruct c. Qed.

Lemma py_get_lookup {A} (l : list A) i x : l !! i = Some x -> py_get l i = Ok x.
Proof. unfold py_get. by intros ->. Qed.

Lemma py_get_Ok {A} (l : list A) i x : py_get l i = Ok x <-> l !! i = Some x.
Proof. unfold py_get. destruct (l !! i); split; congruence. Qed.

Lemma is_byte_spec v : is_byte v = true <-> (0 <= v < 256)%Z.
Proof. unfold is_byte. rewrite andb_true_iff, Z.leb_le, Z.ltb_lt. done. Qed.

Lemma bytearray_set_ok ba i v :
  i < length ba -> (0 <= v < 256)%Z -> bytearray_set ba i v = Ok (<[i:=v]> ba).
Proof.
  intros Hi Hv. unfold bytearray_set.
  rewrite decide_True by done. by rewrite (proj2 (is_byte_spec v) Hv).
Qed.

Lemma bytearray_set_range ba i v :
  i < length ba -> ~ (0 <= v < 256)%Z -> bytearray_set ba i v = Raise (ValueError "byte must be in range(0, 256)").
Proof.
  intros Hi Hv. unfold bytearray_set. rewrite decide_True by done.
  destruct (is_byte v) eqn:E; [apply is_byte_spec in E; contradiction | done].
Qed.

Lemma length_py_slice {A} (l : list A) a b :
  b <= length l -> length (py_slice l a b) = b - a.
Proof. intros. unfold py_slice. rewrite length_take, length_drop. lia. Qed.

Lemma lookup_py_slice {A} (l : list A) a b j :
  j < b - a -> py_slice l a b !! j = l !! (a + j).
Proof. intros. unfold py_slice. rewrite lookup_take_lt by lia. apply lookup_drop. Qed.

Lemma py_int_nonneg (q : Q) : (0 <= q)%Q -> py_int q = Qfloor q.
Proof. intros Hq. unfold py_int. by rewrite (proj2 (Qle_bool_iff 0 q) Hq). Qed.

Lemma for_range_0 {St} (body : nat -> St -> result St) s : for_range 0 body s = Ok s.
Proof. reflexivity. Qed.

Lemma for_range_S {St} n (body : nat -> St -> result St) s :
  for_range (S n) body s = res_bind (for_range n body s) (body n).
Proof. unfold for_range. by rewrite seq_S, fold_left_app. Qed.

(** The loop rule: an invariant indexed by the iteration count that every
    iteration re-establishes without raising holds when the loop ends. *)
Lemma for_range_inv {St} (P : nat -> St -> Prop) n (body : nat -> St -> result St) s :
  P 0 s ->
  (forall i s, i < n -> P i s -> exists s', body i s = Ok s' /\ P (S i) s') ->
  exists s', for_range n body s = Ok s' /\ P n s'.
Proof.
  intros H0 Hstep. induction n as [|n IH].
  - by exists s.
  - destruct IH as (s1 & E1 & P1); [intros i s' Hi HP; apply Hstep; [lia|done]|].
    destruct (Hstep n s1) as (s2 & E2 & P2); [lia|done|].
    exists s2. by rewrite for_range_S, E1.
Qed.

(** A loop whose body raises nothing computes the functional fold. *)
Lemma for_range_pure {St} n (body : nat -> St -> result St) (f : nat -> St -> St) s :
  (forall i s, i < n -> body i s = Ok (f i s)) ->
  for_range n body s = Ok (fold_left (fun acc i => f i acc) (seq 0 n) s).
Proof.
  intros Hb. induction n as [|n IH]; [done|].
  rewrite for_range_S, IH by (intros; apply Hb; lia). rewrite res_bind_Ok.
  rewrite Hb by lia. by rewrite seq_S, fold_left_app.
Qed.

Lemma py_for_app {A St} (l1 l2 : list A) (body : A -> St -> result St) s :
  py_for (l1 ++ l2) body s = (s' <- py_for l1 body s ;; py_for l2 body s').
Proof. revert s. induction l1 as [|x l1 IH]; intros s; simpl; [done|]. destruct (body x s); simpl; auto. Qed.

(** A loop over a list whose body raises nothing is a fold. *)
Lemma py_for_pure {A St} (l : list A) (body : A -> St -> result St) (f : A -> St -> St) s :
  (forall x s, x ∈ l -> body x s = Ok (f x s)) ->
  py_for l body s = Ok (fold_left (fun acc x => f x acc) l s).
Proof.
  revert s. induction l as [|x l IH]; intros s Hb; simpl; [done|].
  rewrite Hb by (apply elem_of_cons; by left). simpl.
  apply IH. intros; apply Hb, elem_of_cons; by right.
Qed.

Lemma py_for_st_ok {A St} (l : list A) (body : A -> St -> result St) s s' :
  py_for l body s = Ok s' -> py_for_st l body s = (s', None).
Proof.
  revert s. induction l as [|x l IH]; intros s; simpl; [by intros [= ->]|].
  destruct (body x s); [apply IH|done].
Qed.

(** An exception in iteration [x] after the prefix [l1] ran: the state
    of the prefix is what remains. *)
Lemma sys_exit_status_mod code : sys_exit_status code = (code mod 256)%Z.
Proof. unfold sys_exit_status. change 255%Z with (Z.ones 8). by rewrite Z.land_ones by lia. Qed.

Lemma sys_exit_status_range code : (0 <= sys_exit_status code < 256)%Z.
Proof. rewrite sys_exit_status_mod. apply Z.mod_pos_bound. lia. Qed.

Lemma fold_res_bind_py_for {A St} (l : list A) (body : A -> St -> result St) c :
  fold_left (fun acc x => res_bind acc (body x)) l c =
  match c with Ok s => py_for l body s | Raise e => Raise e end.
Proof.
  revert c. induction l as [|x l IH]; intros [s|e]; simpl; [done|done| |by rewrite IH].
  rewrite IH. by destruct (body x s).
Qed.

Lemma for_range_py_for {St} n (body : nat -> St -> result St) s :
  for_range n body s = py_for (seq 0 n) body s.
Proof. unfold for_range. by rewrite fold_res_bind_py_for. Qed.

Lemma for_range_st_ok {St} n (body : nat -> St -> result St) s s' :
  for_range n body s = Ok s' -> for_range_st n body s = (s', None).
Proof. rewrite for_range_py_for. apply py_for_st_ok. Qed.

Lemma py_for_st_raise {A St} (l1 l2 : list A) x (body : A -> St -> result St) s s1 e :
  py_for l1 body s = Ok s1 -> body x s1 = Raise e ->
  py_for_st (l1 ++ x :: l2) body s = (s1, Some e).
Proof.
  revert s. induction l1 as [|y l1 IH]; intros s; simpl.
  - intros [= ->] ->. done.
  - destruct (body y s); [apply IH|done].
Qed.

Lemma list_lookup_map {A B} (f : A -> B) (l : list A) i : map f l !! i = f <$> l !! i.
Proof. revert i; induction l as [|x l IH]; intros [|i]; simpl; auto. Qed.

Lemma lookup_map_seq {A} (f : nat -> A) n j : j < n -> map f (seq 0 n) !! j = Some (f j).
Proof. intros Hj. rewrite list_lookup_map, lookup_seq_lt by done. done. Qed.

Lemma forallb_Forall {A} (f : A -> bool) (l : list A) :
  forallb f l = true <-> Forall (fun x => f x = true) l.
Proof. rewrite forallb_forall, List.Forall_forall. done. Qed.

(** Flat index [x * n + c] of a pixel-interleaved buffer. *)
Lemma flat_div x n c : c < n -> (x * n + c) / n = x.
Proof. intros. symmetry. apply (Nat.div_unique _ _ _ c); lia. Qed.

Lemma flat_mod x n c : c < n -> (x * n + c) mod n = c.
Proof. intros. symmetry. apply (Nat.mod_unique _ _ x); lia. Qed.

(** ** Rationals and integers *)

Lemma inject_Z_range (v lo hi : Z) :
  (lo <= v <= hi)%Z -> (inject_Z lo <= inject_Z v <= inject_Z hi)%Q.
Proof. intros [H1 H2]. rewrite <- !Zle_Qle. lia. Qed.

Lemma Z_le_of_Q (v f : Z) : (inject_Z v < inject_Z f + 1)%Q -> (v <= f)%Z.
Proof. intros H. assert (v < f + 1)%Z by (rewrite Zlt_Qlt, inject_Z_plus; exact H). lia. Qed.

Lemma Qfloor_bounds (x : Q) :
  (inject_Z (Qfloor x) <= x < inject_Z (Qfloor x) + 1)%Q.
Proof.
  split; [apply Qfloor_le|].
  change (x < inject_Z (Qfloor x) + inject_Z 1)%Q. rewrite <- inject_Z_plus. apply Qlt_floor.
Qed.

Create HintDb pysem.
Create Rewrite HintDb pysem.
#[export] Hint Rewrite @res_bind_Ok @res_bind_Raise @for_range_0 : pysem.
#[export] Hint Resolve py_get_lookup bytearray_set_ok : pysem.

(** Evaluate the monadic plumbing of a goal. *)
Ltac py_simpl := repeat (autorewrite with pysem; simpl).

(** Run the lookups of a goal whose indices the context knows. *)
Ltac py_run :=
  repeat first
    [ rewrite res_bind_Ok
    | match goal with
      | H : ?l !! ?i = Some _ |- context [py_get ?l ?i] => rewrite (py_get_lookup l i _ H)
      end ].

Lemma for_range_S_Ok {St} n (body : nat -> St -> result St) s s' :
  for_range (S n) body s = Ok s' ->
  exists s'', for_range n body s = Ok s'' /\ body n s'' = Ok s'.
Proof.
  rewrite for_range_S. destruct (for_range n body s) as [s''|e]; [|done].
  intros H. by exists s''.
Qed.

Lemma py_get_Some {A} (l : list A) i x : py_get l i = Ok x -> i < length l.
Proof. intros H%py_get_Ok. by eapply lookup_lt_Some. Qed.

Lemma Forall2_repeat_l {A B} (x : A) k (l : list B) (R : A -> B -> Prop) (P : B -> Prop) :
  Forall2 R (repeat x k) l -> (forall y, R x y -> P y) -> Forall P l.
Proof.
  revert l. induction k as [|k IH]; intros l HR HP; inversion HR; subst; constructor; eauto.
Qed.

(** Slicing a concatenation of rows of [n] bytes at multiples of [n]
    gives the rows back. *)
Lemma py_slice_concat {A} (rows : list (list A)) n :
  Forall (fun r => length r = n) rows ->
  map (fun i => py_slice (concat rows) (i * n) (S i * n)) (seq 0 (length rows)) = rows.
Proof.
  induction 1 as [|r rs Hr Hrs IH]; [done|]. simpl length. rewrite <- cons_seq, <- seq_shift.
  cbn [map concat]. unfold py_slice at 1.
  rewrite Nat.sub_0_r, drop_0, Nat.mul_1_l, take_app_length' by lia.
  f_equal. rewrite map_map. rewrite <- IH at 2. apply map_ext. intros i.
  unfold py_slice. rewrite drop_app_ge by lia.
  replace (S (S i) * n - S i * n) with (S i * n - i * n) by lia.
  replace (S i * n - length r) with (i * n) by lia. done.
Qed.

(** [lia] with divisions and remainders by constants, on [Z] and [nat]. *)
Ltac div_lia := zify; rewrite ?Nat2Z.inj_div in *; Z.to_euclidean_division_equations; lia.

Lemma Qfloor_ge (n : Z) (x : Q) : (inject_Z n <= x)%Q -> (n <= Qfloor x)%Z.
Proof. intros H. rewrite <- (Qfloor_Z n). by apply Qfloor_resp_le. Qed.

Lemma Qfloor_le_Z (x : Q) (n : Z) : (x <= inject_Z n)%Q -> (Qfloor x <= n)%Z.
Proof. intros H. rewrite <- (Qfloor_Z n). by apply Qfloor_resp_le. Qed.

Lemma Qfloor_add_le (a b : Q) : (Qfloor a + Qfloor b <= Qfloor (a + b))%Z.
Proof.
  apply Qfloor_ge. rewrite inject_Z_plus.
  pose proof (Qfloor_le a). pose proof (Qfloor_le b). lra.
Qed.

Lemma py_int_nonneg_range (q : Q) : (0 <= q)%Q -> (0 <= py_int q)%Z.
Proof. intros Hq. rewrite py_int_nonneg by done. apply Qfloor_ge. change (inject_Z 0) with 0%Q. lra. Qed.

Lemma py_int_of_nat (n : nat) : py_int (inject_Z (Z.of_nat n)) = Z.of_nat n.
Proof.
  rewrite py_int_nonneg; [apply Qfloor_Z|]. change 0%Q with (inject_Z 0). rewrite <- Zle_Qle. lia.
Qed.

Lemma py_int_Z (z : Z) : py_int (inject_Z z) = z.
Proof. unfold py_int. destruct (Qle_bool 0 (inject_Z z)); [apply Qfloor_Z | apply Qceiling_Z]. Qed.

Lemma py_round_nonneg (q : Q) : (0 <= q)%Q -> (0 <= py_round q)%Z.
Proof.
  intros Hq. assert (0 <= Qfloor q)%Z by (apply Qfloor_ge; change (inject_Z 0) with 0%Q; lra).
  unfold py_round. destruct (_ ?= _)%Q; [destruct (Z.even _)|..]; lia.
Qed.

(** A loop that appends [g i] at iteration [i] builds [map g (range(n))]. *)
Lemma for_range_collect {A} n (body : nat -> list A -> result (list A)) (g : nat -> A) :
  (forall i outs, i < n -> body i outs = Ok (outs ++ [g i])) ->
  for_range n body [] = Ok (map g (seq 0 n)).
Proof.
  intros Hb. induction n as [|n IH]; [done|].
  rewrite for_range_S, IH by (intros; apply Hb; lia). rewrite res_bind_Ok, Hb by lia.
  by rewrite seq_S, map_app.
Qed.

(** [map g (range(n))] is a [zip_with] when [g] reads the two lists. *)
Lemma map_seq_zip_with {A B C} (f : A -> B -> C) (g : nat -> C) (l1 : list A) (l2 : list B) n :
  length l1 = n -> length l2 = n ->
  (forall j x y, l1 !! j = Some x -> l2 !! j = Some y -> g j = f x y) ->
  map g (seq 0 n) = zip_with f l1 l2.
Proof.
  intros H1 H2 Hg. apply list_eq. intros j. rewrite lookup_zip_with, list_lookup_map.
  destruct (decide (j < n)) as [Hj|Hj].
  - rewrite lookup_seq_lt by done. simpl.
    destruct (lookup_lt_is_Some_2 l1 j) as [x Hx]; [lia|].
    destruct (lookup_lt_is_Some_2 l2 j) as [y Hy]; [lia|].
    rewrite Hx, Hy. simpl. by rewrite (Hg j x y).
  - rewrite lookup_seq_ge by lia. rewrite (lookup_ge_None_2 l1 j) by lia. done.
Qed.

Lemma map_fst_zip {A B} (l : list A) (k : list B) : length l = length k -> map fst (zip l k) = l.
Proof. revert k. induction l as [|x l IH]; intros [|y k]; simpl; intros; try done; f_equal; auto. Qed.

Lemma map_snd_zip {A B} (l : list A) (k : list B) : length l = length k -> map snd (zip l k) = k.
Proof. revert k. induction l as [|x l IH]; intros [|y k]; simpl; intros; try done; f_equal; auto. Qed.

(** [enumerate(l1 + l2, start=s)] splits at the end of [l1]. *)
Lemma zip_seq_app {A} (l1 l2 : list A) s :
  zip (seq s (length (l1 ++ l2))) (l1 ++ l2) =
  zip (seq s (length l1)) l1 ++ zip (seq (s + length l1) (length l2)) l2.
Proof.
  revert s. induction l1 as [|x l1 IH]; intros s; simpl; [by rewrite Nat.add_0_r|].
  by rewrite IH, Nat.add_succ_r.
Qed.

Lemma py_slice_app_l {A} (l r : list A) a b : b <= length l -> py_slice (l ++ r) a b = py_slice l a b.
Proof.
  intros Hb. unfold py_slice. destruct (decide (a <= length l)).
  - rewrite drop_app_le by done. rewrite take_app_le; [done|]. rewrite length_drop. lia.
  - replace (b - a) with 0 by lia. by rewrite !take_0.
Qed.

(** Row [y] of a buffer holding rows of [n] bytes one after the other. *)
Lemma py_slice_concat_lookup {A} (rows : list (list A)) n y r :
  Forall (fun r => length r = n) rows -> rows !! y = Some r ->
  py_slice (concat rows) (y * n) (y * n + n) = r.
Proof.
  intros Hlen Hy. assert (y < length rows) by (eapply lookup_lt_Some; eauto).
  rewrite <- (py_slice_concat rows n Hlen) in Hy.
  rewrite list_lookup_map, lookup_seq_lt in Hy by done.
  injection Hy as <-. f_equal. lia.
Qed.

Lemma length_concat_const {A} (rows : list (list A)) n :
  Forall (fun r => length r = n) rows -> length (concat rows) = length rows * n.
Proof. induction 1; simpl; rewrite ?length_app; lia. Qed.

Lemma for_range_ext {St} n (body1 body2 : nat -> St -> result St) s :
  (forall i s, i < n -> body1 i s = body2 i s) -> for_range n body1 s = for_range n body2 s.
Proof.
  intros Hb. induction n as [|n IH]; [done|].
  rewrite !for_range_S, IH by (intros; apply Hb; lia).
  destruct (for_range n body2 s); [apply Hb; lia | done].
Qed.

(** A slice that ends by [k] reads only the first [k] elements. *)
Lemma py_slice_take {A} (l : list A) a b k : b <= k -> py_slice (take k l) a b = py_slice l a b.
Proof.
  intros Hb. unfold py_slice. destruct (decide (a <= b)).
  - rewrite !take_drop_commute, take_take. do 2 f_equal. lia.
  - replace (b - a) with 0 by lia. by rewrite !take_0.
Qed.

(** ** Strings *)

(** [c in s] for a character [c]. *)
Fixpoint has_char (c : Ascii.ascii) (s : string) : bool :=
  match s with
  | EmptyString => false
  | String d t => bool_decide (d = c) || has_char c t
  end.

(** [s.split(sep)[-1]]: what follows the last [sep], all of [s] when it
    has none. *)
Fixpoint after_last (sep : Ascii.ascii) (s : string) : string :=
  match s with
  | EmptyString => EmptyString
  | String c t =>
      if has_char sep t then after_last sep t
      else if bool_decide (c = sep) then t else s
  end.

Lemma has_char_app c s1 s2 : has_char c (s1 ++ s2) = has_char c s1 || has_char c s2.
Proof. induction s1 as [|d s1 IH]; simpl; [done|]. by rewrite IH, orb_assoc. Qed.

(** The last segment has no separator, and the string is either that
    segment or ends with the separator followed by it. *)
Lemma after_last_spec sep s :
  has_char sep (after_last sep s) = false /\
  (s = after_last sep s \/ exists pre, s = (pre ++ String sep (after_last sep s))%string).
Proof.
  induction s as [|c t [IHc IHs]]; simpl; [by split; [|left]|].
  destruct (has_char sep t) eqn:Ht.
  - split; [done|]. right. destruct IHs as [Heq|[pre Hpre]].
    + rewrite <- Heq in IHc. congruence.
    + exists (String c pre). by rewrite Hpre at 1.
  - case_bool_decide as Hc.
    + subst c. split; [done|]. right. by exists EmptyString.
    + split; [simpl; rewrite Ht, bool_decide_false by done; done | by left].
Qed.

(** Conversely, a segment without separator at the end is the last one. *)
Lemma after_last_unique sep pre e :
  has_char sep e = false -> after_last sep (pre ++ String sep e) = e.
Proof.
  intros He. induction pre as [|c pre IH]; simpl.
  - rewrite He, bool_decide_true by done. done.
  - rewrite has_char_app. simpl. rewrite bool_decide_true by done. rewrite orb_true_r. done.
Qed.

Lemma after_last_none sep s : has_char sep s = false -> after_last sep s = s.
Proof.
  induction s as [|c t IH]; simpl; [done|]. intros Hs%orb_false_iff. destruct Hs as [Hc Ht].
  rewrite Ht. apply bool_decide_eq_false in Hc. rewrite bool_decide_false by done. done.
Qed.

(** ** While loops *)

(** [while cond(s): s = body(s)] with [fuel] iterations at most; [None]
    when the fuel runs out, so that termination is a theorem.  The body
    may itself contain loops, hence its [option]. *)
Fixpoint py_while {St} (fuel : nat) (cond : St -> bool) (body : St -> option (result St)) (s : St)
    : option (result St) :=
  match fuel with
  | 0 => None
  | S f =>
      if cond s then
        match body s with
        | Some (Ok s') => py_while f cond body s'
        | r => r
        end
      else Some (Ok s)
  end.

Lemma py_while_stop {St} fuel cond body (s : St) :
  cond s = false -> py_while (S fuel) cond body s = Some (Ok s).
Proof. intros Hc. simpl. by rewrite Hc. Qed.

Lemma py_while_step {St} fuel cond body (s s' : St) :
  cond s = true -> body s = Some (Ok s') -> py_while (S fuel) cond body s = py_while fuel cond body s'.
Proof. intros Hc Hb. simpl. by rewrite Hc, Hb. Qed.

(** The loop rule with a variant: an invariant [P] that every iteration
    re-establishes, decreasing [measure], without raising; with more fuel
    than the measure the loop ends, in a state where [P] holds and the
    condition is false. *)
Lemma py_while_inv {St} (P : St -> Prop) (measure : St -> nat) cond body :
  (forall s, P s -> cond s = true ->
     exists s', body s = Some (Ok s') /\ P s' /\ measure s' < measure s) ->
  forall fuel s, P s -> measure s < fuel ->
  exists s', py_while fuel cond body s = Some (Ok s') /\ P s' /\ cond s' = false.
Proof.
  intros Hstep fuel. induction fuel as [|fuel IH]; intros s Hs Hm; [lia|].
  destruct (cond s) eqn:Hc.
  - destruct (Hstep s Hs Hc) as (s' & Hb & Hs' & Hlt).
    rewrite (py_while_step _ _ _ _ _ Hc Hb). apply IH; [done|lia].
  - exists s. by rewrite py_while_stop.
Qed.

(** [for i in range(len(l)): x = l[i]; s = h(x, s)] visits [l] in order. *)
Lemma for_range_over {A St} (l : list A) (h : A -> St -> St) s :
  for_range (length l) (fun i t => a <- py_get l i ;; Ok (h a t)) s = Ok (fold_left (fun t a => h a t) l s).
Proof.
  induction l as [|x l IH] using rev_ind; [done|].
  rewrite length_app, Nat.add_1_r, for_range_S.
  rewrite (for_range_ext _ _ (fun i t => a <- py_get l i ;; Ok (h a t))).
  - rewrite IH, res_bind_Ok. unfold py_get. rewrite list_lookup_middle by done.
    by rewrite fold_left_app.
  - intros i t Hi. unfold py_get. by rewrite lookup_app_l by done.
Qed.

(** [a < b] on floats, as a test. *)
Definition Qlt_bool (a b : Q) : bool := negb (Qle_bool b a).

Lemma Qlt_bool_iff a b : Qlt_bool a b = true <-> (a < b)%Q.
Proof.
  unfold Qlt_bool. rewrite negb_true_iff. split.
  - intros H. apply Qnot_le_lt. intros H'. apply Qle_bool_iff in H'. congruence.
  - intros H. destruct (Qle_bool b a) eqn:E; [|done]. apply Qle_bool_iff in E. lra.
Qed.

(** [str(e)] of an exception, as the samples print it. *)
Definition py_exc_str (e : PyExc) : string :=
  match e with
  | IndexError => "list index out of range"
  | ValueError m => m
  | KeyError => "key not found"
  | ZeroDivisionError m => m
  | AttributeError m => m
  | Exception m => m
  | FileNotFoundError m => m
  | MakoException m => m
  end.

(** The last character of a string. *)
Fixpoint last_char (s : string) : option Ascii.ascii :=
  match s with
  | EmptyString => None
  | String c EmptyString => Some c
  | String _ t => last_char t
  end.

(** [os.path.join(a, b)] (POSIX): [b] alone when it is absolute, else [a]
    and [b] with one ['/'] between them. *)
Definition path_join (a b : string) : string :=
  match b with
  | String c _ =>
      if bool_decide (c = "/"%char) then b
      else if bool_decide (last_char a = Some "/"%char) then (a ++ b)%string
      else if bool_decide (a = EmptyString) then b
      else (a ++ "/" ++ b)%string
  | EmptyString =>
      if bool_decide (last_char a = Some "/"%char) || bool_decide (a = EmptyString) then a
      else (a ++ "/")%string
  end.
