(* ===== verification/SpotMerge.v ===== *)
(** * Ink Compositor: [OverprintSimulation/custom_spot_merge.py]

    The loop of lines 112-129 merges [num_spots] spot planes onto
    [num_process] process planes.  For every pixel and process channel it
    copies the process byte into a shared [bytearray] scanline and then, for
    every spot in order, replaces it by
    [int((1 - (1 - comp * spot/255) * (1 - cur/255)) * 255 + 0.5)].
    This file models that loop nest statement by statement
    ([spot_step], [channel_step], [pixel_step], [row_step],
    [custom_spot_merge_loop]) over the Python semantics of [Prelude], the
    pure per-pixel reference it computes ([merge_channel]), and the exact
    blend the spec describes ([exact_channel]) with its order independence.
    The theorems: every store is a byte (no [ValueError]), the whole loop
    computes the reference, [k = 0] is the identity, inks only add, the
    rounded loop refines the exact blend within [k/2] levels, and the
    rounding makes the result depend on the spot order. *)

From S2P Require Import Prelude.

Module SpotMerge.

Local Open Scope Q_scope.

(** [inv255 = 1.0 / 255.0], line 113. *)
Definition inv255 : Q := 1 # 255.

(** [new_val], line 125, from the spot byte, the current scanline byte and
    [components[i][c]]. *)
Definition spot_blend (comp : Q) (spot_byte cur_byte : Z) : Q :=
  let spot_val := inject_Z spot_byte * inv255 in
  let current_val := inject_Z cur_byte * inv255 in
  1 - (1 - comp * spot_val) * (1 - current_val).

(** [int(new_val * 255.0 + 0.5)], line 126. *)
Definition quantize (new_val : Q) : Z := py_int (new_val * 255 + (1 # 2)).

Local Close Scope Q_scope.

(** ** The loop nest, lines 112-129 *)

Section MergeLoop.
Variable buffers : list (list Z).
Variable components : list (list Q).
Variables pixel_width num_process num_spots : nat.

(** Lines 123-126, one spot [i] at scanline index [idx]. *)
Definition spot_step (row_start x c idx i : nat) (scanline : list Z) : result (list Z) :=
  plane <- py_get buffers (num_process + i) ;;
  s <- py_get plane (row_start + x) ;;
  cur <- py_get scanline idx ;;
  comps <- py_get components i ;;
  a <- py_get comps c ;;
  bytearray_set scanline idx (quantize (spot_blend a s cur)).

(** Lines 120-126, one process channel [c] of pixel [x]. *)
Definition channel_step (row_start x c : nat) (scanline : list Z) : result (list Z) :=
  let idx := x * num_process + c in
  plane <- py_get buffers c ;;
  v <- py_get plane (row_start + x) ;;
  scanline <- bytearray_set scanline idx v ;;
  for_range num_spots (spot_step row_start x c idx) scanline.

(** Lines 119-126, all channels of pixel [x]. *)
Definition pixel_step (row_start x : nat) (scanline : list Z) : result (list Z) :=
  for_range num_process (channel_step row_start x) scanline.

(** Lines 117-127, one row: the scanline is filled and handed to
    [frame_writer.writeScanLine]; the writer keeps what it was given. *)
Definition row_step (y : nat) (st : list Z * list (list Z)) : result (list Z * list (list Z)) :=
  let row_start := y * pixel_width in
  scanline <- for_range pixel_width (pixel_step row_start) st.1 ;;
  Ok (scanline, st.2 ++ [scanline]).

(** Lines 114-127: the scanline [bytearray(pixel_width * num_process)] and
    the rows the frame writer received, in order. *)
Definition custom_spot_merge_loop (pixel_height : nat) : result (list (list Z)) :=
  st <- for_range pixel_height row_step (repeat 0%Z (pixel_width * num_process), []) ;;
  Ok st.2.

(** ** The reference the loop computes *)

(** [buffers[p][q]] and [components[i][c]] read as total functions. *)
Definition plane_byte (p q : nat) : Z := default 0%Z (buffers !! p ≫= fun r => r !! q).
Definition component (i c : nat) : Q := default 0%Q (components !! i ≫= fun r => r !! c).

(** The (component, spot byte) pairs met at channel [c] of flat pixel
    [q], for the first [n] spots in loop order. *)
Definition spot_inputs (c q n : nat) : list (Q * Z) :=
  map (fun i => (component i c, plane_byte (num_process + i) q)) (seq 0 n).
End MergeLoop.

(** Merging a list of (component, spot byte) pairs into a byte, with the
    rounding after every spot that line 126 performs. *)
Definition merge_channel (ps : list (Q * Z)) (v : Z) : Z :=
  fold_left (fun cur p => quantize (spot_blend p.1 p.2 cur)) ps v.

Section Reference.
Variable buffers : list (list Z).
Variable components : list (list Q).
Variables pixel_width num_process num_spots : nat.

Definition merged_value (y x c : nat) : Z :=
  let q := y * pixel_width + x in
  merge_channel (spot_inputs buffers components num_process c q num_spots)
                (plane_byte buffers c q).

(** Entry [j] of row [y] of the scanline: pixel [j / num_process],
    channel [j mod num_process]. *)
Definition row_val (y j : nat) : Z :=
  merged_value y (j / num_process) (j mod num_process).

(** Row [y] as the scanline holds it: pixel-interleaved channels. *)
Definition merged_row (y : nat) : list Z :=
  map (row_val y) (seq 0 (pixel_width * num_process)).
End Reference.

(** The shape of the inputs the renderer and [inkInfoToColorantInfo]
    deliver: one plane of [pixel_width * pixel_height] bytes per process
    and spot ink, and per spot a component vector of at least
    [num_process] values in [0, 1]. *)
Record merge_inputs_ok (buffers : list (list Z)) (components : list (list Q))
       (pixel_width pixel_height num_process num_spots : nat) : Prop := {
  mi_planes : num_process + num_spots <= length buffers;
  mi_plane_len : Forall (fun pl => pixel_width * pixel_height <= length pl) buffers;
  mi_plane_bytes : Forall (Forall (fun b => 0 <= b < 256)%Z) buffers;
  mi_comps : num_spots <= length components;
  mi_comp_len : Forall (fun cs => num_process <= length cs) components;
  mi_comp_unit : Forall (Forall (fun a => 0 <= a <= 1)%Q) components
}.

(** The same condition as a check that computes. *)
Definition merge_inputs_okb (buffers : list (list Z)) (components : list (list Q))
    (pixel_width pixel_height num_process num_spots : nat) : bool :=
  (num_process + num_spots <=? length buffers) &&
  forallb (fun pl => pixel_width * pixel_height <=? length pl) buffers &&
  forallb (forallb is_byte) buffers &&
  (num_spots <=? length components) &&
  forallb (fun cs => num_process <=? length cs) components &&
  forallb (forallb (fun a => Qle_bool 0 a && Qle_bool a 1)) components.

(** ** The blend the spec describes, in exact arithmetic

    Spec section 4.2 describes the merge as the subtractive blend
    [1 - (1 - t) * (1 - cur)] of the ink coverages [t = comp * spot / 255],
    composed over the spots and rounded once.  [exact_channel] is that
    composition without the per-spot rounding; [transmittance] the product
    of the light each spot lets through. *)
Definition ink_coverage (p : Q * Z) : Q := (p.1 * (inject_Z p.2 * inv255))%Q.

Definition exact_blend (t cur : Q) : Q := (1 - (1 - t) * (1 - cur))%Q.

Definition exact_channel (ps : list (Q * Z)) (cur : Q) : Q :=
  fold_left (fun c p => exact_blend (ink_coverage p) c) ps cur.

Definition transmittance (ps : list (Q * Z)) : Q :=
  fold_right (fun p acc => (1 - ink_coverage p) * acc)%Q 1%Q ps.

(** ** The page around the loop, lines 36-110

    Lines 40-43: the raster size, [int(round(bounds.dX / 96.0 * resolution))]. *)
Definition raster_extent (extent resolution : Q) : nat :=
  Z.to_nat (py_int (inject_Z (py_round (extent / 96 * resolution)))).

(** Lines 103-110: the first four components of every spot colorant. *)
Definition build_components (spot_vals : list (list Q)) (num_spots : nat)
    : result (list (list Q)) :=
  for_range num_spots (fun i acc =>
    vals <- py_get spot_vals i ;;
    comps <- for_range 4 (fun c cs => v <- py_get vals c ;; Ok (cs ++ [v])) [] ;;
    Ok (acc ++ [comps])) [].

(** A spot colorant of [inkInfoToColorantInfo(mako, inks, cmyk)]: its name
    and its representation in the CMYK alternate space. *)
Record SpotColorant := { sc_name : string; sc_components : list Q }.

(** The renderer the SDK provides: [renderSeparationsToFrameBuffers]
    writes one 8-bit plane per process ink and per named spot into the
    caller's buffers (line 77). *)
Class SeparationRenderer (Page : Type) := {
  render_separations : Page -> nat -> nat -> list string -> list (list Z) -> result (list (list Z))
}.

(** What the client relies on: on success every buffer keeps its size and
    holds bytes. *)
Class SeparationRendererLaws (Page : Type) `{SeparationRenderer Page} := {
  render_shape : forall page w h names bufs bufs',
    render_separations page w h names bufs = Ok bufs' ->
    length bufs' = length bufs /\
    Forall2 (fun b b' => length b' = length b) bufs bufs' /\
    Forall (Forall (fun v => 0 <= v < 256)%Z) bufs'
}.

(** Lines 45-129 for one page: allocate [4 + num_spots] planes of
    [pixel_width * pixel_height] bytes (lines 60-73), render into them,
    collect the spot components, merge.  The frame writer's rows are the
    result; their encoding to JPEG (lines 131-142) is the SDK's. *)
Definition custom_spot_merge_page {Page} `{SeparationRenderer Page} (page : Page)
    (pixel_width pixel_height : nat) (spots : list SpotColorant) : result (list (list Z)) :=
  let num_process := 4 in
  let num_spots := length spots in
  let buffers := repeat (repeat 0%Z (pixel_width * pixel_height)) (num_process + num_spots) in
  buffers <- render_separations page pixel_width pixel_height (map sc_name spots) buffers ;;
  components <- build_components (map sc_components spots) num_spots ;;
  custom_spot_merge_loop buffers components pixel_width num_process num_spots pixel_height.

(** A renderer that paints every pixel of plane [p] with one byte, for
    concrete runs against the interface. *)
Fixpoint paint_planes (fill : nat -> Z) (p : nat) (bufs : list (list Z)) : list (list Z) :=
  match bufs with
  | [] => []
  | b :: bs => repeat (Z.max 0 (Z.min 255 (fill p))) (length b) :: paint_planes fill (S p) bs
  end.

Definition flat_renderer (fill : nat -> Z) : SeparationRenderer unit := {|
  render_separations _ w h names bufs := Ok (paint_planes fill 0 bufs)
|}.

Definition sample_spots : list SpotColorant :=
  [ {| sc_name := "PANTONE BLUE 072 C"; sc_components := [1; 7 # 10; 0; 0]%Q |};
    {| sc_name := "All"; sc_components := [1; 1; 1; 1]%Q |} ].
Definition spot_input_ok (p : Q * Z) : Prop := (0 <= p.1 <= 1)%Q /\ (0 <= p.2 < 256)%Z.

Definition spot_input_okb (p : Q * Z) : bool :=
  Qle_bool 0 p.1 && Qle_bool p.1 1 && is_byte p.2.

(** A small page for concrete runs: 2 x 1 pixels, CMYK and two spots. *)
Definition sample_planes : list (list Z) :=
  [[100; 0]; [20; 255]; [0; 128]; [7; 50]; [255; 40]; [128; 0]]%Z.

Definition sample_components : list (list Q) :=
  [[1 # 2; 0; 1 # 4; 0]; [0; 9 # 10; 1; 1 # 10]]%Q.

(** ** Arithmetic of one blend step *)

Lemma inject_Z_byte (v : Z) : (0 <= v < 256)%Z -> (0 <= inject_Z v <= 255)%Q.
Proof. intros Hv. apply (inject_Z_range v 0 255). lia. Qed.

Lemma ink_coverage_unit (a : Q) (s : Z) :
  (0 <= a <= 1)%Q -> (0 <= s < 256)%Z -> (0 <= a * (inject_Z s * inv255) <= 1)%Q.
Proof. intros Ha Hs. apply inject_Z_byte in Hs. unfold inv255. split; nra. Qed.

(** The blend never lowers the current value and stays in [0, 1]. *)
Lemma spot_blend_bounds (a : Q) (s v : Z) :
  (0 <= a <= 1)%Q -> (0 <= s < 256)%Z -> (0 <= v < 256)%Z ->
  (inject_Z v * inv255 <= spot_blend a s v <= 1)%Q.
Proof.
  intros Ha Hs Hv. pose proof (ink_coverage_unit a s Ha Hs) as Ht.
  apply inject_Z_byte in Hv. unfold spot_blend.
  revert Ht. generalize (a * (inject_Z s * inv255))%Q. intros t Ht.
  unfold inv255 in *. split; nra.
Qed.

(** [int(q * 255 + 0.5)] is the nearest byte, ties rounded up. *)
Lemma quantize_spec (q : Q) : (0 <= q)%Q ->
  (inject_Z (quantize q) <= q * 255 + (1 # 2) < inject_Z (quantize q) + 1)%Q.
Proof.
  intros Hq. unfold quantize. rewrite py_int_nonneg by lra. apply Qfloor_bounds.
Qed.

Lemma quantize_byte (q : Q) : (0 <= q <= 1)%Q -> (0 <= quantize q < 256)%Z.
Proof.
  intros Hq. destruct (quantize_spec q) as [H1 H2]; [lra|].
  split; [apply Z_le_of_Q; change (inject_Z 0) with 0%Q; lra|].
  rewrite Zlt_Qlt. change (inject_Z 256) with 256%Q. lra.
Qed.

Lemma quantize_ge (q : Q) (v : Z) : (inject_Z v * inv255 <= q)%Q -> (0 <= q)%Q ->
  (v <= quantize q)%Z.
Proof.
  intros Hv Hq. destruct (quantize_spec q Hq) as [_ H2]. apply Z_le_of_Q.
  unfold inv255 in Hv. lra.
Qed.

Lemma blend_step_byte (a : Q) (s v : Z) :
  (0 <= a <= 1)%Q -> (0 <= s < 256)%Z -> (0 <= v < 256)%Z ->
  (0 <= quantize (spot_blend a s v) < 256)%Z /\ (v <= quantize (spot_blend a s v))%Z.
Proof.
  intros Ha Hs Hv. pose proof (spot_blend_bounds a s v Ha Hs Hv) as Hb.
  pose proof (inject_Z_byte v Hv). unfold inv255 in *.
  split; [apply quantize_byte | apply quantize_ge]; unfold inv255; lra.
Qed.

Lemma merge_channel_app (ps : list (Q * Z)) (p : Q * Z) (v : Z) :
  merge_channel (ps ++ [p]) v = quantize (spot_blend p.1 p.2 (merge_channel ps v)).
Proof. unfold merge_channel. by rewrite fold_left_app. Qed.

Lemma merge_channel_cons (p : Q * Z) (ps : list (Q * Z)) (v : Z) :
  merge_channel (p :: ps) v = merge_channel ps (quantize (spot_blend p.1 p.2 v)).
Proof. reflexivity. Qed.

Lemma merge_channel_byte (ps : list (Q * Z)) (v : Z) :
  Forall spot_input_ok ps -> (0 <= v < 256)%Z ->
  (0 <= merge_channel ps v < 256)%Z /\ (v <= merge_channel ps v)%Z.
Proof.
  revert v. induction ps as [|[a s] ps IH]; intros v Hps Hv; [simpl; lia|].
  apply Forall_cons in Hps as [[Ha Hs] Hps]. simpl in Ha, Hs.
  destruct (blend_step_byte a s v Ha Hs Hv) as [Hb Hge].
  rewrite merge_channel_cons. destruct (IH _ Hps Hb). simpl. lia.
Qed.

(** ** The loop nest computes the reference *)

Section LoopProofs.
Variable buffers : list (list Z).
Variable components : list (list Q).
Variables pixel_width pixel_height num_process num_spots : nat.
Hypothesis Hwf :
  merge_inputs_ok buffers components pixel_width pixel_height num_process num_spots.

Local Abbreviation row_val := (row_val buffers components pixel_width num_process num_spots).

Lemma plane_lookup p q :
  p < num_process + num_spots -> q < pixel_width * pixel_height ->
  exists pl, buffers !! p = Some pl /\ pl !! q = Some (plane_byte buffers p q) /\
             (0 <= plane_byte buffers p q < 256)%Z.
Proof.
  intros Hp Hq. destruct Hwf as [Hn Hlen Hbytes _ _ _].
  destruct (proj2 (lookup_lt_is_Some buffers p) ltac:(lia)) as [pl Hpl].
  pose proof (Forall_lookup_1 _ _ _ _ Hlen Hpl) as Hl. simpl in Hl.
  destruct (proj2 (lookup_lt_is_Some pl q) ltac:(lia)) as [b Hb].
  assert (plane_byte buffers p q = b) as -> by (unfold plane_byte; by rewrite Hpl; simpl; rewrite Hb).
  exists pl. split; [done|split; [done|]].
  exact (Forall_lookup_1 _ _ _ _ (Forall_lookup_1 _ _ _ _ Hbytes Hpl) Hb).
Qed.

Lemma component_lookup i c :
  i < num_spots -> c < num_process ->
  exists cs, components !! i = Some cs /\ cs !! c = Some (component components i c) /\
             (0 <= component components i c <= 1)%Q.
Proof.
  intros Hi Hc. destruct Hwf as [_ _ _ Hn Hlen Hunit].
  destruct (proj2 (lookup_lt_is_Some components i) ltac:(lia)) as [cs Hcs].
  pose proof (Forall_lookup_1 _ _ _ _ Hlen Hcs) as Hl. simpl in Hl.
  destruct (proj2 (lookup_lt_is_Some cs c) ltac:(lia)) as [a Ha].
  assert (component components i c = a) as -> by (unfold component; by rewrite Hcs; simpl; rewrite Ha).
  exists cs. split; [done|split; [done|]].
  exact (Forall_lookup_1 _ _ _ _ (Forall_lookup_1 _ _ _ _ Hunit Hcs) Ha).
Qed.

Lemma spot_inputs_S c q n :
  spot_inputs buffers components num_process c q (S n) =
  spot_inputs buffers components num_process c q n ++
    [(component components n c, plane_byte buffers (num_process + n) q)].
Proof. unfold spot_inputs. by rewrite seq_S, map_app. Qed.

Lemma spot_inputs_ok c q n :
  c < num_process -> q < pixel_width * pixel_height -> n <= num_spots ->
  Forall spot_input_ok (spot_inputs buffers components num_process c q n).
Proof.
  intros Hc Hq Hn. unfold spot_inputs. apply List.Forall_forall.
  intros p (i & <- & Hi)%in_map_iff. apply in_seq in Hi.
  destruct (component_lookup i c) as (_ & _ & _ & Ha); [lia|lia|].
  destruct (plane_lookup (num_process + i) q) as (_ & _ & _ & Hs); [lia|lia|].
  split; done.
Qed.

Lemma spot_step_ok row_start x c idx i sc v :
  i < num_spots -> c < num_process -> row_start + x < pixel_width * pixel_height ->
  sc !! idx = Some v -> (0 <= v < 256)%Z ->
  spot_step buffers components num_process row_start x c idx i sc =
  Ok (<[idx := quantize (spot_blend (component components i c)
                 (plane_byte buffers (num_process + i) (row_start + x)) v)]> sc).
Proof.
  intros Hi Hc Hq Hv Hbv.
  destruct (plane_lookup (num_process + i) (row_start + x)) as (pl & Hpl & Hb & Hbb); [lia|lia|].
  destruct (component_lookup i c) as (cs & Hcs & Ha & Hau); [lia|lia|].
  unfold spot_step. py_run. apply bytearray_set_ok; [by eapply lookup_lt_Some|].
  by apply blend_step_byte.
Qed.

Lemma spot_loop_ok row_start x c idx sc v :
  c < num_process -> row_start + x < pixel_width * pixel_height ->
  sc !! idx = Some v -> (0 <= v < 256)%Z ->
  for_range num_spots (spot_step buffers components num_process row_start x c idx) sc =
  Ok (<[idx := merge_channel
                 (spot_inputs buffers components num_process c (row_start + x) num_spots) v]> sc).
Proof.
  intros Hc Hq Hv Hbv. pose proof (lookup_lt_Some _ _ _ Hv) as Hidx.
  destruct (for_range_inv (fun i s => s = <[idx := merge_channel
      (spot_inputs buffers components num_process c (row_start + x) i) v]> sc)
      num_spots (spot_step buffers components num_process row_start x c idx) sc)
    as (s & -> & ->); [by rewrite list_insert_id| |done].
  intros i s Hi ->.
  destruct (merge_channel_byte (spot_inputs buffers components num_process c (row_start + x) i) v)
    as [Hm _]; [apply spot_inputs_ok; lia|done|].
  eexists. split; [apply spot_step_ok; try done; by rewrite list_lookup_insert_eq|].
  by rewrite list_insert_insert_eq, spot_inputs_S, merge_channel_app.
Qed.

Lemma channel_step_ok y x c sc :
  y < pixel_height -> x < pixel_width -> c < num_process -> x * num_process + c < length sc ->
  channel_step buffers components num_process num_spots (y * pixel_width) x c sc =
  Ok (<[x * num_process + c :=
        merged_value buffers components pixel_width num_process num_spots y x c]> sc).
Proof.
  intros Hy Hx Hc Hl.
  destruct (plane_lookup c (y * pixel_width + x)) as (pl & Hpl & Hb & Hbb); [lia|nia|].
  unfold channel_step. py_run. rewrite bytearray_set_ok by done. rewrite res_bind_Ok.
  rewrite (spot_loop_ok _ _ _ _ _ (plane_byte buffers c (y * pixel_width + x))); try done; [|nia|].
  - by rewrite list_insert_insert_eq.
  - by rewrite list_lookup_insert_eq.
Qed.

Lemma pixel_step_ok y x sc :
  y < pixel_height -> x < pixel_width -> length sc = pixel_width * num_process ->
  (forall j, j < x * num_process -> sc !! j = Some (row_val y j)) ->
  exists sc', pixel_step buffers components num_process num_spots (y * pixel_width) x sc = Ok sc' /\
    length sc' = pixel_width * num_process /\
    forall j, j < S x * num_process -> sc' !! j = Some (row_val y j).
Proof.
  intros Hy Hx Hl Hpre.
  destruct (for_range_inv (fun c s => length s = pixel_width * num_process /\
              forall j, j < x * num_process + c -> s !! j = Some (row_val y j))
            num_process (channel_step buffers components num_process num_spots (y * pixel_width) x) sc)
    as (s & E & Hs & Hv); [split; [done|intros j Hj; apply Hpre; lia]| |].
  - intros c s Hc [Hls Hvs].
    eexists. split; [apply channel_step_ok; try done; nia|].
    rewrite length_insert. split; [done|]. intros j Hj.
    destruct (decide (j = x * num_process + c)) as [->|Hne].
    + rewrite list_lookup_insert_eq by nia. unfold row_val.
      by rewrite flat_div, flat_mod by done.
    + rewrite list_lookup_insert_ne by done. apply Hvs. lia.
  - exists s. split; [done|split; [done|]]. intros j Hj. apply Hv. lia.
Qed.

Lemma row_loop_ok y sc :
  y < pixel_height -> length sc = pixel_width * num_process ->
  for_range pixel_width (pixel_step buffers components num_process num_spots (y * pixel_width)) sc =
  Ok (merged_row buffers components pixel_width num_process num_spots y).
Proof.
  intros Hy Hl.
  destruct (for_range_inv (fun x s => length s = pixel_width * num_process /\
              forall j, j < x * num_process -> s !! j = Some (row_val y j))
            pixel_width (pixel_step buffers components num_process num_spots (y * pixel_width)) sc)
    as (s & -> & Hs & Hv); [split; [done|lia]| |].
  - intros x s Hx [Hls Hvs]. destruct (pixel_step_ok y x s) as (s' & E & ?); try done.
    by exists s'.
  - f_equal. apply list_eq. intros j. unfold merged_row.
    destruct (decide (j < pixel_width * num_process)).
    + rewrite Hv, lookup_map_seq by done. done.
    + rewrite !(proj2 (lookup_ge_None _ _)); try done; rewrite ?length_map, ?length_seq; lia.
Qed.

Lemma length_merged_row y :
  length (merged_row buffers components pixel_width num_process num_spots y) =
  pixel_width * num_process.
Proof. unfold merged_row. by rewrite length_map, length_seq. Qed.

(** The row loop of lines 116-127 run to its end: one merged row per [y]. *)
Lemma merge_loop_rows :
  custom_spot_merge_loop buffers components pixel_width num_process num_spots pixel_height =
  Ok (map (merged_row buffers components pixel_width num_process num_spots) (seq 0 pixel_height)).
Proof.
  unfold custom_spot_merge_loop.
  destruct (for_range_inv (fun y st => length st.1 = pixel_width * num_process /\
              st.2 = map (merged_row buffers components pixel_width num_process num_spots) (seq 0 y))
            pixel_height (row_step buffers components pixel_width num_process num_spots)
            (repeat 0%Z (pixel_width * num_process), []))
    as ([sc w] & -> & _ & Hw); [split; [apply repeat_length|done]| |by rewrite res_bind_Ok, Hw].
  intros y [sc w] Hy [Hl Hw]. simpl in Hl, Hw.
  eexists. split; [unfold row_step; simpl; rewrite row_loop_ok by done; reflexivity|].
  cbn [fst snd]. rewrite length_merged_row, seq_S, map_app, Hw. done.
Qed.

(** C1. The merge loop of lines 112-129 raises no exception on the
    inputs the renderer delivers (no [IndexError], and no [ValueError]
    from a scanline store: every value it stores is a byte), and the
    frame writer receives, in order, one scanline per row whose entry
    [x * num_process + c] is the spot-by-spot rounded blend
    [merged_value y x c] of pixel [x] and channel [c]. *)
Theorem custom_spot_merge_loop_spec :
  custom_spot_merge_loop buffers components pixel_width num_process num_spots pixel_height =
  Ok (map (merged_row buffers components pixel_width num_process num_spots) (seq 0 pixel_height)).
Proof. exact merge_loop_rows. Qed.

(** Inks only add, and the result is a byte: the merged value of a pixel
    lies between its process byte and 255. *)
Theorem merged_value_bounds y x c :
  y < pixel_height -> x < pixel_width -> c < num_process ->
  (plane_byte buffers c (y * pixel_width + x) <=
     merged_value buffers components pixel_width num_process num_spots y x c < 256)%Z.
Proof.
  intros Hy Hx Hc.
  destruct (plane_lookup c (y * pixel_width + x)) as (_ & _ & _ & Hb); [lia|nia|].
  destruct (merge_channel_byte (spot_inputs buffers components num_process c
              (y * pixel_width + x) num_spots) (plane_byte buffers c (y * pixel_width + x)))
    as [? ?]; [apply spot_inputs_ok; nia|done|].
  unfold merged_value. lia.
Qed.

(** With no spot ink the loop copies the process planes, interleaved
    pixel by pixel into the scanline (spec: [k = 0] is the identity). *)
Theorem custom_spot_merge_no_spots :
  num_spots = 0 ->
  custom_spot_merge_loop buffers components pixel_width num_process num_spots pixel_height =
  Ok (map (fun y => map (fun j => plane_byte buffers (j mod num_process)
                                   (y * pixel_width + j / num_process))
                        (seq 0 (pixel_width * num_process)))
          (seq 0 pixel_height)).
Proof.
  intros H0. rewrite merge_loop_rows. f_equal.
  apply map_ext. intros y. unfold merged_row. apply map_ext. intros j.
  unfold merged_value, spot_inputs. by rewrite H0.
Qed.

End LoopProofs.

Lemma merge_inputs_okb_sound buffers components pixel_width pixel_height num_process num_spots :
  merge_inputs_okb buffers components pixel_width pixel_height num_process num_spots = true ->
  merge_inputs_ok buffers components pixel_width pixel_height num_process num_spots.
Proof.
  unfold merge_inputs_okb. intros H.
  apply andb_true_iff in H as [H Hu]; apply andb_true_iff in H as [H Hcl].
  apply andb_true_iff in H as [H Hc]; apply andb_true_iff in H as [H Hb].
  apply andb_true_iff in H as [Hn Hl].
  apply forallb_Forall in Hl, Hb, Hcl, Hu. apply Nat.leb_le in Hn, Hc.
  constructor; try done.
  - eapply Forall_impl; [exact Hl|]. intros pl. apply Nat.leb_le.
  - eapply Forall_impl; [exact Hb|]. intros pl Hpl%forallb_Forall.
    eapply Forall_impl; [exact Hpl|]. intros b. apply is_byte_spec.
  - eapply Forall_impl; [exact Hcl|]. intros cs. apply Nat.leb_le.
  - eapply Forall_impl; [exact Hu|]. intros cs Hcs%forallb_Forall.
    eapply Forall_impl; [exact Hcs|]. intros a [H0 H1]%andb_true_iff.
    split; by apply Qle_bool_iff.
Qed.

Lemma spot_input_okb_sound p : spot_input_okb p = true -> spot_input_ok p.
Proof.
  unfold spot_input_okb, spot_input_ok. intros [[H0 H1]%andb_true_iff H2]%andb_true_iff.
  split; [split; by apply Qle_bool_iff | by apply is_byte_spec].
Qed.

(** ** Building the component vectors, lines 103-110 *)

Lemma first_four_ok (vals : list Q) :
  4 <= length vals ->
  for_range 4 (fun c cs => v <- py_get vals c ;; Ok (cs ++ [v])) [] = Ok (take 4 vals).
Proof.
  intros Hl.
  destruct (for_range_inv (fun c cs => cs = take c vals) 4
              (fun c cs => v <- py_get vals c ;; Ok (cs ++ [v])) []) as (cs & -> & ->); [done| |done].
  intros c cs Hc ->. destruct (proj2 (lookup_lt_is_Some vals c) ltac:(lia)) as [v Hv].
  exists (take c vals ++ [v]). rewrite (py_get_lookup _ _ _ Hv). split; [done|].
  by rewrite (take_S_r _ _ _ Hv).
Qed.

Lemma first_four_len (vals : list Q) cs :
  for_range 4 (fun c cs => v <- py_get vals c ;; Ok (cs ++ [v])) [] = Ok cs -> 4 <= length vals.
Proof.
  intros (cs' & _ & Hb)%for_range_S_Ok. simpl in Hb.
  destruct (py_get vals 3) eqn:E; [|done]. apply py_get_Some in E. lia.
Qed.

(** Lines 103-110 raise [IndexError] exactly when one of the first
    [num_spots] colorants has fewer than four components; otherwise they
    keep the first four of each. *)
Theorem build_components_spec (spot_vals : list (list Q)) (num_spots : nat) comps :
  build_components spot_vals num_spots = Ok comps <->
  (forall i, i < num_spots -> exists vals, spot_vals !! i = Some vals /\ 4 <= length vals) /\
  comps = map (take 4) (take num_spots spot_vals).
Proof.
  split.
  - revert comps. induction num_spots as [|n IH]; intros comps.
    { intros [= <-]. split; [lia|done]. }
    intros (acc & Hacc & Hb)%for_range_S_Ok. simpl in Hb.
    destruct (py_get spot_vals n) as [vals|] eqn:Ev; [|done]. simpl in Hb.
    destruct (for_range 4 _ []) as [cs|] eqn:Ec; [|done]. injection Hb as <-.
    apply py_get_Ok in Ev. pose proof (first_four_len _ _ Ec) as H4.
    rewrite first_four_ok in Ec by done. injection Ec as <-.
    destruct (IH acc Hacc) as [Hall ->]. split.
    + intros i Hi. destruct (decide (i = n)) as [->|]; [by exists vals|apply Hall; lia].
    + by rewrite (take_S_r _ _ _ Ev), map_app.
  - intros [Hall ->].
    destruct (for_range_inv (fun i acc => acc = map (take 4) (take i spot_vals)) num_spots
                (fun i acc => vals <- py_get spot_vals i ;;
                   comps <- for_range 4 (fun c cs => v <- py_get vals c ;; Ok (cs ++ [v])) [] ;;
                   Ok (acc ++ [comps])) []) as (acc & E & ->); [done| |done].
    intros i acc Hi ->. destruct (Hall i Hi) as (vals & Hv & H4).
    eexists. rewrite (py_get_lookup _ _ _ Hv), res_bind_Ok, first_four_ok by done.
    split; [done|]. by rewrite (take_S_r _ _ _ Hv), map_app.
Qed.

(** ** The page: the loop against the renderer's contract *)

Definition spot_ok (sc : SpotColorant) : Prop :=
  4 <= length (sc_components sc) /\ Forall (fun a => 0 <= a <= 1)%Q (sc_components sc).

Lemma merge_inputs_of_render (bufs : list (list Z)) (spots : list SpotColorant) pw ph :
  length bufs = 4 + length spots ->
  Forall (fun b => length b = pw * ph) bufs ->
  Forall (Forall (fun v => 0 <= v < 256)%Z) bufs ->
  Forall spot_ok spots ->
  merge_inputs_ok bufs (map (fun sc => take 4 (sc_components sc)) spots) pw ph 4 (length spots).
Proof.
  intros Hl Hlen Hb Hs. constructor.
  - lia.
  - eapply Forall_impl; [exact Hlen|]. simpl. lia.
  - done.
  - by rewrite length_map.
  - apply Forall_map. eapply Forall_impl; [exact Hs|]. intros sc [H4 _]. rewrite length_take. lia.
  - apply Forall_map. eapply Forall_impl; [exact Hs|]. intros sc [_ Hu]. by apply Forall_take.
Qed.

(** For one page (lines 45-129): whatever planes a renderer meeting its
    contract delivers, the merge raises nothing as long as every spot
    colorant has four components in [0, 1], and the writer receives the
    merged rows of those planes. *)
Theorem custom_spot_merge_page_spec {Page} `{SeparationRendererLaws Page}
    (page : Page) pw ph (spots : list SpotColorant) bufs :
  render_separations page pw ph (map sc_name spots)
    (repeat (repeat 0%Z (pw * ph)) (4 + length spots)) = Ok bufs ->
  Forall spot_ok spots ->
  custom_spot_merge_page page pw ph spots =
  Ok (map (merged_row bufs (map (fun sc => take 4 (sc_components sc)) spots) pw 4 (length spots))
          (seq 0 ph)).
Proof.
  intros Hr Hs. unfold custom_spot_merge_page. rewrite Hr, res_bind_Ok.
  destruct (render_shape _ _ _ _ _ _ Hr) as (Hl & Hlen & Hb).
  rewrite repeat_length in Hl.
  rewrite (proj2 (build_components_spec (map sc_components spots) (length spots)
                    (map (fun sc => take 4 (sc_components sc)) spots))), res_bind_Ok.
  - apply merge_loop_rows with (pixel_height := ph).
    apply merge_inputs_of_render; try done.
    apply (Forall2_repeat_l _ _ _ _ _ Hlen). intros b' ->. apply repeat_length.
  - split.
    + intros i Hi.
      destruct (proj2 (lookup_lt_is_Some spots i) Hi) as [sc Hsc].
      exists (sc_components sc). rewrite list_lookup_map, Hsc.
      split; [done|]. apply (Forall_lookup_1 _ _ _ _ Hs Hsc).
    + rewrite take_ge by (rewrite length_map; lia). by rewrite map_map.
Qed.

(** ** The exact blend: closed form and order independence *)

Lemma exact_channel_closed ps cur :
  (exact_channel ps cur == 1 - transmittance ps * (1 - cur))%Q.
Proof.
  unfold exact_channel, transmittance. revert cur.
  induction ps as [|p ps IH]; intros cur; simpl; [ring|].
  rewrite IH. unfold exact_blend. ring.
Qed.

Lemma transmittance_perm ps ps' : ps ≡ₚ ps' -> (transmittance ps == transmittance ps')%Q.
Proof.
  unfold transmittance. induction 1 as [|p ps ps' _ IH|p p' ps|ps ps' ps'' _ IH1 _ IH2]; simpl.
  - reflexivity.
  - by rewrite IH.
  - ring.
  - by rewrite IH1.
Qed.

#[export] Instance exact_channel_proper : Proper ((≡ₚ) ==> Qeq ==> Qeq) exact_channel.
Proof.
  intros ps ps' Hp c c' Hc. rewrite !exact_channel_closed, (transmittance_perm _ _ Hp), Hc.
  reflexivity.
Qed.

(** One rounded step stays within half a level of the exact step, and the
    exact step does not widen an error it inherits (the blend contracts
    by [1 - t]). *)
Lemma merge_channel_error ps v e d :
  Forall spot_input_ok ps -> (0 <= v < 256)%Z -> (0 <= d)%Q ->
  (- d <= inject_Z v - 255 * e <= d)%Q ->
  (- (d + inject_Z (Z.of_nat (length ps)) * (1 # 2)) <=
     inject_Z (merge_channel ps v) - 255 * exact_channel ps e <=
   d + inject_Z (Z.of_nat (length ps)) * (1 # 2))%Q.
Proof.
  revert v e d. induction ps as [|[a s] ps IH]; intros v e d Hps Hv Hd He.
  { change (inject_Z (Z.of_nat (length []))) with 0%Q. simpl. lra. }
  apply Forall_cons in Hps as [[Ha Hs] Hps]. simpl in Ha, Hs.
  pose proof (ink_coverage_unit a s Ha Hs) as Ht.
  change (0 <= ink_coverage (a, s) <= 1)%Q in Ht.
  pose proof (spot_blend_bounds a s v Ha Hs Hv) as Hsb. pose proof (inject_Z_byte v Hv).
  destruct (blend_step_byte a s v Ha Hs Hv) as [Hv' _].
  destruct (quantize_spec (spot_blend a s v)) as [Hq1 Hq2]; [unfold inv255 in Hsb; lra|].
  assert (255 * (spot_blend a s v - exact_blend (ink_coverage (a, s)) e) ==
          (1 - ink_coverage (a, s)) * (inject_Z v - 255 * e))%Q as Hc
    by (unfold spot_blend, exact_blend, ink_coverage, inv255; simpl; ring).
  set (t := ink_coverage (a, s)) in *.
  assert (0 <= (1 - t) * (d - (inject_Z v - 255 * e)))%Q by (apply Qmult_le_0_compat; lra).
  assert (0 <= (1 - t) * ((inject_Z v - 255 * e) + d))%Q by (apply Qmult_le_0_compat; lra).
  assert (0 <= t * d)%Q by (apply Qmult_le_0_compat; lra).
  specialize (IH (quantize (spot_blend a s v)) (exact_blend t e) (d + (1 # 2))%Q Hps Hv'
                 ltac:(lra) ltac:(lra)).
  change (merge_channel ((a, s) :: ps) v) with (merge_channel ps (quantize (spot_blend a s v))).
  change (exact_channel ((a, s) :: ps) e) with (exact_channel ps (exact_blend t e)).
  assert (inject_Z (Z.of_nat (length ((a, s) :: ps))) == inject_Z (Z.of_nat (length ps)) + 1)%Q
    as -> by (simpl length; rewrite Nat2Z.inj_succ, <- Z.add_1_r, inject_Z_plus; reflexivity).
  lra.
Qed.

(** C4. The rounded loop refines the spec's exact blend: after [k] spots the
    byte it stores is within [k/2] of [255] times the exact composition of
    the blend, which the spec promises is independent of the spot order. *)
Theorem merge_channel_refines_exact ps v :
  Forall spot_input_ok ps -> (0 <= v < 256)%Z ->
  (Qabs (inject_Z (merge_channel ps v) - 255 * exact_channel ps (inject_Z v * inv255)) <=
   inject_Z (Z.of_nat (length ps)) * (1 # 2))%Q.
Proof.
  intros Hps Hv. apply Qabs_Qle_condition.
  pose proof (merge_channel_error ps v (inject_Z v * inv255) 0 Hps Hv ltac:(lra)) as H.
  unfold inv255 in *. lra.
Qed.

(** Reordering the spots changes a merged byte by at most one level per
    spot: both orders are within [k/2] of the same exact value. *)
Theorem merge_order_bound ps ps' v :
  ps ≡ₚ ps' -> Forall spot_input_ok ps -> (0 <= v < 256)%Z ->
  (Z.abs (merge_channel ps v - merge_channel ps' v) <= Z.of_nat (length ps))%Z.
Proof.
  intros Hp Hps Hv. pose proof (Permutation_length Hp) as Hl.
  assert (Forall spot_input_ok ps') as Hps' by (by rewrite <- Hp).
  pose proof (merge_channel_error ps v (inject_Z v * inv255) 0 Hps Hv ltac:(lra)) as H1.
  pose proof (merge_channel_error ps' v (inject_Z v * inv255) 0 Hps' Hv ltac:(lra)) as H2.
  rewrite <- Hl in H2.
  assert (exact_channel ps' (inject_Z v * inv255) == exact_channel ps (inject_Z v * inv255))%Q
    by (apply exact_channel_proper; [by symmetry|reflexivity]).
  assert (inject_Z (merge_channel ps v) <= inject_Z (merge_channel ps' v + Z.of_nat (length ps)))%Q
    by (rewrite inject_Z_plus; unfold inv255 in *; lra).
  assert (inject_Z (merge_channel ps' v) <= inject_Z (merge_channel ps v + Z.of_nat (length ps)))%Q
    by (rewrite inject_Z_plus; unfold inv255 in *; lra).
  rewrite <- !Zle_Qle in *. lia.
Qed.



(** ** Witnesses on the sample page *)

Lemma sample_inputs_ok : merge_inputs_ok sample_planes sample_components 2 1 4 2.
Proof. apply merge_inputs_okb_sound. vm_compute. reflexivity. Qed.

Lemma custom_spot_merge_loop_spec_witness :
  merge_inputs_ok sample_planes sample_components 2 1 4 2 /\
  custom_spot_merge_loop sample_planes sample_components 2 4 2 1 =
  Ok (map (merged_row sample_planes sample_components 2 4 2) (seq 0 1)).
Proof.
  split; [apply merge_inputs_okb_sound; vm_compute; reflexivity|].
  apply custom_spot_merge_loop_spec with (pixel_height := 1).
  apply merge_inputs_okb_sound. vm_compute. reflexivity.
Defined.

Lemma merged_value_bounds_witness :
  (plane_byte sample_planes 0 (0 * 2 + 0) <=
     merged_value sample_planes sample_components 2 4 2 0 0 0 < 256)%Z.
Proof.
  apply (merged_value_bounds sample_planes sample_components 2 1 4 2); try lia.
  apply merge_inputs_okb_sound. vm_compute. reflexivity.
Defined.

Lemma custom_spot_merge_no_spots_witness :
  custom_spot_merge_loop sample_planes sample_components 2 4 0 1 =
  Ok (map (fun y => map (fun j => plane_byte sample_planes (j mod 4) (y * 2 + j / 4))
                        (seq 0 (2 * 4))) (seq 0 1)).
Proof.
  apply (custom_spot_merge_no_spots sample_planes sample_components 2 1 4 0); [|reflexivity].
  apply merge_inputs_okb_sound. vm_compute. reflexivity.
Defined.

Lemma merge_channel_refines_exact_witness :
  (Qabs (inject_Z (merge_channel [((2 # 5)%Q, 178%Z); ((1 # 5)%Q, 139%Z)] 31) -
         255 * exact_channel [((2 # 5)%Q, 178%Z); ((1 # 5)%Q, 139%Z)] (inject_Z 31 * inv255)) <=
   inject_Z (Z.of_nat 2) * (1 # 2))%Q.
Proof.
  apply (merge_channel_refines_exact [((2 # 5)%Q, 178%Z); ((1 # 5)%Q, 139%Z)] 31).
  - repeat constructor; apply spot_input_okb_sound; reflexivity.
  - lia.
Defined.

Lemma merge_order_bound_witness :
  (Z.abs (merge_channel [((2 # 5)%Q, 178%Z); ((1 # 5)%Q, 139%Z); ((1 # 5)%Q, 14%Z)] 31 -
          merge_channel [((1 # 5)%Q, 14%Z); ((1 # 5)%Q, 139%Z); ((2 # 5)%Q, 178%Z)] 31) <=
   Z.of_nat 3)%Z.
Proof.
  apply (merge_order_bound [((2 # 5)%Q, 178%Z); ((1 # 5)%Q, 139%Z); ((1 # 5)%Q, 14%Z)]).
  - exact (Permutation_rev _).
  - repeat constructor; apply spot_input_okb_sound; reflexivity.
  - lia.
Defined.

Lemma paint_planes_shape fill p bufs :
  length (paint_planes fill p bufs) = length bufs /\
  Forall2 (fun b b' => length b' = length b) bufs (paint_planes fill p bufs) /\
  Forall (Forall (fun v => 0 <= v < 256)%Z) (paint_planes fill p bufs).
Proof.
  revert p. induction bufs as [|b bs IH]; intros p; simpl; [done|].
  destruct (IH (S p)) as (H1 & H2 & H3). split; [lia|split].
  - constructor; [apply repeat_length|done].
  - constructor; [|done]. apply Forall_forall. intros v Hv%list_elem_of_In%repeat_spec. lia.
Qed.

Lemma flat_renderer_laws fill : @SeparationRendererLaws unit (flat_renderer fill).
Proof.
  constructor. intros page w h names bufs bufs' [= <-]. apply paint_planes_shape.
Qed.

Lemma custom_spot_merge_page_spec_witness :
  Forall spot_ok sample_spots /\
  @custom_spot_merge_page unit (flat_renderer (fun p => Z.of_nat (40 * p))) tt 2 1 sample_spots =
  Ok (map (merged_row (paint_planes (fun p => Z.of_nat (40 * p)) 0 (repeat (repeat 0%Z 2) 6))
             (map (fun sc => take 4 (sc_components sc)) sample_spots) 2 4 2) (seq 0 1)).
Proof.
  assert (Hs : Forall spot_ok sample_spots).
  { repeat constructor; simpl; try lia; apply Qle_bool_iff; reflexivity. }
  split; [exact Hs|].
  apply (@custom_spot_merge_page_spec unit _ (flat_renderer_laws _)); [reflexivity|exact Hs].
Defined.

End SpotMerge.
