(* ===== verification/ImageFrame.v ===== *)
(** * The image-frame collaborators of [GetPartialImage/main.py]

    [get_partial_image] talks to the SDK through a few objects, modelled
    here with the behaviour the function relies on:
    - [FRect] and [FRect.containsRect] (lines 32, 80-81);
    - the [IImageFrame] of a source image: its geometry, its rows, and a
      forward-only cursor ([skipScanLines], [readScanLine], lines 109 and
      113), as the [Cursor] state with a log of the operations applied and
      the step relation [cursor_step];
    - [IDOMImageBitScalerFilter] (lines 59-73), as the class
      [ImageBitScaler] with its laws, and an executable instance;
    - the LZ4-compressed temporary store (lines 85-87), as the class
      [TempCodec] whose law is the decompress/compress round trip;
    - [IDOMRawImage.createWriterAndImage] and its frame writer (lines
      89-103, 116, 118), as the [RawWriter] state, [write_scan_line],
      [flush_data] and the rows the finished image reads back.
    None of this is code of the repository: these are the SDK's contracts,
    taken from the spec (section 6) and the way the sample uses them. *)

From S2P Require Import Prelude.

Module ImageFrame.

(** ** Rectangles *)

Record FRect := { rx : Q; ry : Q; rdX : Q; rdY : Q }.

(** [outer.containsRect(inner)]: spec section 3, [0 <= x], [0 <= y],
    [x + dX <= width], [y + dY <= height] for an outer rectangle at the
    origin. *)
Definition contains_rect (outer inner : FRect) : bool :=
  Qle_bool (rx outer) (rx inner) && Qle_bool (ry outer) (ry inner) &&
  Qle_bool (rx inner + rdX inner) (rx outer + rdX outer) &&
  Qle_bool (ry inner + rdY inner) (ry outer + rdY outer).

(** ** Image frames and the forward-only cursor *)

Record ImageFrame := {
  fr_width : nat;
  fr_height : nat;
  fr_bps : nat;               (** [getBPS()] *)
  fr_channels : nat;          (** [getNumChannels()] *)
  fr_color_space : string;    (** [getColorSpace()], an opaque handle *)
  fr_xres : Q;
  fr_yres : Q;
  fr_stride : nat;            (** [getRawBytesPerRow()] *)
  fr_rows : list (list Z)     (** the rows, top to bottom *)
}.

(** Bytes a row of [w] samples of [ch] channels at [bps] bits needs. *)
Definition packed_row_bytes (w ch bps : nat) : nat := (w * ch * bps + 7) / 8.

(** A frame as a decoder delivers it: [height] rows of [stride] bytes, the
    stride large enough for the packed samples. *)
Record frame_ok (fr : ImageFrame) : Prop := {
  fo_rows : length (fr_rows fr) = fr_height fr;
  fo_row_len : Forall (fun r => length r = fr_stride fr) (fr_rows fr);
  fo_stride : packed_row_bytes (fr_width fr) (fr_channels fr) (fr_bps fr) <= fr_stride fr;
  fo_bytes : Forall (Forall (fun b => 0 <= b < 256)%Z) (fr_rows fr)
}.

Inductive FrameOp := OpSkip (n : nat) | OpRead.

(** The scanline cursor of an [IImageFrame]: the next row to read and
    the operations applied so far, oldest first. *)
Record Cursor := { cur_frame : ImageFrame; cur_pos : nat; cur_log : list FrameOp }.

Definition open_cursor (fr : ImageFrame) : Cursor := {| cur_frame := fr; cur_pos := 0; cur_log := [] |}.

(** [skipScanLines(n)]: move forward [n] rows; past the last row the SDK
    raises. *)
Definition skip_scan_lines (c : Cursor) (n : nat) : result Cursor :=
  if decide (cur_pos c + n <= fr_height (cur_frame c)) then
    Ok {| cur_frame := cur_frame c; cur_pos := cur_pos c + n; cur_log := cur_log c ++ [OpSkip n] |}
  else Raise (MakoException "skipScanLines past the end of the image").

(** [readScanLine(buffer, stride)]: the next row, then one row forward. *)
Definition read_scan_line (c : Cursor) : result (list Z * Cursor) :=
  match fr_rows (cur_frame c) !! cur_pos c with
  | Some row =>
      Ok (row, {| cur_frame := cur_frame c; cur_pos := S (cur_pos c);
                  cur_log := cur_log c ++ [OpRead] |})
  | None => Raise (MakoException "readScanLine past the end of the image")
  end.

(** The cursor's transitions as a relation: the only moves are forward. *)
Inductive cursor_step : Cursor -> Cursor -> Prop :=
  | step_skip c n c' : skip_scan_lines c n = Ok c' -> cursor_step c c'
  | step_read c row c' : read_scan_line c = Ok (row, c') -> cursor_step c c'.

Inductive cursor_reach : Cursor -> Cursor -> Prop :=
  | reach_refl c : cursor_reach c c
  | reach_step c c' c'' : cursor_step c c' -> cursor_reach c' c'' -> cursor_reach c c''.

(** The same condition as a check that computes. *)
Definition frame_okb (fr : ImageFrame) : bool :=
  (length (fr_rows fr) =? fr_height fr) &&
  forallb (fun r => length r =? fr_stride fr) (fr_rows fr) &&
  (packed_row_bytes (fr_width fr) (fr_channels fr) (fr_bps fr) <=? fr_stride fr) &&
  forallb (forallb is_byte) (fr_rows fr).

(** A frame of one colour, for concrete runs. *)
Definition uniform_frame (w h ch bps : nat) (v : Z) : ImageFrame :=
  {| fr_width := w; fr_height := h; fr_bps := bps; fr_channels := ch;
     fr_color_space := "DeviceRGB"; fr_xres := 96; fr_yres := 96;
     fr_stride := packed_row_bytes w ch bps;
     fr_rows := repeat (repeat v (packed_row_bytes w ch bps)) h |}.

(** ** Bit-depth scaling *)

(** [IDOMImageBitScalerFilter.create(factory, bps)] applied to an image:
    a frame of the same geometry at the new depth. *)
Class ImageBitScaler := {
  bit_scale : nat -> ImageFrame -> ImageFrame
}.

Class ImageBitScalerLaws `{ImageBitScaler} := {
  bs_bps : forall t fr, fr_bps (bit_scale t fr) = t;
  bs_width : forall t fr, fr_width (bit_scale t fr) = fr_width fr;
  bs_height : forall t fr, fr_height (bit_scale t fr) = fr_height fr;
  bs_channels : forall t fr, fr_channels (bit_scale t fr) = fr_channels fr;
  bs_color_space : forall t fr, fr_color_space (bit_scale t fr) = fr_color_space fr;
  bs_xres : forall t fr, fr_xres (bit_scale t fr) = fr_xres fr;
  bs_yres : forall t fr, fr_yres (bit_scale t fr) = fr_yres fr;
  bs_ok : forall t fr, (t = 8 \/ t = 16) -> frame_ok fr -> frame_ok (bit_scale t fr)
}.

(** An executable scaler: unpack the big-endian samples of a row, rescale
    each linearly to the new maximum, repack at 8 or 16 bits. *)
Definition row_bits (row : list Z) : Z := fold_left (fun acc b => acc * 256 + b)%Z row 0%Z.

Definition sample_at (bps : nat) (row : list Z) (j : nat) : Z :=
  let total := (8 * Z.of_nat (length row))%Z in
  Z.land (Z.shiftr (row_bits row) (total - Z.of_nat ((j + 1) * bps))) (Z.ones (Z.of_nat bps)).

Definition rescale (from to : nat) (v : Z) : Z :=
  (v * Z.ones (Z.of_nat to) / Z.ones (Z.of_nat from))%Z.

Definition pack_sample (to : nat) (v : Z) : list Z :=
  if decide (to = 16) then [(v / 256)%Z; (v mod 256)%Z] else [v].

Definition scale_row (from to nsamples : nat) (row : list Z) : list Z :=
  flat_map (fun j => pack_sample to (rescale from to (sample_at from row j))) (seq 0 nsamples).

Definition linear_scale (t : nat) (fr : ImageFrame) : ImageFrame :=
  let n := fr_width fr * fr_channels fr in
  {| fr_width := fr_width fr; fr_height := fr_height fr; fr_bps := t;
     fr_channels := fr_channels fr; fr_color_space := fr_color_space fr;
     fr_xres := fr_xres fr; fr_yres := fr_yres fr;
     fr_stride := n * (t / 8);
     fr_rows := map (scale_row (fr_bps fr) t n) (fr_rows fr) |}.

Definition linear_bit_scaler : ImageBitScaler := {| bit_scale := linear_scale |}.

(** ** The LZ4 temporary store *)

(** [createFromLz4Compressed] / [createToLz4Compressed] over one
    temporary reader/writer pair: what is written compressed reads back
    decompressed. *)
Class TempCodec := {
  lz4_compress : list Z -> list Z;
  lz4_decompress : list Z -> option (list Z);
  lz4_roundtrip : forall bs, lz4_decompress (lz4_compress bs) = Some bs
}.

(** A stored-block codec: a length header, then the bytes. *)
Definition stored_compress (bs : list Z) : list Z := Z.of_nat (length bs) :: bs.

Definition stored_decompress (bs : list Z) : option (list Z) :=
  match bs with
  | n :: rest => if decide (Z.of_nat (length rest) = n) then Some rest else None
  | [] => None
  end.

Lemma stored_roundtrip bs : stored_decompress (stored_compress bs) = Some bs.
Proof. simpl. by rewrite decide_True. Qed.

Definition stored_codec : TempCodec :=
  {| lz4_compress := stored_compress; lz4_decompress := stored_decompress;
     lz4_roundtrip := stored_roundtrip |}.

(** ** The raw-image writer *)

(** [createWriterAndImage(mako, cs, width, height, bps, xres, yres, ...)]
    returns a frame writer and the image it fills.  The writer takes rows
    of [width * channels * bps / 8] bytes. *)
Record RawWriter := {
  rw_width : nat; rw_height : nat; rw_bps : nat; rw_channels : nat;
  rw_color_space : string; rw_xres : Q; rw_yres : Q;
  rw_data : list Z          (** bytes written so far, uncompressed *)
}.

Definition rw_row_bytes (w : RawWriter) : nat := rw_width w * rw_channels w * rw_bps w / 8.

(** Python ints reach the SDK's unsigned parameters through the binding,
    which refuses negative values. *)
Definition to_uint (z : Z) : result nat :=
  if decide (z < 0)%Z then Raise (MakoException "negative value for an unsigned parameter")
  else Ok (Z.to_nat z).

Definition create_writer (cs : string) (ch : nat) (width height : Z) (bps : nat) (xres yres : Q)
    : result RawWriter :=
  w <- to_uint width ;;
  h <- to_uint height ;;
  Ok {| rw_width := w; rw_height := h; rw_bps := bps; rw_channels := ch;
        rw_color_space := cs; rw_xres := xres; rw_yres := yres; rw_data := [] |}.

(** [writeScanLine(buffer)]: one row of [rw_row_bytes] bytes is taken from
    the buffer; a shorter buffer is refused. *)
Definition rw_append (w : RawWriter) (bs : list Z) : RawWriter :=
  {| rw_width := rw_width w; rw_height := rw_height w; rw_bps := rw_bps w;
     rw_channels := rw_channels w; rw_color_space := rw_color_space w;
     rw_xres := rw_xres w; rw_yres := rw_yres w; rw_data := rw_data w ++ bs |}.

Definition write_scan_line (w : RawWriter) (line : list Z) : result RawWriter :=
  if decide (rw_row_bytes w <= length line) then Ok (rw_append w (take (rw_row_bytes w) line))
  else Raise (MakoException "writeScanLine: short buffer").

(** The image the pair hands out, as it reads back after [flushData()]. *)
Record RawImage := {
  ri_width : nat; ri_height : nat; ri_bps : nat; ri_channels : nat;
  ri_color_space : string; ri_xres : Q; ri_yres : Q;
  ri_stored : list Z        (** the temporary store's compressed bytes *)
}.

Definition flush_data `{TempCodec} (w : RawWriter) : RawImage :=
  {| ri_width := rw_width w; ri_height := rw_height w; ri_bps := rw_bps w;
     ri_channels := rw_channels w; ri_color_space := rw_color_space w;
     ri_xres := rw_xres w; ri_yres := rw_yres w;
     ri_stored := lz4_compress (rw_data w) |}.

(** The rows of the image as a reader decodes them from the store. *)
Definition image_rows `{TempCodec} (img : RawImage) : option (list (list Z)) :=
  let rb := ri_width img * ri_channels img * ri_bps img / 8 in
  match lz4_decompress (ri_stored img) with
  | Some data => Some (map (fun r => py_slice data (r * rb) (S r * rb)) (seq 0 (ri_height img)))
  | None => None
  end.

(** ** Lemmas *)

Lemma contains_image_rect (w h : nat) (r : FRect) :
  contains_rect {| rx := 0; ry := 0; rdX := inject_Z (Z.of_nat w); rdY := inject_Z (Z.of_nat h) |} r
    = true <->
  (0 <= rx r /\ 0 <= ry r /\ rx r + rdX r <= inject_Z (Z.of_nat w) /\
   ry r + rdY r <= inject_Z (Z.of_nat h))%Q.
Proof.
  unfold contains_rect. simpl. rewrite !andb_true_iff, !Qle_bool_iff.
  split; [intros [[[H1 H2] H3] H4] | intros (H1 & H2 & H3 & H4)]; repeat split; lra.
Qed.

Lemma skip_scan_lines_ok c n :
  cur_pos c + n <= fr_height (cur_frame c) ->
  skip_scan_lines c n = Ok {| cur_frame := cur_frame c; cur_pos := cur_pos c + n;
                              cur_log := cur_log c ++ [OpSkip n] |}.
Proof. intros H. unfold skip_scan_lines. by rewrite decide_True. Qed.

Lemma read_scan_line_ok c row :
  fr_rows (cur_frame c) !! cur_pos c = Some row ->
  read_scan_line c = Ok (row, {| cur_frame := cur_frame c; cur_pos := S (cur_pos c);
                                 cur_log := cur_log c ++ [OpRead] |}).
Proof. intros H. unfold read_scan_line. by rewrite H. Qed.

Lemma write_scan_line_ok w line :
  length line = rw_row_bytes w -> write_scan_line w line = Ok (rw_append w line).
Proof. intros H. unfold write_scan_line. rewrite decide_True by lia. by rewrite take_ge by lia. Qed.

Lemma rw_append_app w a b : rw_append (rw_append w a) b = rw_append w (a ++ b).
Proof. unfold rw_append. simpl. by rewrite app_assoc. Qed.

Lemma rw_append_nil w : rw_append w [] = w.
Proof. destruct w. unfold rw_append. simpl. by rewrite app_nil_r. Qed.

Lemma to_uint_of_nat n : to_uint (Z.of_nat n) = Ok n.
Proof. unfold to_uint. rewrite decide_False by lia. by rewrite Nat2Z.id. Qed.

Lemma rw_row_bytes_append w bs : rw_row_bytes (rw_append w bs) = rw_row_bytes w.
Proof. reflexivity. Qed.

(** [for scanline in rows: frame_writer.writeScanLine(scanline)] with rows
    of the writer's width: the writer holds them all, in order. *)
Lemma write_rows_ok (w : RawWriter) (rows : list (list Z)) :
  Forall (fun r => length r = rw_row_bytes w) rows ->
  py_for rows (fun scanline w => write_scan_line w scanline) w = Ok (rw_append w (concat rows)).
Proof.
  revert w. induction rows as [|r rows IH]; intros w Hr; simpl.
  - by rewrite rw_append_nil.
  - apply Forall_cons in Hr as [Hr Hrs]. rewrite write_scan_line_ok by done. simpl.
    rewrite IH by (by rewrite rw_row_bytes_append). by rewrite rw_append_app.
Qed.

(** The image reads back, row by row, what the writer was given. *)
Lemma image_rows_flush `{TempCodec} (w : RawWriter) (rows : list (list Z)) :
  rw_data w = concat rows -> length rows = rw_height w ->
  Forall (fun r => length r = rw_row_bytes w) rows ->
  image_rows (flush_data w) = Some rows.
Proof.
  intros Hd Hl Hr. unfold image_rows, flush_data. simpl. rewrite lz4_roundtrip, Hd.
  f_equal. rewrite <- Hl. by apply py_slice_concat.
Qed.

(** The cursor only moves forward: along any sequence of skips and reads
    the frame stays the same, the position never decreases, and the log
    of operations only grows at its end. *)
Theorem cursor_forward_only c c' :
  cursor_reach c c' ->
  cur_frame c' = cur_frame c /\ cur_pos c <= cur_pos c' /\
  exists ops, cur_log c' = cur_log c ++ ops.
Proof.
  induction 1 as [c|c c1 c2 Hs _ (Hf & Hp & ops & Hl)].
  { split; [done|split; [lia|]]. exists []. by rewrite app_nil_r. }
  destruct Hs as [c n c1 E|c row c1 E].
  - unfold skip_scan_lines in E. case_decide; [|done]. injection E as <-. simpl in *.
    split; [done|split; [lia|]]. exists (OpSkip n :: ops). by rewrite Hl, <- app_assoc.
  - unfold read_scan_line in E. destruct (fr_rows (cur_frame c) !! cur_pos c); [|done].
    injection E as <- <-. simpl in *.
    split; [done|split; [lia|]]. exists (OpRead :: ops). by rewrite Hl, <- app_assoc.
Qed.

Lemma frame_okb_sound fr : frame_okb fr = true -> frame_ok fr.
Proof.
  unfold frame_okb. intros H.
  apply andb_true_iff in H as [H Hb]; apply andb_true_iff in H as [H Hs];
  apply andb_true_iff in H as [Hr Hl].
  apply Nat.eqb_eq in Hr. apply Nat.leb_le in Hs. apply forallb_Forall in Hl, Hb.
  constructor; try done.
  - eapply Forall_impl; [exact Hl|]. intros r. apply Nat.eqb_eq.
  - eapply Forall_impl; [exact Hb|]. intros r Hr'%forallb_Forall.
    eapply Forall_impl; [exact Hr'|]. intros b. apply is_byte_spec.
Qed.

Lemma uniform_frame_ok w h ch bps v : (0 <= v < 256)%Z -> frame_ok (uniform_frame w h ch bps v).
Proof.
  intros Hv. constructor; simpl.
  - apply repeat_length.
  - apply Forall_forall. intros r Hr%list_elem_of_In%repeat_spec. subst. apply repeat_length.
  - done.
  - apply Forall_forall. intros r Hr%list_elem_of_In%repeat_spec. subst.
    apply Forall_forall. intros b Hb%list_elem_of_In%repeat_spec. by subst.
Qed.

(** ** The executable scaler meets the laws *)

Lemma sample_at_range bps row j : (0 <= sample_at bps row j <= Z.ones (Z.of_nat bps))%Z.
Proof.
  unfold sample_at. rewrite Z.land_ones by lia. rewrite Z.ones_equiv, <- Z.sub_1_r.
  pose proof (Z.mod_pos_bound (Z.shiftr (row_bits row) (8 * Z.of_nat (length row) - Z.of_nat ((j + 1) * bps)))
                (2 ^ Z.of_nat bps)) as H. assert (0 < 2 ^ Z.of_nat bps)%Z by (apply Z.pow_pos_nonneg; lia).
  lia.
Qed.

Lemma ones_nonneg (n : nat) : (0 <= Z.ones (Z.of_nat n))%Z.
Proof.
  rewrite Z.ones_equiv. assert (0 < 2 ^ Z.of_nat n)%Z by (apply Z.pow_pos_nonneg; lia). lia.
Qed.

Lemma rescale_range from to v :
  (0 <= v <= Z.ones (Z.of_nat from))%Z -> (0 <= rescale from to v <= Z.ones (Z.of_nat to))%Z.
Proof.
  intros Hv. unfold rescale. pose proof (ones_nonneg to) as Ht. pose proof (ones_nonneg from) as Hf.
  revert Hv Ht Hf. generalize (Z.ones (Z.of_nat from)) (Z.ones (Z.of_nat to)). intros f t Hv Ht Hf.
  destruct (decide (f = 0)%Z) as [->|E].
  - rewrite Z.div_0_r. lia.
  - split; [apply Z.div_pos; nia|]. apply Z.div_le_upper_bound; [lia|]. nia.
Qed.

Lemma pack_sample_bytes to v :
  (to = 8 \/ to = 16) -> (0 <= v <= Z.ones (Z.of_nat to))%Z ->
  length (pack_sample to v) = to / 8 /\ Forall (fun b => 0 <= b < 256)%Z (pack_sample to v).
Proof.
  intros [-> | ->] Hv; unfold pack_sample; case_decide; try lia.
  - replace (Z.ones (Z.of_nat 8)) with 255%Z in Hv by reflexivity.
    split; [done|]. constructor; [lia|constructor].
  - replace (Z.ones (Z.of_nat 16)) with 65535%Z in Hv by reflexivity.
    split; [done|]. constructor; [div_lia|constructor; [div_lia|constructor]].
Qed.

Lemma length_flat_map_const {A B} (f : A -> list B) (l : list A) k :
  (forall x, length (f x) = k) -> length (flat_map f l) = length l * k.
Proof. intros Hf. induction l as [|x l IH]; simpl; [done|]. rewrite length_app, Hf, IH. lia. Qed.

Lemma scale_row_ok from to n row :
  (to = 8 \/ to = 16) ->
  length (scale_row from to n row) = n * (to / 8) /\
  Forall (fun b => 0 <= b < 256)%Z (scale_row from to n row).
Proof.
  intros Hto. unfold scale_row. split.
  - rewrite (length_flat_map_const _ _ (to / 8)), length_seq; [done|].
    intros j. apply pack_sample_bytes; [done|]. apply rescale_range, sample_at_range.
  - apply List.Forall_forall. intros b (j & _ & Hb)%in_flat_map.
    destruct (pack_sample_bytes to (rescale from to (sample_at from row j)) Hto) as [_ HF];
      [apply rescale_range, sample_at_range|].
    exact (proj1 (List.Forall_forall _ _) HF b Hb).
Qed.

Lemma linear_scale_ok t fr : (t = 8 \/ t = 16) -> frame_ok fr -> frame_ok (linear_scale t fr).
Proof.
  intros Ht [Hr Hl Hs Hb]. constructor; simpl.
  - by rewrite length_map.
  - apply Forall_map. apply Forall_true. intros row. apply scale_row_ok, Ht.
  - change (packed_row_bytes (fr_width fr) (fr_channels fr) t <= fr_width fr * fr_channels fr * (t / 8)).
    clear Hr Hl Hs Hb. unfold packed_row_bytes. generalize (fr_width fr * fr_channels fr). intros n.
    destruct Ht as [-> | ->]; [change (8 / 8) with 1 | change (16 / 8) with 2]; div_lia.
  - apply Forall_map. apply Forall_true. intros row. apply scale_row_ok, Ht.
Qed.

#[export] Instance linear_bit_scaler_laws : @ImageBitScalerLaws linear_bit_scaler.
Proof. constructor; try done. intros t fr. apply linear_scale_ok. Qed.

(** ** Witnesses *)

Lemma cursor_forward_only_witness :
  cursor_reach (open_cursor (uniform_frame 2 2 1 8 0))
    {| cur_frame := uniform_frame 2 2 1 8 0; cur_pos := 2; cur_log := [OpSkip 1; OpRead] |} /\
  cur_frame {| cur_frame := uniform_frame 2 2 1 8 0; cur_pos := 2; cur_log := [OpSkip 1; OpRead] |}
    = cur_frame (open_cursor (uniform_frame 2 2 1 8 0)) /\
  cur_pos (open_cursor (uniform_frame 2 2 1 8 0)) <= 2 /\
  exists ops, [OpSkip 1; OpRead] = cur_log (open_cursor (uniform_frame 2 2 1 8 0)) ++ ops.
Proof.
  assert (H : cursor_reach (open_cursor (uniform_frame 2 2 1 8 0))
    {| cur_frame := uniform_frame 2 2 1 8 0; cur_pos := 2; cur_log := [OpSkip 1; OpRead] |}).
  { eapply reach_step; [eapply (step_skip _ 1); reflexivity|].
    eapply reach_step; [eapply (step_read _ (repeat 0%Z 2)); reflexivity|]. apply reach_refl. }
  split; [exact H|]. apply (cursor_forward_only _ _ H).
Defined.

End ImageFrame.
