(* ===== verification/InkSelection.v ===== *)
(** * Ink selection and frame-buffer extraction
    ([RenderSeparationsToFrameBuffers/render_separations_to_frame_buffers.py])

    The sample reads four arguments, sorts the page's inks into the ones to
    ignore and the ones to retain by Python's [str.find] on the two
    argument strings (lines 55-71), and renders one plane per process
    colorant and retained ink, either to encoded images (lines 75-101) or
    into caller-allocated buffers that it then cuts into rows and writes to
    TIFF frame writers (lines 103-167).  This file models [main] whole:
    argument checks, raster size, the ink partition, both rendering
    branches against an interface for the renderer, the buffer allocation,
    the row extraction, the lines printed and the exit codes; the TIFF
    files written before an exception stay written ([for_range_st]). *)

From Stdlib Require Import Ascii String.
From S2P Require Import Prelude.
From S2P Require Import SpotMerge.
From S2P Require Import ImageFrame.
From stdpp Require Import pretty.

Module InkSelection.
Import ImageFrame.

(** ** Python's [str.find] *)

(** The first position, from [i] on, at which [needle] starts in [hay]. *)
Fixpoint find_from (needle hay : string) (i : nat) : option nat :=
  if String.prefix needle hay then Some i
  else match hay with
       | EmptyString => None
       | String _ t => find_from needle t (S i)
       end.

(** [hay.find(needle)]: the lowest index of [needle] in [hay], or [-1]. *)
Definition str_find (hay needle : string) : Z :=
  match find_from needle hay 0 with Some i => Z.of_nat i | None => (-1)%Z end.

(** [needle] occurs in [hay]: Python's [needle in hay]. *)
Definition substring_of (needle hay : string) : Prop :=
  exists pre suf, hay = (pre ++ needle ++ suf)%string.

(** ** Arguments (lines 22-33) *)

Record Args := {
  input_file : string;
  spots_to_retain : string;
  spots_to_ignore : string;
  render_to_frame_buffers : string
}.

(** The arguments, or the message printed before [return -1]. *)
Inductive ArgCheck := ArgsOk (a : Args) | ArgsRejected (message : string).

(** Lines 22-33.  The usage line reads [sys.argv[0]]; the pattern match
    reads [sys.argv[1..4]] once [len(sys.argv) >= 5] holds. *)
Definition parse_args (argv : list string) : result ArgCheck :=
  if decide (length argv < 5) then
    prog <- py_get argv 0 ;;
    Ok (ArgsRejected ("Usage: " ++ after_last "/"%char prog ++
          " <source file> <spots to retain> <spots to ignore> <framebuffers=true/false"))
  else match argv with
       | _ :: inp :: retain :: ignore :: fb :: _ =>
           if decide (fb <> "true" /\ fb <> "false") then
             Ok (ArgsRejected ("Parameter framebuffers must be true or false not " ++ fb))
           else Ok (ArgsOk {| input_file := inp; spots_to_retain := retain;
                              spots_to_ignore := ignore; render_to_frame_buffers := fb |})
       | _ => Raise IndexError
       end.

(** ** The ink partition (lines 57-71) *)

Record InkLists := {
  component_names : list string;
  ignore_spot_color_names : list string;
  retain_spot_color_names : list string
}.

(** One iteration of the loop of lines 65-71: an ink whose name occurs in
    the ignore argument is ignored, otherwise one whose name occurs in the
    retain argument is retained and becomes a component. *)
Definition ink_step (retain ignore : string) (st : InkLists) (ink_name : string) : InkLists :=
  if decide (0 <= str_find ignore ink_name)%Z then
    {| component_names := component_names st;
       ignore_spot_color_names := ignore_spot_color_names st ++ [ink_name];
       retain_spot_color_names := retain_spot_color_names st |}
  else if decide (0 <= str_find retain ink_name)%Z then
    {| component_names := component_names st ++ [ink_name];
       ignore_spot_color_names := ignore_spot_color_names st;
       retain_spot_color_names := retain_spot_color_names st ++ [ink_name] |}
  else st.

(** Lines 57-71: the components start with the colorant names of the
    process space (lines 61-63), then the loop runs over the page's inks. *)
Definition select_inks (colorants : list string) (retain ignore : string) (inks : list string)
    : InkLists :=
  fold_left (ink_step retain ignore) inks
    {| component_names := colorants; ignore_spot_color_names := [];
       retain_spot_color_names := [] |}.

(** [IDOMColorSpaceDeviceCMYK]'s colorant names, [getColorantName(0..3)]. *)
Definition cmyk_colorants : list string := ["Cyan"; "Magenta"; "Yellow"; "Black"].

(** The reference partition: two filters. *)
Definition ignored (ignore name : string) : bool := bool_decide (0 <= str_find ignore name)%Z.
Definition retained (retain ignore name : string) : bool :=
  negb (ignored ignore name) && bool_decide (0 <= str_find retain name)%Z.

(** ** Output names (lines 96-100, 141-145) *)

Definition slash : Ascii.ascii := "/"%char.
Definition dot : Ascii.ascii := "."%char.

(** [os.path.basename]: what follows the last ['/']. *)
Definition basename (p : string) : string := after_last slash p.

(** The index of the last ['.'] of a string. *)
Fixpoint last_dot (p : string) : option nat :=
  match p with
  | EmptyString => None
  | String c t =>
      match last_dot t with
      | Some i => Some (S i)
      | None => if bool_decide (c = dot) then Some 0 else None
      end
  end.

(** [os.path.splitext(p)[0]] for a [p] without separator: the part before
    the last dot, unless only dots precede it (a leading-dot name has no
    extension). *)
Definition splitext_root (p : string) : string :=
  match last_dot p with
  | Some i =>
      if existsb (fun d => negb (bool_decide (d = dot))) (list_ascii_of_string (substring 0 i p))
      then substring 0 i p else p
  | None => p
  end.

(** [os.path.join("TestFiles", f"{stem}_{kind}_{name}.tif")]. *)
Definition tiff_path (stem kind name : string) : string :=
  path_join "TestFiles" (stem ++ "_" ++ kind ++ "_" ++ name ++ ".tif").

(** ** Raster size (lines 46-51) *)

Definition resolution : Q := 576.
Definition depth : nat := 8.

(** [int(round(extent / 96.0 * resolution))], kept as a Python int. *)
Definition pixel_extent (extent : Q) : Z := py_int (inject_Z (py_round (extent / 96 * resolution))).

(** ** The SDK's renderer *)

(** [IJawsRenderer.CFrameBufferInfo]. *)
Record FrameBufferInfo := { bufferOfs : Z; rowStride : Z; pixelStride : Z }.

(** A raster plane: [height] rows of [width] bytes. *)
Abbreviation Plane := (list (list Z)) (only parsing).

(** What [main] calls: opening the input's first page, its size, its ink
    inventory ([findInks], line 56), and the two renderers (lines 78 and
    120), with the depth, the pixel size and the retain/ignore lists. *)
Class SeparationsSDK (Page : Type) := {
  open_first_page : string -> result Page;
  page_width : Page -> Q;
  page_height : Page -> Q;
  findInks : Page -> list string;
  renderSeparations :
    Page -> nat -> Z -> Z -> list string -> list string -> result (list Plane);
  renderSeparationsToFrameBuffers :
    Page -> nat -> Z -> Z -> list string -> list string ->
    list FrameBufferInfo -> list (list Z) -> result (list (list Z));
  error_code : string -> Z
}.

(** The contract of spec section 4.1: one plane per process colorant and
    retained ink, each of the requested size, and the frame-buffer mode
    writes the same bytes, row after row from [bufferOfs = 0] with
    [rowStride = pixel_width], into buffers large enough for them. *)
Class SeparationsSDKLaws (Page : Type) `{SeparationsSDK Page} := {
  images_shape : forall page d pw ph r g imgs,
    renderSeparations page d pw ph r g = Ok imgs ->
    length imgs = length cmyk_colorants + length r /\
    Forall (fun img => length img = Z.to_nat ph /\ Forall (fun row => length row = Z.to_nat pw) img)
      imgs;
  frame_buffers_agree : forall page d pw ph r g imgs infos bufs,
    renderSeparations page d pw ph r g = Ok imgs ->
    length bufs = length imgs ->
    infos = repeat {| bufferOfs := 0; rowStride := pw; pixelStride := 0 |} (length bufs) ->
    Forall (fun b => Z.to_nat pw * Z.to_nat ph <= length b) bufs ->
    renderSeparationsToFrameBuffers page d pw ph r g infos bufs =
      Ok (zip_with (fun img b => concat img ++ drop (Z.to_nat pw * Z.to_nat ph) b) imgs bufs)
}.

(** ** Buffers (lines 104-117) *)

(** One iteration: [bytearray(pixel_width * pixel_height * depth)] and its
    [CFrameBufferInfo]. *)
Definition alloc_step (pw ph : Z) (_ : nat) (st : list (list Z) * list FrameBufferInfo)
    : result (list (list Z) * list FrameBufferInfo) :=
  buf <- py_bytearray (pw * ph * Z.of_nat depth) ;;
  Ok (st.1 ++ [buf], st.2 ++ [{| bufferOfs := 0; rowStride := pw; pixelStride := 0 |}]).

Definition alloc_frame_buffers (num_channels : nat) (pw ph : Z)
    : result (list (list Z) * list FrameBufferInfo) :=
  for_range num_channels (alloc_step pw ph) ([], []).

(** ** Output (lines 95-101 and 140-167) *)

(** What a TIFF file holds: an encoded image, or the rows a frame writer
    received. *)
Inductive TiffFile := EncodedImage (img : Plane) | WrittenFrames (w : RawWriter).

(** Lines 99-101, one iteration: encode plane [j] to its TIFF. *)
Definition regular_step (stem : string) (names : list string) (images : list Plane) (j : nat)
    (outs : list (string * TiffFile)) : result (list (string * TiffFile)) :=
  name <- py_get names j ;;
  img <- py_get images j ;;
  Ok (outs ++ [(tiff_path stem "regular" name, EncodedImage img)]).

(** Lines 98-101: the files written, and the exception that stopped the
    loop if one did (the files before it stay written). *)
Definition regular_outputs (stem : string) (names : list string) (images : list Plane)
    : list (string * TiffFile) * option PyExc :=
  for_range_st (length names) (regular_step stem names images) [].

(** Lines 163-166: row [y] is [buffers[j][y * pw : y * pw + pw]]; [pw] is
    non-negative here, the writer having accepted it. *)
Definition write_row (buffers : list (list Z)) (j : nat) (pw : Z) (y : nat) (w : RawWriter)
    : result RawWriter :=
  buf <- py_get buffers j ;;
  let start := y * Z.to_nat pw in
  write_scan_line w (py_slice buf start (start + Z.to_nat pw)).

(** Lines 147-167 for channel [j]: a gray writer of [depth] bits. *)
Definition write_frame_buffer (buffers : list (list Z)) (j : nat) (pw ph : Z) : result RawWriter :=
  w <- create_writer "DeviceGray" 1 pw ph depth 96 96 ;;
  for_range (Z.to_nat ph) (write_row buffers j pw) w.

(** Lines 144-167, one iteration: channel [j] to its TIFF writer. *)
Definition frame_buffer_step (stem : string) (names : list string) (buffers : list (list Z))
    (pw ph : Z) (j : nat) (outs : list (string * TiffFile)) : result (list (string * TiffFile)) :=
  name <- py_get names j ;;
  w <- write_frame_buffer buffers j pw ph ;;
  Ok (outs ++ [(tiff_path stem "frameBuffer" name, WrittenFrames w)]).

(** Lines 143-167, with the files written before an exception. *)
Definition frame_buffer_outputs (stem : string) (names : list string) (buffers : list (list Z))
    (pw ph : Z) : list (string * TiffFile) * option PyExc :=
  for_range_st (length names) (frame_buffer_step stem names buffers pw ph) [].

(** ** [main] *)

(** An exception raised before any file is written. *)
Definition nothing_written {A} (c : result A) (k : A -> list (string * TiffFile) * option PyExc)
    : list (string * TiffFile) * option PyExc :=
  match c with Ok a => k a | Raise e => ([], Some e) end.

(** Lines 36-167 after the argument checks: the TIFF files written and the
    exception that ends the [try], if any. *)
Definition run `{SeparationsSDK Page} (a : Args) : list (string * TiffFile) * option PyExc :=
  nothing_written (open_first_page (path_join "TestFiles" (input_file a))) (fun page =>
  let pw := pixel_extent (page_width page) in
  let ph := pixel_extent (page_height page) in
  let sel := select_inks cmyk_colorants (spots_to_retain a) (spots_to_ignore a) (findInks page) in
  let stem := splitext_root (basename (input_file a)) in
  if decide (render_to_frame_buffers a = "false") then
    nothing_written (renderSeparations page depth pw ph
                       (retain_spot_color_names sel) (ignore_spot_color_names sel)) (fun images =>
    regular_outputs stem (component_names sel) images)
  else
    nothing_written (alloc_frame_buffers (length (component_names sel)) pw ph) (fun bf =>
    nothing_written (renderSeparationsToFrameBuffers page depth pw ph
                       (retain_spot_color_names sel) (ignore_spot_color_names sel) bf.2 bf.1) (fun buffers =>
    frame_buffer_outputs stem (component_names sel) buffers pw ph))).

(** What the process leaves: its exit code, the lines it printed and the
    TIFF files it wrote. *)
Record Outcome := { exit_code : Z; printed : list string; written : list (string * TiffFile) }.

(** Lines 171-176. *)
Definition report `{SeparationsSDK Page} (e : PyExc) : string :=
  match e with
  | MakoException m => ("MakoException: " ++ pretty (error_code m) ++ " - " ++ m)%string
  | _ => ("Exception: " ++ py_exc_str e)%string
  end.

(** Lines 18-178. *)
Definition main `{SeparationsSDK Page} (argv : list string) : Outcome :=
  match parse_args argv with
  | Raise e => {| exit_code := 1; printed := [report e]; written := [] |}
  | Ok (ArgsRejected msg) => {| exit_code := -1; printed := [msg]; written := [] |}
  | Ok (ArgsOk a) =>
      match run a with
      | (outs, None) => {| exit_code := 0; printed := ["Rendering complete."]; written := outs |}
      | (outs, Some e) => {| exit_code := 1; printed := [report e]; written := outs |}
      end
  end.

(** Lines 181-182: [sys.exit(main())], the status the shell sees. *)
Definition process_status `{SeparationsSDK Page} (argv : list string) : Z :=
  sys_exit_status (exit_code (main argv)).

(** ** Reference results *)

(** The writer a plane [img] of [ph] rows of [pw] bytes should end in: a
    gray [depth]-bit image at 96 dpi holding the plane's rows. *)
Definition frame_writer (pw ph : Z) (img : Plane) : RawWriter :=
  {| rw_width := Z.to_nat pw; rw_height := Z.to_nat ph; rw_bps := depth; rw_channels := 1;
     rw_color_space := "DeviceGray"; rw_xres := 96; rw_yres := 96; rw_data := concat img |}.

Definition plane_shape (pw ph : Z) (img : Plane) : Prop :=
  length img = Z.to_nat ph /\ Forall (fun row => length row = Z.to_nat pw) img.

(** ** An executable SDK *)

(** A renderer that paints plane [k] with the byte [k]; its frame-buffer
    mode checks the request and writes the same planes. *)
Definition test_plane (pw ph : Z) (k : nat) : Plane := repeat (repeat (Z.of_nat k) (Z.to_nat pw)) (Z.to_nat ph).

Definition test_images (pw ph : Z) (r : list string) : list Plane :=
  map (test_plane pw ph) (seq 0 (length cmyk_colorants + length r)).

#[export] Instance FrameBufferInfo_eq_dec : EqDecision FrameBufferInfo.
Proof. solve_decision. Defined.

Definition fb_request_ok (pw ph : Z) (imgs : list Plane) (infos : list FrameBufferInfo)
    (bufs : list (list Z)) : bool :=
  bool_decide (length bufs = length imgs /\
               infos = repeat {| bufferOfs := 0; rowStride := pw; pixelStride := 0 |} (length bufs) /\
               Forall (fun b => Z.to_nat pw * Z.to_nat ph <= length b) bufs).

Definition test_sdk (w h : Q) (inks : list string) : SeparationsSDK unit := {|
  open_first_page _ := Ok tt;
  page_width _ := w;
  page_height _ := h;
  findInks _ := inks;
  renderSeparations _ _ pw ph r _ := Ok (test_images pw ph r);
  renderSeparationsToFrameBuffers _ _ pw ph r _ infos bufs :=
    if fb_request_ok pw ph (test_images pw ph r) infos bufs
    then Ok (zip_with (fun img b => concat img ++ drop (Z.to_nat pw * Z.to_nat ph) b)
               (test_images pw ph r) bufs)
    else Raise (MakoException "frame buffers do not match the request");
  error_code _ := 1%Z
|}.

Definition sample_inks : list string := ["Spot1"; "Spot2"; "Spot3"].

(** ** Lemmas on [str_find] *)

Lemma prefix_spec (s1 s2 : string) :
  String.prefix s1 s2 = true <-> exists suf, s2 = (s1 ++ suf)%string.
Proof.
  revert s2. induction s1 as [|a s1 IH]; intros [|b s2]; simpl.
  - split; [by exists EmptyString | done].
  - split; [by exists (String b s2) | done].
  - split; [done | by intros [? ?]].
  - destruct (Ascii.ascii_dec a b) as [-> | Hne].
    + rewrite IH. split; intros [suf Hs]; exists suf; [by rewrite Hs | by injection Hs].
    + split; [done | intros [suf Hs]; by injection Hs].
Qed.

Lemma find_from_Some needle hay i :
  (exists j, find_from needle hay i = Some j) <-> substring_of needle hay.
Proof.
  unfold substring_of. revert i. induction hay as [|c t IH]; intros i; cbn [find_from].
  - destruct needle as [|a n]; simpl.
    + split; intros _; [by exists EmptyString, EmptyString | eauto].
    + split; [by intros [? ?] | intros ([|? ?] & ? & Hs); discriminate].
  - destruct (String.prefix needle (String c t)) eqn:Hp.
    + apply prefix_spec in Hp as [suf Hs].
      split; intros _; [exists EmptyString, suf; exact Hs | eauto].
    + rewrite IH. split.
      * intros (pre & suf & ->). by exists (String c pre), suf.
      * intros ([|c' pre] & suf & Hs); simpl in Hs.
        { exfalso. assert (String.prefix needle (String c t) = true) as Hp'
            by (apply prefix_spec; by exists suf). congruence. }
        injection Hs as _ ->. by exists pre, suf.
Qed.

(** [str.find] is non-negative exactly when the needle occurs. *)
Lemma str_find_nonneg hay needle : (0 <= str_find hay needle)%Z <-> substring_of needle hay.
Proof.
  rewrite <- (find_from_Some needle hay 0). unfold str_find.
  destruct (find_from needle hay 0); split; try lia; eauto. by intros [? ?].
Qed.

(** ** The ink partition *)

Lemma fold_ink_step r g inks st :
  fold_left (ink_step r g) inks st =
  {| component_names := component_names st ++ List.filter (retained r g) inks;
     ignore_spot_color_names := ignore_spot_color_names st ++ List.filter (ignored g) inks;
     retain_spot_color_names := retain_spot_color_names st ++ List.filter (retained r g) inks |}.
Proof.
  revert st. induction inks as [|n inks IH]; intros [cs ig rt]; simpl.
  - by rewrite !app_nil_r.
  - rewrite IH. unfold ink_step, retained, ignored. simpl.
    repeat case_decide; rewrite ?bool_decide_true, ?bool_decide_false by done; simpl;
      by rewrite <- ?app_assoc.
Qed.

(** The loop of lines 65-71 computes two filters of the page's inks: the
    ignored ones, and the retained ones, which follow the process
    colorants in [component_names]. *)
Theorem select_inks_spec cs r g inks :
  select_inks cs r g inks =
  {| component_names := cs ++ List.filter (retained r g) inks;
     ignore_spot_color_names := List.filter (ignored g) inks;
     retain_spot_color_names := List.filter (retained r g) inks |}.
Proof. unfold select_inks. by rewrite fold_ink_step. Qed.

(** C7. In Python's terms: an ink is retained when its name occurs in the
    retain argument and not in the ignore argument, ignored when it occurs
    in the ignore argument; the components are the process colorants and
    the retained inks. *)
Theorem select_inks_membership cs r g inks n :
  (In n (retain_spot_color_names (select_inks cs r g inks)) <->
     In n inks /\ ~ substring_of n g /\ substring_of n r) /\
  (In n (ignore_spot_color_names (select_inks cs r g inks)) <-> In n inks /\ substring_of n g) /\
  component_names (select_inks cs r g inks) = cs ++ retain_spot_color_names (select_inks cs r g inks).
Proof.
  rewrite select_inks_spec. cbn [component_names ignore_spot_color_names retain_spot_color_names].
  rewrite !filter_In. unfold retained, ignored.
  rewrite andb_true_iff, negb_true_iff, !bool_decide_eq_true, bool_decide_eq_false, !str_find_nonneg.
  tauto.
Qed.

(** ** Arguments *)

(** [main] goes on past line 33 exactly when it has four arguments, the
    fourth being ["true"] or ["false"]. *)
Theorem parse_args_spec argv a :
  parse_args argv = Ok (ArgsOk a) <->
  (exists prog rest, argv = prog :: input_file a :: spots_to_retain a :: spots_to_ignore a ::
                              render_to_frame_buffers a :: rest) /\
  (render_to_frame_buffers a = "true" \/ render_to_frame_buffers a = "false").
Proof.
  unfold parse_args. split.
  - case_decide; [by destruct (py_get argv 0)|]. destruct argv as [|p [|i [|r [|g [|fb rest]]]]]; try done.
    case_decide as Hfb; [done|]. intros [= <-]. split; [by eexists _, _|]. simpl.
    destruct (decide (fb = "true")); [by left|]. right.
    destruct (decide (fb = "false")); [done|]. by destruct Hfb.
  - intros [(p & rest & ->) Hfb]. rewrite decide_False by (simpl; lia).
    rewrite decide_False by (intros [? ?]; destruct Hfb; contradiction). by destruct a.
Qed.

(** ** Buffers and rows *)

Lemma to_uint_nonneg z : (0 <= z)%Z -> to_uint z = Ok (Z.to_nat z).
Proof. intros Hz. unfold to_uint. by rewrite decide_False by lia. Qed.

Lemma repeat_S_r {A} (x : A) n : repeat x (S n) = repeat x n ++ [x].
Proof. replace (S n) with (n + 1) by lia. by rewrite repeat_app. Qed.

(** Lines 109-117 allocate [num_channels] zeroed buffers of
    [pixel_width * pixel_height * depth] bytes with their descriptors. *)
Lemma alloc_frame_buffers_ok n pw ph : (0 <= pw)%Z -> (0 <= ph)%Z ->
  alloc_frame_buffers n pw ph =
  Ok (repeat (repeat 0%Z (Z.to_nat (pw * ph * 8))) n,
      repeat {| bufferOfs := 0; rowStride := pw; pixelStride := 0 |} n).
Proof.
  intros Hw Hh. unfold alloc_frame_buffers. induction n as [|n IH]; [done|].
  rewrite for_range_S, IH, res_bind_Ok. unfold alloc_step, py_bytearray.
  change (Z.of_nat depth) with 8%Z. rewrite decide_False by lia. rewrite res_bind_Ok.
  cbn [fst snd]. by rewrite !repeat_S_r.
Qed.

(** One iteration of lines 163-166 on a buffer that starts with the
    plane's rows: the writer receives row [y]. *)
Lemma write_row_ok buffers j pw ph img pad y w :
  (0 <= pw)%Z -> buffers !! j = Some (concat img ++ pad) -> plane_shape pw ph img ->
  img !! y = Some (img !!! y) -> rw_width w = Z.to_nat pw -> rw_channels w = 1 -> rw_bps w = depth ->
  write_row buffers j pw y w = Ok (rw_append w (img !!! y)).
Proof.
  intros Hw Hb [Hlen Hrows] Hy Hww Hwc Hwb. unfold write_row.
  rewrite (py_get_lookup _ _ _ Hb), res_bind_Ok.
  assert (y < length img) by (eapply lookup_lt_Some; eauto).
  rewrite py_slice_app_l.
  2:{ rewrite (length_concat_const _ _ Hrows). nia. }
  rewrite (py_slice_concat_lookup _ _ _ _ Hrows Hy).
  unfold write_scan_line, rw_row_bytes. rewrite Hww, Hwc, Hwb.
  replace (Z.to_nat pw * 1 * depth / 8) with (Z.to_nat pw)
    by (unfold depth; rewrite Nat.mul_1_r, Nat.div_mul; lia).
  pose proof (Forall_lookup_1 _ _ _ _ Hrows Hy) as Hrow. simpl in Hrow.
  rewrite decide_True by lia. by rewrite take_ge by lia.
Qed.

(** Lines 147-167 for one channel: the writer ends holding the plane's
    rows, whatever follows them in the buffer. *)
Lemma write_frame_buffer_ok buffers j pw ph img pad :
  (0 <= pw)%Z -> (0 <= ph)%Z -> buffers !! j = Some (concat img ++ pad) -> plane_shape pw ph img ->
  write_frame_buffer buffers j pw ph = Ok (frame_writer pw ph img).
Proof.
  intros Hw Hh Hb Hs. unfold write_frame_buffer, create_writer.
  rewrite !to_uint_nonneg by done. rewrite !res_bind_Ok.
  set (w0 := {| rw_width := _ |}).
  destruct (for_range_inv (fun y w => w = rw_append w0 (concat (take y img))) (Z.to_nat ph)
              (write_row buffers j pw) w0) as (w & Hrun & ->).
  - by rewrite take_0.
  - intros y w Hy ->. destruct Hs as [Hlen Hrows].
    destruct (lookup_lt_is_Some_2 img y) as [row Hrow]; [lia|].
    rewrite (write_row_ok buffers j pw ph img pad) by (done || by rewrite list_lookup_total_alt, Hrow).
    eexists; split; [done|]. rewrite (list_lookup_total_correct _ _ _ Hrow).
    rewrite (take_S_r _ _ _ Hrow), concat_app. cbn [concat]. by rewrite app_nil_r, rw_append_app.
  - rewrite Hrun. destruct Hs as [Hlen _]. by rewrite take_ge by lia.
Qed.

(** The extraction of channel [j] reads only the first
    [pixel_width * pixel_height] bytes of its buffer. *)
Lemma write_frame_buffer_prefix buffers j pw ph :
  write_frame_buffer buffers j pw ph =
  write_frame_buffer (map (take (Z.to_nat pw * Z.to_nat ph)) buffers) j pw ph.
Proof.
  unfold write_frame_buffer. destruct (create_writer _ _ _ _ _ _ _) as [w|]; [|done].
  rewrite !res_bind_Ok. apply for_range_ext. intros y w' Hy. unfold write_row, py_get.
  rewrite list_lookup_map. destruct (buffers !! j); [|done]. simpl.
  by rewrite py_slice_take by nia.
Qed.

(** C30. Lines 109-111 allocate [depth = 8] times the bytes a buffer needs:
    each buffer holds [8 * pixel_width * pixel_height] bytes, while the
    rows the TIFF writers receive (lines 163-166) are all taken from its
    first [pixel_width * pixel_height] bytes. *)
Theorem frame_buffer_overallocation n pw ph bufs infos :
  (0 <= pw)%Z -> (0 <= ph)%Z -> alloc_frame_buffers n pw ph = Ok (bufs, infos) ->
  Forall (fun b => length b = 8 * (Z.to_nat pw * Z.to_nat ph)) bufs /\
  forall rendered j, write_frame_buffer rendered j pw ph =
    write_frame_buffer (map (take (Z.to_nat pw * Z.to_nat ph)) rendered) j pw ph.
Proof.
  intros Hw Hh. rewrite alloc_frame_buffers_ok by done. intros [= <- _].
  split; [|intros rendered j; apply write_frame_buffer_prefix].
  apply List.Forall_forall. intros b Hb%repeat_spec. subst b. rewrite repeat_length.
  rewrite !Z2Nat.inj_mul by lia. lia.
Qed.

(** ** The two output loops *)

Lemma regular_outputs_ok stem names imgs :
  length imgs = length names ->
  regular_outputs stem names imgs =
  (zip_with (fun n img => (tiff_path stem "regular" n, EncodedImage img)) names imgs, None).
Proof.
  intros Hlen. unfold regular_outputs. apply for_range_st_ok.
  rewrite (for_range_collect _ _
             (fun j => (tiff_path stem "regular" (default "" (names !! j)), EncodedImage (default ([] : Plane) (imgs !! j))))).
  - f_equal. apply map_seq_zip_with; [done|lia|]. intros j x y Hx Hy.
    cbv beta. by rewrite Hx, Hy.
  - intros j outs Hj. unfold regular_step.
    destruct (lookup_lt_is_Some_2 names j) as [n Hn]; [done|].
    destruct (lookup_lt_is_Some_2 imgs j) as [img Hi]; [lia|].
    rewrite (py_get_lookup _ _ _ Hn), res_bind_Ok, (py_get_lookup _ _ _ Hi), res_bind_Ok.
    by rewrite Hn, Hi.
Qed.

Lemma frame_buffer_outputs_ok stem names imgs bufs pw ph :
  (0 <= pw)%Z -> (0 <= ph)%Z -> length imgs = length names -> length bufs = length names ->
  Forall (plane_shape pw ph) imgs ->
  frame_buffer_outputs stem names
    (zip_with (fun img b => concat img ++ drop (Z.to_nat pw * Z.to_nat ph) b) imgs bufs) pw ph =
  (zip_with (fun n img => (tiff_path stem "frameBuffer" n, WrittenFrames (frame_writer pw ph img)))
     names imgs, None).
Proof.
  intros Hw Hh Hli Hlb Hs. unfold frame_buffer_outputs. apply for_range_st_ok.
  rewrite (for_range_collect _ _
             (fun j => (tiff_path stem "frameBuffer" (default "" (names !! j)),
                        WrittenFrames (frame_writer pw ph (default ([] : Plane) (imgs !! j)))))).
  - f_equal. apply map_seq_zip_with; [done|lia|]. intros j x y Hx Hy.
    cbv beta. by rewrite Hx, Hy.
  - intros j outs Hj. unfold frame_buffer_step.
    destruct (lookup_lt_is_Some_2 names j) as [n Hn]; [done|].
    destruct (lookup_lt_is_Some_2 imgs j) as [img Hi]; [lia|].
    destruct (lookup_lt_is_Some_2 bufs j) as [b Hb]; [lia|].
    rewrite (py_get_lookup _ _ _ Hn), res_bind_Ok.
    rewrite (write_frame_buffer_ok _ j pw ph img (drop (Z.to_nat pw * Z.to_nat ph) b)); try done.
    + rewrite res_bind_Ok.
      by rewrite Hn, Hi.
    + by rewrite lookup_zip_with, Hi, Hb.
    + exact (Forall_lookup_1 _ _ _ _ Hs Hi).
Qed.

(** ** [main] *)

Lemma pixel_extent_nonneg q : (0 <= q)%Q -> (0 <= pixel_extent q)%Z.
Proof.
  intros Hq. unfold pixel_extent. rewrite py_int_Z. apply py_round_nonneg.
  unfold resolution. apply Qmult_le_0_compat; [|discriminate].
  apply Qmult_le_0_compat; [done | discriminate].
Qed.

Lemma select_inks_length cs r g inks :
  length (component_names (select_inks cs r g inks)) =
  length cs + length (retain_spot_color_names (select_inks cs r g inks)).
Proof. rewrite select_inks_spec. simpl. by rewrite length_app. Qed.

Lemma parse_args_five prog inp r g fb :
  fb = "true" \/ fb = "false" ->
  parse_args [prog; inp; r; g; fb] =
  Ok (ArgsOk {| input_file := inp; spots_to_retain := r; spots_to_ignore := g;
                render_to_frame_buffers := fb |}).
Proof. intros Hfb. apply parse_args_spec. split; [by exists prog, [] | done]. Qed.

Section Modes.
Context `{Laws : SeparationsSDKLaws Page}.

(** C3. Spec section 4.1: the two output modes give the same planes.  Once
    the page is open and [renderSeparations] has produced its planes,
    [main ... false] prints [Rendering complete.] and returns 0 having
    written one TIFF per component name, in order, holding those planes,
    and [main ... true] prints the same and returns 0 having written
    one TIFF per component name whose frame writer
    received exactly the same planes, row by row, from the buffers
    (lines 104-167). *)
Theorem render_modes_agree prog inp r g page imgs :
  open_first_page (path_join "TestFiles" inp) = Ok page ->
  (0 <= page_width page)%Q -> (0 <= page_height page)%Q ->
  let pw := pixel_extent (page_width page) in
  let ph := pixel_extent (page_height page) in
  let sel := select_inks cmyk_colorants r g (findInks page) in
  let stem := splitext_root (basename inp) in
  renderSeparations page depth pw ph (retain_spot_color_names sel) (ignore_spot_color_names sel)
    = Ok imgs ->
  main [prog; inp; r; g; "false"] =
    {| exit_code := 0; printed := ["Rendering complete."];
       written := zip_with (fun n img => (tiff_path stem "regular" n, EncodedImage img))
                    (component_names sel) imgs |} /\
  main [prog; inp; r; g; "true"] =
    {| exit_code := 0; printed := ["Rendering complete."];
       written := zip_with (fun n img => (tiff_path stem "frameBuffer" n,
                                          WrittenFrames (frame_writer pw ph img)))
                    (component_names sel) imgs |}.
Proof.
  intros Hopen Hw Hh pw ph sel stem Hr.
  assert (0 <= pw)%Z by (apply pixel_extent_nonneg; done).
  assert (0 <= ph)%Z by (apply pixel_extent_nonneg; done).
  destruct (images_shape _ _ _ _ _ _ _ Hr) as [Hn Hshape].
  assert (length imgs = length (component_names sel)) as Hlen
    by (unfold sel; rewrite select_inks_length; exact Hn).
  unfold main. rewrite !parse_args_five by auto. unfold run. cbn [input_file spots_to_retain
    spots_to_ignore render_to_frame_buffers]. rewrite Hopen. cbn [nothing_written]. split.
  - rewrite decide_True by done. fold pw ph sel stem. rewrite Hr. cbn [nothing_written].
    by rewrite regular_outputs_ok.
  - rewrite decide_False by done. fold pw ph sel stem.
    rewrite alloc_frame_buffers_ok by done. cbn [nothing_written fst snd].
    rewrite (frame_buffers_agree _ _ _ _ _ _ imgs).
    + cbn [nothing_written]. rewrite frame_buffer_outputs_ok; try done.
      by rewrite repeat_length.
    + done.
    + by rewrite repeat_length.
    + by rewrite repeat_length.
    + apply List.Forall_forall. intros b Hb%repeat_spec. subst b. rewrite repeat_length.
      rewrite !Z2Nat.inj_mul by lia. lia.
Qed.

End Modes.

(** C18. Lines 22-33: with fewer than four arguments [main] prints the usage
    line (naming the script by its base name) and returns [-1]; with a
    fourth argument other than [true] or [false] it prints which value it
    got and returns [-1].  Nothing is rendered or written, and
    [sys.exit(-1)] reaches the shell as status 255. *)
Theorem main_bad_arguments `{SeparationsSDK Page} prog args inp r g fb rest :
  (length args < 4 ->
   main (prog :: args) =
     {| exit_code := -1;
        printed := [("Usage: " ++ after_last "/"%char prog ++
                     " <source file> <spots to retain> <spots to ignore> <framebuffers=true/false")%string];
        written := [] |} /\
   process_status (prog :: args) = 255%Z) /\
  (fb <> "true" -> fb <> "false" ->
   main (prog :: inp :: r :: g :: fb :: rest) =
     {| exit_code := -1; printed := [("Parameter framebuffers must be true or false not " ++ fb)%string];
        written := [] |} /\
   process_status (prog :: inp :: r :: g :: fb :: rest) = 255%Z).
Proof.
  split.
  - intros Hlen. assert (Hm : main (prog :: args) =
      {| exit_code := -1;
         printed := [("Usage: " ++ after_last "/"%char prog ++
                      " <source file> <spots to retain> <spots to ignore> <framebuffers=true/false")%string];
         written := [] |}) by (unfold main, parse_args; rewrite decide_True by (simpl; lia); done).
    split; [done|]. unfold process_status. by rewrite Hm.
  - intros Ht Hf. assert (Hm : main (prog :: inp :: r :: g :: fb :: rest) =
      {| exit_code := -1; printed := [("Parameter framebuffers must be true or false not " ++ fb)%string];
         written := [] |})
      by (unfold main, parse_args; rewrite decide_False by (simpl; lia);
          rewrite decide_True by tauto; done).
    split; [done|]. unfold process_status. by rewrite Hm.
Qed.

(** ** The executable SDK *)

Lemma test_images_shape pw ph r :
  length (test_images pw ph r) = length cmyk_colorants + length r /\
  Forall (plane_shape pw ph) (test_images pw ph r).
Proof.
  unfold test_images. rewrite length_map, length_seq. split; [done|].
  apply Forall_map, Forall_true. intros k. unfold plane_shape, test_plane.
  rewrite repeat_length. split; [done|]. apply List.Forall_forall.
  intros row Hrow%repeat_spec. subst row. by rewrite repeat_length.
Qed.

#[export] Instance test_sdk_laws w h inks : @SeparationsSDKLaws unit (test_sdk w h inks).
Proof.
  split.
  - intros page d pw ph r g imgs [= <-]. apply test_images_shape.
  - intros page d pw ph r g imgs infos bufs [= <-] Hlen Hinfos Hbig. simpl.
    unfold fb_request_ok. rewrite bool_decide_eq_true_2; [done|]. auto.
Qed.

(** The sample page is 1/3 x 1/2 of an inch (at 96 units per inch):
    2 x 3 pixels at 576 dpi; it holds three spot inks, and the arguments
    retain [Spot1] and [Spot2] and ignore [Spot2]. *)
Lemma render_modes_agree_witness :
  @main unit (test_sdk (1#3) (1#2) sample_inks) ["prog"; "in.pdf"; "Spot1 Spot2"; "Spot2"; "false"] =
    {| exit_code := 0; printed := ["Rendering complete."];
       written := zip_with (fun n img => (tiff_path "in" "regular" n, EncodedImage img))
                    (cmyk_colorants ++ ["Spot1"]) (test_images 2 3 ["Spot1"]) |} /\
  @main unit (test_sdk (1#3) (1#2) sample_inks) ["prog"; "in.pdf"; "Spot1 Spot2"; "Spot2"; "true"] =
    {| exit_code := 0; printed := ["Rendering complete."];
       written := zip_with (fun n img => (tiff_path "in" "frameBuffer" n,
                                          WrittenFrames (frame_writer 2 3 img)))
                    (cmyk_colorants ++ ["Spot1"]) (test_images 2 3 ["Spot1"]) |}.
Proof.
  apply (@render_modes_agree unit (test_sdk (1#3) (1#2) sample_inks) (test_sdk_laws _ _ _)
           "prog" "in.pdf" "Spot1 Spot2" "Spot2" tt).
  - reflexivity.
  - apply Qle_bool_iff. reflexivity.
  - apply Qle_bool_iff. reflexivity.
  - vm_compute. reflexivity.
Defined.


Lemma frame_buffer_overallocation_witness :
  Forall (fun b => length b = 8 * (2 * 3)) (repeat (repeat 0%Z 48) 2) /\
  forall rendered j, write_frame_buffer rendered j 2 3 =
    write_frame_buffer (map (take (2 * 3)) rendered) j 2 3.
Proof.
  apply (frame_buffer_overallocation 2 2 3 (repeat (repeat 0%Z 48) 2)
           (repeat {| bufferOfs := 0; rowStride := 2; pixelStride := 0 |} 2)); try lia.
  vm_compute. reflexivity.
Defined.

Lemma main_bad_arguments_witness :
  @main unit (test_sdk 1 1 []) ["bin/render.py"; "in.pdf"] =
    {| exit_code := -1;
       printed := ["Usage: render.py <source file> <spots to retain> <spots to ignore> <framebuffers=true/false"%string];
       written := [] |} /\
  @process_status unit (test_sdk 1 1 []) ["bin/render.py"; "in.pdf"] = 255%Z /\
  @main unit (test_sdk 1 1 []) ["bin/render.py"; "in.pdf"; "A"; "B"; "yes"] =
    {| exit_code := -1; printed := ["Parameter framebuffers must be true or false not yes"%string];
       written := [] |} /\
  @process_status unit (test_sdk 1 1 []) ["bin/render.py"; "in.pdf"; "A"; "B"; "yes"] = 255%Z.
Proof.
  destruct (@main_bad_arguments unit (test_sdk 1 1 []) "bin/render.py" ["in.pdf"] "in.pdf" "A" "B" "yes" [])
    as [H1 H2].
  destruct H1 as [E1 S1]; [simpl; lia|]. destruct H2 as [E2 S2]; [discriminate|discriminate|].
  split; [exact E1|]. split; [exact S1|]. split; [exact E2|exact S2].
Defined.

End InkSelection.
