(* ===== verification/SpotMergeMain.v ===== *)
(** * The Ink Compositor's driver: [custom_spot_merge()], lines 21-151

    [OverprintSimulation/custom_spot_merge.py] opens one PDF and, for
    every page in turn, sizes the raster at 150 dpi, finds the page's
    spot inks, merges them onto the process planes ([SpotMerge]), feeds
    the merged rows to a raw-image writer ([ImageFrame]), converts the
    image to RGB, encodes it as [output_<i>.jpg] and prints a line.  The
    whole loop is inside one [try]: an exception ends it, what the pages
    before wrote stays on disk, and the handler prints it and exits 1.

    The document, the inks, the renderer and the JPEG encoder are the
    SDK's ([MergeSDK]).  The loop is given as a function over the state
    that survives an exception ([py_for_st]) and as a step relation on
    configurations ([loop_step]) with an [eventually] predicate, so that
    liveness reads as it does for transition systems. *)

From S2P Require Import Prelude SpotMerge ImageFrame.
From stdpp Require Import pretty.

Module SpotMergeMain.
Import SpotMerge ImageFrame.

(** ** The SDK *)

(** [IJawsMako.create], [IPDFInput.open(path).getDocument()] and the
    content of each [getPage(i)]; a page's width and height; the spot
    colorants of [inkInfoToColorantInfo(mako, findInks(mako, page), cmyk)];
    [IDOMImageColorConverterFilter] to RGB with [IDOMJPEGImage.encode] to
    a file; the [m_errorCode] of a [MakoException]. *)
Class MergeSDK := {
  MPage : Type;
  merge_renderer :: SeparationRenderer MPage;
  open_pages : string -> result (list MPage);
  page_extent : MPage -> Q * Q;
  find_spots : MPage -> result (list SpotColorant);
  encode_jpeg : RawImage -> string -> result unit;
  merge_error_code : string -> Z
}.

Section Driver.
Context `{SDK : MergeSDK} `{TC : TempCodec}.

(** What outlives the [try]: the lines printed and the files written. *)
Record MergeState := {
  merge_printed : list string;
  merge_written : list (string * RawImage)
}.

Definition merge_init : MergeState := {| merge_printed := []; merge_written := [] |}.

(** Line 141. *)
Definition output_name (page_index : nat) : string :=
  ("output_" ++ pretty page_index ++ ".jpg")%string.

(** One iteration of the page loop (lines 37-144).  The writer of line 92
    is created after the merge rather than before it, and the rows are
    written after the loop of lines 116-127 rather than one by one: for
    sizes that are [nat]s [create_writer] raises nothing, and every row
    has the writer's [pixel_width * 4] bytes, so neither move changes what
    the iteration returns or raises. *)
Definition merge_page_iteration (ip : nat * MPage) (st : MergeState) : result MergeState :=
  let '(page_index, fixed_page) := ip in
  let '(width, height) := page_extent fixed_page in
  let resolution := 150%Q in
  let pixel_width := raster_extent width resolution in
  let pixel_height := raster_extent height resolution in
  spots <- find_spots fixed_page ;;
  rows <- custom_spot_merge_page fixed_page pixel_width pixel_height spots ;;
  frame_writer <- create_writer "DeviceCMYK" 4 (Z.of_nat pixel_width) (Z.of_nat pixel_height) 8
                    resolution resolution ;;
  frame_writer <- py_for rows (fun scanline w => write_scan_line w scanline) frame_writer ;;
  let image := flush_data frame_writer in
  let out_jpeg := output_name page_index in
  _ <- encode_jpeg image out_jpeg ;;
  Ok {| merge_printed := merge_printed st ++ [("Wrote: " ++ out_jpeg)%string];
        merge_written := merge_written st ++ [(out_jpeg, image)] |}.

(** The process as it ends: printed lines, files, exit status. *)
Record MergeOutcome := {
  printed : list string;
  written : list (string * RawImage);
  exit_status : Z
}.

(** Lines 146-151: the handlers print and [sys.exit(1)]. *)
Definition merge_report (st : MergeState) (e : PyExc) : MergeOutcome :=
  let line := match e with
              | MakoException m => ("MakoException " ++ pretty (merge_error_code m) ++ ": " ++ m)%string
              | _ => ("Error: " ++ py_exc_str e)%string
              end in
  {| printed := merge_printed st ++ [line]; written := merge_written st; exit_status := 1 |}.

(** The pages of [range(document.getNumPages())] with their indices. *)
Definition indexed {A} (l : list A) : list (nat * A) := zip (seq 0 (length l)) l.

(** Lines 21-151. *)
Definition custom_spot_merge : MergeOutcome :=
  let test_file_path := "TestFiles/" in
  match open_pages (test_file_path ++ "Robots Plus Process Colors.pdf") with
  | Raise e => merge_report merge_init e
  | Ok pages =>
      match py_for_st (indexed pages) merge_page_iteration merge_init with
      | (st, None) => {| printed := merge_printed st; written := merge_written st; exit_status := 0 |}
      | (st, Some e) => merge_report st e
      end
  end.

(** ** The page loop as a transition system *)

(** A configuration: the pages still to do, the committed state, and the
    exception that stopped the loop, if one did. *)
Record LoopConf := {
  todo : list (nat * MPage);
  conf_state : MergeState;
  conf_exc : option PyExc
}.

Inductive loop_step : LoopConf -> LoopConf -> Prop :=
  | step_page ip rest st st' :
      merge_page_iteration ip st = Ok st' ->
      loop_step {| todo := ip :: rest; conf_state := st; conf_exc := None |}
                {| todo := rest; conf_state := st'; conf_exc := None |}
  | step_raise ip rest st e :
      merge_page_iteration ip st = Raise e ->
      loop_step {| todo := ip :: rest; conf_state := st; conf_exc := None |}
                {| todo := []; conf_state := st; conf_exc := Some e |}.

(** [P] holds now, or the configuration can step and every step leads to
    a configuration where [P] eventually holds. *)
Inductive eventually (P : LoopConf -> Prop) : LoopConf -> Prop :=
  | ev_now c : P c -> eventually P c
  | ev_later c : (exists c', loop_step c c') -> (forall c', loop_step c c' -> eventually P c') ->
      eventually P c.


(** What a page that renders yields: the spots the SDK finds, the planes
    it renders, and an image that reads back as their merged rows. *)
Definition page_merged (p : MPage) (img : RawImage) : Prop :=
  let pw := raster_extent (page_extent p).1 150 in
  let ph := raster_extent (page_extent p).2 150 in
  exists spots bufs,
    find_spots p = Ok spots /\
    render_separations p pw ph (map sc_name spots) (repeat (repeat 0%Z (pw * ph)) (4 + length spots))
      = Ok bufs /\
    ri_width img = pw /\ ri_height img = ph /\ ri_channels img = 4 /\ ri_bps img = 8 /\
    ri_color_space img = "DeviceCMYK" /\
    image_rows img = Some (map (merged_row bufs (map (fun sc => take 4 (sc_components sc)) spots) pw 4
                                 (length spots)) (seq 0 ph)).

(** A page the SDK renders: its spots are found, are well formed, and
    the renderer accepts the planes. *)
Definition page_renders (p : MPage) : Prop :=
  let pw := raster_extent (page_extent p).1 150 in
  let ph := raster_extent (page_extent p).2 150 in
  exists spots bufs,
    find_spots p = Ok spots /\ Forall spot_ok spots /\
    render_separations p pw ph (map sc_name spots) (repeat (repeat 0%Z (pw * ph)) (4 + length spots))
      = Ok bufs.

End Driver.

(** A renderer over pages named by numbers, painting plane [p] with
    [40 p], and a document of three such pages whose page [bad] has no
    readable inks, for concrete runs. *)
Definition numbered_renderer : SeparationRenderer nat := {|
  render_separations _ w h names bufs := Ok (paint_planes (fun p => Z.of_nat (40 * p)) 0 bufs)
|}.

Definition test_merge_sdk (bad : nat) : MergeSDK := {|
  MPage := nat;
  merge_renderer := numbered_renderer;
  open_pages _ := Ok [0; 1; 2];
  page_extent _ := ((32 # 25)%Q, (16 # 25)%Q);
  find_spots n := if decide (n = bad) then Raise (MakoException "no ink information") else Ok sample_spots;
  encode_jpeg _ _ := Ok tt;
  merge_error_code _ := 7%Z
|}.

Section Proofs.
Context `{SDK : MergeSDK} `{TC : TempCodec}.
Context {Laws : @SeparationRendererLaws MPage merge_renderer}.
Hypothesis encode_ok : forall img out, encode_jpeg img out = Ok tt.

Definition wrote (i : nat) : string := ("Wrote: " ++ output_name i)%string.

(** One page that renders: the iteration commits its line and its image. *)
Lemma page_iteration_ok i p st :
  page_renders p ->
  exists img, merge_page_iteration (i, p) st =
    Ok {| merge_printed := merge_printed st ++ [wrote i];
          merge_written := merge_written st ++ [(output_name i, img)] |} /\ page_merged p img.
Proof.
  intros (spots & bufs & Hf & Hs & Hr). unfold merge_page_iteration, page_merged.
  destruct (page_extent p) as [w h]. cbn [fst snd] in *.
  rewrite Hf, res_bind_Ok, (custom_spot_merge_page_spec p _ _ spots bufs Hr Hs), res_bind_Ok.
  unfold create_writer. rewrite !to_uint_of_nat, !res_bind_Ok.
  rewrite write_rows_ok, res_bind_Ok, encode_ok, res_bind_Ok.
  - eexists. split; [reflexivity|]. exists spots, bufs. do 2 (split; [done|]).
    cbn. do 5 (split; [done|]). apply image_rows_flush; simpl.
    + done.
    + by rewrite length_map, length_seq.
    + apply Forall_map, Forall_forall. intros y _. rewrite length_merged_row. unfold rw_row_bytes. cbn [rw_width rw_channels rw_bps].
      by rewrite Nat.div_mul by lia.
  - apply Forall_map, Forall_forall. intros y _. rewrite length_merged_row. unfold rw_row_bytes. cbn [rw_width rw_channels rw_bps].
    by rewrite Nat.div_mul by lia.
Qed.

(** Pages [s, s+1, ...] that all render: each commits its line and image. *)
Lemma page_loop_ok s l st :
  Forall page_renders l ->
  exists imgs,
    py_for (zip (seq s (length l)) l) merge_page_iteration st =
    Ok {| merge_printed := merge_printed st ++ map wrote (seq s (length l));
          merge_written := merge_written st ++ zip (map output_name (seq s (length l))) imgs |} /\
    Forall2 page_merged l imgs.
Proof.
  revert s st. induction l as [|p l IH]; intros s st Hl.
  - exists []. simpl. rewrite !app_nil_r. by destruct st.
  - apply Forall_cons in Hl as [Hp Hl].
    destruct (page_iteration_ok s p st Hp) as (img & Hi & Hm).
    destruct (IH (S s) {| merge_printed := merge_printed st ++ [wrote s];
                          merge_written := merge_written st ++ [(output_name s, img)] |} Hl)
      as (imgs & Hloop & Him).
    exists (img :: imgs). cbn [length seq zip_with py_for]. rewrite Hi, res_bind_Ok, Hloop.
    split; [|by constructor]. cbn [merge_printed merge_written map zip_with].
    by rewrite <- !app_assoc.
Qed.

(** The page loop is deterministic: the only step from a configuration
    with pages left is the one its first iteration decides. *)
Lemma loop_step_cons ip rest st c' :
  loop_step {| todo := ip :: rest; conf_state := st; conf_exc := None |} c' <->
  c' = match merge_page_iteration ip st with
       | Ok st' => {| todo := rest; conf_state := st'; conf_exc := None |}
       | Raise e => {| todo := []; conf_state := st; conf_exc := Some e |}
       end.
Proof.
  split.
  - inversion 1 as [? ? ? ? E|? ? ? ? E]; subst; by rewrite E.
  - intros ->. destruct (merge_page_iteration ip st) eqn:E; by constructor.
Qed.

Lemma ev_cons (P : LoopConf -> Prop) ip rest st :
  eventually P (match merge_page_iteration ip st with
                | Ok st' => {| todo := rest; conf_state := st'; conf_exc := None |}
                | Raise e => {| todo := []; conf_state := st; conf_exc := Some e |}
                end) ->
  eventually P {| todo := ip :: rest; conf_state := st; conf_exc := None |}.
Proof.
  intros H. apply ev_later; [eexists; by apply loop_step_cons|].
  by intros c' ->%loop_step_cons.
Qed.

(** The configuration after a prefix of pages that ran. *)
Lemma eventually_prefix (P : LoopConf -> Prop) l1 l2 st st1 :
  py_for l1 merge_page_iteration st = Ok st1 ->
  P {| todo := l2; conf_state := st1; conf_exc := None |} ->
  eventually P {| todo := l1 ++ l2; conf_state := st; conf_exc := None |}.
Proof.
  revert st. induction l1 as [|ip l1 IH]; intros st; simpl; [by intros [= ->]; constructor|].
  intros Hrun HP. apply ev_cons.
  destruct (merge_page_iteration ip st) eqn:E; [by apply IH|done].
Qed.

(** The enumerated pages of a document split around page [k]. *)
Lemma indexed_split {A} (l : list A) k x :
  l !! k = Some x ->
  indexed l = zip (seq 0 k) (take k l) ++ (k, x) :: zip (seq (S k) (length (drop (S k) l))) (drop (S k) l).
Proof.
  intros Hk. unfold indexed. rewrite <- (take_drop_middle l k x Hk) at 1 2.
  rewrite zip_seq_app. simpl. rewrite length_take_le by (apply lookup_lt_Some in Hk; lia). done.
Qed.


(** C11. When the document opens and every page renders, [custom_spot_merge]
    exits 0 having written [output_<i>.jpg] for every page [i] in order
    and printed [Wrote: output_<i>.jpg] for each; the image of page [i]
    has the page's raster size at 150 dpi, four 8-bit CMYK channels, and
    reads back as the merged rows of that page's separations. *)
Theorem custom_spot_merge_writes_all pages :
  open_pages "TestFiles/Robots Plus Process Colors.pdf" = Ok pages ->
  Forall page_renders pages ->
  exit_status custom_spot_merge = 0%Z /\
  printed custom_spot_merge = map wrote (seq 0 (length pages)) /\
  map fst (written custom_spot_merge) = map output_name (seq 0 (length pages)) /\
  Forall2 page_merged pages (map snd (written custom_spot_merge)).
Proof.
  intros Ho Hall. unfold custom_spot_merge. cbv zeta.
  change ("TestFiles/" ++ "Robots Plus Process Colors.pdf")%string
    with "TestFiles/Robots Plus Process Colors.pdf". rewrite Ho.
  destruct (page_loop_ok 0 pages merge_init Hall) as (imgs & Hloop & Him).
  unfold indexed. rewrite (py_for_st_ok _ _ _ _ Hloop). cbn [printed written exit_status merge_printed
    merge_written app].
  assert (Hl : length (map output_name (seq 0 (length pages))) = length imgs)
    by (rewrite length_map, length_seq; exact (Forall2_length _ _ _ Him)).
  cbn [merge_printed merge_written merge_init app]. rewrite map_fst_zip, map_snd_zip by exact Hl. done.
Qed.

(** C12. An exception ends the loop but not what the pages before it did: if
    pages [0 .. k-1] render and page [k] has no readable inks, the files
    [output_0.jpg .. output_<k-1>.jpg] stay written, the lines for them
    stay printed, the handler prints the [MakoException] and the process
    exits 1; no later page is attempted. *)
Theorem custom_spot_merge_stops pages k p m :
  open_pages "TestFiles/Robots Plus Process Colors.pdf" = Ok pages ->
  pages !! k = Some p -> Forall page_renders (take k pages) ->
  find_spots p = Raise (MakoException m) ->
  exit_status custom_spot_merge = 1%Z /\
  printed custom_spot_merge =
    map wrote (seq 0 k) ++ [("MakoException " ++ pretty (merge_error_code m) ++ ": " ++ m)%string] /\
  map fst (written custom_spot_merge) = map output_name (seq 0 k).
Proof.
  intros Ho Hk Hpre Hf. unfold custom_spot_merge. cbv zeta.
  change ("TestFiles/" ++ "Robots Plus Process Colors.pdf")%string
    with "TestFiles/Robots Plus Process Colors.pdf". rewrite Ho.
  destruct (page_loop_ok 0 (take k pages) merge_init Hpre) as (imgs & Hloop & Him).
  assert (Hlen : length (take k pages) = k) by (apply length_take_le; apply lookup_lt_Some in Hk; lia).
  rewrite Hlen in Hloop. rewrite (indexed_split _ _ _ Hk), (py_for_st_raise _ _ _ _ _ _ (MakoException m) Hloop).
  - cbn. split; [done|split; [done|]].
    apply map_fst_zip. rewrite length_map, length_seq, <- Hlen. exact (Forall2_length _ _ _ Him).
  - unfold merge_page_iteration. destruct (page_extent p). by rewrite Hf.
Qed.

(** C13. Liveness of the page loop: if pages [0 .. i] of the document render,
    the loop eventually reaches a configuration in which [output_<i>.jpg]
    has been written, whatever the pages after [i] do. *)
Theorem page_written_eventually pages i p :
  pages !! i = Some p -> Forall page_renders (take (S i) pages) ->
  eventually (fun c => In (output_name i) (map fst (merge_written (conf_state c))))
    {| todo := indexed pages; conf_state := merge_init; conf_exc := None |}.
Proof.
  intros Hi Hpre. rewrite (indexed_split _ _ _ Hi), cons_middle, app_assoc.
  rewrite (take_S_r _ _ _ Hi) in Hpre.
  destruct (page_loop_ok 0 (take i pages ++ [p]) merge_init Hpre) as (imgs & Hloop & Him).
  assert (Hlen : length (take i pages) = i) by (apply length_take_le; apply lookup_lt_Some in Hi; lia).
  rewrite zip_seq_app, Hlen in Hloop. simpl in Hloop.
  eapply eventually_prefix; [exact Hloop|]. cbn [conf_state merge_written merge_init app].
  rewrite map_fst_zip.
  - rewrite length_app, Hlen, Nat.add_1_r, seq_S, map_app. apply in_or_app. right. by left.
  - rewrite length_map, length_seq. exact (Forall2_length _ _ _ Him).
Qed.

End Proofs.

(** ** Concrete runs *)

Lemma numbered_renderer_laws : @SeparationRendererLaws nat numbered_renderer.
Proof. constructor. intros page w h names bufs bufs' [= <-]. apply paint_planes_shape. Qed.

Lemma sample_spots_ok : Forall spot_ok sample_spots.
Proof. repeat constructor; simpl; try lia; apply Qle_bool_iff; reflexivity. Qed.

Lemma test_page_renders bad n : n <> bad -> @page_renders (test_merge_sdk bad) n.
Proof.
  intros Hn. eexists _, _. split; [|split; [exact sample_spots_ok|reflexivity]].
  simpl. by rewrite decide_False.
Qed.

Lemma custom_spot_merge_writes_all_witness :
  exit_status (@custom_spot_merge (test_merge_sdk 9) stored_codec) = 0%Z /\
  printed (@custom_spot_merge (test_merge_sdk 9) stored_codec) = map wrote (seq 0 3) /\
  map fst (written (@custom_spot_merge (test_merge_sdk 9) stored_codec)) = map output_name (seq 0 3) /\
  Forall2 (@page_merged (test_merge_sdk 9) stored_codec) [0; 1; 2]
    (map snd (written (@custom_spot_merge (test_merge_sdk 9) stored_codec))).
Proof.
  apply (@custom_spot_merge_writes_all (test_merge_sdk 9) stored_codec numbered_renderer_laws
           (fun _ _ => eq_refl) [0; 1; 2]).
  - reflexivity.
  - repeat constructor; apply test_page_renders; lia.
Defined.

Lemma custom_spot_merge_stops_witness :
  exit_status (@custom_spot_merge (test_merge_sdk 1) stored_codec) = 1%Z /\
  printed (@custom_spot_merge (test_merge_sdk 1) stored_codec) =
    map wrote (seq 0 1) ++ ["MakoException 7: no ink information"%string] /\
  map fst (written (@custom_spot_merge (test_merge_sdk 1) stored_codec)) = map output_name (seq 0 1).
Proof.
  apply (@custom_spot_merge_stops (test_merge_sdk 1) stored_codec numbered_renderer_laws
           (fun _ _ => eq_refl) [0; 1; 2] 1 1 "no ink information").
  - reflexivity.
  - reflexivity.
  - repeat constructor; apply test_page_renders; lia.
  - reflexivity.
Defined.

Lemma page_written_eventually_witness :
  @eventually (test_merge_sdk 9) stored_codec
    (fun c => In (output_name 2) (map fst (merge_written (conf_state c))))
    {| todo := @indexed (@MPage (test_merge_sdk 9)) [0; 1; 2]; conf_state := merge_init; conf_exc := None |}.
Proof.
  apply (@page_written_eventually (test_merge_sdk 9) stored_codec numbered_renderer_laws
           (fun _ _ => eq_refl) [0; 1; 2] 2 2).
  - reflexivity.
  - repeat constructor; apply test_page_renders; lia.
Defined.

End SpotMergeMain.
