(* ===== verification/PartialImage.v ===== *)
(** * Scanline Codec Pipeline: [get_partial_image], [GetPartialImage/main.py]

    [get_partial_image(jawsMako, image, sub_image_rect)] (lines 48-119)
    extracts a rectangle of an image in one forward pass over its rows:
    normalise the bit depth to 8 or 16 (lines 55-73), compute the stride and
    bytes per pixel (lines 75-77), return [IDOMImage.Null()] when the
    rectangle is not inside the image (lines 79-82), create a writer and
    image backed by the LZ4 temporary store (lines 84-103), skip [y] rows
    (line 109), copy [dY] row slices through two shared buffers (lines
    105-116), flush (line 118).  [get_partial_image] below follows these
    steps against the interfaces of [ImageFrame]; it also returns the
    source cursor, so that the order of the operations on the source is
    observable.

    Theorems: normalisation yields 8 or 16 bits and leaves 8/16-bit frames
    alone; a rectangle outside the image gives the null image before any
    row is touched; a rectangle inside gives an image of its size whose rows
    read back as the crop of the source, with exactly one skip and [dY]
    reads on the source cursor; extracting the whole image reproduces it;
    negative sizes pass the containment check and then raise; a 1-bit
    source normalises to samples 0 and 255. *)

From S2P Require Import Prelude ImageFrame.

Module PartialImage.
Import ImageFrame.

(** Lines 55-73. *)
Definition normalize_bit_depth `{ImageBitScaler} (fr : ImageFrame) : ImageFrame * nat :=
  let bps := fr_bps fr in
  if decide (bps < 8) then (bit_scale 8 fr, 8)
  else if decide (bps <> 8 /\ bps <> 16) then (bit_scale 16 fr, 16)
  else (fr, bps).

(** The state the copy loop threads: the source cursor, [row_buffer],
    [target_row_buffer] and the frame writer. *)
Record CopyState := {
  cs_cursor : Cursor;
  cs_row_buffer : list Z;
  cs_target : list Z;
  cs_writer : RawWriter
}.

(** Lines 112-116, one iteration.  [start] is [int(sub_image_rect.x) *
    bpp]; the slice assignment [target_row_buffer[:] = ...] replaces the
    whole target buffer, so its length for the next row is the length of
    this slice. *)
Definition copy_row (start : nat) (_ : nat) (st : CopyState) : result CopyState :=
  rc <- read_scan_line (cs_cursor st) ;;
  let row_buffer := rc.1 in
  let target := py_slice row_buffer start (start + length (cs_target st)) in
  w <- write_scan_line (cs_writer st) target ;;
  Ok {| cs_cursor := rc.2; cs_row_buffer := row_buffer; cs_target := target; cs_writer := w |}.

(** The rectangle of the whole image, line 80. *)
Definition image_rect (fr : ImageFrame) : FRect :=
  {| rx := 0; ry := 0; rdX := inject_Z (Z.of_nat (fr_width fr));
     rdY := inject_Z (Z.of_nat (fr_height fr)) |}.

(** Lines 48-119.  The result is the returned image ([None] for
    [IDOMImage.Null()]) and the source cursor after the call. *)
Definition get_partial_image `{ImageBitScaler} `{TempCodec} (image : ImageFrame) (r : FRect)
    : result (option RawImage * Cursor) :=
  let nb := normalize_bit_depth image in
  let fr := nb.1 in
  let bps := nb.2 in
  let color_space := fr_color_space fr in
  let stride := fr_stride fr in
  let bpp := fr_channels fr * bps / 8 in
  let cur := open_cursor fr in
  if negb (contains_rect (image_rect fr) r) then Ok (None, cur)
  else
    w <- create_writer color_space (fr_channels fr) (py_int (rdX r)) (py_int (rdY r)) bps
                       (fr_xres fr) (fr_yres fr) ;;
    let row_buffer := repeat 0%Z stride in
    target <- py_bytearray (py_int (rdX r) * Z.of_nat bpp) ;;
    skip <- to_uint (py_int (ry r)) ;;
    cur <- skip_scan_lines cur skip ;;
    st <- for_range (Z.to_nat (py_int (rdY r))) (copy_row (Z.to_nat (py_int (rx r)) * bpp))
            {| cs_cursor := cur; cs_row_buffer := row_buffer; cs_target := target;
               cs_writer := w |} ;;
    Ok (Some (flush_data (cs_writer st)), cs_cursor st).

(** ** What the copy produces *)

(** Rows [y .. y + h) of a frame, bytes [x * bpp .. (x + w) * bpp). *)
Definition crop_rows (fr : ImageFrame) (x y w h bpp : nat) : list (list Z) :=
  map (fun row => py_slice row (x * bpp) (x * bpp + w * bpp)) (take h (drop y (fr_rows fr))).

(** The integer geometry of a rectangle: [int(x)], [int(y)], [int(dX)],
    [int(dY)] as sizes and offsets. *)
Definition rect_x (r : FRect) : nat := Z.to_nat (py_int (rx r)).
Definition rect_y (r : FRect) : nat := Z.to_nat (py_int (ry r)).
Definition rect_w (r : FRect) : nat := Z.to_nat (py_int (rdX r)).
Definition rect_h (r : FRect) : nat := Z.to_nat (py_int (rdY r)).

(** The frame and depth after normalisation, and the bytes per pixel. *)
Definition norm_frame `{ImageBitScaler} (image : ImageFrame) : ImageFrame :=
  (normalize_bit_depth image).1.
Definition norm_bps `{ImageBitScaler} (image : ImageFrame) : nat := (normalize_bit_depth image).2.
Definition norm_bpp `{ImageBitScaler} (image : ImageFrame) : nat :=
  fr_channels (norm_frame image) * norm_bps image / 8.

(** The writer [createWriterAndImage] returns for the rectangle. *)
Definition target_writer `{ImageBitScaler} (image : ImageFrame) (r : FRect) : RawWriter :=
  let fr := norm_frame image in
  {| rw_width := rect_w r; rw_height := rect_h r; rw_bps := norm_bps image;
     rw_channels := fr_channels fr; rw_color_space := fr_color_space fr;
     rw_xres := fr_xres fr; rw_yres := fr_yres fr; rw_data := [] |}.

(** Sample inputs for concrete runs: a 4 x 3 grey image, and one row of
    ten 1-bit samples. *)
Definition sample_image : ImageFrame :=
  {| fr_width := 4; fr_height := 3; fr_bps := 8; fr_channels := 1; fr_color_space := "DeviceGray";
     fr_xres := 72; fr_yres := 72; fr_stride := 4;
     fr_rows := [[1; 2; 3; 4]; [5; 6; 7; 8]; [9; 10; 11; 12]]%Z |}.

Definition sample_rect : FRect := {| rx := 1; ry := 1; rdX := 2; rdY := 2 |}.

Definition sample_bitmap : ImageFrame :=
  {| fr_width := 10; fr_height := 1; fr_bps := 1; fr_channels := 1; fr_color_space := "DeviceGray";
     fr_xres := 72; fr_yres := 72; fr_stride := 2; fr_rows := [[165; 192]]%Z |}.

(** ** Proofs against the collaborators' contracts *)

Section Proofs.
Context {BS : ImageBitScaler} {BSL : @ImageBitScalerLaws BS} {TC : TempCodec}.

Lemma normalize_geometry fr :
  let fr' := (normalize_bit_depth fr).1 in
  fr_width fr' = fr_width fr /\ fr_height fr' = fr_height fr /\
  fr_channels fr' = fr_channels fr /\ fr_color_space fr' = fr_color_space fr /\
  fr_xres fr' = fr_xres fr /\ fr_yres fr' = fr_yres fr /\
  fr_bps fr' = (normalize_bit_depth fr).2 /\
  (frame_ok fr -> frame_ok fr').
Proof.
  unfold normalize_bit_depth. repeat case_decide; simpl;
    rewrite ?bs_width, ?bs_height, ?bs_channels, ?bs_color_space, ?bs_xres, ?bs_yres, ?bs_bps;
    repeat match goal with |- _ /\ _ => split end; try done; intros; apply bs_ok; auto.
Qed.

(** Lines 57-73: the depth after normalisation is 8 or 16; a source below
    8 bits is scaled to 8, one of another depth to 16, and an 8- or 16-bit
    source is left as it is. *)
Theorem normalize_bit_depth_spec fr :
  (norm_bps fr = 8 \/ norm_bps fr = 16) /\ fr_bps (norm_frame fr) = norm_bps fr /\
  (fr_bps fr < 8 -> norm_bps fr = 8) /\
  (8 < fr_bps fr -> fr_bps fr <> 16 -> norm_bps fr = 16) /\
  (fr_bps fr = 8 \/ fr_bps fr = 16 -> normalize_bit_depth fr = (fr, fr_bps fr)).
Proof.
  destruct (normalize_geometry fr) as (_ & _ & _ & _ & _ & _ & Hb & _).
  unfold norm_frame, norm_bps in *. rewrite Hb. unfold normalize_bit_depth.
  repeat case_decide; simpl; repeat split; intros; try lia; try done.
Qed.

Lemma row_bytes_bpp w ch bps : bps = 8 \/ bps = 16 -> w * ch * bps / 8 = w * (ch * bps / 8).
Proof.
  intros Hb. assert (exists k, ch * bps = k * 8) as [k Hk]
    by (destruct Hb as [-> | ->]; [exists ch | exists (ch * 2)]; lia).
  rewrite <- Nat.mul_assoc, Hk, Nat.mul_assoc, !Nat.div_mul by lia. done.
Qed.

Lemma py_bytearray_of_nat n : py_bytearray (Z.of_nat n) = Ok (repeat 0%Z n).
Proof. unfold py_bytearray. rewrite decide_False by lia. by rewrite Nat2Z.id. Qed.

Lemma crop_rows_S fr x y w i bpp row :
  fr_rows fr !! (y + i) = Some row ->
  crop_rows fr x y w (S i) bpp =
  crop_rows fr x y w i bpp ++ [py_slice row (x * bpp) (x * bpp + w * bpp)].
Proof.
  intros Hr. unfold crop_rows. rewrite (take_S_r _ _ row) by (by rewrite lookup_drop).
  by rewrite map_app.
Qed.

Lemma length_crop_rows fr x y w h bpp :
  y + h <= length (fr_rows fr) -> length (crop_rows fr x y w h bpp) = h.
Proof. intros H. unfold crop_rows. rewrite length_map, length_take, length_drop. lia. Qed.

Lemma crop_rows_len fr x y w h bpp :
  frame_ok fr -> x * bpp + w * bpp <= fr_stride fr ->
  Forall (fun row => length row = w * bpp) (crop_rows fr x y w h bpp).
Proof.
  intros [_ Hl _ _] Hx. unfold crop_rows. apply Forall_map.
  apply Forall_take, Forall_drop. eapply Forall_impl; [exact Hl|]. simpl.
  intros row Hrow. rewrite length_py_slice; lia.
Qed.

(** Lines 112-116: after [h] iterations the cursor has read rows [y ..
    y + h) and nothing else, and the writer holds their slices. *)
Lemma copy_loop_ok fr x y w h bpp L wr rb target :
  frame_ok fr -> x + w <= fr_width fr -> y + h <= fr_height fr ->
  fr_width fr * bpp <= fr_stride fr ->
  length target = w * bpp -> rw_row_bytes wr = w * bpp ->
  exists st,
    for_range h (copy_row (x * bpp))
      {| cs_cursor := {| cur_frame := fr; cur_pos := y; cur_log := L |};
         cs_row_buffer := rb; cs_target := target; cs_writer := wr |} = Ok st /\
    cs_cursor st = {| cur_frame := fr; cur_pos := y + h; cur_log := L ++ repeat OpRead h |} /\
    cs_writer st = rw_append wr (concat (crop_rows fr x y w h bpp)).
Proof.
  intros Hok Hx Hy Hst Ht Hw. pose proof Hok as [Hr Hl _ _].
  destruct (for_range_inv (fun i st =>
      cs_cursor st = {| cur_frame := fr; cur_pos := y + i; cur_log := L ++ repeat OpRead i |} /\
      length (cs_target st) = w * bpp /\
      cs_writer st = rw_append wr (concat (crop_rows fr x y w i bpp))) h (copy_row (x * bpp))
      {| cs_cursor := {| cur_frame := fr; cur_pos := y; cur_log := L |};
         cs_row_buffer := rb; cs_target := target; cs_writer := wr |})
    as (st & E & Hc & _ & Hwr).
  - simpl. rewrite Nat.add_0_r, app_nil_r, rw_append_nil. done.
  - intros i st Hi (Hc & Ht' & Hw').
    destruct (proj2 (lookup_lt_is_Some (fr_rows fr) (y + i)) ltac:(lia)) as [row Hrow].
    pose proof (Forall_lookup_1 _ _ _ _ Hl Hrow) as Hlen. simpl in Hlen.
    assert (length (py_slice row (x * bpp) (x * bpp + w * bpp)) = w * bpp) as Hlt
      by (rewrite length_py_slice; nia).
    eexists. split.
    + unfold copy_row. rewrite Hc, (read_scan_line_ok _ row) by exact Hrow.
      rewrite res_bind_Ok. cbn [fst snd]. rewrite Ht', write_scan_line_ok.
      * rewrite res_bind_Ok. reflexivity.
      * rewrite Hw'. exact (eq_trans Hlt (eq_sym Hw)).
    + cbn [cs_cursor cs_target cs_writer]. split; [|split; [exact Hlt|]].
      * cbn. f_equal; [lia|]. by rewrite <- app_assoc, <- repeat_cons.
      * rewrite Hw', rw_append_app, (crop_rows_S _ _ _ _ _ _ row Hrow), concat_app. simpl.
        by rewrite app_nil_r.
  - by exists st.
Qed.

Lemma rect_fits (W H : nat) r :
  contains_rect {| rx := 0; ry := 0; rdX := inject_Z (Z.of_nat W); rdY := inject_Z (Z.of_nat H) |} r
    = true ->
  (0 <= rdX r)%Q -> (0 <= rdY r)%Q ->
  rect_x r + rect_w r <= W /\ rect_y r + rect_h r <= H /\
  py_int (rdX r) = Z.of_nat (rect_w r) /\ py_int (rdY r) = Z.of_nat (rect_h r) /\
  py_int (ry r) = Z.of_nat (rect_y r).
Proof.
  intros (Hx & Hy & HxW & HyH)%contains_image_rect HdX HdY.
  unfold rect_x, rect_y, rect_w, rect_h. rewrite !py_int_nonneg by done.
  pose proof (Qfloor_add_le (rx r) (rdX r)). pose proof (Qfloor_add_le (ry r) (rdY r)).
  pose proof (Qfloor_le_Z _ _ HxW). pose proof (Qfloor_le_Z _ _ HyH).
  pose proof (Qfloor_ge 0 (rx r) Hx). pose proof (Qfloor_ge 0 (ry r) Hy).
  pose proof (Qfloor_ge 0 (rdX r) HdX). pose proof (Qfloor_ge 0 (rdY r) HdY).
  lia.
Qed.

Lemma image_rect_norm image : image_rect (norm_frame image) = image_rect image.
Proof.
  destruct (normalize_geometry image) as (Hw & Hh & _). unfold image_rect, norm_frame.
  by rewrite Hw, Hh.
Qed.

Lemma norm_stride image :
  frame_ok image -> fr_width (norm_frame image) * norm_bpp image <= fr_stride (norm_frame image).
Proof.
  intros Hok. destruct (normalize_geometry image) as (_ & _ & _ & _ & _ & _ & Hb & Hok').
  destruct (Hok' Hok) as [_ _ Hs _]. unfold norm_bpp, norm_bps, norm_frame in *.
  rewrite <- row_bytes_bpp by apply normalize_bit_depth_spec.
  unfold packed_row_bytes in Hs. rewrite Hb in Hs.
  etransitivity; [|exact Hs]. apply Nat.Div0.div_le_mono; lia.
Qed.

(** The whole run for a rectangle inside the image. *)
Lemma get_partial_image_run image r :
  frame_ok image -> contains_rect (image_rect image) r = true ->
  (0 <= rdX r)%Q -> (0 <= rdY r)%Q ->
  get_partial_image image r =
  Ok (Some (flush_data (rw_append (target_writer image r)
              (concat (crop_rows (norm_frame image) (rect_x r) (rect_y r) (rect_w r) (rect_h r)
                         (norm_bpp image))))),
      {| cur_frame := norm_frame image; cur_pos := rect_y r + rect_h r;
         cur_log := [OpSkip (rect_y r)] ++ repeat OpRead (rect_h r) |}).
Proof.
  intros Hok Hc HdX HdY.
  destruct (normalize_geometry image) as (Hw & Hh & _ & _ & _ & _ & Hb & Hok').
  specialize (Hok' Hok). rewrite <- image_rect_norm in Hc.
  pose proof Hc as Hc'. unfold image_rect in Hc'.
  destruct (rect_fits _ _ r Hc' HdX HdY) as (Hx & Hy & EdX & EdY & Ey).
  unfold get_partial_image. cbv zeta.
  change (normalize_bit_depth image).1 with (norm_frame image).
  change (normalize_bit_depth image).2 with (norm_bps image).
  change (fr_channels (norm_frame image) * norm_bps image / 8) with (norm_bpp image).
  rewrite Hc. cbn [negb]. rewrite EdX, EdY. unfold create_writer. rewrite !to_uint_of_nat, !res_bind_Ok.
  rewrite <- Nat2Z.inj_mul, py_bytearray_of_nat, res_bind_Ok, Ey, to_uint_of_nat, res_bind_Ok.
  rewrite skip_scan_lines_ok by (simpl; destruct Hok' as [Hr _ _ _]; lia). rewrite res_bind_Ok.
  destruct (copy_loop_ok (norm_frame image) (rect_x r) (rect_y r) (rect_w r) (rect_h r)
              (norm_bpp image) [OpSkip (rect_y r)] (target_writer image r)
              (repeat 0%Z (fr_stride (norm_frame image))) (repeat 0%Z (rect_w r * norm_bpp image)))
    as (st & E & Hcur & Hwr); try done; try lia.
  - by apply norm_stride.
  - apply repeat_length.
  - unfold rw_row_bytes, target_writer. simpl. apply row_bytes_bpp, normalize_bit_depth_spec.
  - unfold target_writer in E. simpl in E |- *. rewrite Nat2Z.id.
    change (Z.to_nat (py_int (rx r))) with (rect_x r). rewrite E, res_bind_Ok, Hcur, Hwr. done.
Qed.

Lemma crop_rows_shape image r :
  frame_ok image -> contains_rect (image_rect image) r = true ->
  (0 <= rdX r)%Q -> (0 <= rdY r)%Q ->
  let rows := crop_rows (norm_frame image) (rect_x r) (rect_y r) (rect_w r) (rect_h r)
                        (norm_bpp image) in
  length rows = rect_h r /\ Forall (fun row => length row = rect_w r * norm_bpp image) rows.
Proof.
  intros Hok Hc HdX HdY.
  destruct (normalize_geometry image) as (Hw & Hh & _ & _ & _ & _ & _ & Hok').
  specialize (Hok' Hok). change (frame_ok (norm_frame image)) in Hok'.
  rewrite <- image_rect_norm in Hc. unfold image_rect in Hc.
  destruct (rect_fits _ _ r Hc HdX HdY) as (Hx & Hy & _).
  pose proof (norm_stride image Hok). split.
  - apply length_crop_rows. destruct Hok' as [Hr _ _ _]. lia.
  - apply crop_rows_len; [done|]. nia.
Qed.

(** The image a contained rectangle gives, with its geometry and rows. *)
Lemma get_partial_image_rows image r :
  frame_ok image -> contains_rect (image_rect image) r = true ->
  (0 <= rdX r)%Q -> (0 <= rdY r)%Q ->
  exists img cur, get_partial_image image r = Ok (Some img, cur) /\
    ri_width img = rect_w r /\ ri_height img = rect_h r /\ ri_bps img = norm_bps image /\
    ri_color_space img = fr_color_space image /\
    image_rows img = Some (crop_rows (norm_frame image) (rect_x r) (rect_y r) (rect_w r) (rect_h r)
                                     (norm_bpp image)).
Proof.
  intros Hok Hc HdX HdY. rewrite get_partial_image_run by done.
  destruct (crop_rows_shape image r Hok Hc HdX HdY) as [Hl Hrows].
  destruct (normalize_geometry image) as (_ & _ & _ & Hcs & _).
  eexists _, _. split; [reflexivity|]. simpl. split; [done|split; [done|split; [done|split]]].
  - exact Hcs.
  - apply image_rows_flush; simpl; [done|done|].
    eapply Forall_impl; [exact Hrows|]. intros row ->. unfold rw_row_bytes. simpl.
    symmetry. apply row_bytes_bpp, normalize_bit_depth_spec.
Qed.

(** C2. A rectangle inside the image gives an image of [int(dX)] by
    [int(dY)] pixels, at the normalised depth and in the source's colour
    space, whose rows, read back through the temporary store, are the
    rows [y .. y + dY) of the normalised source cut to the bytes
    [x * bpp .. (x + dX) * bpp). *)
Theorem get_partial_image_crop image r :
  frame_ok image -> contains_rect (image_rect image) r = true ->
  (0 <= rdX r)%Q -> (0 <= rdY r)%Q ->
  exists img cur, get_partial_image image r = Ok (Some img, cur) /\
    ri_width img = rect_w r /\ ri_height img = rect_h r /\ ri_bps img = norm_bps image /\
    ri_color_space img = fr_color_space image /\
    image_rows img = Some (crop_rows (norm_frame image) (rect_x r) (rect_y r) (rect_w r) (rect_h r)
                                     (norm_bpp image)).
Proof. apply get_partial_image_rows. Qed.

(** C6. The source is read in one forward pass: the only operations on its
    cursor are one skip of [int(y)] rows followed by exactly [int(dY)]
    reads, and the cursor ends just below the rectangle. *)
Theorem get_partial_image_single_pass image r :
  frame_ok image -> contains_rect (image_rect image) r = true ->
  (0 <= rdX r)%Q -> (0 <= rdY r)%Q ->
  exists img cur, get_partial_image image r = Ok (Some img, cur) /\
    cur_log cur = OpSkip (rect_y r) :: repeat OpRead (rect_h r) /\
    cur_pos cur = rect_y r + rect_h r.
Proof. intros. rewrite get_partial_image_run by done. by eexists _, _. Qed.

(** The containment guard of lines 79-82 and what it returns. *)
Lemma get_partial_image_null image r :
  (rx r < 0 \/ ry r < 0 \/ inject_Z (Z.of_nat (fr_width image)) < rx r + rdX r \/
   inject_Z (Z.of_nat (fr_height image)) < ry r + rdY r)%Q ->
  get_partial_image image r = Ok (None, open_cursor (norm_frame image)).
Proof.
  intros Hout. unfold get_partial_image. cbv zeta.
  change (normalize_bit_depth image).1 with (norm_frame image).
  rewrite image_rect_norm. unfold image_rect.
  destruct (contains_rect _ r) eqn:E; [|done].
  apply contains_image_rect in E. lra.
Qed.

(** C5. A rectangle that leaves the image (spec: [x + dX > width]) gives
    [IDOMImage.Null()], before any writer is created or any source row is
    skipped or read. *)
Theorem get_partial_image_out_of_bounds image r :
  (rx r < 0 \/ ry r < 0 \/ inject_Z (Z.of_nat (fr_width image)) < rx r + rdX r \/
   inject_Z (Z.of_nat (fr_height image)) < ry r + rdY r)%Q ->
  get_partial_image image r = Ok (None, open_cursor (norm_frame image)).
Proof. apply get_partial_image_null. Qed.

Lemma crop_rows_full fr bpp :
  frame_ok fr -> fr_stride fr = fr_width fr * bpp ->
  crop_rows fr 0 0 (fr_width fr) (fr_height fr) bpp = fr_rows fr.
Proof.
  intros [Hr Hl _ _] Hs. unfold crop_rows. rewrite drop_0, take_ge by lia.
  rewrite <- (map_id (fr_rows fr)) at 2. apply map_ext_in. intros row Hin.
  apply List.Forall_forall with (x := row) in Hl; [|done].
  unfold py_slice. rewrite drop_0, take_ge; [done|lia].
Qed.

(** C32. Extracting the rectangle of the whole image of an 8- or 16-bit source
    without row padding reproduces the source byte for byte. *)
Theorem get_partial_image_full image :
  frame_ok image -> (fr_bps image = 8 \/ fr_bps image = 16) ->
  fr_stride image = fr_width image * (fr_channels image * fr_bps image / 8) ->
  exists img cur, get_partial_image image (image_rect image) = Ok (Some img, cur) /\
    ri_width img = fr_width image /\ ri_height img = fr_height image /\
    image_rows img = Some (fr_rows image).
Proof.
  intros Hok Hb Hs.
  destruct (get_partial_image_rows image (image_rect image)) as (img & cur & E & Hw & Hh & _ & _ & Hrows);
    try done; try (simpl; change 0%Q with (inject_Z 0); rewrite <- Zle_Qle; lia).
  - unfold image_rect. apply contains_image_rect. simpl. lra.
  - assert (Hn : normalize_bit_depth image = (image, fr_bps image)) by apply normalize_bit_depth_spec, Hb.
    assert (rect_x (image_rect image) = 0 /\ rect_y (image_rect image) = 0 /\
            rect_w (image_rect image) = fr_width image /\ rect_h (image_rect image) = fr_height image)
      as (Ex & Ey & Ew & Eh)
      by (unfold rect_x, rect_y, rect_w, rect_h, image_rect; simpl;
          rewrite !py_int_of_nat, !Nat2Z.id; done).
    exists img, cur. rewrite Hw, Hh, Hrows, Ex, Ey, Ew, Eh. split; [done|split; [done|split; [done|]]].
    unfold norm_bpp, norm_frame, norm_bps. rewrite Hn. cbn [fst snd]. f_equal. by apply crop_rows_full.
Qed.

(** C33. A rectangle with a negative width passes the containment check (spec
    section 3 admits it) and then fails: [int(dX)] reaches the SDK's
    unsigned width parameter, which raises. *)
Theorem get_partial_image_negative_size image r :
  contains_rect (image_rect image) r = true -> (rdX r <= -1)%Q ->
  get_partial_image image r = Raise (MakoException "negative value for an unsigned parameter").
Proof.
  intros Hc Hn. unfold get_partial_image. cbv zeta.
  change (normalize_bit_depth image).1 with (norm_frame image).
  rewrite image_rect_norm, Hc. cbn [negb]. unfold create_writer, to_uint.
  assert (py_int (rdX r) <= -1)%Z as Hi.
  { unfold py_int. destruct (Qle_bool 0 (rdX r)) eqn:E.
    - apply Qle_bool_iff in E. lra.
    - rewrite <- (Qceiling_Z (-1)). by apply Qceiling_resp_le. }
  rewrite decide_True by lia. done.
Qed.

(** The spec's scenario: the region [{230, 230, 400, 250}] of a
    [2000 x 1500] 8-bit RGB image is a [400 x 250] image whose first row is
    source row 230, columns 230 to 629 (bytes 690 to 1889). *)
Theorem partial_image_scenario image :
  frame_ok image -> fr_width image = 2000 -> fr_height image = 1500 ->
  fr_bps image = 8 -> fr_channels image = 3 ->
  exists img cur rows row230,
    get_partial_image image {| rx := 230; ry := 230; rdX := 400; rdY := 250 |} = Ok (Some img, cur) /\
    ri_width img = 400 /\ ri_height img = 250 /\ image_rows img = Some rows /\
    length rows = 250 /\ fr_rows image !! 230 = Some row230 /\
    rows !! 0 = Some (py_slice row230 690 1890).
Proof.
  intros Hok Hw Hh Hb Hc.
  set (r := {| rx := 230; ry := 230; rdX := 400; rdY := 250 |}).
  destruct (get_partial_image_rows image r) as (img & cur & E & Ew & Eh & _ & _ & Hrows); try done;
    try (apply Qle_bool_iff; reflexivity).
  { unfold image_rect. rewrite Hw, Hh. reflexivity. }
  assert (Hn : normalize_bit_depth image = (image, 8)) by (rewrite <- Hb; apply normalize_bit_depth_spec; lia).
  destruct Hok as [Hr _ _ _].
  destruct (proj2 (lookup_lt_is_Some (fr_rows image) 230) ltac:(lia)) as [row230 H230].
  exists img, cur, (crop_rows image 230 230 400 250 3), row230.
  unfold norm_bpp, norm_frame, norm_bps in Hrows. rewrite Hn in Hrows. cbn [fst snd] in Hrows. rewrite Hc in Hrows.
  repeat split; try done.
  - unfold crop_rows. rewrite length_map, length_take, length_drop. lia.
  - unfold crop_rows. rewrite list_lookup_map, lookup_take_lt, lookup_drop by lia.
    rewrite Nat.add_0_r, H230. done.
Qed.

End Proofs.

(** ** The executable scaler: 1-bit sources *)

Lemma rescale_one_bit s : (0 <= s <= Z.ones (Z.of_nat 1))%Z ->
  rescale 1 8 s = 0%Z \/ rescale 1 8 s = 255%Z.
Proof.
  intros Hs. change (Z.ones (Z.of_nat 1)) with 1%Z in Hs.
  assert (s = 0 \/ s = 1)%Z as [-> | ->] by lia; [left|right]; reflexivity.
Qed.

(** With the linear scaler, a 1-bit source normalises to 8-bit samples
    that are all 0 or 255 (spec section 8). *)
Theorem normalize_one_bit fr :
  fr_bps fr = 1 ->
  Forall (Forall (fun b => b = 0%Z \/ b = 255%Z)) (fr_rows (@norm_frame linear_bit_scaler fr)).
Proof.
  intros Hb. unfold norm_frame, normalize_bit_depth. rewrite Hb, decide_True by lia. simpl.
  apply Forall_map, Forall_true. intros row. unfold scale_row.
  apply List.Forall_forall. intros b (j & _ & Hin)%in_flat_map.
  unfold pack_sample in Hin. rewrite decide_False in Hin by lia.
  destruct Hin as [<- | []]. rewrite Hb. apply rescale_one_bit, sample_at_range.
Qed.

(** ** Witnesses *)

Lemma sample_image_ok : frame_ok sample_image.
Proof. apply frame_okb_sound. reflexivity. Qed.

Lemma get_partial_image_crop_witness :
  exists img cur,
    @get_partial_image linear_bit_scaler stored_codec sample_image sample_rect = Ok (Some img, cur) /\
    ri_width img = 2 /\ ri_height img = 2 /\ ri_bps img = 8 /\ ri_color_space img = "DeviceGray" /\
    @image_rows stored_codec img = Some [[6; 7]; [10; 11]]%Z.
Proof.
  apply (@get_partial_image_crop linear_bit_scaler linear_bit_scaler_laws stored_codec
           sample_image sample_rect).
  - apply frame_okb_sound. vm_compute. reflexivity.
  - vm_compute. reflexivity.
  - apply Qle_bool_iff. reflexivity.
  - apply Qle_bool_iff. reflexivity.
Defined.

Lemma get_partial_image_single_pass_witness :
  exists img cur,
    @get_partial_image linear_bit_scaler stored_codec sample_image sample_rect = Ok (Some img, cur) /\
    cur_log cur = OpSkip 1 :: repeat OpRead 2 /\ cur_pos cur = 1 + 2.
Proof.
  apply (@get_partial_image_single_pass linear_bit_scaler linear_bit_scaler_laws stored_codec
           sample_image sample_rect).
  - apply frame_okb_sound. vm_compute. reflexivity.
  - vm_compute. reflexivity.
  - apply Qle_bool_iff. reflexivity.
  - apply Qle_bool_iff. reflexivity.
Defined.

Lemma get_partial_image_out_of_bounds_witness :
  @get_partial_image linear_bit_scaler stored_codec sample_image
    {| rx := 3; ry := 0; rdX := 2; rdY := 1 |} =
  Ok (None, open_cursor (@norm_frame linear_bit_scaler sample_image)).
Proof.
  apply (@get_partial_image_out_of_bounds linear_bit_scaler linear_bit_scaler_laws stored_codec).
  right. right. left. apply Qlt_alt. reflexivity.
Defined.

Lemma get_partial_image_full_witness :
  exists img cur,
    @get_partial_image linear_bit_scaler stored_codec sample_image (image_rect sample_image) =
      Ok (Some img, cur) /\
    ri_width img = 4 /\ ri_height img = 3 /\ @image_rows stored_codec img = Some (fr_rows sample_image).
Proof.
  apply (@get_partial_image_full linear_bit_scaler linear_bit_scaler_laws stored_codec sample_image).
  - apply frame_okb_sound. vm_compute. reflexivity.
  - left. reflexivity.
  - reflexivity.
Defined.

Lemma get_partial_image_negative_size_witness :
  @get_partial_image linear_bit_scaler stored_codec sample_image
    {| rx := 2; ry := 0; rdX := -1; rdY := 1 |} =
  Raise (MakoException "negative value for an unsigned parameter").
Proof.
  apply (@get_partial_image_negative_size linear_bit_scaler linear_bit_scaler_laws stored_codec).
  - vm_compute. reflexivity.
  - apply Qle_bool_iff. reflexivity.
Defined.

Lemma partial_image_scenario_witness :
  exists img cur rows row230,
    @get_partial_image linear_bit_scaler stored_codec (uniform_frame 2000 1500 3 8 128)
      {| rx := 230; ry := 230; rdX := 400; rdY := 250 |} = Ok (Some img, cur) /\
    ri_width img = 400 /\ ri_height img = 250 /\ @image_rows stored_codec img = Some rows /\
    length rows = 250 /\ fr_rows (uniform_frame 2000 1500 3 8 128) !! 230 = Some row230 /\
    rows !! 0 = Some (py_slice row230 690 1890).
Proof.
  apply (@partial_image_scenario linear_bit_scaler linear_bit_scaler_laws stored_codec).
  - apply uniform_frame_ok. lia.
  - reflexivity.
  - reflexivity.
  - reflexivity.
  - reflexivity.
Defined.

Lemma normalize_bit_depth_spec_witness :
  fr_bps sample_bitmap < 8 /\ @norm_bps linear_bit_scaler sample_bitmap = 8 /\
  @normalize_bit_depth linear_bit_scaler sample_image = (sample_image, 8).
Proof.
  destruct (@normalize_bit_depth_spec linear_bit_scaler linear_bit_scaler_laws sample_bitmap)
    as (_ & _ & Hlt & _ & _).
  destruct (@normalize_bit_depth_spec linear_bit_scaler linear_bit_scaler_laws sample_image)
    as (_ & _ & _ & _ & Heq).
  split; [vm_compute; lia|]. split; [apply Hlt; vm_compute; lia|].
  apply Heq. left. reflexivity.
Defined.

Lemma normalize_one_bit_witness :
  Forall (Forall (fun b => b = 0%Z \/ b = 255%Z))
    (fr_rows (@norm_frame linear_bit_scaler sample_bitmap)).
Proof. apply normalize_one_bit. reflexivity. Defined.

End PartialImage.
