(* ===== verification/PartialMain.v ===== *)
(** * GetPartialImage's [main()], lines 18-45

    [Pycharm Projects/GetPartialImage/main.py] decodes
    [TestFiles/WEV_086.JPG], cuts the rectangle [FRect(230, 230, 400, 250)]
    out of it with [get_partial_image] ([PartialImage]) and encodes the
    result as [JustTheKayak.png]; the two handlers print a Mako exception
    or any other exception.  The decoder and the PNG encoder are the
    SDK's ([PartialMainSDK]); the encoder receives the image handle as
    [get_partial_image] returns it, [None] standing for [IDOMImage.Null()]. *)

From S2P Require Import Prelude ImageFrame PartialImage.

Module PartialMain.
Import ImageFrame PartialImage.

(** [IDOMJPEGImage.create(factory, IInputStream.createFromFile(...))] with
    the frame it decodes to, and [IDOMPNGImage.encode(mako, image,
    IOutputStream.createToFile(factory, path))]. *)
Class PartialMainSDK := {
  open_jpeg : string -> result ImageFrame;
  encode_png : option RawImage -> string -> result unit
}.

(** The lines printed and the files the encoder wrote. *)
Record MainOutcome := {
  printed : list string;
  written : list (string * option RawImage)
}.

Section Main.
Context `{SDK : PartialMainSDK} `{BS : ImageBitScaler} `{TC : TempCodec}.

(** Line 32. *)
Definition sub_image_rect : FRect := {| rx := 230; ry := 230; rdX := 400; rdY := 250 |}.

(** Lines 42-45. *)
Definition report (e : PyExc) : MainOutcome :=
  match e with
  | MakoException m => {| printed := [("Mako exception thrown: " ++ m)%string]; written := [] |}
  | _ => {| printed := [("Exception thrown: " ++ py_exc_str e)%string]; written := [] |}
  end.

(** Lines 18-45. *)
Definition main : MainOutcome :=
  let test_file_path := "TestFiles/" in
  match (image <- open_jpeg (test_file_path ++ "WEV_086.JPG") ;;
         res <- get_partial_image image sub_image_rect ;;
         let partial_image := res.1 in
         _ <- encode_png partial_image "JustTheKayak.png" ;;
         Ok partial_image) with
  | Ok partial_image => {| printed := []; written := [("JustTheKayak.png", partial_image)] |}
  | Raise e => report e
  end.

End Main.

(** A decoder that delivers one grey frame of the given size, and an
    encoder that accepts everything, for concrete runs. *)
Definition test_partial_sdk (w h : nat) : PartialMainSDK := {|
  open_jpeg _ := Ok (uniform_frame w h 1 8 128);
  encode_png _ _ := Ok tt
|}.

Section Proofs.
Context `{SDK : PartialMainSDK} {BS : ImageBitScaler} {BSL : @ImageBitScalerLaws BS} {TC : TempCodec}.

Lemma main_path : ("TestFiles/" ++ "WEV_086.JPG")%string = "TestFiles/WEV_086.JPG".
Proof. reflexivity. Qed.

(** A rational below an integer bound of a pixel count. *)
Lemma Q_le_nat (q : Q) (k : Z) (n : nat) :
  Qle_bool q (inject_Z k) = true -> (k <= Z.of_nat n)%Z -> (q <= inject_Z (Z.of_nat n))%Q.
Proof. intros Hq%Qle_bool_iff Hk. eapply Qle_trans; [exact Hq|]. by rewrite <- Zle_Qle. Qed.

Lemma Q_gt_nat (q : Q) (k : Z) (n : nat) :
  Qlt_bool (inject_Z k) q = true -> (Z.of_nat n <= k)%Z -> (inject_Z (Z.of_nat n) < q)%Q.
Proof. intros Hq%Qlt_bool_iff Hk. eapply Qle_lt_trans; [|exact Hq]. by rewrite <- Zle_Qle. Qed.

(** C14. When the JPEG decodes to a well-formed image of at least 630 by 480
    pixels and the encoder accepts the image, [main] prints nothing and
    writes [JustTheKayak.png]: a 400 by 250 image whose rows are rows
    230-479 of the normalised source, cut to the pixels 230-629. *)
Theorem main_writes_kayak image :
  open_jpeg "TestFiles/WEV_086.JPG" = Ok image -> frame_ok image ->
  630 <= fr_width image -> 480 <= fr_height image ->
  (forall img, encode_png (Some img) "JustTheKayak.png" = Ok tt) ->
  exists img, main = {| printed := []; written := [("JustTheKayak.png", Some img)] |} /\
    ri_width img = 400 /\ ri_height img = 250 /\ ri_bps img = norm_bps image /\
    image_rows img = Some (crop_rows (norm_frame image) 230 230 400 250 (norm_bpp image)).
Proof.
  intros Ho Hok Hw Hh Henc.
  assert (Hc : contains_rect (image_rect image) sub_image_rect = true).
  { apply contains_image_rect. simpl.
    repeat split; [apply Qle_bool_iff; reflexivity|apply Qle_bool_iff; reflexivity| |];
      [apply (Q_le_nat _ 630)|apply (Q_le_nat _ 480)]; first [reflexivity|lia]. }
  destruct (get_partial_image_rows image sub_image_rect Hok Hc) as (img & cur & E & Hiw & Hih & Hib & _ & Hr);
    try (apply Qle_bool_iff; reflexivity).
  exists img. unfold main. cbv zeta. rewrite main_path, Ho, res_bind_Ok, E, res_bind_Ok. cbn [fst].
  rewrite Henc, res_bind_Ok. split; [done|]. by rewrite Hiw, Hih, Hib, Hr.
Qed.

(** C15. [main] never looks at what [get_partial_image] returns: for a source
    narrower than 630 pixels the rectangle leaves it, the function returns
    [IDOMImage.Null()] (the spec calls this a normal outcome), and [main]
    hands the null image to the PNG encoder, so the run ends as the
    encoder's treatment of a null image decides. *)
Theorem main_passes_null image :
  open_jpeg "TestFiles/WEV_086.JPG" = Ok image -> fr_width image < 630 ->
  main = match encode_png None "JustTheKayak.png" with
         | Ok _ => {| printed := []; written := [("JustTheKayak.png", None)] |}
         | Raise e => report e
         end.
Proof.
  intros Ho Hw. unfold main. cbv zeta. rewrite main_path, Ho, res_bind_Ok.
  rewrite get_partial_image_null, res_bind_Ok.
  - cbn [fst]. by destruct (encode_png None "JustTheKayak.png").
  - right; right; left. apply (Q_gt_nat _ 629); [reflexivity|lia].
Qed.

End Proofs.

Lemma main_writes_kayak_witness :
  exists img, @main (test_partial_sdk 640 480) linear_bit_scaler stored_codec =
    {| printed := []; written := [("JustTheKayak.png", Some img)] |} /\
    ri_width img = 400 /\ ri_height img = 250 /\
    ri_bps img = @norm_bps linear_bit_scaler (uniform_frame 640 480 1 8 128) /\
    @image_rows stored_codec img =
      Some (crop_rows (@norm_frame linear_bit_scaler (uniform_frame 640 480 1 8 128)) 230 230 400 250
              (@norm_bpp linear_bit_scaler (uniform_frame 640 480 1 8 128))).
Proof.
  apply (@main_writes_kayak (test_partial_sdk 640 480) linear_bit_scaler linear_bit_scaler_laws stored_codec
           (uniform_frame 640 480 1 8 128)).
  - reflexivity.
  - apply uniform_frame_ok. lia.
  - simpl. lia.
  - simpl. lia.
  - reflexivity.
Defined.

Lemma main_passes_null_witness :
  @main (test_partial_sdk 320 240) linear_bit_scaler stored_codec =
    {| printed := []; written := [("JustTheKayak.png", None)] |}.
Proof.
  apply (@main_passes_null (test_partial_sdk 320 240) linear_bit_scaler linear_bit_scaler_laws stored_codec
           (uniform_frame 320 240 1 8 128)).
  - reflexivity.
  - simpl. lia.
Defined.

End PartialMain.
