(* ===== verification/Progress.v ===== *)
(** * Progress monitoring ([ProgressMonitoring/progress_monitoring.py])

    The sample converts a document from one format to another while
    progress monitors report on it.  This file models:
    - [ConverterParams.format_from_path] (lines 34-51): the file format
      named by the path's last extension, lower-cased;
    - [ProgressHandler] (lines 54-63): a tick counter that prints its count;
    - [ProgressEventHandler.Callback.handleEvent] (lines 66-102): a state
      machine over page and node events, with its counters and its stack
      of open node ids, as a step function and a step relation;
    - [output_iterate_by_page] (lines 117-163): the document and page
      loops, as [while] loops with fuel, over an assembly given by the
      page counts of its documents, recording the SDK calls they make;
    - [main] (lines 170-216): argument checks, parameters, the lines it
      prints and its return value, and [process_status] (lines 219-220),
      the status [sys.exit] leaves to the shell.
    What is printed is kept as a list of messages. *)

From Stdlib Require Import Ascii String.
From Stdlib Require Import Sorted.
From stdpp Require Import relations.
From S2P Require Import Prelude.

Module Progress.

(** ** File formats (lines 34-51) *)

Inductive FileFormat :=
  | eFFXPS | eFFPDF | eFFSVG | eFFPS | eFFEPS | eFFPCL5 | eFFPCLXL | eFFIJPDS | eFFPPML | eFFOXPS.

#[export] Instance FileFormat_eq_dec : EqDecision FileFormat.
Proof. solve_decision. Defined.

(** [str.lower] on ASCII text. *)
Definition ascii_lower (c : ascii) : ascii :=
  let n := nat_of_ascii c in if decide (65 <= n <= 90) then ascii_of_nat (n + 32) else c.

Fixpoint str_lower (s : string) : string :=
  match s with
  | EmptyString => EmptyString
  | String c t => String (ascii_lower c) (str_lower t)
  end.

(** The dict literal of lines 37-48, in its order. *)
Definition mapping : list (string * FileFormat) :=
  [("xps", eFFXPS); ("pdf", eFFPDF); ("svg", eFFSVG); ("ps", eFFPS); ("eps", eFFEPS);
   ("pcl", eFFPCL5); ("pxl", eFFPCLXL); ("ijp", eFFIJPDS); ("zip", eFFPPML); ("oxps", eFFOXPS)].

(** [d[k]] on an association list, [None] when [k not in d]. *)
Fixpoint dict_get {A} (k : string) (d : list (string * A)) : option A :=
  match d with
  | [] => None
  | (k', v) :: d' => if decide (k = k') then Some v else dict_get k d'
  end.

Definition format_from_path (path : string) : result FileFormat :=
  let ext := after_last "." (str_lower path) in
  match dict_get ext mapping with
  | Some f => Ok f
  | None => Raise (ValueError ("Unsupported file type: " ++ path))
  end.

(** ** [ConverterParams] (lines 16-32) *)

(** The monitors are named by the handler whose ticks they report. *)
Record ConverterParams := {
  input_file_path : option string;
  input_file_format : option FileFormat;
  output_file_path : option string;
  output_file_format : option FileFormat;
  custom_transform_progress_monitor : option string;
  transform_progress_monitor : option string;
  transform_chain_progress_monitor : option string
}.

Definition new_params : ConverterParams :=
  {| input_file_path := None; input_file_format := None; output_file_path := None;
     output_file_format := None; custom_transform_progress_monitor := None;
     transform_progress_monitor := None; transform_chain_progress_monitor := None |}.

Definition set_input_path (path : string) (p : ConverterParams) : result ConverterParams :=
  fmt <- format_from_path path ;;
  Ok {| input_file_path := Some path; input_file_format := Some fmt;
        output_file_path := output_file_path p; output_file_format := output_file_format p;
        custom_transform_progress_monitor := custom_transform_progress_monitor p;
        transform_progress_monitor := transform_progress_monitor p;
        transform_chain_progress_monitor := transform_chain_progress_monitor p |}.

Definition set_output_path (path : string) (p : ConverterParams) : result ConverterParams :=
  fmt <- format_from_path path ;;
  Ok {| input_file_path := input_file_path p; input_file_format := input_file_format p;
        output_file_path := Some path; output_file_format := Some fmt;
        custom_transform_progress_monitor := custom_transform_progress_monitor p;
        transform_progress_monitor := transform_progress_monitor p;
        transform_chain_progress_monitor := transform_chain_progress_monitor p |}.

(** ** What the sample prints *)

Inductive Message :=
  | MsgTick (info : string) (count : nat)            (** line 63 *)
  | MsgStartPage (page : nat)                        (** line 81 *)
  | MsgEndPage (page nodes : nat)                    (** line 84 *)
  | MsgDepthMismatch (depth : Z)                     (** line 86 *)
  | MsgStartNode (node : nat)                        (** line 93 *)
  | MsgEmptyNodes                                    (** line 98 *)
  | MsgEndNode (node : nat).                         (** line 102 *)

(** ** [ProgressHandler] (lines 54-63) *)

Record ProgressHandler := { info : string; tick_count : nat }.

Definition new_handler (i : string) : ProgressHandler := {| info := i; tick_count := 0 |}.

Definition tick (h : ProgressHandler) (current_count max_count : nat) : ProgressHandler * Message :=
  let h' := {| info := info h; tick_count := S (tick_count h) |} in
  (h', MsgTick (info h') (tick_count h')).

(** ** [ProgressEventHandler.Callback] (lines 66-102) *)

Inductive ProgressEvent :=
  | eEvtPageWriteStart | eEvtPageWriteEnd | eEvtNodeWriteStart | eEvtNodeWriteEnd
  | eEvtOther (code : nat).

Record CbState := {
  m_pageCount : nat;
  m_nodeCount : nat;
  m_nodeDepth : Z;
  m_nodes : list nat
}.

Definition cb_init : CbState :=
  {| m_pageCount := 0; m_nodeCount := 0; m_nodeDepth := 0; m_nodes := [] |}.

(** [handleEvent]: the new state and the lines printed.  [m_nodes] is a
    Python list used as a stack: [append] and [pop] work at its end. *)
Definition handleEvent (evt : ProgressEvent) (st : CbState) : CbState * list Message :=
  match evt with
  | eEvtPageWriteStart =>
      let pc := S (m_pageCount st) in
      ({| m_pageCount := pc; m_nodeCount := 0; m_nodeDepth := 0; m_nodes := [] |},
       [MsgStartPage pc])
  | eEvtPageWriteEnd =>
      (st, MsgEndPage (m_pageCount st) (m_nodeCount st) ::
           (if decide (m_nodeDepth st <> 0)%Z then [MsgDepthMismatch (m_nodeDepth st)] else []))
  | eEvtNodeWriteStart =>
      let nc := S (m_nodeCount st) in
      ({| m_pageCount := m_pageCount st; m_nodeCount := nc;
          m_nodeDepth := (m_nodeDepth st + 1)%Z; m_nodes := m_nodes st ++ [nc] |},
       if decide (nc mod 500 = 0) then [MsgStartNode nc] else [])
  | eEvtNodeWriteEnd =>
      let st' := {| m_pageCount := m_pageCount st; m_nodeCount := m_nodeCount st;
                    m_nodeDepth := (m_nodeDepth st - 1)%Z; m_nodes := m_nodes st |} in
      match last (m_nodes st) with
      | None => (st', [MsgEmptyNodes])
      | Some node_id =>
          ({| m_pageCount := m_pageCount st; m_nodeCount := m_nodeCount st;
              m_nodeDepth := (m_nodeDepth st - 1)%Z; m_nodes := removelast (m_nodes st) |},
           if decide (node_id mod 500 = 0) then [MsgEndNode node_id] else [])
      end
  | eEvtOther _ => (st, [])
  end.

(** The events of a run, in order, with everything printed. *)
Definition run_events (evs : list ProgressEvent) (st : CbState) : CbState * list Message :=
  fold_left (fun acc e => let r := handleEvent e acc.1 in (r.1, acc.2 ++ r.2)) evs (st, []).

(** The callback as a transition system. *)
Inductive cb_step : CbState -> CbState -> Prop :=
  | cb_step_event e st : cb_step st (handleEvent e st).1.

Definition cb_reachable (st : CbState) : Prop := rtc cb_step cb_init st.

(** Node events nested as brackets. *)
Inductive balanced : list ProgressEvent -> Prop :=
  | balanced_nil : balanced []
  | balanced_node b1 b2 :
      balanced b1 -> balanced b2 ->
      balanced (eEvtNodeWriteStart :: b1 ++ eEvtNodeWriteEnd :: b2).

Fixpoint node_starts (evs : list ProgressEvent) : nat :=
  match evs with
  | [] => 0
  | eEvtNodeWriteStart :: evs' => S (node_starts evs')
  | _ :: evs' => node_starts evs'
  end.

Definition mismatch (m : Message) : bool :=
  match m with MsgDepthMismatch _ | MsgEmptyNodes => true | _ => false end.

(** The callback's invariant: the stack holds increasing ids of started
    nodes, and the depth counter never exceeds its height. *)
Record cb_inv (st : CbState) : Prop := {
  inv_sorted : StronglySorted lt (m_nodes st);
  inv_ids : Forall (fun n => 1 <= n <= m_nodeCount st) (m_nodes st);
  inv_depth : (m_nodeDepth st <= Z.of_nat (length (m_nodes st)))%Z
}.

(** [n] calls of [tick] by a monitor, with what they print. *)
Definition run_ticks (h : ProgressHandler) (n : nat) : ProgressHandler * list Message :=
  fold_left (fun acc _ => let r := tick acc.1 0 0 in (r.1, acc.2 ++ [r.2])) (seq 0 n) (h, []).

(** ** [output_iterate_by_page] (lines 117-163) *)

(** The SDK calls the loops make on the writer and the pages, in order. *)
Inductive OutOp :=
  | BeginDocument (doc : nat)           (** line 141 *)
  | TransformPage (doc page : nat)      (** [custom_transform.transformPage], line 149 *)
  | ColorConvert (doc page : nat)       (** [cc_transform.transform], line 152 *)
  | ChainTransform (doc page : nat)     (** [transform_chain.transform], line 153 *)
  | WritePage (doc page : nat)          (** line 155 *)
  | ReleasePage (doc page : nat)        (** line 156 *)
  | EndDocument (doc : nat)             (** line 159 *)
  | Finish                              (** line 162 *)
  | CopyToFile (path : string).         (** line 163 *)

(** An assembly, as the page counts of its documents:
    [documentExists(d)] holds for [d < length asm]. *)
Abbreviation Assembly := (list nat).

Record LoopState := { doc_no : nat; page_index : nat; out_log : list OutOp }.

(** [getDocument(d).getPage(i)]: the SDK raises past the last page. *)
Definition getPage (asm : Assembly) (d i : nat) : result unit :=
  count <- py_get asm d ;;
  if decide (i < count) then Ok tt else Raise (MakoException "page index out of range").

(** Lines 145-157: one iteration of the page loop. *)
Definition page_body (asm : Assembly) (st : LoopState) : option (result LoopState) :=
  let d := doc_no st in
  let p := page_index st in
  Some (_ <- getPage asm d p ;;
        Ok {| doc_no := d; page_index := S p;
              out_log := out_log st ++ [TransformPage d p; ColorConvert d p; ChainTransform d p;
                                        WritePage d p; ReleasePage d p] |}).

(** Lines 140-160: one iteration of the document loop, whose page loop
    runs [while page_index < 1]. *)
Definition doc_body (fuel : nat) (asm : Assembly) (st : LoopState) : option (result LoopState) :=
  let d := doc_no st in
  let st1 := {| doc_no := d; page_index := 0; out_log := out_log st ++ [BeginDocument d] |} in
  match py_while fuel (fun s => bool_decide (page_index s < 1)) (page_body asm) st1 with
  | Some (Ok st2) =>
      Some (Ok {| doc_no := S d; page_index := page_index st2;
                  out_log := out_log st2 ++ [EndDocument d] |})
  | r => r
  end.

(** Lines 138-163: the document loop [while assembly.documentExists(doc_no)],
    then [finish()] and the copy of the temporary store to the output
    file.  The transforms of lines 125-136 are created once and only
    appear through the calls they receive. *)
Definition output_iterate_by_page (fuel : nat) (output_path : string) (asm : Assembly)
    : option (result (list OutOp)) :=
  match py_while fuel (fun s => bool_decide (doc_no s < length asm)) (doc_body fuel asm)
          {| doc_no := 0; page_index := 0; out_log := [] |} with
  | Some (Ok st) => Some (Ok (out_log st ++ [Finish; CopyToFile output_path]))
  | Some (Raise e) => Some (Raise e)
  | None => None
  end.

(** The calls for document [d] when only its first page is visited. *)
Definition first_page_ops (d : nat) : list OutOp :=
  [BeginDocument d; TransformPage d 0; ColorConvert d 0; ChainTransform d 0;
   WritePage d 0; ReleasePage d 0; EndDocument d].

(** ** [main] (lines 170-216) *)

(** The SDK's side: [IInput.create(...).open(path)] and the error code a
    [MakoException] carries. *)
Class ConverterSDK := {
  open_assembly : FileFormat -> string -> result Assembly;
  error_code : string -> Z
}.

(** Lines 192-194: the three monitors, each fed by its handler. *)
Definition attach_monitors (p : ConverterParams) : ConverterParams :=
  {| input_file_path := input_file_path p; input_file_format := input_file_format p;
     output_file_path := output_file_path p; output_file_format := output_file_format p;
     custom_transform_progress_monitor := Some "customtransform";
     transform_progress_monitor := Some "transform";
     transform_chain_progress_monitor := Some "transformchain" |}.

(** Lines 209-214: the exit code. *)
Definition exit_code `{ConverterSDK} (e : PyExc) : Z :=
  match e with MakoException m => error_code m | _ => 1%Z end.

(** Lines 210 and 213: the line printed. *)
Definition report_line (e : PyExc) : string :=
  match e with
  | MakoException m => ("MakoException: " ++ m)%string
  | _ => ("Exception: " ++ py_exc_str e)%string
  end.

(** Lines 166-167. *)
Definition usage (prog_name : string) : string := (prog_name ++ " <input> <output>")%string.

(** What [main] leaves: its return value, the lines it prints itself
    (the monitors' lines are the callback's [Message]s), and the calls
    it makes on the writer. *)
Record Outcome := { status : Z; main_printed : list string; calls : list OutOp }.

(** Lines 170-216, [None] when the fuel runs out.  The paths are set
    before anything is opened, so an unsupported path stops [main] with
    nothing converted. *)
Definition main `{ConverterSDK} (fuel : nat) (argv : list string) : option Outcome :=
  let setup :=
    if decide (length argv <> 3) then
      prog <- py_get argv 0 ;;
      Ok (inl (usage prog))
    else
      inp <- py_get argv 1 ;;
      outp <- py_get argv 2 ;;
      p <- set_input_path inp new_params ;;
      p <- set_output_path outp p ;;
      let p := attach_monitors p in
      fmt <- (match input_file_format p with
              | Some fmt => Ok fmt
              | None => Raise (ValueError "no input format")
              end) ;;
      asm <- open_assembly fmt inp ;;
      Ok (inr (outp, asm)) in
  match setup with
  | Raise e => Some {| status := exit_code e; main_printed := [report_line e]; calls := [] |}
  | Ok (inl line) => Some {| status := 1; main_printed := [line]; calls := [] |}
  | Ok (inr (outp, asm)) =>
      match output_iterate_by_page fuel outp asm with
      | Some (Ok ops) => Some {| status := 0; main_printed := []; calls := ops |}
      | Some (Raise e) => Some {| status := exit_code e; main_printed := [report_line e]; calls := [] |}
      | None => None
      end
  end.

(** Lines 219-220: [sys.exit(main())], the status the shell sees. *)
Definition process_status `{ConverterSDK} (fuel : nat) (argv : list string) : option Z :=
  option_map (fun o => sys_exit_status (status o)) (main fuel argv).

(** An SDK for concrete runs: every input opens as a two-document
    assembly of 1 and 3 pages. *)
Definition test_converter : ConverterSDK := {|
  open_assembly _ _ := Ok [1; 3];
  error_code _ := 2%Z
|}.

(** An SDK whose input cannot be opened, with the error code 256. *)
Definition failing_converter : ConverterSDK := {|
  open_assembly _ _ := Raise (MakoException "cannot open input");
  error_code _ := 256%Z
|}.

(** ** [format_from_path] *)

Lemma mapping_keys_no_dot k f : In (k, f) mapping -> has_char "." k = false.
Proof.
  intros H. repeat (destruct H as [H|H]; [injection H as <- <-; reflexivity|]). destruct H.
Qed.

Lemma dict_get_In {A} k (d : list (string * A)) v :
  NoDup (map fst d) -> dict_get k d = Some v <-> In (k, v) d.
Proof.
  induction d as [|[k' v'] d IH]; simpl; [split; [done | by intros []]|].
  intros Hnd. apply NoDup_cons in Hnd as [Hk Hnd]. case_decide as Hkk.
  - subst k'. split; [intros [= ->]; by left|]. intros [[= ->]|Hin]; [done|].
    destruct Hk. apply (in_map fst) in Hin. by apply list_elem_of_In.
  - rewrite IH by done. split; [by right|]. intros [[= -> ->]|Hin]; [done|exact Hin].
Qed.

Lemma mapping_NoDup : NoDup (map fst mapping).
Proof. apply (bool_decide_unpack _). vm_compute. reflexivity. Qed.

(** Lines 36-51: a path names a format exactly when, lower-cased, it is
    one of the mapping's extensions or ends with a dot and one of them;
    any other path raises [ValueError]. *)
Theorem format_from_path_spec path f :
  format_from_path path = Ok f <->
  exists ext, In (ext, f) mapping /\
    (str_lower path = ext \/ exists pre, str_lower path = (pre ++ String "." ext)%string).
Proof.
  unfold format_from_path. destruct (after_last_spec "." (str_lower path)) as [_ Hform].
  split.
  - destruct (dict_get _ mapping) as [f'|] eqn:Hg; [intros [= <-]|done].
    eexists. split; [by apply dict_get_In; [apply mapping_NoDup|]|exact Hform].
  - intros (e & Hin & Hs).
    assert (after_last "." (str_lower path) = e) as ->.
    { pose proof (mapping_keys_no_dot _ _ Hin).
      destruct Hs as [-> | [pre ->]]; [by apply after_last_none | by apply after_last_unique]. }
    by rewrite (proj2 (dict_get_In _ _ _ mapping_NoDup) Hin).
Qed.

(** ** [ProgressHandler] *)

(** After [n] ticks a fresh handler has counted [n] and printed
    [info : 1], ..., [info : n]. *)
Theorem run_ticks_spec i n :
  run_ticks (new_handler i) n = ({| info := i; tick_count := n |}, map (MsgTick i) (seq 1 n)).
Proof.
  unfold run_ticks. induction n as [|n IH]; [done|].
  rewrite seq_S, fold_left_app, IH, (seq_S n 1), map_app. reflexivity.
Qed.

(** ** The callback's invariant *)

Lemma StronglySorted_snoc l x :
  StronglySorted lt l -> Forall (fun y => y < x) l -> StronglySorted lt (l ++ [x]).
Proof.
  induction l as [|a l IH]; intros Hs Hf; simpl; [repeat constructor|].
  inversion Hs; subst. inversion Hf; subst. constructor; [by apply IH|].
  apply Forall_app. split; [done|]. by constructor.
Qed.

Lemma StronglySorted_app_l l r : StronglySorted lt (l ++ r) -> StronglySorted lt l.
Proof.
  induction l as [|a l IH]; simpl; intros Hs; [constructor|].
  inversion Hs as [|? ? Hs' Hf]; subst. constructor; [by apply IH|].
  by apply Forall_app in Hf as [? _].
Qed.

Lemma handleEvent_inv e st : cb_inv st -> cb_inv (handleEvent e st).1.
Proof.
  intros [Hs Hids Hd]. destruct e; simpl; try (by constructor).
  - constructor; simpl; [constructor | constructor | lia].
  - constructor; simpl.
    + apply StronglySorted_snoc; [done|]. eapply Forall_impl; [exact Hids|]. simpl; lia.
    + apply Forall_app. split; [eapply Forall_impl; [exact Hids|]; simpl; lia|]. constructor; [lia|done].
    + rewrite length_app. simpl. lia.
  - destruct (last (m_nodes st)) as [x|] eqn:Hl.
    + apply last_Some in Hl as [l' Hl']. rewrite Hl' in Hs, Hids, Hd |- *.
      rewrite removelast_last. constructor; simpl.
      * by eapply StronglySorted_app_l.
      * by apply Forall_app in Hids as [? _].
      * rewrite length_app in Hd. simpl in Hd. lia.
    + apply last_None in Hl. rewrite Hl in Hs, Hids, Hd |- *. constructor; simpl; [done|done|].
      simpl in Hd. lia.
Qed.

(** C9. Every state the callback reaches, whatever the order of the events,
    keeps a stack of increasing ids of started nodes, no larger than the
    node counter, and a depth counter no larger than the stack. *)
Theorem cb_reachable_inv st : cb_reachable st -> cb_inv st.
Proof.
  assert (forall x y, rtc cb_step x y -> cb_inv x -> cb_inv y) as Hgen.
  { induction 1 as [|x y z Hxy _ IH]; [done|]. intros Hx. apply IH.
    inversion Hxy; subst. by apply handleEvent_inv. }
  intros Hr. apply (Hgen cb_init); [done|]. constructor; simpl; [constructor|constructor|lia].
Qed.

(** ** Runs of events *)

Lemma run_events_acc evs st ms :
  fold_left (fun acc e => let r := handleEvent e acc.1 in (r.1, acc.2 ++ r.2)) evs (st, ms) =
  ((run_events evs st).1, ms ++ (run_events evs st).2).
Proof.
  unfold run_events. revert st ms. induction evs as [|e evs IH]; intros st ms.
  - cbn. by rewrite app_nil_r.
  - cbn [fold_left fst snd]. rewrite (IH _ (ms ++ _)), (IH _ ([] ++ _)).
    cbn [fst snd app]. by rewrite app_assoc.
Qed.

Lemma run_events_cons e evs st :
  run_events (e :: evs) st =
  ((run_events evs (handleEvent e st).1).1,
   (handleEvent e st).2 ++ (run_events evs (handleEvent e st).1).2).
Proof. unfold run_events at 1. cbn [fold_left fst snd app]. by rewrite run_events_acc. Qed.

Lemma run_events_app evs1 evs2 st :
  run_events (evs1 ++ evs2) st =
  ((run_events evs2 (run_events evs1 st).1).1,
   (run_events evs1 st).2 ++ (run_events evs2 (run_events evs1 st).1).2).
Proof. unfold run_events at 1. rewrite fold_left_app. fold (run_events evs1 st).
  destruct (run_events evs1 st) as [st1 ms1]. apply run_events_acc. Qed.

Lemma node_starts_app evs1 evs2 : node_starts (evs1 ++ evs2) = node_starts evs1 + node_starts evs2.
Proof. induction evs1 as [|[] evs1 IH]; simpl; rewrite ?IH; done. Qed.

Definition no_mismatch (ms : list Message) : Prop := Forall (fun m => mismatch m = false) ms.

(** A balanced run of node events, from any state, counts its node starts,
    leaves the depth and the stack as they were, and reports no mismatch. *)
Lemma run_balanced b : balanced b -> forall st, exists ms,
  run_events b st =
  ({| m_pageCount := m_pageCount st; m_nodeCount := m_nodeCount st + node_starts b;
      m_nodeDepth := m_nodeDepth st; m_nodes := m_nodes st |}, ms) /\ no_mismatch ms.
Proof.
  induction 1 as [|b1 b2 _ IH1 _ IH2]; intros [pc nc d nodes].
  - exists []. simpl. rewrite Nat.add_0_r. split; [done|constructor].
  - rewrite run_events_cons, run_events_app.
    cbn [handleEvent fst snd m_nodes m_pageCount m_nodeCount m_nodeDepth].
    destruct (IH1 {| m_pageCount := pc; m_nodeCount := S nc; m_nodeDepth := (d + 1)%Z;
                     m_nodes := nodes ++ [S nc] |}) as (ms1 & -> & Hms1).
    rewrite run_events_cons. cbn [handleEvent fst snd m_nodes m_pageCount m_nodeCount m_nodeDepth].
    rewrite last_snoc, removelast_last. cbn [fst snd].
    destruct (IH2 {| m_pageCount := pc; m_nodeCount := S nc + node_starts b1;
                     m_nodeDepth := (d + 1 - 1)%Z; m_nodes := nodes |}) as (ms2 & -> & Hms2).
    eexists. split.
    + cbn [m_pageCount m_nodeCount m_nodeDepth m_nodes fst snd]. f_equal.
      cbn [node_starts]. rewrite node_starts_app. cbn [node_starts].
      f_equal; lia.
    + unfold no_mismatch. rewrite !Forall_app.
      repeat split; try done; case_decide; repeat constructor.
Qed.

(** Lines 75-86 on one page whose node events nest properly: the callback
    announces the page, reports at its end the number of node starts, and
    prints no mismatch; the next page starts from an empty stack. *)
Theorem page_events_balanced st b :
  balanced b ->
  exists ms,
    run_events (eEvtPageWriteStart :: b ++ [eEvtPageWriteEnd]) st =
    ({| m_pageCount := S (m_pageCount st); m_nodeCount := node_starts b; m_nodeDepth := 0;
        m_nodes := [] |},
     MsgStartPage (S (m_pageCount st)) :: ms ++ [MsgEndPage (S (m_pageCount st)) (node_starts b)]) /\
    no_mismatch ms.
Proof.
  intros Hb. rewrite run_events_cons, run_events_app. cbn [handleEvent fst snd].
  destruct (run_balanced b Hb {| m_pageCount := S (m_pageCount st); m_nodeCount := 0;
                                 m_nodeDepth := 0; m_nodes := [] |}) as (ms & -> & Hms).
  exists ms. split; [|done]. cbn. rewrite ?app_nil_r. reflexivity.
Qed.


(** ** The document and page loops *)

(** One document with at least one page: [BeginDocument], page 0 and its
    transforms, [EndDocument]; the page loop stops after page 0. *)
Lemma doc_body_ok fuel asm st c :
  2 <= fuel -> asm !! doc_no st = Some c -> 1 <= c ->
  doc_body fuel asm st =
  Some (Ok {| doc_no := S (doc_no st); page_index := 1;
              out_log := out_log st ++ first_page_ops (doc_no st) |}).
Proof.
  intros Hf Hc Hpos. destruct fuel as [|[|fuel]]; [lia|lia|]. unfold doc_body.
  rewrite (py_while_step _ _ _ _
             {| doc_no := doc_no st; page_index := 1;
                out_log := (out_log st ++ [BeginDocument (doc_no st)]) ++
                           [TransformPage (doc_no st) 0; ColorConvert (doc_no st) 0;
                            ChainTransform (doc_no st) 0; WritePage (doc_no st) 0;
                            ReleasePage (doc_no st) 0] |}).
  - rewrite py_while_stop by done. unfold first_page_ops. cbn [out_log page_index].
    by rewrite <- !app_assoc.
  - done.
  - unfold page_body, getPage. cbn [doc_no page_index out_log].
    rewrite (py_get_lookup _ _ _ Hc), res_bind_Ok, decide_True by lia. done.
Qed.

(** The document loop with enough fuel: each document contributes its first page. *)
Lemma output_iterate_by_page_run fuel path asm :
  Forall (fun c => 1 <= c) asm -> length asm < fuel -> 2 <= fuel ->
  output_iterate_by_page fuel path asm =
  Some (Ok (flat_map first_page_ops (seq 0 (length asm)) ++ [Finish; CopyToFile path])).
Proof.
  intros Hpages Hfuel Hf2. unfold output_iterate_by_page.
  destruct (py_while_inv
              (fun s => doc_no s <= length asm /\ out_log s = flat_map first_page_ops (seq 0 (doc_no s)))
              (fun s => length asm - doc_no s) (fun s => bool_decide (doc_no s < length asm))
              (doc_body fuel asm))
    with (fuel := fuel) (s := {| doc_no := 0; page_index := 0; out_log := [] |})
    as (s & -> & [Hle Hlog] & Hstop).
  - intros s [_ Hlog] Hc%bool_decide_eq_true.
    destruct (lookup_lt_is_Some_2 asm (doc_no s)) as [c Hc']; [done|].
    rewrite (doc_body_ok _ _ _ c Hf2 Hc') by (exact (Forall_lookup_1 _ _ _ _ Hpages Hc')).
    eexists. split; [done|]. cbn [doc_no out_log]. split; [split; [lia|] | lia].
    rewrite Hlog, seq_S, flat_map_app. simpl. by rewrite ?app_nil_r.
  - simpl. split; [lia|done].
  - simpl. lia.
  - apply bool_decide_eq_false in Hstop. rewrite Hlog.
    by replace (doc_no s) with (length asm) by lia.
Qed.

(** C31. With more fuel than documents, the loops of lines 138-163 end; on an
    assembly whose documents all have pages, the writer sees, for each
    document in turn, its first page only, then [finish()] and the copy to
    the output file. *)
Theorem output_iterate_by_page_spec fuel path asm :
  Forall (fun c => 1 <= c) asm -> length asm < fuel -> 2 <= fuel ->
  output_iterate_by_page fuel path asm =
  Some (Ok (flat_map first_page_ops (seq 0 (length asm)) ++ [Finish; CopyToFile path])).
Proof. apply output_iterate_by_page_run. Qed.

(** C8. Line 144 loops [while page_index < 1]: whatever the page counts, the
    pages written are exactly page 0 of each document; a document's other
    pages are never transformed nor written. *)
Theorem output_writes_first_pages_only fuel path asm ops :
  Forall (fun c => 1 <= c) asm -> length asm < fuel -> 2 <= fuel ->
  output_iterate_by_page fuel path asm = Some (Ok ops) ->
  forall d p, In (WritePage d p) ops <-> d < length asm /\ p = 0.
Proof.
  intros Hpages Hfuel Hf2. rewrite output_iterate_by_page_run by done. intros [= <-] d p.
  rewrite in_app_iff, in_flat_map. split.
  - intros [(d' & Hd' & Hin) | Hin].
    + apply in_seq in Hd'. unfold first_page_ops in Hin.
      repeat (destruct Hin as [Hin|Hin]; [try discriminate Hin; injection Hin as <- <-; lia|]).
      destruct Hin.
    + repeat (destruct Hin as [Hin|Hin]; [discriminate Hin|]). destruct Hin.
  - intros [Hd ->]. left. exists d. split; [apply in_seq; lia|]. unfold first_page_ops. simpl. tauto.
Qed.

(** A document without pages makes [getPage(0)] raise, and the
    conversion stops with the SDK's exception. *)
Example empty_document_raises :
  output_iterate_by_page 5 "out.pdf" [2; 0] = Some (Raise (MakoException "page index out of range")).
Proof. vm_compute. reflexivity. Qed.

(** ** [main] *)

Section Main.
Context `{ConverterSDK}.

(** With three arguments naming supported formats and an input that opens
    as an assembly whose documents have pages, [main] returns 0 having
    written the first page of each document (lines 170-207). *)
Theorem main_converts fuel prog inp outp fi fo asm :
  format_from_path inp = Ok fi -> format_from_path outp = Ok fo -> open_assembly fi inp = Ok asm ->
  Forall (fun c => 1 <= c) asm -> length asm < fuel -> 2 <= fuel ->
  main fuel [prog; inp; outp] =
  Some {| status := 0; main_printed := [];
          calls := flat_map first_page_ops (seq 0 (length asm)) ++ [Finish; CopyToFile outp] |}.
Proof.
  intros Hi Ho Hopen Hpages Hfuel Hf2. unfold main, set_input_path, set_output_path.
  rewrite decide_False by (simpl; lia). cbn [py_get lookup list_lookup res_bind].
  rewrite Hi, Ho, !res_bind_Ok. cbn [input_file_format attach_monitors].
  rewrite res_bind_Ok, Hopen, res_bind_Ok, output_iterate_by_page_run by done. done.
Qed.

(** [main] returns 1 without converting anything when it is not given
    exactly two arguments (lines 172-174) or when the input path names no
    supported format ([ValueError], caught at line 212). *)
Theorem main_rejects fuel argv prog inp outp :
  (length argv <> 2 -> main fuel (prog :: argv) = Some {| status := 1; main_printed := [usage prog]; calls := [] |}) /\
  ((forall f, format_from_path inp <> Ok f) ->
   main fuel [prog; inp; outp] =
   Some {| status := 1; main_printed := [("Exception: Unsupported file type: " ++ inp)%string]; calls := [] |}).
Proof.
  split.
  - intros Hlen. unfold main. rewrite decide_True by (simpl; lia). done.
  - intros Hbad. unfold main, set_input_path, format_from_path in *.
    rewrite decide_False by (simpl; lia). cbn [py_get lookup list_lookup res_bind].
    destruct (dict_get _ mapping) as [f|]; [by destruct (Hbad f)|]. done.
Qed.

(** C17. Spec section 7: an error must end in a non-zero exit status.  When
    opening the input raises a [MakoException], [main] prints its message
    and returns [int(e.m_errorCode)], and [sys.exit] hands the shell only
    that code modulo 256: an error code that is a multiple of 256 makes
    the failed conversion exit 0, as a success would. *)
Theorem mako_error_exit_status fuel prog inp outp fi fo m :
  format_from_path inp = Ok fi -> format_from_path outp = Ok fo ->
  open_assembly fi inp = Raise (MakoException m) ->
  main fuel [prog; inp; outp] =
    Some {| status := error_code m; main_printed := [("MakoException: " ++ m)%string]; calls := [] |} /\
  process_status fuel [prog; inp; outp] = Some (error_code m mod 256)%Z.
Proof.
  intros Hi Ho Hopen.
  assert (Hm : main fuel [prog; inp; outp] =
    Some {| status := error_code m; main_printed := [("MakoException: " ++ m)%string]; calls := [] |}).
  { unfold main, set_input_path, set_output_path.
    rewrite decide_False by (simpl; lia). cbn [py_get lookup list_lookup res_bind].
    rewrite Hi, Ho, !res_bind_Ok. cbn [input_file_format attach_monitors].
    by rewrite res_bind_Ok, Hopen. }
  split; [done|]. unfold process_status. rewrite Hm. simpl. by rewrite sys_exit_status_mod.
Qed.

End Main.

(** ** Witnesses *)

Lemma cb_reachable_inv_witness : cb_inv (handleEvent eEvtNodeWriteStart cb_init).1.
Proof. apply cb_reachable_inv. apply rtc_once. constructor. Defined.

Lemma page_events_balanced_witness :
  exists ms,
    run_events (eEvtPageWriteStart ::
                [eEvtNodeWriteStart; eEvtNodeWriteStart; eEvtNodeWriteEnd; eEvtNodeWriteEnd;
                 eEvtNodeWriteStart; eEvtNodeWriteEnd] ++ [eEvtPageWriteEnd]) cb_init =
    ({| m_pageCount := 1; m_nodeCount := 3; m_nodeDepth := 0; m_nodes := [] |},
     MsgStartPage 1 :: ms ++ [MsgEndPage 1 3]) /\ no_mismatch ms.
Proof.
  apply (page_events_balanced cb_init).
  apply (balanced_node [eEvtNodeWriteStart; eEvtNodeWriteEnd] [eEvtNodeWriteStart; eEvtNodeWriteEnd]);
    apply (balanced_node [] []); constructor.
Defined.

Lemma output_iterate_by_page_spec_witness :
  output_iterate_by_page 5 "out.xps" [1; 3] =
  Some (Ok (flat_map first_page_ops (seq 0 2) ++ [Finish; CopyToFile "out.xps"])).
Proof.
  apply (output_iterate_by_page_spec 5 "out.xps" [1; 3]).
  - repeat constructor; lia.
  - simpl. lia.
  - lia.
Defined.

(** The second document has three pages: its page 0 is written, its
    page 2 is not. *)
Lemma output_writes_first_pages_only_witness :
  In (WritePage 1 0) (flat_map first_page_ops (seq 0 2) ++ [Finish; CopyToFile "out.xps"]) /\
  ~ In (WritePage 1 2) (flat_map first_page_ops (seq 0 2) ++ [Finish; CopyToFile "out.xps"]).
Proof.
  pose proof (output_writes_first_pages_only 5 "out.xps" [1; 3]
                (flat_map first_page_ops (seq 0 2) ++ [Finish; CopyToFile "out.xps"])) as H.
  assert (forall d p, In (WritePage d p) (flat_map first_page_ops (seq 0 2) ++
                                          [Finish; CopyToFile "out.xps"]) <-> d < 2 /\ p = 0) as Hw.
  { apply H; [repeat constructor; lia | simpl; lia | lia | vm_compute; reflexivity]. }
  split; [apply Hw; lia|]. intros Hin. apply Hw in Hin. lia.
Defined.

Lemma main_converts_witness :
  @main test_converter 5 ["prog"; "in.PDF"; "out.xps"] =
  Some {| status := 0; main_printed := [];
          calls := flat_map first_page_ops (seq 0 2) ++ [Finish; CopyToFile "out.xps"] |}.
Proof.
  apply (@main_converts test_converter 5 "prog" "in.PDF" "out.xps" eFFPDF eFFXPS [1; 3]).
  - vm_compute. reflexivity.
  - vm_compute. reflexivity.
  - reflexivity.
  - repeat constructor; lia.
  - simpl. lia.
  - lia.
Defined.

Lemma main_rejects_witness :
  @main test_converter 5 ["prog"; "in.pdf"] =
    Some {| status := 1; main_printed := [usage "prog"]; calls := [] |} /\
  @main test_converter 5 ["prog"; "notes.txt"; "out.pdf"] =
    Some {| status := 1; main_printed := ["Exception: Unsupported file type: notes.txt"%string];
            calls := [] |}.
Proof.
  destruct (@main_rejects test_converter 5 ["in.pdf"] "prog" "notes.txt" "out.pdf") as [H1 H2].
  split; [apply H1; simpl; lia|]. apply H2. intros f. vm_compute. discriminate.
Defined.

Lemma mako_error_exit_status_witness :
  @main failing_converter 5 ["prog"; "in.pdf"; "out.pdf"] =
    Some {| status := 256; main_printed := ["MakoException: cannot open input"%string]; calls := [] |} /\
  @process_status failing_converter 5 ["prog"; "in.pdf"; "out.pdf"] = Some (256 mod 256)%Z.
Proof.
  apply (@mako_error_exit_status failing_converter 5 "prog" "in.pdf" "out.pdf" eFFPDF eFFPDF).
  - vm_compute. reflexivity.
  - vm_compute. reflexivity.
  - reflexivity.
Defined.

End Progress.
