(* ===== verification/Dom.v ===== *)
(** * The page DOM the tree samples work on

    [WalkTreeExample], [OverprintMethods], [OptionalContentSearch] and
    [CustomTextTransform] all read or change the node tree of a fixed
    page through the SDK.  This file holds that tree and the SDK's
    traversals, as the samples rely on them (none of it is code of the
    repository):
    - [Node]: path nodes with their fill and overprint flags, glyphs nodes
      with their fill, groups of a node type with optional-content
      references and children, and other leaves;
    - addresses of nodes (child indices from the root), [node_at] and the
      in-place update [update_at] through which a reference to a node
      changes the tree it lives in;
    - [find_paths]: [findChildrenOfType(eDOMPathNode, True)], the
      addresses of all path nodes below a node, in document order;
    - [walk]: the pre-order visit of [walkTree], each node with its
      chain of ancestors ([getParentNode]). *)

From S2P Require Import Prelude.

#[local] Set Warnings "-register-all".

Module Dom.

(** ** Node types ([eDOM...Node]) *)

Inductive NodeType :=
  | eDOMFixedPageNode | eDOMGroupNode | eDOMCharPathGroupNode | eDOMTransparencyGroupNode
  | eDOMGlyphsNode | eDOMPathNode | eDOMFormNode | eDOMFormInstanceNode | eDOMContentRootNode
  | eDOMDocumentSequenceNode | eDOMDocumentNode | eDOMFixedDocumentNode | eDOMPageNode
  | eDOMCanvasNode | eDOMGlyphNode | eDOMRefNode | eDOMJobTkContentNode | eDOMJobTkNodeNode
  | eDOMJobTkValueNode | eDOMJobTkGenericNodeNode | eDOMJobTkGenericCharacterDataNode
  | eDOMVisualRootNode | eDOMOutlineNode | eDOMOutlineEntryNode | eDOMAnnotationAppearanceNode
  | eDOMFragmentNode | eDOMTileNode | eDOMNodeTypeCnt
  | eDOMOtherType (code : nat).    (** an enum value the samples do not name *)

(** ** Colours and brushes *)

Inductive ColorSpace := DeviceCMYK | DeviceRGB | DeviceGray | OtherSpace (id : nat).

#[export] Instance ColorSpace_eq_dec : EqDecision ColorSpace.
Proof. solve_decision. Defined.

Record Color := { color_space : ColorSpace; components : list Q }.

(** [IDOMBrush]: a solid colour brush ([eSolidColor]) or another kind. *)
Inductive Brush := SolidColorBrush (c : Color) | OtherBrush (brush_type : nat).

(** ** Nodes *)

Record PathProps := { fill_overprints : bool; stroke_overprints : bool; overprint_mode : bool }.

(** A fill is [None] when the node has none ([getFill()] returns [None]). *)
Inductive Node :=
  | PathNode (fill : option Brush) (props : PathProps)
  | GlyphsNode (fill : option Brush) (unicode : string)
  | GroupNode (kind : NodeType) (oc_refs : option (list nat)) (children : list Node)
  | LeafNode (kind : NodeType).

Definition node_type (n : Node) : NodeType :=
  match n with
  | PathNode _ _ => eDOMPathNode
  | GlyphsNode _ _ => eDOMGlyphsNode
  | GroupNode k _ _ => k
  | LeafNode k => k
  end.

(** Induction with a hypothesis for every child of a group. *)
Fixpoint Node_ind' (P : Node -> Prop)
    (Hpath : forall f pr, P (PathNode f pr)) (Hglyphs : forall f u, P (GlyphsNode f u))
    (Hgroup : forall k oc cs, Forall P cs -> P (GroupNode k oc cs)) (Hleaf : forall k, P (LeafNode k))
    (n : Node) : P n :=
  match n with
  | PathNode f pr => Hpath f pr
  | GlyphsNode f u => Hglyphs f u
  | GroupNode k oc cs =>
      Hgroup k oc cs
        ((fix go (cs : list Node) : Forall P cs :=
            match cs with
            | [] => Forall_nil_2 P
            | c :: cs' => Forall_cons_2 P c cs' (Node_ind' P Hpath Hglyphs Hgroup Hleaf c) (go cs')
            end) cs)
  | LeafNode k => Hleaf k
  end.

(** The number of nodes of a tree. *)
Fixpoint node_count (n : Node) : nat :=
  match n with
  | GroupNode _ _ cs => S (sum_list_with node_count cs)
  | _ => 1
  end.

(** ** Addresses *)

Abbreviation Address := (list nat).

Fixpoint node_at (a : Address) (n : Node) : option Node :=
  match a with
  | [] => Some n
  | i :: a' => match n with GroupNode _ _ cs => cs !! i ≫= node_at a' | _ => None end
  end.

(** A change made through a reference to the node at [a]. *)
Fixpoint update_at (a : Address) (f : Node -> Node) (n : Node) : Node :=
  match a with
  | [] => f n
  | i :: a' =>
      match n with
      | GroupNode k oc cs => GroupNode k oc (alter (update_at a' f) i cs)
      | _ => n
      end
  end.

(** The addresses of the path nodes among children [cs] numbered from
    [i], given the search [fp] below a child. *)
Fixpoint paths_from (fp : Node -> list Address) (i : nat) (cs : list Node) : list Address :=
  match cs with
  | [] => []
  | c :: cs' => map (cons i) (match c with PathNode _ _ => [[]] | _ => fp c end) ++ paths_from fp (S i) cs'
  end.

(** [findChildrenOfType(eDOMPathNode, True)]: the path nodes below [n], in
    document order, as addresses relative to [n]. *)
Fixpoint find_paths (n : Node) : list Address :=
  match n with
  | GroupNode _ _ cs =>
      (fix go (i : nat) (cs : list Node) : list Address :=
         match cs with
         | [] => []
         | c :: cs' =>
             map (cons i) (match c with PathNode _ _ => [[]] | _ => find_paths c end) ++ go (S i) cs'
         end) 0 cs
  | _ => []
  end.

(** Applying [f] to every path node below the root, in place. *)
Fixpoint map_paths (f : Node -> Node) (n : Node) : Node :=
  match n with
  | GroupNode k oc cs =>
      GroupNode k oc (map (fun c => match c with PathNode _ _ => f c | _ => map_paths f c end) cs)
  | _ => n
  end.

(** ** [walkTree] *)

(** The pre-order visit of [walkTree]: every node, the root first, with
    its ancestors, the nearest first. *)
Fixpoint walk (anc : list Node) (n : Node) : list (list Node * Node) :=
  (anc, n) ::
  match n with
  | GroupNode _ _ cs => concat (map (walk (n :: anc)) cs)
  | _ => []
  end.

(** ** Lemmas *)

Lemma find_paths_group k oc cs : find_paths (GroupNode k oc cs) = paths_from find_paths 0 cs.
Proof. simpl. generalize 0. induction cs as [|c cs IH]; intros i; [done|]. simpl. by rewrite IH. Qed.

Section Updates.
Variable f : Node -> Node.

Local Abbreviation upd := (fun t a => update_at a f t).

(** The updates of a subtree [i], seen from its parent. *)
Lemma fold_update_cons i addrs k oc cs :
  fold_left upd (map (cons i) addrs) (GroupNode k oc cs) =
  GroupNode k oc (alter (fun c => fold_left upd addrs c) i cs).
Proof.
  revert cs. induction addrs as [|a addrs IH]; intros cs; simpl.
  - by rewrite list_alter_id.
  - rewrite IH, list_alter_alter_eq. done.
Qed.

Lemma fold_update_paths_from prefix rest k oc :
  Forall (fun c => match c with PathNode _ _ => True
                   | _ => fold_left upd (find_paths c) c = map_paths f c end) rest ->
  fold_left upd (paths_from find_paths (length prefix) rest) (GroupNode k oc (prefix ++ rest)) =
  GroupNode k oc (prefix ++ map (fun c => match c with PathNode _ _ => f c | _ => map_paths f c end) rest).
Proof.
  revert prefix. induction rest as [|c rest IH]; intros prefix Hrest; simpl.
  - by rewrite !app_nil_r.
  - inversion Hrest as [|? ? Hc Hrest']; subst.
    set (g := match c with PathNode _ _ => f c | _ => map_paths f c end).
    assert (fold_left upd (match c with PathNode _ _ => [[]] | _ => find_paths c end) c = g) as Hc'
      by (unfold g; destruct c; done).
    rewrite fold_left_app, fold_update_cons, <- (Nat.add_0_r (length prefix)), alter_app_r.
    cbn [alter list_alter]. rewrite Hc', Nat.add_0_r.
    replace (S (length prefix)) with (length (prefix ++ [g])) by (rewrite length_app; simpl; lia).
    replace (prefix ++ g :: rest) with ((prefix ++ [g]) ++ rest) by (by rewrite <- app_assoc).
    rewrite IH by done. by rewrite <- app_assoc.
Qed.

End Updates.

(** Changing the path nodes one after the other, each through the address
    [findChildrenOfType] returned for it, gives the tree in which every
    path node is changed: no update moves or hides a node another address
    points to. *)
Theorem fold_update_find_paths f n :
  fold_left (fun t a => update_at a f t) (find_paths n) n = map_paths f n.
Proof.
  induction n as [fl pr|fl u|k oc cs IH|k] using Node_ind'; try done.
  rewrite find_paths_group. apply (fold_update_paths_from f [] cs k oc).
  eapply Forall_impl; [exact IH|]. intros [] Hc; done.
Qed.

End Dom.
