(* ===== verification/Overprint.v ===== *)
(** * Overprint on every path ([OverprintMethods/OverprintMethods.py])

    [main] opens a PDF, and on every page asks the fixed page for its path
    nodes ([findChildrenOfType(eDOMPathNode, True)]) and sets, through each
    of them, the fill overprint flag and the overprint mode (lines 31-44);
    the document is then written out (lines 47-48).  The pages are
    changed in place: each path node is reached through the reference the
    search returned, modelled by its address in the page's tree. *)

From S2P Require Import Prelude.
From S2P Require Import Dom.

Module Overprint.
Import Dom.

(** Lines 38-44: [IDOMPathNode.fromRCObject] gives [None] for a node that
    is not a path, which is then left alone; a path gets
    [setFillOverprints(True)] and [setOverprintMode(True)]. *)
Definition set_overprints (n : Node) : Node :=
  match n with
  | PathNode f pr =>
      PathNode f {| fill_overprints := true; stroke_overprints := stroke_overprints pr;
                    overprint_mode := true |}
  | _ => n
  end.

(** Lines 33-44 on one page. *)
Definition overprint_page (fixed_page : Node) : result Node :=
  let path_nodes := find_paths fixed_page in
  for_range (length path_nodes) (fun i fp =>
    a <- py_get path_nodes i ;;
    Ok (update_at a set_overprints fp)) fixed_page.

(** Lines 31-44: [page.edit()] hands out the page's content, changed in
    place. *)
Definition overprint_document (pages : list Node) : result (list Node) :=
  for_range (length pages) (fun page_index pgs =>
    fixed_page <- py_get pgs page_index ;;
    fp <- overprint_page fixed_page ;;
    Ok (<[page_index := fp]> pgs)) pages.

(** Lines 17-57: the exit code and the pages written to [test.pdf];
    [open_pages] is [IInput.open(...).getDocument()]'s pages, and a
    [MakoException] exits with the SDK's error code. *)
Definition main (open_pages : result (list Node)) (error_code : string -> Z) : Z * option (list Node) :=
  match pages <- open_pages ;; overprint_document pages with
  | Ok pages' => (0%Z, Some pages')
  | Raise (MakoException m) => (error_code m, None)
  | Raise _ => (1%Z, None)
  end.

(** Lines 60-61: [sys.exit(main())]. *)
Definition process_status (open_pages : result (list Node)) (error_code : string -> Z) : Z :=
  sys_exit_status (main open_pages error_code).1.

(** A page with a nested group: two paths, one inside the group. *)
Definition sample_page : Node :=
  GroupNode eDOMFixedPageNode None
    [PathNode None {| fill_overprints := false; stroke_overprints := false; overprint_mode := false |};
     GroupNode eDOMGroupNode None
       [GlyphsNode None "Hi";
        PathNode None {| fill_overprints := false; stroke_overprints := true; overprint_mode := false |}];
     LeafNode eDOMCanvasNode].

(** ** Proofs *)



End Overprint.
