(* ===== verification/TreeWalk.v ===== *)
(** * Dumping the node tree ([WalkTreeExample/walk_tree_example.py])

    [main] walks the first page's tree with [walkTree]; the callback
    [NodeTreeCallback.visitNode] prints each node with [dump_node_info]:
    two spaces per ancestor, found by following [getParentNode] (lines
    24-27), then the node type's name from [type_map], or
    ["Unknown type (n)"] (lines 29-63), and asks to continue (line 19). *)

From stdpp Require Import pretty.
From S2P Require Import Prelude.
From S2P Require Import Dom.

Module TreeWalk.
Import Dom.

(** Lines 32-63: [type_map.get(node_type, f"Unknown type ({node_type})")]. *)
Definition type_name (t : NodeType) : string :=
  match t with
  | eDOMFixedPageNode => "eDOMFixedPageNode"
  | eDOMGroupNode => "eDOMGroupNode"
  | eDOMCharPathGroupNode => "eDOMCharPathGroupNode"
  | eDOMTransparencyGroupNode => "eDOMTransparencyGroupNode"
  | eDOMGlyphsNode => "eDOMGlyphsNode"
  | eDOMPathNode => "eDOMPathNode"
  | eDOMFormNode => "eDOMFormNode"
  | eDOMFormInstanceNode => "eDOMFormInstanceNode"
  | eDOMContentRootNode => "eDOMContentRootNode"
  | eDOMDocumentSequenceNode => "eDOMDocumentSequenceNode"
  | eDOMDocumentNode => "eDOMDocumentNode"
  | eDOMFixedDocumentNode => "eDOMFixedDocumentNode"
  | eDOMPageNode => "eDOMPageNode"
  | eDOMCanvasNode => "eDOMCanvasNode"
  | eDOMGlyphNode => "eDOMGlyphNode"
  | eDOMRefNode => "eDOMRefNode"
  | eDOMJobTkContentNode => "eDOMJobTkContentNode"
  | eDOMJobTkNodeNode => "eDOMJobTkNodeNode"
  | eDOMJobTkValueNode => "eDOMJobTkValueNode"
  | eDOMJobTkGenericNodeNode => "eDOMJobTkGenericNodeNode"
  | eDOMJobTkGenericCharacterDataNode => "eDOMJobTkGenericCharacterDataNode"
  | eDOMVisualRootNode => "eDOMVisualRootNode"
  | eDOMOutlineNode => "eDOMOutlineNode"
  | eDOMOutlineEntryNode => "eDOMOutlineEntryNode"
  | eDOMAnnotationAppearanceNode => "eDOMAnnotationAppearanceNode"
  | eDOMFragmentNode => "eDOMFragmentNode"
  | eDOMTileNode => "eDOMTileNode"
  | eDOMNodeTypeCnt => "eDOMNodeTypeCnt"
  | eDOMOtherType n => ("Unknown type (" ++ pretty n ++ ")")%string
  end.

(** Lines 24-27: one ["  "] for every step up the parent chain. *)
Fixpoint parent_indent (parents : list Node) : string :=
  match parents with
  | [] => ""
  | _ :: p => ("  " ++ parent_indent p)%string
  end.

(** Lines 22-63: the line printed for a node with its parent chain. *)
Definition dump_node_info (parents : list Node) (node : Node) : string :=
  (parent_indent parents ++ type_name (node_type node))%string.

(** Lines 15-19 with [walkTree] (line 82): the lines printed for a page. *)
Definition walk_tree_output (fixed_page : Node) : list string :=
  map (fun '(parents, n) => dump_node_info parents n) (walk [] fixed_page).

(** Lines 66-87: what [main] prints; [open_first_page] is the content of
    page 0 of the document at the path, [error_code] the SDK's code of a
    [MakoException]. *)
Definition main (open_first_page : string -> result Node) (error_code : string -> Z) : list string :=
  match open_first_page "TestFiles/Cheshire Cat.pdf" with
  | Ok fixed_page => walk_tree_output fixed_page
  | Raise (MakoException m) => [("Exception thrown: " ++ pretty (error_code m) ++ ": " ++ m)%string]
  | Raise e => [("Exception thrown: " ++ py_exc_str e)%string]
  end.

(** The reference: a node at depth [d] is printed after [2 d] spaces,
    before its children. *)
Fixpoint spaces (d : nat) : string :=
  match d with 0 => "" | S d' => ("  " ++ spaces d')%string end.

Fixpoint tree_lines (d : nat) (n : Node) : list string :=
  (spaces d ++ type_name (node_type n))%string ::
  match n with
  | GroupNode _ _ cs => concat (map (tree_lines (S d)) cs)
  | _ => []
  end.

(** ** Proofs *)

Lemma parent_indent_spaces parents : parent_indent parents = spaces (length parents).
Proof. induction parents as [|p ps IH]; simpl; [done|]. by rewrite IH. Qed.

Lemma walk_lines anc n :
  map (fun '(parents, m) => dump_node_info parents m) (walk anc n) = tree_lines (length anc) n.
Proof.
  revert anc. induction n as [fl pr|fl u|k oc cs IH|k] using Node_ind'; intros anc;
    cbn [walk tree_lines map]; f_equal;
    try (unfold dump_node_info; by rewrite parent_indent_spaces).
  assert (length (GroupNode k oc cs :: anc) = S (length anc)) as Hl by done. revert Hl.
  generalize (GroupNode k oc cs :: anc). intros anc' Hl.
  induction IH as [|c cs' Hc _ IHcs]; [done|]. cbn [map concat].
  rewrite map_app, Hc, Hl. f_equal. exact IHcs.
Qed.

Lemma length_tree_lines d n : length (tree_lines d n) = node_count n.
Proof.
  revert d. induction n as [fl pr|fl u|k oc cs IH|k] using Node_ind'; intros d; try done.
  cbn [tree_lines length node_count]. f_equal.
  induction cs as [|c cs IHcs]; [done|]. inversion IH as [|? ? Hc Hcs]; subst.
  cbn [map concat sum_list_with]. rewrite length_app, Hc. f_equal. by apply IHcs.
Qed.

(** C37. The walk prints one line per node of the page, in document order, a
    node at depth [d] indented by [2 d] spaces: the parent-chain loop of
    lines 24-27 computes the depth. *)
Theorem walk_tree_output_spec fixed_page :
  walk_tree_output fixed_page = tree_lines 0 fixed_page /\
  length (walk_tree_output fixed_page) = node_count fixed_page.
Proof.
  unfold walk_tree_output. rewrite walk_lines. split; [done|]. apply length_tree_lines.
Qed.

End TreeWalk.
