(* ===== verification/OptionalContent.v ===== *)
(** * Optional content search ([OptionalContentSearch/main.py])

    A custom transform whose [transformGroup] collects, without
    duplicates, the optional-content groups the page's groups refer to
    (lines 17-39); [main] runs it on a clone of every page, resetting the
    collection before each one, and prints the names of the groups found
    (lines 65-80).  The SDK's side is the traversal: the generic
    implementation calls [transformGroup] on every group below the page,
    parents before children, and descends into the children when the
    override hands the group back to it (line 39). *)

From stdpp Require Import pretty.
From S2P Require Import Prelude.
From S2P Require Import Dom.

Module OptionalContent.
Import Dom.

(** Lines 34-37: append each referenced group not already found. *)
Definition add_refs (found : list nat) (refs : list nat) : list nat :=
  fold_left (fun f r => if existsb (fun x => bool_decide (x = r)) f then f else f ++ [r]) refs found.

(** Lines 30-39, on [m_foundGroups]: [details is None] leaves it as it is. *)
Definition transformGroup (found : list nat) (details : option (list nat)) : list nat :=
  match details with
  | Some refs => add_refs found refs
  | None => found
  end.

(** The generic transform: [transformGroup] on each group, then its
    children, in document order. *)
Fixpoint transform_groups (found : list nat) (n : Node) : list nat :=
  match n with
  | GroupNode _ oc cs => fold_left transform_groups cs (transformGroup found oc)
  | _ => found
  end.

(** [searchTransform.transformPage(clonedPage)] (line 74): the groups
    below the fixed page. *)
Definition transform_page (found : list nat) (fixed_page : Node) : list nat :=
  match fixed_page with
  | GroupNode _ _ cs => fold_left transform_groups cs found
  | _ => found
  end.

(** [OptionalContentSearchImplementation]'s state and what [main] prints. *)
Record SearchState := { m_foundGroups : list nat; printed : list string }.

(** Lines 65-80, one page: print its number, [reset()], transform a
    clone, print the name of each group found. *)
Definition page_step (pages : list Node) (group_name : nat -> string) (pageIndex : nat)
    (st : SearchState) : result SearchState :=
  let st := {| m_foundGroups := m_foundGroups st;
               printed := printed st ++ [("Page " ++ pretty (pageIndex + 1) ++ ":")%string] |} in
  let st := {| m_foundGroups := []; printed := printed st |} in
  clonedPage <- py_get pages pageIndex ;;
  let found := transform_page (m_foundGroups st) clonedPage in
  Ok {| m_foundGroups := found;
        printed := printed st ++ map (fun g => "  Found group: " ++ group_name g)%string found |}.

Definition search_document (pages : list Node) (group_name : nat -> string) : result SearchState :=
  for_range (length pages) (page_step pages group_name) {| m_foundGroups := []; printed := [] |}.

(** The references of the groups the traversal visits, in its order. *)
Fixpoint group_refs (n : Node) : list nat :=
  match n with
  | GroupNode _ oc cs => default [] oc ++ concat (map group_refs cs)
  | _ => []
  end.

Definition page_refs (fixed_page : Node) : list nat :=
  match fixed_page with
  | GroupNode _ _ cs => concat (map group_refs cs)
  | _ => []
  end.

(** The collection is [found] followed by the new references in the
    order they first occur, each once. *)
Definition collects (found refs result : list nat) : Prop :=
  exists new, result = found ++ new /\ NoDup result /\
    (forall x, x ∈ result <-> x ∈ found \/ x ∈ refs) /\ sublist new refs.

(** Lines 42-89: the exit code and what is printed; [open_document] is
    [IPDFInput.create(mako).open(path).getDocument()]'s pages and
    [group_name] is [optionalContent.getGroup(g).getName()]. *)
Definition main (argv : list string) (open_document : string -> result (list Node))
    (group_name : nat -> string) : Z * list string :=
  if decide (length argv < 2) then (1%Z, ["Usage: python optional_content_search.py <input.pdf>"])
  else
    let input_path := default "" (argv !! 1) in
    match pages <- open_document input_path ;; search_document pages group_name with
    | Ok st => (0%Z, printed st)
    | Raise e => (1%Z, [("Exception thrown: " ++ py_exc_str e)%string])
    end.

(** Lines 92-93: [sys.exit(main())]. *)
Definition process_status (argv : list string) (open_document : string -> result (list Node))
    (group_name : nat -> string) : Z :=
  sys_exit_status (main argv open_document group_name).1.

(** What [main] prints for page [i], searched on its own. *)
Definition page_lines (group_name : nat -> string) (i : nat) (page : Node) : list string :=
  ("Page " ++ pretty (i + 1) ++ ":")%string ::
  map (fun g => "  Found group: " ++ group_name g)%string (transform_page [] page).

(** Two pages that share group 2. *)
Definition sample_pages : list Node :=
  [GroupNode eDOMFixedPageNode None
     [GroupNode eDOMGroupNode (Some [1; 2]) [GroupNode eDOMGroupNode (Some [2]) []]];
   GroupNode eDOMFixedPageNode None
     [GroupNode eDOMGroupNode (Some [2; 3]) []; PathNode None
        {| fill_overprints := false; stroke_overprints := false; overprint_mode := false |}]].

Definition sample_names (g : nat) : string := match g with 1 => "Cut" | 2 => "Varnish" | _ => "Other" end.

(** ** Proofs *)

Lemma existsb_eq_elem (f : list nat) r : existsb (fun x => bool_decide (x = r)) f = true <-> r ∈ f.
Proof.
  rewrite existsb_exists, list_elem_of_In. split.
  - intros (x & Hx & ->%bool_decide_eq_true). done.
  - intros Hr. exists r. split; [done|]. by apply bool_decide_eq_true.
Qed.

Lemma collects_nil found : NoDup found -> collects found [] found.
Proof.
  intros Hnd. exists []. rewrite app_nil_r. repeat split; [done| |by intros [?|?%elem_of_nil]|done].
  by left.
Qed.

Lemma collects_app found refs1 refs2 mid res :
  collects found refs1 mid -> collects mid refs2 res -> collects found (refs1 ++ refs2) res.
Proof.
  intros (new1 & -> & Hnd1 & Hin1 & Hs1) (new2 & -> & Hnd2 & Hin2 & Hs2).
  exists (new1 ++ new2). split; [by rewrite app_assoc|]. split; [done|]. split.
  - intros x. rewrite Hin2, Hin1, elem_of_app. tauto.
  - by apply sublist_app.
Qed.

Lemma collects_NoDup found refs res : collects found refs res -> NoDup res.
Proof. by intros (? & _ & ? & _). Qed.

Lemma add_refs_cons found r rs :
  add_refs found (r :: rs) =
  add_refs (if existsb (fun x => bool_decide (x = r)) found then found else found ++ [r]) rs.
Proof. done. Qed.

(** Lines 34-37 keep the collection free of duplicates. *)
Lemma add_refs_collects found refs : NoDup found -> collects found refs (add_refs found refs).
Proof.
  revert found. induction refs as [|r rs IH]; intros found Hnd; [by apply collects_nil|].
  rewrite add_refs_cons.
  destruct (existsb _ found) eqn:He.
  - apply existsb_eq_elem in He. destruct (IH found Hnd) as (new & Hres & Hnd' & Hin & Hs).
    exists new. repeat split; [done|done| | |by apply sublist_cons].
    + intros Hx. apply Hin in Hx. rewrite elem_of_cons. tauto.
    + intros Hx. apply Hin. rewrite elem_of_cons in Hx. destruct Hx as [Hx|[->|Hx]]; auto.
  - assert (r ∉ found) as Hr by (intros Hr%existsb_eq_elem; congruence).
    assert (NoDup (found ++ [r])) as Hnd2.
    { apply NoDup_app. split; [done|]. split; [|apply NoDup_singleton].
      intros x Hx ->%list_elem_of_singleton. done. }
    destruct (IH _ Hnd2) as (new & Hres & Hnd' & Hin & Hs). rewrite Hres in Hnd', Hin |- *.
    exists (r :: new). split; [by rewrite <- app_assoc|]. split; [done|]. split; [|by apply sublist_skip].
    intros x. rewrite Hin, elem_of_app, list_elem_of_singleton, elem_of_cons. tauto.
Qed.

Lemma fold_collects cs mid :
  Forall (fun c => forall f, NoDup f -> collects f (group_refs c) (transform_groups f c)) cs ->
  NoDup mid -> collects mid (concat (map group_refs cs)) (fold_left transform_groups cs mid).
Proof.
  intros Hcs. revert mid. induction Hcs as [|c cs Hc _ IHcs]; intros mid Hmid; [by apply collects_nil|].
  cbn [fold_left map concat]. eapply collects_app; [by apply Hc|].
  apply IHcs. eapply collects_NoDup, Hc, Hmid.
Qed.

Lemma transform_groups_collects n found :
  NoDup found -> collects found (group_refs n) (transform_groups found n).
Proof.
  revert found. induction n as [fl pr|fl u|k oc cs IH|k] using Node_ind'; intros found Hnd;
    try by apply collects_nil.
  cbn [transform_groups group_refs]. apply (collects_app _ _ _ (transformGroup found oc)).
  - destruct oc as [refs|]; simpl; [by apply add_refs_collects | by apply collects_nil].
  - apply fold_collects; [done|].
    destruct oc as [refs|]; [eapply collects_NoDup, add_refs_collects, Hnd | done].
Qed.

(** One page searched from an empty collection yields the groups its
    groups refer to, each once, in an order compatible with the
    references (lines 30-39 under the traversal of line 74). *)
Theorem transform_page_spec fixed_page :
  collects [] (page_refs fixed_page) (transform_page [] fixed_page).
Proof.
  destruct fixed_page as [| |k oc cs|]; try (apply collects_nil; constructor).
  apply fold_collects; [|constructor]. apply Forall_forall. intros c _ f Hf.
  by apply transform_groups_collects.
Qed.

(** C28. Because [reset()] (line 69) empties the collection before each page,
    [main] prints, for every page in turn, its number and the names of
    the groups found on that page alone, whatever the earlier pages
    referred to. *)
Theorem search_document_spec pages group_name :
  exists st, search_document pages group_name = Ok st /\
             printed st = concat (imap (page_lines group_name) pages).
Proof.
  unfold search_document.
  destruct (for_range_inv (fun i st => printed st = concat (imap (page_lines group_name) (take i pages)))
              (length pages) (page_step pages group_name) {| m_foundGroups := []; printed := [] |})
    as (st & Hrun & Hst).
  - by rewrite take_0.
  - intros i st Hi Hst. destruct (lookup_lt_is_Some_2 pages i) as [p Hp]; [done|].
    unfold page_step. rewrite (py_get_lookup _ _ _ Hp), res_bind_Ok.
    eexists. split; [done|]. cbn [printed m_foundGroups]. rewrite Hst.
    rewrite (take_S_r _ _ _ Hp), imap_app, concat_app, length_take_le by lia.
    cbn [imap concat]. rewrite Nat.add_0_r, app_nil_r, <- !app_assoc. done.
  - exists st. split; [done|]. by rewrite Hst, take_ge by lia.
Qed.

(** Group 2 is referred to on both pages: it is reported for each. *)
Example search_sample_pages :
  search_document sample_pages sample_names =
  Ok {| m_foundGroups := [2; 3];
        printed := ["Page 1:"; "  Found group: Cut"; "  Found group: Varnish";
                    "Page 2:"; "  Found group: Varnish"; "  Found group: Other"] |}.
Proof. vm_compute. reflexivity. Qed.

End OptionalContent.
