(* ===== verification/TextTransform.v ===== *)
(** * Recolouring black text ([CustomTextTransform/custom_text_transform.py])

    [TextTransformImplementation.transformGlyphs] (lines 27-50) replaces
    the fill of glyphs painted with a solid DeviceCMYK colour whose black
    component is within 1e-4 of 1 by the CMYK colour (0, 0, 0, ink); any
    other glyphs go to the generic implementation unchanged, an exception
    being printed and then handled the same way.  The custom transform
    calls it on every glyphs node of a page and puts the node it returns
    in place.  The value [changed] the method receives is a Python bool:
    the assignment of line 41 rebinds the local name and the caller's
    flag is returned as it came. *)

From S2P Require Import Prelude.
From S2P Require Import Dom.

Module TextTransform.
Import Dom.

(** Lines 36-37: [color.getColorSpace().equals(DeviceCMYK)] and then
    [abs(color.getComponentValue(3) - 1.0) < 0.0001]; [None] when the
    component is missing and the SDK raises. *)
Definition near_black (c : Color) : option bool :=
  if decide (color_space c = DeviceCMYK) then
    match components c !! 3 with
    | Some k => Some (Qlt_bool (Qabs (k - 1)) (1 # 10000))
    | None => None
    end
  else Some false.

(** Lines 38-39: [createSolidCmyk(factory, 0.0, 0.0, 0.0, ink)]. *)
Definition ink_brush (textInkValue : Q) : Brush :=
  SolidColorBrush {| color_space := DeviceCMYK; components := [0%Q; 0%Q; 0%Q; textInkValue] |}.

(** Lines 27-50: the node handed back, the caller's [changed] flag after
    the call, and what is printed on [stderr]. *)
Definition transformGlyphs (textInkValue : Q) (glyphs : Node) (changed : bool)
    : Node * bool * list string :=
  match glyphs with
  | GlyphsNode fill u =>
      match fill with
      | None => (glyphs, changed,
                 ["std::exception thrown: 'NoneType' object has no attribute 'getBrushType'"])
      | Some (OtherBrush _) => (glyphs, changed, [])
      | Some (SolidColorBrush c) =>
          match near_black c with
          | Some true => (GlyphsNode (Some (ink_brush textInkValue)) u, changed, [])
          | Some false => (glyphs, changed, [])
          | None => (glyphs, changed, ["Exception thrown: component index out of range"])
          end
      end
  | _ => (glyphs, changed, [])
  end.

(** The custom transform on a page ([transformPage(page, changed)], line
    85): every glyphs node replaced by what [transformGlyphs] returns,
    with the lines printed, in document order. *)
Fixpoint transform_tree (textInkValue : Q) (n : Node) : Node * list string :=
  match n with
  | GlyphsNode _ _ => let r := transformGlyphs textInkValue n false in (r.1.1, r.2)
  | GroupNode k oc cs =>
      let rs := map (transform_tree textInkValue) cs in
      (GroupNode k oc (map fst rs), concat (map snd rs))
  | _ => (n, [])
  end.

(** Lines 82-86: each page transformed in place, in order. *)
Definition transform_pages (textInkValue : Q) (pages : list Node) : result (list Node * list string) :=
  for_range (length pages) (fun i st =>
    page <- py_get st.1 i ;;
    let r := transform_tree textInkValue page in
    Ok (<[i := r.1]> st.1, st.2 ++ r.2)) (pages, []).

(** Lines 53-100: the exit code, the output file and its pages, and what
    is printed on [stderr].  [parse_float] is Python's [float], whose
    [ValueError] (line 61) is raised outside the [try] and ends the
    program with status 1; [open_pages] is the input's pages. *)
Definition main (argv : list string) (parse_float : string -> result Q)
    (open_pages : string -> result (list Node)) (error_code : string -> Z)
    : Z * option (string * list Node) * list string :=
  match argv with
  | [_; input_file; output_file; ink_arg] =>
      match parse_float ink_arg with
      | Raise e => (1%Z, None, [("ValueError: " ++ py_exc_str e)%string])
      | Ok ink_value =>
          match pages <- open_pages ("TestFiles/" ++ input_file)%string ;; transform_pages ink_value pages with
          | Ok (pages', msgs) => (0%Z, Some (output_file, pages'), msgs)
          | Raise (MakoException m) => (error_code m, None, [("Exception thrown: " ++ m)%string])
          | Raise e => (1%Z, None, [("std::exception thrown: " ++ py_exc_str e)%string])
          end
      end
  | _ => (1%Z, None, [("Usage: " ++ default "" (head argv) ++ " <input> <output> <inkValue>")%string])
  end.

(** Lines 103-104: [main()], whose [sys.exit] calls (lines 56, 95, 98,
    100) set the status the shell sees. *)
Definition process_status (argv : list string) (parse_float : string -> result Q)
    (open_pages : string -> result (list Node)) (error_code : string -> Z) : Z :=
  sys_exit_status (main argv parse_float open_pages error_code).1.1.

(** The reference: the colour every glyphs node should end with. *)
Definition recolor (textInkValue : Q) (fill : option Brush) : option Brush :=
  match fill with
  | Some (SolidColorBrush c) =>
      if decide (color_space c = DeviceCMYK) then
        match components c !! 3 with
        | Some k => if Qlt_bool (Qabs (k - 1)) (1 # 10000) then Some (ink_brush textInkValue) else fill
        | None => fill
        end
      else fill
  | _ => fill
  end.

Fixpoint recolor_tree (textInkValue : Q) (n : Node) : Node :=
  match n with
  | GlyphsNode fill u => GlyphsNode (recolor textInkValue fill) u
  | GroupNode k oc cs => GroupNode k oc (map (recolor_tree textInkValue) cs)
  | _ => n
  end.

(** ** Proofs *)

Lemma transformGlyphs_node ink fill u changed :
  (transformGlyphs ink (GlyphsNode fill u) changed).1.1 = GlyphsNode (recolor ink fill) u.
Proof.
  destruct fill as [[c|b]|]; try done. unfold transformGlyphs, recolor, near_black.
  case_decide; [|done]. destruct (components c !! 3); [|done]. by destruct (Qlt_bool _ _).
Qed.

(** The page's glyphs painted with a solid CMYK colour whose black is
    within 1e-4 of 1 are repainted with (0, 0, 0, ink); every other node
    and glyphs node is left as it was. *)
Theorem transform_tree_spec ink n : (transform_tree ink n).1 = recolor_tree ink n.
Proof.
  induction n as [fl pr|fl u|k oc cs IH|k] using Node_ind'; try done.
  - simpl. apply transformGlyphs_node.
  - cbn [transform_tree recolor_tree fst]. f_equal. rewrite map_map.
    apply map_ext_Forall. exact IH.
Qed.


End TextTransform.
