(* ===== verification/Shapes.v ===== *)
(** * CreateShapes: rows of shapes in process and spot colours

    [Python Projects/CreateShapes/spot_color_shapes.py] builds one page of
    five rows of shapes.  Each row ([draw_row]) strokes and fills four
    shapes of growing width, one per brush; the shape of a row is chosen
    by [create_geometry] among a box, an ellipse, a regular polygon and a
    target of spokes drawn with a path builder ([create_target]).  Spot
    colours are single-colorant DeviceN spaces ([make_separation_color]).

    This file holds what [CreateColorsAndShapes] shares with it (the page
    content, the colour model, [create_target]) and the [CreateShapes]
    sample itself.  Coordinates and sizes are floats, modelled as exact
    rationals [Q]; the spoke ends of a target are computed with
    [math.cos] and [math.sin] and are modelled over the reals [R]. *)

From S2P Require Import Prelude.
From Stdlib Require Import Reals Qreals Lra Lqa.

#[local] Open Scope nat_scope.

Module Shapes.

(** ** Page content *)

(** [FRect(x, y, dX, dY)]. *)
Record FRect := { x : Q; y : Q; dX : Q; dY : Q }.

(** A point handed to the path builder: [FPoint(end_x, end_y)]. *)
Record FPointR := { ptx : R; pty : R }.

Inductive PathOp := moveTo (p : FPointR) | lineTo (p : FPointR) | close.

Inductive FillRule := eFRNonZero | eFREvenOdd.

(** [IDOMPathGeometry]: [create(factory, box)], [createEllipse],
    [createPolygon(factory, box, sides, angle)] and the geometry of a
    path builder. *)
Inductive Geometry :=
  | RectGeometry (box : FRect)
  | EllipseGeometry (box : FRect)
  | PolygonGeometry (box : FRect) (sides : Z) (angle : Q)
  | BuilderGeometry (figure : list PathOp) (rule : FillRule).

(** ** Colours *)

(** [IDOMColorSpaceDeviceN.CColorantInfo(name, representation)]. *)
Record ColorantInfo := { colorant_name : string; representation : list Q }.

Inductive ColorSpace :=
  | DeviceCMYK
  | DeviceRGB
  | LAB (whitepoint blackpoint : list Q) (ranges : list Q)
  | ICCBased (profile : string) (channels : nat)
  | DeviceN (colorants : list ColorantInfo) (alternate : ColorSpace).

(** [IDOMColor.create(factory, space, alpha, c0, c1, ...)]. *)
Record Color := { space : ColorSpace; alpha : Q; components : list Q }.

Inductive Brush := SolidColorBrush (c : Color).

(** A path node is stroked with a thickness or filled. *)
Inductive Paint := Stroked (thickness : Q) | Filled.

Record PathNode := { geometry : Geometry; brush : Brush; paint : Paint }.

(** [IDOMSolidColorBrush.createSolidCmyk(factory, c, m, y, k)]. *)
Definition createSolidCmyk (c m y k : Q) : Brush :=
  SolidColorBrush {| space := DeviceCMYK; alpha := 1; components := [c; m; y; k] |}.

(** [IDOMPathNode.createStroked(factory, geometry, brush)], with the
    default thickness 1, and [createFilled]. *)
Definition createStroked (g : Geometry) (b : Brush) : PathNode :=
  {| geometry := g; brush := b; paint := Stroked 1 |}.

Definition createFilled (g : Geometry) (b : Brush) : PathNode :=
  {| geometry := g; brush := b; paint := Filled |}.

(** The number of components of a colour in a space. *)
Definition num_components (cs : ColorSpace) : nat :=
  match cs with
  | DeviceCMYK => 4
  | DeviceRGB | LAB _ _ _ => 3
  | ICCBased _ n => n
  | DeviceN cols _ => length cols
  end.

(** Well-formed spaces: a DeviceN space has colorants, and the
    representation of each colorant has as many components as its
    alternate space (the Ink invariant of the specification,
    [len(representation) == numComponents(targetSpace)]). *)
Inductive space_ok : ColorSpace -> Prop :=
  | cmyk_ok : space_ok DeviceCMYK
  | rgb_ok : space_ok DeviceRGB
  | lab_ok wp bp r : length wp = 3 -> length bp = 3 -> length r = 4 -> space_ok (LAB wp bp r)
  | icc_ok p n : space_ok (ICCBased p n)
  | devicen_ok cols alt :
      cols <> [] -> space_ok alt ->
      Forall (fun c => length (representation c) = num_components alt) cols ->
      space_ok (DeviceN cols alt).

Definition color_ok (c : Color) : Prop :=
  space_ok (space c) /\ length (components c) = num_components (space c).

Fixpoint space_okb (cs : ColorSpace) : bool :=
  match cs with
  | LAB wp bp r => (length wp =? 3) && (length bp =? 3) && (length r =? 4)
  | DeviceN cols alt =>
      negb (bool_decide (cols = [])) && space_okb alt &&
      forallb (fun c => length (representation c) =? num_components alt) cols
  | _ => true
  end.

Definition color_okb (c : Color) : bool :=
  space_okb (space c) && (length (components c) =? num_components (space c)).

(** ** [make_separation_color] *)

(** The D50 [IDOMColorSpaceLAB] the sample creates. *)
Definition lab_d50 : ColorSpace :=
  LAB [0.9642; 1; 0.8249]%Q [0; 0; 0]%Q [-128; 127; -128; 127]%Q.

(** A spot colour: a DeviceN space of one colorant, whose alternate space
    is LAB when the representation has three components and DeviceCMYK
    otherwise, at full tint. *)
Definition make_separation_color (name : string) (representation : list Q) : Color :=
  let colorant := {| colorant_name := name; representation := representation |} in
  let colorants := [colorant] in
  let alternate := if length representation =? 3 then lab_d50 else DeviceCMYK in
  {| space := DeviceN colorants alternate; alpha := 1; components := [1%Q] |}.

(** ** [create_target] *)

(** [math.radians]. *)
Definition radians (deg : R) : R := (deg * PI / 180)%R.

(** The centre of a box, and the point at [angle] on the ellipse inscribed
    in it: the [center] and [FPoint(end_x, end_y)] of [create_target]. *)
Definition box_center (b : FRect) : FPointR :=
  {| ptx := (Q2R (x b) + Q2R (dX b) / 2)%R; pty := (Q2R (y b) + Q2R (dY b) / 2)%R |}.

Definition ellipse_point (b : FRect) (angle : R) : FPointR :=
  {| ptx := (Q2R (x b) + Q2R (dX b) / 2 + Q2R (dX b) / 2 * cos angle)%R;
     pty := (Q2R (y b) + Q2R (dY b) / 2 + Q2R (dY b) / 2 * sin angle)%R |}.

(** [create_target(factory, box, n_lines, rotation)]: [n_lines] spokes
    from the centre of [box], the first at [rotation] degrees, each
    [2 pi / n_lines] further; [2.0 * math.pi / 0] raises. *)
Definition create_target (box : FRect) (n_lines : nat) (rotation : Q) : result Geometry :=
  let angle := radians (Q2R rotation) in
  if n_lines =? 0 then Raise (ZeroDivisionError "float division by zero") else
  let incr := (2 * PI / INR n_lines)%R in
  let radius_x := (Q2R (dX box) / 2)%R in
  let radius_y := (Q2R (dY box) / 2)%R in
  let center_x := (Q2R (x box) + radius_x)%R in
  let center_y := (Q2R (y box) + radius_y)%R in
  let center := {| ptx := center_x; pty := center_y |} in
  st <- for_range n_lines
          (fun _ st => let '(builder, angle) := st in
             let end_x := (center_x + radius_x * cos angle)%R in
             let end_y := (center_y + radius_y * sin angle)%R in
             Ok (builder ++ [lineTo {| ptx := end_x; pty := end_y |}; moveTo center], (angle + incr)%R))
          ([moveTo center], angle) ;;
  Ok (BuilderGeometry (st.1 ++ [close]) eFRNonZero).

(** The figure of a target in closed form: the [k]-th spoke ends at angle
    [radians(rotation) + k * 2 pi / n]. *)
Definition target_figure (b : FRect) (n : nat) (rotation : Q) : list PathOp :=
  moveTo (box_center b) ::
  concat (map (fun k => [lineTo (ellipse_point b (radians (Q2R rotation) + INR k * (2 * PI / INR n)));
                         moveTo (box_center b)]) (seq 0 n)) ++ [close].

(** A point lies in a box (its closed rectangle). *)
Definition point_in_box (b : FRect) (p : FPointR) : Prop :=
  (Q2R (x b) <= ptx p <= Q2R (x b) + Q2R (dX b))%R /\
  (Q2R (y b) <= pty p <= Q2R (y b) + Q2R (dY b))%R.

Definition op_points (o : PathOp) : list FPointR :=
  match o with moveTo p | lineTo p => [p] | close => [] end.

(** A point on the ellipse inscribed in a box, with the division by the
    radii cleared. *)
Definition on_ellipse (b : FRect) (p : FPointR) : Prop :=
  let rx := (Q2R (dX b) / 2)%R in
  let ry := (Q2R (dY b) / 2)%R in
  ((ptx p - ptx (box_center b)) ^ 2 * ry ^ 2 + (pty p - pty (box_center b)) ^ 2 * rx ^ 2 = rx ^ 2 * ry ^ 2)%R.

(** A geometry drawn in a box: the SDK's shapes made from the box (an
    ellipse or polygon inscribed in it), or a figure whose points all lie
    in it. *)
Definition geometry_within (g : Geometry) (b : FRect) : Prop :=
  match g with
  | RectGeometry b' | EllipseGeometry b' | PolygonGeometry b' _ _ => b' = b
  | BuilderGeometry ops _ => Forall (fun o => Forall (point_in_box b) (op_points o)) ops
  end.

(** ** [create_geometry] and [draw_row] *)

(** The [ShapeType] class constants. *)
Definition Box : Z := 0.
Definition Ellipse : Z := 1.
Definition Hexagon : Z := 2.
Definition Polygon : Z := 3.
Definition Target : Z := 4.

(** [create_geometry(factory, box, shape_type, sides, angle)]; [int(sides)]
    of an integer is the integer. *)
Definition create_geometry (box : FRect) (shape_type sides : Z) (angle : Q) : result Geometry :=
  if (shape_type =? Ellipse)%Z then Ok (EllipseGeometry box)
  else if (shape_type =? Hexagon)%Z then Ok (PolygonGeometry box 6 angle)
  else if (shape_type =? Polygon)%Z then Ok (PolygonGeometry box sides angle)
  else if (shape_type =? Target)%Z then create_target box 8 angle
  else Ok (RectGeometry box).

(** The state of the loop of [draw_row]: the children of the page,
    [start.x] and [box_size.x]; [start.y] and [box_size.y] do not change. *)
Record RowState := { row_page : list PathNode; start_x : Q; box_x : Q }.

(** One iteration of the loop of [draw_row]: a stroked shape and, [1.1]
    box heights below it, a filled one; then the next shape starts [1.1]
    box widths further and is [1.25] times as wide. *)
Definition draw_row_step (start_y box_y : Q) (shape_type sides : Z) (angle : Q)
    (brush : Brush) (st : RowState) : result RowState :=
  let stroke_box := {| x := start_x st; y := start_y; dX := box_x st; dY := box_y |} in
  stroke_geom <- create_geometry stroke_box shape_type sides angle ;;
  let fill_box := {| x := x stroke_box; y := y stroke_box + box_y * 1.1; dX := box_x st; dY := box_y |} in
  fill_geom <- create_geometry fill_box shape_type sides angle ;;
  Ok {| row_page := row_page st ++ [createStroked stroke_geom brush; createFilled fill_geom brush];
        start_x := start_x st + box_x st * 1.1;
        box_x := box_x st * 1.25 |}.

(** [draw_row(page, factory, origin, master_box_size, cyan, magenta,
    yellow, black, shape_type, sides, angle)]: the children of [page]
    after the row. *)
Definition draw_row (page : list PathNode) (origin master_box_size : Q * Q)
    (cyan magenta yellow black : Brush) (shape_type sides : Z) (angle : Q) : result (list PathNode) :=
  let brushes := [cyan; magenta; yellow; black] in
  st <- py_for brushes (draw_row_step origin.2 master_box_size.2 shape_type sides angle)
          {| row_page := page; start_x := origin.1; box_x := master_box_size.1 |} ;;
  Ok (row_page st).

(** ** [main] *)

(** What [main] leaves behind: the lines it prints and the PDF it writes,
    as its file name and the children of its one page. *)
Record Output := { printed : list string; written : option (string * list PathNode) }.

Definition main : Output :=
  let cyan := createSolidCmyk 1 0 0 0 in
  let magenta := createSolidCmyk 0 1 0 0 in
  let yellow := createSolidCmyk 0 0 1 0 in
  let black := createSolidCmyk 0 0 0 1 in
  let labCyan := SolidColorBrush (make_separation_color "LABCyan" [62; -44; -50]%Q) in
  let labMagenta := SolidColorBrush (make_separation_color "LABMagenta" [52; 81; -7]%Q) in
  let labYellow := SolidColorBrush (make_separation_color "LABYellow" [95; -6; 96]%Q) in
  let labBlack := SolidColorBrush (make_separation_color "LABBlack" [12; 2; 0]%Q) in
  let all := SolidColorBrush (make_separation_color "All" [1; 1; 1; 1]%Q) in
  let rot := SolidColorBrush (make_separation_color "Rot" [0; 1; 1; 0]%Q) in
  let blau := SolidColorBrush (make_separation_color "Blau" [1; 1; 0; 0]%Q) in
  let grun := SolidColorBrush (make_separation_color "Grun" [1; 0; 1; 0]%Q) in
  let master_box_size := (80, 80)%Q in
  let origin := (140, 75)%Q in
  let run :=
    page <- draw_row [] origin master_box_size cyan magenta yellow black Box 0 0 ;;
    let origin := (origin.1, origin.2 + 200)%Q in
    page <- draw_row page origin master_box_size labCyan labMagenta labYellow labBlack Ellipse 0 0 ;;
    let origin := (origin.1, origin.2 + 200)%Q in
    page <- draw_row page origin master_box_size rot grun blau all Hexagon 0 0 ;;
    let origin := (origin.1, origin.2 + 200)%Q in
    page <- draw_row page origin master_box_size cyan magenta yellow black Polygon 8 22.5 ;;
    let origin := (origin.1, origin.2 + 200)%Q in
    page <- draw_row page origin master_box_size cyan magenta yellow black Target 0 0 ;;
    Ok page in
  match run with
  | Ok page => {| printed := []; written := Some ("test.pdf", page) |}
  | Raise e => {| printed := [("Exception: " ++ py_exc_str e)%string]; written := None |}
  end.

(** ** Layout *)

(** The boxes of a row of [n] shapes whose boxes advance by [step] box
    widths and grow by [grow]: for each shape the stroke box and the fill
    box below it. *)
Fixpoint row_boxes (x0 y0 w h step grow : Q) (n : nat) : list FRect :=
  match n with
  | 0 => []
  | S n' => {| x := x0; y := y0; dX := w; dY := h |} :: {| x := x0; y := y0 + h * 1.1; dX := w; dY := h |}
            :: row_boxes (x0 + w * step) y0 (w * grow) h step grow n'
  end.

(** Two boxes overlap when a point lies strictly inside both. *)
Definition overlap (a b : FRect) : Prop :=
  exists px py, (x a < px < x a + dX a)%Q /\ (y a < py < y a + dY a)%Q /\
                (x b < px < x b + dX b)%Q /\ (y b < py < y b + dY b)%Q.

Definition rect_within (outer inner : FRect) : Prop :=
  (x outer <= x inner)%Q /\ (x inner + dX inner <= x outer + dX outer)%Q /\
  (y outer <= y inner)%Q /\ (y inner + dY inner <= y outer + dY outer)%Q.

(** The boolean tests the layout theorems are decided with. *)
Definition rects_apart (a b : FRect) : bool :=
  Qle_bool (x a + dX a) (x b) || Qle_bool (x b + dX b) (x a) ||
  Qle_bool (y a + dY a) (y b) || Qle_bool (y b + dY b) (y a).

Fixpoint pairwise_apart (l : list FRect) : bool :=
  match l with
  | [] => true
  | a :: l' => forallb (rects_apart a) l' && pairwise_apart l'
  end.

Definition rect_withinb (outer inner : FRect) : bool :=
  Qle_bool (x outer) (x inner) && Qle_bool (x inner + dX inner) (x outer + dX outer) &&
  Qle_bool (y outer) (y inner) && Qle_bool (y inner + dY inner) (y outer + dY outer).

(** ** Lemmas *)

Lemma space_okb_spec cs : space_okb cs = true <-> space_ok cs.
Proof.
  induction cs as [| | wp bp r | p n | cols alt IH]; simpl.
  - split; [constructor|done].
  - split; [constructor|done].
  - rewrite !andb_true_iff, !Nat.eqb_eq. split.
    + intros [[? ?] ?]. by constructor.
    + by inversion 1.
  - split; [constructor|done].
  - rewrite !andb_true_iff, negb_true_iff, bool_decide_eq_false, IH, forallb_Forall.
    split.
    + intros [[? ?] HF]. constructor; [done|done|].
      eapply Forall_impl; [exact HF|]. intros c. by rewrite Nat.eqb_eq.
    + inversion 1; subst. split; [done|].
      eapply Forall_impl; [eassumption|]. intros c. by rewrite Nat.eqb_eq.
Qed.

Lemma color_okb_spec c : color_okb c = true <-> color_ok c.
Proof. unfold color_okb, color_ok. by rewrite andb_true_iff, space_okb_spec, Nat.eqb_eq. Qed.

(** One spoke per iteration: the loop of [create_target] run [m] times. *)
Lemma target_loop b incr a0 m :
  fold_left (fun acc (_ : nat) =>
      (acc.1 ++ [lineTo (ellipse_point b acc.2); moveTo (box_center b)], (acc.2 + incr)%R))
    (seq 0 m) ([moveTo (box_center b)], a0) =
  (moveTo (box_center b) :: concat (map (fun k => [lineTo (ellipse_point b (a0 + INR k * incr));
                                                   moveTo (box_center b)]) (seq 0 m)),
   (a0 + INR m * incr)%R).
Proof.
  induction m as [|m IH].
  - simpl. f_equal. ring.
  - rewrite seq_S, fold_left_app, IH, S_INR. cbn [fold_left fst snd].
    rewrite map_app, concat_app. cbn [map concat app]. f_equal. ring.
Qed.

Theorem create_target_figure b n rotation :
  n <> 0 -> create_target b n rotation = Ok (BuilderGeometry (target_figure b n rotation) eFRNonZero).
Proof.
  intros Hn. unfold create_target. apply Nat.eqb_neq in Hn. rewrite Hn.
  rewrite (for_range_pure _ _ (fun _ acc => (acc.1 ++ [lineTo (ellipse_point b acc.2);
      moveTo (box_center b)], (acc.2 + 2 * PI / INR n)%R))); [|intros i [bl a] _; reflexivity].
  cbn -[fold_left seq INR]. rewrite target_loop. reflexivity.
Qed.

Lemma Q2R_nonneg q : (0 <= q)%Q -> (0 <= Q2R q)%R.
Proof. intros H. apply Qle_Rle in H. unfold Q2R in H at 1. simpl in H. Lra.lra. Qed.

Lemma ellipse_point_on b a : on_ellipse b (ellipse_point b a).
Proof.
  unfold on_ellipse, ellipse_point, box_center; cbn [ptx pty].
  pose proof (sin2_cos2 a) as H. unfold Rsqr in H.
  transitivity ((Q2R (dX b) / 2) ^ 2 * (Q2R (dY b) / 2) ^ 2 * (sin a * sin a + cos a * cos a))%R;
    [ring | rewrite H; ring].
Qed.

Lemma ellipse_point_in_box b a :
  (0 <= dX b)%Q -> (0 <= dY b)%Q -> point_in_box b (ellipse_point b a).
Proof.
  intros Hx Hy. apply Q2R_nonneg in Hx, Hy. pose proof (COS_bound a). pose proof (SIN_bound a).
  unfold point_in_box, ellipse_point; cbn [ptx pty]. split; split; Lra.nra.
Qed.

Lemma box_center_in_box b : (0 <= dX b)%Q -> (0 <= dY b)%Q -> point_in_box b (box_center b).
Proof.
  intros Hx Hy. apply Q2R_nonneg in Hx, Hy.
  unfold point_in_box, box_center; cbn [ptx pty]. Lra.lra.
Qed.

(** The ops of [target_figure]: the centre, spoke ends and [close]. *)
Lemma target_figure_ops b n rotation o :
  o ∈ target_figure b n rotation ->
  o = moveTo (box_center b) \/ o = close \/
  exists k, k < n /\ o = lineTo (ellipse_point b (radians (Q2R rotation) + INR k * (2 * PI / INR n))).
Proof.
  unfold target_figure. rewrite list_elem_of_In. cbn [In]. rewrite in_app_iff. cbn [In].
  intros [<-|[Ho|[<-|[]]]]; [by left| |by right; left].
  apply in_concat in Ho as (l & Hl & Ho). apply in_map_iff in Hl as (k & <- & Hk).
  apply in_seq in Hk. destruct Ho as [<-|[<-|[]]]; [|by left].
  right; right. exists k. split; [lia|done].
Qed.

Lemma target_figure_within b n rotation :
  (0 <= dX b)%Q -> (0 <= dY b)%Q -> geometry_within (BuilderGeometry (target_figure b n rotation) eFRNonZero) b.
Proof.
  intros Hx Hy. cbn [geometry_within]. apply Forall_forall. intros o Ho.
  destruct (target_figure_ops _ _ _ _ Ho) as [->|[->|(k & _ & ->)]]; cbn [op_points];
    try apply Forall_singleton; auto using box_center_in_box, ellipse_point_in_box, Forall_nil_2.
Qed.

Lemma overlap_sym a b : overlap a b -> overlap b a.
Proof. intros (px & py & ? & ? & ? & ?). by exists px, py. Qed.

Lemma rects_apart_spec a b : rects_apart a b = true -> ~ overlap a b.
Proof.
  unfold rects_apart. rewrite !orb_true_iff, !Qle_bool_iff.
  intros H (px & py & Hax & Hay & Hbx & Hby). destruct H as [[[H|H]|H]|H]; lra.
Qed.

Lemma pairwise_apart_spec l :
  pairwise_apart l = true ->
  forall i j a b, i <> j -> l !! i = Some a -> l !! j = Some b -> ~ overlap a b.
Proof.
  induction l as [|c l IH]; intros Hl i j a b Hij Ha Hb; [done|].
  cbn [pairwise_apart] in Hl. apply andb_true_iff in Hl as [Hc Hl].
  apply forallb_Forall in Hc. rewrite Forall_lookup in Hc.
  destruct i as [|i], j as [|j]; cbn in Ha, Hb.
  - done.
  - injection Ha as <-. apply rects_apart_spec. by eapply Hc.
  - injection Hb as <-. intros Ho%overlap_sym. revert Ho. apply rects_apart_spec. by eapply Hc.
  - apply (IH Hl i j); [lia|done|done].
Qed.

Lemma rect_withinb_spec o i : rect_withinb o i = true -> rect_within o i.
Proof. unfold rect_withinb, rect_within. rewrite !andb_true_iff, !Qle_bool_iff. tauto. Qed.

Lemma create_geometry_within box shape_type sides angle :
  (0 <= dX box)%Q -> (0 <= dY box)%Q ->
  exists g, create_geometry box shape_type sides angle = Ok g /\ geometry_within g box.
Proof.
  intros Hx Hy. unfold create_geometry.
  repeat match goal with |- context [if ?c then _ else _] => destruct c end;
    try (eexists; split; [reflexivity|done]).
  rewrite create_target_figure by done. eexists; split; [done|]. by apply target_figure_within.
Qed.

(** The loop of [draw_row] over brushes [bs] draws each shape in its box
    of [row_boxes]. *)
Lemma draw_row_loop start_y box_y shape_type sides angle bs st :
  (0 <= box_x st)%Q -> (0 <= box_y)%Q ->
  exists nodes sx bx,
    py_for bs (draw_row_step start_y box_y shape_type sides angle) st =
      Ok {| row_page := row_page st ++ nodes; start_x := sx; box_x := bx |} /\
    Forall2 (fun n b => geometry_within (geometry n) b) nodes
      (row_boxes (start_x st) start_y (box_x st) box_y 1.1 1.25 (length bs)).
Proof.
  revert st. induction bs as [|br bs IH]; intros st Hw Hh.
  - exists [], (start_x st), (box_x st). rewrite app_nil_r. by destruct st.
  - destruct (create_geometry_within {| x := start_x st; y := start_y; dX := box_x st; dY := box_y |}
      shape_type sides angle) as (g1 & E1 & W1); [done|done|].
    destruct (create_geometry_within {| x := start_x st; y := start_y + box_y * 1.1; dX := box_x st;
      dY := box_y |} shape_type sides angle) as (g2 & E2 & W2); [done|done|].
    edestruct IH as (nodes & sx & bx & E & F);
      [|exact Hh|]; last first.
    + exists (createStroked g1 br :: createFilled g2 br :: nodes), sx, bx. split.
      * cbn [py_for]. unfold draw_row_step at 1. cbn [x y]. rewrite E1, E2. cbn [res_bind].
        rewrite E. cbn [row_page]. by rewrite <- app_assoc.
      * cbn [length row_boxes]. by repeat constructor.
    + cbn [box_x]. apply Qmult_le_0_compat; [done|]. unfold Qle; simpl; lia.
Qed.


(** [draw_row] appends one node per box of its row. *)
Lemma draw_row_within page ox oy w h c m y k shape_type sides angle :
  (0 <= w)%Q -> (0 <= h)%Q ->
  exists nodes, draw_row page (ox, oy) (w, h) c m y k shape_type sides angle = Ok (page ++ nodes) /\
    Forall2 (fun n b => geometry_within (geometry n) b) nodes (row_boxes ox oy w h 1.1 1.25 4).
Proof.
  intros Hw Hh. unfold draw_row. cbn [fst snd].
  destruct (draw_row_loop oy h shape_type sides angle [c; m; y; k]
    {| row_page := page; start_x := ox; box_x := w |}) as (nodes & sx & bx & -> & F); [done|done|].
  by exists nodes.
Qed.

(** Unfolds the rows of a [main], each by [draw_row_within]. *)
Ltac draw_rows :=
  repeat match goal with
  | |- context [draw_row ?p (?ox, ?oy) (?w, ?h) ?c ?m ?y ?k ?st ?sd ?an] =>
      let F := fresh "F" in
      destruct (draw_row_within p ox oy w h c m y k st sd an) as (? & -> & F);
      [unfold Qle; simpl; lia | unfold Qle; simpl; lia | pose proof (Forall2_length _ _ _ F); cbn [res_bind]]
  end.

(** C21. The spot colours of [make_separation_color] are well formed (the
    representation of the colorant has as many components as its alternate
    space, as the specification's Ink invariant asks) exactly when the
    representation has three or four components: any other length gets a
    DeviceCMYK alternate it does not fit. *)
Theorem make_separation_color_ok name representation :
  color_ok (make_separation_color name representation) <->
  length representation = 3 \/ length representation = 4.
Proof.
  rewrite <- color_okb_spec. unfold color_okb, make_separation_color. cbn -[lab_d50].
  destruct (Nat.eqb_spec (length representation) 3) as [E|E]; cbn; rewrite ?E; cbn.
  - split; auto.
  - rewrite !andb_true_r, Nat.eqb_eq. lia.
Qed.

(** C39. For a box of nonnegative size and a positive number of spokes,
    [create_target] returns a path whose points all lie in the box, and
    every spoke ends on the ellipse inscribed in the box. *)
Theorem create_target_within b n rotation :
  n <> 0 -> (0 <= dX b)%Q -> (0 <= dY b)%Q ->
  exists ops, create_target b n rotation = Ok (BuilderGeometry ops eFRNonZero) /\
    geometry_within (BuilderGeometry ops eFRNonZero) b /\
    (forall p, lineTo p ∈ ops -> on_ellipse b p).
Proof.
  intros Hn Hx Hy. exists (target_figure b n rotation). split; [by apply create_target_figure|split].
  - by apply target_figure_within.
  - intros p Hp. destruct (target_figure_ops _ _ _ _ Hp) as [[=]|[[=]|(k & _ & [= ->])]].
    apply ellipse_point_on.
Qed.

(** With an even number [2 m] of spokes, spoke [k + m] is spoke [k]
    reflected through the centre of the box: the target is [m] diameters. *)
Theorem target_diameters b m rotation k :
  (k < m)%nat ->
  let spoke j := ellipse_point b (radians (Q2R rotation) + INR j * (2 * PI / INR (2 * m))) in
  (ptx (spoke (k + m)%nat) + ptx (spoke k) = 2 * ptx (box_center b))%R /\
  (pty (spoke (k + m)%nat) + pty (spoke k) = 2 * pty (box_center b))%R.
Proof.
  intros Hk spoke. assert (INR m <> 0)%R as Hm by (apply not_0_INR; lia).
  assert (INR (k + m) * (2 * PI / INR (2 * m)) = INR k * (2 * PI / INR (2 * m)) + PI)%R as E
    by (rewrite plus_INR, mult_INR; simpl; field; exact Hm).
  unfold spoke, ellipse_point, box_center; cbn [ptx pty].
  rewrite E, <- (Rplus_assoc (radians _) _ PI), neg_cos, neg_sin. split; ring.
Qed.

(** C20. [main] writes [test.pdf] with forty shapes, each drawn in a box
    of its own: no two boxes overlap, and all lie between (140, 75) and
    (632, 1043), inside an A4 page (793.7 by 1122.5 units of 1/96 inch). *)
Theorem main_layout :
  exists page boxes, written main = Some ("test.pdf"%string, page) /\ length page = 40 /\
    Forall2 (fun n b => geometry_within (geometry n) b) page boxes /\
    (forall i j a b, i <> j -> boxes !! i = Some a -> boxes !! j = Some b -> ~ overlap a b) /\
    Forall (rect_within {| x := 140; y := 75; dX := 492; dY := 968 |}) boxes.
Proof.
  unfold main. cbv zeta. draw_rows. cbn [written].
  eexists _, _. split; [reflexivity|].
  split; [rewrite !length_app; simpl in *; lia|split].
  { simpl. repeat apply Forall2_app; eassumption. }
  split; [apply pairwise_apart_spec; vm_compute; reflexivity|].
  eapply Forall_impl; [|intros b; apply rect_withinb_spec].
  apply forallb_Forall. vm_compute. reflexivity.
Qed.

Lemma create_target_within_witness :
  exists ops, create_target {| x := 140; y := 875; dX := 80; dY := 80 |} 8 0 =
      Ok (BuilderGeometry ops eFRNonZero) /\
    geometry_within (BuilderGeometry ops eFRNonZero) {| x := 140; y := 875; dX := 80; dY := 80 |} /\
    (forall p, lineTo p ∈ ops -> on_ellipse {| x := 140; y := 875; dX := 80; dY := 80 |} p).
Proof. apply create_target_within; [lia | unfold Qle; simpl; lia | unfold Qle; simpl; lia]. Defined.

Lemma target_diameters_witness :
  (ptx (ellipse_point {| x := 140; y := 875; dX := 80; dY := 80 |}
          (radians (Q2R 0) + INR (1 + 4) * (2 * PI / INR (2 * 4)))) +
   ptx (ellipse_point {| x := 140; y := 875; dX := 80; dY := 80 |}
          (radians (Q2R 0) + INR 1 * (2 * PI / INR (2 * 4)))) =
   2 * ptx (box_center {| x := 140; y := 875; dX := 80; dY := 80 |}))%R /\
  (pty (ellipse_point {| x := 140; y := 875; dX := 80; dY := 80 |}
          (radians (Q2R 0) + INR (1 + 4) * (2 * PI / INR (2 * 4)))) +
   pty (ellipse_point {| x := 140; y := 875; dX := 80; dY := 80 |}
          (radians (Q2R 0) + INR 1 * (2 * PI / INR (2 * 4)))) =
   2 * pty (box_center {| x := 140; y := 875; dX := 80; dY := 80 |}))%R.
Proof. apply (target_diameters _ 4 0 1). lia. Defined.

End Shapes.
