(* ===== verification/ColorShapes.v ===== *)
(** * CreateColorsAndShapes: spot colours of several kinds, and shapes

    [Python Projects/CreateColorsAndShapes/spot_color_shapes.py] varies
    [CreateShapes]: a top row of eight boxes in process, LAB, ICC-based,
    DeviceN and All colours with a border, then four rows drawn by a
    [draw_row] whose shapes advance by [1.2] widths, grow by [1.3], and
    whose targets have a number of spokes counted by a [lines] argument.
    The page content, the colour model and [create_target] are those of
    [Shapes].  Loading the ICC profile and converting a colour into it are
    the SDK's, given by the class [ColorsSDK]. *)

From S2P Require Import Prelude Shapes.
From Stdlib Require Import Reals.

#[local] Open Scope nat_scope.

Module ColorsAndShapes.
Import Shapes.

(** ** The SDK *)

(** [IDOMICCProfile.create(factory, IInputStream.createFromFile(factory,
    path))]: the number of channels of the profile, or the SDK's error
    when the file cannot be read; [IDOMColor.setColorSpace]: the colour
    converted into a space. *)
Class ColorsSDK := {
  icc_profile_channels : string -> result nat;
  setColorSpace : Color -> ColorSpace -> Color
}.

(** ** Colours *)

(** [make_deviceN_color(factory, name, representation, alternate)]. *)
Definition make_deviceN_color (name : string) (representation : list Q) (alternate : ColorSpace) : Color :=
  let colorants := [{| colorant_name := name; representation := representation |}] in
  let color_space := DeviceN colorants alternate in
  {| space := color_space; alpha := 1; components := [1%Q] |}.

(** A set display [{a, b, ...}] of floats, as the sample passes it to
    [CEDLVectDouble]: duplicates collapse, the first occurrence staying
    (the order CPython iterates these small sets in). *)
Fixpoint set_literal (l : list Q) : list Q :=
  match l with
  | [] => []
  | v :: rest => v :: filter (fun w => negb (Qeq_bool v w)) (set_literal rest)
  end.

(** ** Rows *)

(** [create_target(factory, box, n_lines, rotation)], lines 180-200: the
    function of [CreateShapes/spot_color_shapes.py] copied statement for
    statement, so its model is that of [Shapes]. *)
Definition create_target : FRect -> nat -> Q -> result Geometry := Shapes.create_target.

(** [create_geometry(factory, box, shape_type, sides, angle, lines)]: a
    target has [lines] spokes. *)
Definition create_geometry (box : FRect) (shape_type sides : Z) (angle : Q) (lines : nat) : result Geometry :=
  if (shape_type =? Ellipse)%Z then Ok (EllipseGeometry box)
  else if (shape_type =? Hexagon)%Z then Ok (PolygonGeometry box 6 angle)
  else if (shape_type =? Polygon)%Z then Ok (PolygonGeometry box sides angle)
  else if (shape_type =? Target)%Z then create_target box lines angle
  else Ok (RectGeometry box).

(** The loop state of [draw_row], with the [lines] counter. *)
Record RowState := { row_page : list PathNode; start_x : Q; box_x : Q; lines : nat }.

(** One iteration: the stroked shape gets [lines] spokes, the filled one
    [lines + 4]; the next shape starts [1.2] widths further and is [1.3]
    times as wide. *)
Definition draw_row_step (start_y box_y : Q) (shape_type sides : Z) (angle : Q)
    (brush : Brush) (st : RowState) : result RowState :=
  let stroke_box := {| x := start_x st; y := start_y; dX := box_x st; dY := box_y |} in
  stroke_geom <- create_geometry stroke_box shape_type sides angle (lines st) ;;
  let fill_box := {| x := x stroke_box; y := y stroke_box + box_y * 1.1; dX := box_x st; dY := box_y |} in
  fill_geom <- create_geometry fill_box shape_type sides angle (lines st + 4) ;;
  Ok {| row_page := row_page st ++ [createStroked stroke_geom brush; createFilled fill_geom brush];
        start_x := start_x st + box_x st * 1.2;
        box_x := box_x st * 1.3;
        lines := lines st + 1 |}.

(** [draw_row(page, factory, origin, master_box_size, cyan, magenta,
    yellow, black, shape_type, sides, angle, lines)]. *)
Definition draw_row (page : list PathNode) (origin master_box_size : Q * Q)
    (cyan magenta yellow black : Brush) (shape_type sides : Z) (angle : Q) (lines : nat) :
    result (list PathNode) :=
  let brushes := [cyan; magenta; yellow; black] in
  st <- py_for brushes (draw_row_step origin.2 master_box_size.2 shape_type sides angle)
          {| row_page := page; start_x := origin.1; box_x := master_box_size.1; lines := lines |} ;;
  Ok (row_page st).

(** ** [main] *)

(** The top row of [main]: filled boxes side by side from [origin], one
    per brush, each [boxSize.x] to the right of the previous one. *)
Definition top_row (origin boxSize : Q * Q) (brushes : list Brush) : list PathNode :=
  (fold_left (fun acc brush =>
      let box := {| x := acc.2; y := origin.2; dX := boxSize.1; dY := boxSize.2 |} in
      (acc.1 ++ [createFilled (RectGeometry box) brush], (acc.2 + boxSize.1)%Q))
    brushes ([], origin.1)).1.

(** The border in All: a rectangle around seven boxes, stroked [20] wide. *)
Definition strokeWidth : Q := 20.

Definition border_box (origin boxSize : Q * Q) : FRect :=
  {| x := origin.1 - strokeWidth / 2; y := origin.2 - strokeWidth / 2;
     dX := boxSize.1 * 7 + strokeWidth; dY := boxSize.2 + strokeWidth |}.

Definition border (origin boxSize : Q * Q) (allBrush : Brush) : PathNode :=
  {| geometry := RectGeometry (border_box origin boxSize); brush := allBrush; paint := Stroked strokeWidth |}.

Definition icc_path : string := "C:\Windows\System32\spool\drivers\color\WebCoatedFOGRA28.icc".

Definition main `{ColorsSDK} : Output :=
  let cyan := createSolidCmyk 1 0 0 0 in
  let magenta := createSolidCmyk 0 1 0 0 in
  let yellow := createSolidCmyk 0 0 1 0 in
  let black := createSolidCmyk 0 0 0 1 in
  let run :=
    let labColorSpace := LAB [0.9504; 1; 1.0888]%Q [0; 0; 0]%Q [-128; 127; -128; 127]%Q in
    channels <- icc_profile_channels icc_path ;;
    let iccBasedColorSpace := ICCBased icc_path channels in
    let pantoneBlue072C_lab := {| space := labColorSpace; alpha := 1; components := [17.64; 43; -76]%Q |} in
    let pantoneBlue072C_fogra := setColorSpace pantoneBlue072C_lab iccBasedColorSpace in
    let pantoneBlue072C_spot := make_deviceN_color "PANTONE BLUE 072 C" (set_literal [17.64; 43; -76]%Q) labColorSpace in
    let allColor := make_deviceN_color "All" (set_literal [1; 1; 1; 1]%Q) DeviceCMYK in
    let labBrush := SolidColorBrush pantoneBlue072C_lab in
    let iccBrush := SolidColorBrush pantoneBlue072C_fogra in
    let deviceNBrush := SolidColorBrush pantoneBlue072C_spot in
    let allBrush := SolidColorBrush allColor in
    let master_box_size := (90, 90)%Q in
    let origin := (85, 85)%Q in
    let page := top_row origin master_box_size
                  [cyan; magenta; yellow; black; labBrush; iccBrush; deviceNBrush; allBrush] in
    let page := page ++ [border origin master_box_size allBrush] in
    let origin := (origin.1, origin.2 + 160)%Q in
    page <- draw_row page origin master_box_size cyan magenta yellow black Ellipse 0 0 0 ;;
    let origin := (origin.1, origin.2 + 200)%Q in
    page <- draw_row page origin master_box_size labBrush iccBrush deviceNBrush allBrush Hexagon 0 0 0 ;;
    let origin := (origin.1, origin.2 + 200)%Q in
    page <- draw_row page origin master_box_size cyan magenta yellow black Polygon 8 22.5 0 ;;
    let origin := (origin.1, origin.2 + 200)%Q in
    page <- draw_row page origin master_box_size labBrush iccBrush deviceNBrush allBrush Target 0 0 0 ;;
    Ok page in
  match run with
  | Ok page => {| printed := []; written := Some ("test.pdf", page) |}
  | Raise e => {| printed := [("Exception: " ++ py_exc_str e)%string]; written := None |}
  end.



(** ** Lemmas *)

Lemma create_geometry_no_target box shape_type sides angle lines :
  (shape_type =? Target)%Z = false ->
  exists g, create_geometry box shape_type sides angle lines = Ok g.
Proof.
  intros Ht. unfold create_geometry. rewrite Ht.
  repeat match goal with |- context [if ?c then _ else _] => destruct c end; by eexists.
Qed.

(** A row of shapes other than targets is drawn without error. *)
Lemma draw_row_no_target page origin size c1 c2 c3 c4 shape_type sides angle n :
  (shape_type =? Target)%Z = false ->
  exists nodes, draw_row page origin size c1 c2 c3 c4 shape_type sides angle n = Ok (page ++ nodes).
Proof.
  intros Ht. unfold draw_row.
  assert (forall bs st, exists st' nodes,
            py_for bs (draw_row_step origin.2 size.2 shape_type sides angle) st = Ok st' /\
            row_page st' = row_page st ++ nodes) as Hloop.
  { induction bs as [|b bs IH]; intros st; [exists st, []; by rewrite app_nil_r|].
    cbn [py_for]. unfold draw_row_step at 1.
    destruct (create_geometry_no_target {| x := start_x st; y := origin.2; dX := box_x st; dY := size.2 |}
      shape_type sides angle (lines st) Ht) as (g1 & ->). cbn [res_bind x y].
    destruct (create_geometry_no_target {| x := start_x st; y := origin.2 + size.2 * 1.1; dX := box_x st;
      dY := size.2 |} shape_type sides angle (lines st + 4) Ht) as (g2 & ->). cbn [res_bind x y].
    edestruct IH as (st' & nodes & -> & P). exists st', ([createStroked g1 b; createFilled g2 b] ++ nodes).
    split; [done|]. rewrite P. cbn [row_page]. by rewrite app_assoc. }
  destruct (Hloop [c1; c2; c3; c4] {| row_page := page; start_x := origin.1; box_x := size.1; lines := n |})
    as (st' & nodes & -> & P). exists nodes. cbn [res_bind]. by rewrite P.
Qed.

(** A row of targets whose [lines] starts at [0] raises at its first
    shape: [create_target] with no spokes divides by zero. *)
Lemma draw_row_target_zero page origin size c1 c2 c3 c4 sides angle :
  draw_row page origin size c1 c2 c3 c4 Target sides angle 0 = Raise (ZeroDivisionError "float division by zero").
Proof. reflexivity. Qed.

(** Unfolds the rows of [main] other than targets. *)
Ltac draw_rows :=
  repeat match goal with
  | |- context [draw_row ?p ?o ?sz ?c1 ?c2 ?c3 ?c4 ?st ?sd ?an ?n] =>
      destruct (draw_row_no_target p o sz c1 c2 c3 c4 st sd an n) as (? & ->);
      [reflexivity | cbn [res_bind]]
  end.

(** C19. [main] never writes its PDF: whatever the SDK does, it prints one
    exception and writes nothing.  When the ICC profile loads, the
    exception is the division by zero of the first target of the last
    row, which [draw_row] asks for with [lines = 0] spokes. *)
Theorem main_never_writes `{ColorsSDK} :
  written main = None /\
  printed main = [("Exception: " ++ match icc_profile_channels icc_path with
                                    | Raise e => py_exc_str e
                                    | Ok _ => "float division by zero"
                                    end)%string].
Proof.
  unfold main. destruct (icc_profile_channels icc_path) as [channels|e]; cbn [res_bind]; [|done].
  cbv zeta. draw_rows. rewrite draw_row_target_zero. done.
Qed.




End ColorsAndShapes.
