(* ===== verification/Layout.v ===== *)
(** * ILayoutExample: text and an image flowed into frames

    [Pycharm Projects/ILayoutExample/main.py] lays out a travel blog on
    one page: four frames ([add_frame]) cut from the page inside a margin,
    fonts looked up with fallbacks ([get_open_type_font]), ten paragraphs
    ([create_paragraph]) of one text run each, and, when a file is named
    on the command line, an image ([get_image]) scaled to the width of
    the right-hand frame and put after the sidebar text.  The layout
    engine, fonts and image decoders are the SDK's, given by the class
    [LayoutSDK]; the model records what the sample hands to the engine:
    the frames, the outlines drawn around them and the paragraphs. *)

From S2P Require Import Prelude Shapes InkSelection Progress.
From Stdlib Require Import Ascii.

#[local] Open Scope nat_scope.

Module Layout.
Import Shapes.

(** ** The SDK *)

Inductive FontType := eFontTypeOpenType | eFontTypeOther (code : nat).

Inductive ImageKind := JPEGImage | PNGImage | TIFFImage.

(** [mako.findFont(name)]: the font and its index in its collection, or
    [MakoException]; [font.getFontType()]; [fixed_page.getWidth()] of a
    new page; [os.path.exists]; [IDOM...Image.create] of a file, which
    may fail; [image.getImageFrame(factory).getWidth()/getHeight()]. *)
Class LayoutSDK := {
  Font : Type;
  Image : Type;
  findFont : string -> result (Font * nat);
  getFontType : Font -> FontType;
  page_width : Q;
  path_exists : string -> bool;
  create_image : ImageKind -> string -> result Image;
  image_size : Image -> Z * Z
}.

(** ** The text of [main] *)

(** [paragraph_text]; the intro starts with a newline. *)
Definition paragraph_text : list string := [
  "Travel Blog";
  String "010" "The beauty of where I found myself inspired me to write this.";
  "As the sun rose over the horizon, casting a warm golden hue across the landscape, a breathtaking scene unfolded before the onlooker's eyes. Standing at the water's edge, one's gaze extended out over a pristine lake that shimmered like a sheet of glass, reflecting the majestic beauty that surrounded it. The lake seemed to hold its breath, mirroring with utmost precision the awe-inspiring sight that lay just beyond its tranquil surface.";
  "Stretching magnificently into the distance, a range of rocky mountains dominated the backdrop. Each peak soared towards the heavens, their rugged surfaces etched by the passage of time and the forces of nature. The mountains stood resolute, a testament to the immense power and grandeur of the natural world. Their colors shifted subtly, painted with a breathtaking array of earthy tones — from deep siennas and ochres to soft grays and greens — all framed by the azure expanse of the sky.";
  "The sky itself seemed to be a canvas of its own, an ever-changing masterpiece of color and light. Towering cumulus clouds danced gracefully, casting dramatic shadows that gently caressed the mountains' slopes. The fluffy white clouds looked as though they were soft pillows, inviting the weary soul to rest upon their tender embrace. The sky stretched boundlessly, seeming to touch the very edges of the earth, a reminder of the vastness of the universe and the limitless possibilities that lay beyond the human imagination.";
  "As a gentle breeze whispered through the air, ripples formed across the surface of the lake, momentarily distorting the mirror-like reflection. The tiny waves moved in rhythmic harmony, lending an animated quality to the otherwise still waters. With each passing gust, the mountains appeared to ripple across the lake's surface, as though a magnificent magic spell had been cast upon the land.";
  "In the distance, a lone boat glided silently across the lake, its presence adding a touch of serenity to the already tranquil scene. The boat's wake created a delicate trail on the water, a fleeting mark of human existence in the midst of the grandeur of nature. It served as a reminder of the delicate balance between mankind and the Earth, and how nature's beauty can be both admired and preserved.";
  "Birds soared overhead, their graceful silhouettes weaving intricate patterns against the sky. They navigated the currents with effortless grace, adding life to the enchanting tableau. The soft cries of the birds mixed harmoniously with the gentle lapping of the lake's water against the shore, creating a soothing symphony that echoed through the air."
].

Definition david_header : string :=
  "סביבות מגורים - מהביוספירה ועד לנישה האקולוגית".

Definition david_para : string :=
  "מרכזו של כדור-הארץ נמצא כמעט 6400 קילומטר מתחת לפני הקרקע. עד כה הצליח האדם להגיע רק לעומק של שמונה קילומטרים בקירוב. אולם כבר היום ידוע לנו כי קילומטרים ספורים מתחת לכפות רגלינו כבר עולה טמפרטורת הארץ למידה שאיננה מאפשרת קיום של חיים. קילומטרים ספורים מעל לראשנו האוויר נעשה דליל וקר, ולא מתאפשר בו קיום של חיים. בתווך מצויה הביוספירה (ביו=חיים, ספירה=עולם) ¬– שכבה דקה על פני כדור-הארץ שעובייה כקליפת תפוח-העץ ביחס לתפוח השלם, אשר בה מתקיים כל עושר החיים המוכר לנו. הביוספירה כוללת את מכלול החיים בים וביבשה, במחילות ובין הרגבים שמתחת לפני הקרקע ובשכבות האוויר הסמוכות לקרקע. הביוספירה היא סביבת החיים הגדולה ביותר המוכרת לנו.".


Section WithSDK.
Context `{SDK : LayoutSDK}.

(** ** Units *)

(** Points and millimetres to the 1/96 inch units of the page. *)
Definition PT2XPS (value : Q) : Q := value / 72 * 96.

Definition MM2XPS (value : Q) : Q := value / 25.4 * 96.

(** ** Fonts *)

(** The loop of [get_open_type_font]: the first name found ends it
    ([break]); a name not found falls back to ["Arial"], whose lookup is
    not guarded, and the loop goes on. *)
Fixpoint try_fonts (fonts_to_try : list string) (font : option (Font * nat)) : result (option (Font * nat)) :=
  match fonts_to_try with
  | [] => Ok font
  | name :: rest =>
      match findFont name with
      | Ok fi => Ok (Some fi)
      | Raise (MakoException _) => fi <- findFont "Arial" ;; try_fonts rest (Some fi)
      | Raise e => Raise e
      end
  end.

(** [get_open_type_font(mako, fonts_to_try)]: the font found as an
    OpenType font with its index, [(None, 0)] for a font of another type;
    with no name to try, [font] stays [None] and [font.getFontType()]
    raises. *)
Definition get_open_type_font (fonts_to_try : list string) : result (option Font * nat) :=
  found <- try_fonts fonts_to_try None ;;
  match found with
  | None => Raise (AttributeError "'NoneType' object has no attribute 'getFontType'")
  | Some (font, font_index) =>
      match getFontType font with
      | eFontTypeOpenType => Ok (Some font, font_index)
      | _ => Ok (None, 0)
      end
  end.

(** The font the loop of [get_open_type_font] stops at: the first name
    the SDK finds. *)
Fixpoint first_found (fonts_to_try : list string) : option (Font * nat) :=
  match fonts_to_try with
  | [] => None
  | name :: rest => match findFont name with Ok fi => Some fi | Raise _ => first_found rest end
  end.

(** ** Frames *)

(** [draw_frame(mako, frame_bounds)]: a light grey outline [4] units
    outside the frame, one unit thick. *)
Definition draw_frame (frame_bounds : FRect) : PathNode :=
  let margin := 4%Q in
  let border := {| x := x frame_bounds - margin; y := y frame_bounds - margin;
                   dX := dX frame_bounds + margin * 2; dY := dY frame_bounds + margin * 2 |} in
  let brush := SolidColorBrush {| space := DeviceRGB; alpha := 1; components := [0.8; 0.8; 0.8]%Q |} in
  {| geometry := RectGeometry border; brush := brush; paint := Stroked 1 |}.

(** The layout's frames and the children of the page. *)
Record LayoutState := { layout_frames : list FRect; page_children : list PathNode }.

(** [add_frame(mako, layout, fixed_page, rect, draw_outline)]. *)
Definition add_frame (st : LayoutState) (rect : FRect) (draw_outline : bool) : LayoutState :=
  {| layout_frames := layout_frames st ++ [rect];
     page_children := if draw_outline then page_children st ++ [draw_frame rect] else page_children st |}.

(** ** Paragraphs *)

Inductive Justification := eHALeft | eHACenter | eHARight | eHAJustified.

Inductive Run :=
  | TextRun (text : string) (font : option Font) (font_index : nat) (size : Q) (color : option Color)
  | ImageRun (image : Image) (width height : Q).

(** An [ILayoutParagraph]: [None] for a setting left at the SDK's default. *)
Record Paragraph := {
  justification : Justification;
  spacing_after : option Q;
  spacing_before : option Q;
  leading : option Q;
  runs : list Run
}.

(** [ILayoutParagraph.create(justification)]. *)
Definition new_paragraph (just : Justification) : Paragraph :=
  {| justification := just; spacing_after := None; spacing_before := None;
     leading := None; runs := [] |}.

(** [create_paragraph(space_after, justification, leading, space_before)]:
    the spacings are set only when positive. *)
Definition create_paragraph (space_after : Q) (just : Justification) (lead : Q) (space_before : Q) : Paragraph :=
  let para := new_paragraph just in
  {| justification := para.(justification);
     spacing_after := if Qlt_bool 0 space_after then Some space_after else para.(spacing_after);
     spacing_before := if Qlt_bool 0 space_before then Some space_before else para.(spacing_before);
     leading := Some lead;
     runs := para.(runs) |}.

(** [paragraphs[idx].addRun(run)]: [IndexError] past the end. *)
Definition add_run (paragraphs : list Paragraph) (idx : nat) (run : Run) : result (list Paragraph) :=
  para <- py_get paragraphs idx ;;
  Ok (<[idx := {| justification := para.(justification); spacing_after := para.(spacing_after);
                  spacing_before := para.(spacing_before); leading := para.(leading);
                  runs := para.(runs) ++ [run] |}]> paragraphs).

(** ** Images *)

(** [os.path.splitext(p)[1]]: the last component's suffix from its last
    dot, unless only dots precede that dot. *)
Definition splitext_ext (p : string) : string :=
  let b := InkSelection.basename p in
  match InkSelection.last_dot b with
  | Some i =>
      if existsb (fun d => negb (bool_decide (d = InkSelection.dot))) (String.list_ascii_of_string (String.substring 0 i b))
      then String.substring i (String.length b - i) b else ""
  | None => ""
  end.

(** [get_image(factory, image_file, width, height)]: the image and the
    size to show it at.  With one of [width], [height] zero, the other is
    derived from the aspect ratio [img_w / img_h]; with both zero, the
    image's own size.  The division by a zero height raises, and so does
    the division by a zero aspect ratio. *)
Definition get_image (image_file : string) (width height : Q) : result (Image * Q * Q) :=
  if negb (path_exists image_file) then
    Raise (Exception ("Image file " ++ image_file ++ " not found.")) else
  let ext := Progress.str_lower (splitext_ext image_file) in
  image <- (if String.eqb ext ".jpg" then create_image JPEGImage image_file
            else if String.eqb ext ".png" then create_image PNGImage image_file
            else if String.eqb ext ".tif" then create_image TIFFImage image_file
            else Raise (Exception ("Unsupported image type " ++ ext))) ;;
  let '(img_w, img_h) := image_size image in
  if (img_h =? 0)%Z then Raise (ZeroDivisionError "division by zero") else
  let aspect := (inject_Z img_w / inject_Z img_h)%Q in
  if Qeq_bool width 0 && Qeq_bool height 0 then Ok (image, inject_Z img_w, inject_Z img_h)
  else if Qeq_bool height 0 then
    (if Qeq_bool aspect 0 then Raise (ZeroDivisionError "float division by zero")
     else Ok (image, width, (width / aspect)%Q))
  else if Qeq_bool width 0 then Ok (image, (height * aspect)%Q, height)
  else Ok (image, width, height).

(** ** [main] *)

(** The PDF [main] writes: its name, the parameters of the output, the
    layout's frames, the outlines on the page and the paragraphs laid
    out. *)
Record LayoutPdf := {
  pdf_name : string;
  pdf_parameters : list (string * string);
  pdf_frames : list FRect;
  pdf_outlines : list PathNode;
  pdf_paragraphs : list Paragraph
}.

Record Output := { printed : list string; written : option LayoutPdf }.

(** A body paragraph of the loop [for i in range(3, len(paragraph_text))]. *)
Definition body_step (body_font : option Font * nat) (i : nat) (st : list Paragraph * nat) :
    result (list Paragraph * nat) :=
  let '(paragraphs, idx) := st in
  let paragraphs := paragraphs ++ [create_paragraph 7 eHAJustified 1.2 0] in
  let idx := idx + 1 in
  text <- py_get paragraph_text i ;;
  paragraphs <- add_run paragraphs idx (TextRun text body_font.1 body_font.2 14 None) ;;
  Ok (paragraphs, idx).

(** [sys.argv[1] if len(sys.argv) > 1 else ""]. *)
Definition input_file_of (argv : list string) : string :=
  match argv with _ :: a :: _ => a | _ => "" end.

(** The frames are cut from the page before anything can raise, so they
    are computed outside [run]. *)
Definition main (argv : list string) : Output :=
  let test_filepath := "TestFiles/" in
  let input_file := input_file_of argv in
  let draw_border := false in
  let margin := MM2XPS 12 in
  let width_with_margins := (page_width - margin * 2)%Q in
  let st := {| layout_frames := []; page_children := [] |} in
  let st := add_frame st {| x := margin; y := margin; dX := width_with_margins; dY := MM2XPS 40 |} draw_border in
  let st := add_frame st {| x := margin; y := margin + MM2XPS 40;
                            dX := width_with_margins / 3 - MM2XPS 2; dY := MM2XPS 83 |} draw_border in
  let st := add_frame st {| x := margin + width_with_margins / 3; y := margin + MM2XPS 40;
                            dX := width_with_margins / 3 * 2; dY := MM2XPS 83 |} draw_border in
  let st := add_frame st {| x := margin; y := margin + MM2XPS 125;
                            dX := width_with_margins; dY := MM2XPS 155 |} draw_border in
  let run :=
    title_font <- get_open_type_font ["Arial Black"] ;;
    body_font <- get_open_type_font ["DejaVu Sans Book"; "Gill Sans"; "Arial"] ;;
    body_bold <- get_open_type_font ["DejaVu Sans Book Bold"; "Gill Sans Bold"; "Arial Bold"] ;;
    let dark_blue := {| space := DeviceRGB; alpha := 1; components := [0; 0; 0.5]%Q |} in
    let paragraphs := [] in
    let idx := 0 in
    (* Title *)
    let paragraphs := paragraphs ++ [new_paragraph eHACenter] in
    text <- py_get paragraph_text 0 ;;
    paragraphs <- add_run paragraphs idx (TextRun text title_font.1 title_font.2 (PT2XPS 60) (Some dark_blue)) ;;
    (* Intro *)
    let paragraphs := paragraphs ++ [create_paragraph 9 eHAJustified 1.3 0] in
    let idx := idx + 1 in
    text <- py_get paragraph_text 1 ;;
    paragraphs <- add_run paragraphs idx (TextRun text body_bold.1 body_bold.2 14 None) ;;
    (* Sidebar *)
    let paragraphs := paragraphs ++ [create_paragraph 7 eHAJustified 1.2 0] in
    let idx := idx + 1 in
    text <- py_get paragraph_text 2 ;;
    paragraphs <- add_run paragraphs idx (TextRun text body_font.1 body_font.2 14 None) ;;
    (* Image frame *)
    paragraphs <- (if String.eqb input_file "" then Ok paragraphs else
                     let width := (width_with_margins / 3 * 2)%Q in
                     let height := 0%Q in
                     img <- get_image (path_join test_filepath input_file) width height ;;
                     let '(image, width, height) := img in
                     add_run paragraphs idx (ImageRun image width height)) ;;
    (* Body paragraphs *)
    st' <- py_for (seq 3 (length paragraph_text - 3)) (body_step body_font) (paragraphs, idx) ;;
    let '(paragraphs, idx) := st' in
    (* Right-to-left language test *)
    david <- get_open_type_font ["DavidRegular"] ;;
    arial <- get_open_type_font ["Arial"] ;;
    let paragraphs := paragraphs ++ [create_paragraph 8 eHARight 1 0] in
    let idx := idx + 1 in
    paragraphs <- add_run paragraphs idx (TextRun david_header david.1 david.2 16 None) ;;
    let paragraphs := paragraphs ++ [create_paragraph 6.5 eHARight 1 0] in
    let idx := idx + 1 in
    paragraphs <- add_run paragraphs idx (TextRun david_para arial.1 arial.2 13 None) ;;
    Ok paragraphs in
  match run with
  | Ok paragraphs =>
      {| printed := ["Layout PDF written successfully!"];
         written := Some {| pdf_name := "MyFirstLayout(Python).pdf";
                            pdf_parameters := [("maxAccumulatedPages", "1"); ("Producer", "Mako Layout Engine")];
                            pdf_frames := layout_frames st; pdf_outlines := page_children st;
                            pdf_paragraphs := paragraphs |} |}
  | Raise (MakoException m) => {| printed := [("MakoException: " ++ m)%string]; written := None |}
  | Raise e => {| printed := [("Exception thrown: " ++ py_exc_str e)%string]; written := None |}
  end.

(** The text of a run, [None] for an image. *)
Definition run_text (r : Run) : option string :=
  match r with TextRun t _ _ _ _ => Some t | ImageRun _ _ _ => None end.

End WithSDK.

(** An SDK to run [main] on: the fonts of a usual installation without
    DejaVu, an A4 page, and a 4000 by 3000 JPEG in [TestFiles]. *)
Definition test_layout_sdk : LayoutSDK := {|
  Font := string;
  Image := Z * Z;
  findFont name :=
    if decide (name ∈ ["Arial"; "Arial Black"; "Arial Bold"; "Gill Sans"; "Gill Sans Bold"; "DavidRegular"])
    then Ok (name, 0) else Raise (MakoException "Font not found");
  getFontType _ := eFontTypeOpenType;
  page_width := 793.7;
  path_exists f := String.eqb f "TestFiles/lake.jpg";
  create_image _ _ := Ok (4000, 3000)%Z;
  image_size i := i
|}.

Section Proofs.
Context `{SDK : LayoutSDK}.

(** ** Lemmas *)

(** Two boxes apart along one axis do not overlap. *)
Lemma apart_no_overlap a b :
  ((x a + dX a <= x b)%Q \/ (x b + dX b <= x a)%Q \/ (y a + dY a <= y b)%Q \/ (y b + dY b <= y a)%Q) ->
  ~ overlap a b.
Proof. intros Ha (px & py & ? & ? & ? & ?). destruct Ha as [Ha|[Ha|[Ha|Ha]]]; lra. Qed.

Lemma main_frames_eq argv pdf :
  written (main argv) = Some pdf ->
  pdf_frames pdf =
    [{| x := MM2XPS 12; y := MM2XPS 12; dX := page_width - MM2XPS 12 * 2; dY := MM2XPS 40 |};
     {| x := MM2XPS 12; y := MM2XPS 12 + MM2XPS 40;
        dX := (page_width - MM2XPS 12 * 2) / 3 - MM2XPS 2; dY := MM2XPS 83 |};
     {| x := MM2XPS 12 + (page_width - MM2XPS 12 * 2) / 3; y := MM2XPS 12 + MM2XPS 40;
        dX := (page_width - MM2XPS 12 * 2) / 3 * 2; dY := MM2XPS 83 |};
     {| x := MM2XPS 12; y := MM2XPS 12 + MM2XPS 125; dX := page_width - MM2XPS 12 * 2; dY := MM2XPS 155 |}] /\
  pdf_outlines pdf = [].
Proof.
  unfold main. cbv zeta. repeat case_match; intros [= <-]; done.
Qed.

(** Replaces each [MM2XPS k] of a numeral [k] by its value. *)
Ltac eval_mm :=
  repeat match goal with
  | H : context [MM2XPS ?k] |- _ => let v := eval vm_compute in (MM2XPS k) in change (MM2XPS k) with v in H
  | |- context [MM2XPS ?k] => let v := eval vm_compute in (MM2XPS k) in change (MM2XPS k) with v
  | |- context [(?q / 3)%Q] => change (q / 3)%Q with (q * (1 # 3))%Q
  end.

(** Decides which side of each other two frames lie. *)
Ltac frames_apart :=
  apply apart_no_overlap; eval_mm; cbn [x y dX dY];
  first [left; lra | right; left; lra | right; right; left; lra | right; right; right; lra].

(** The four frames the text flows into are cut from the page inside
    a 12 mm margin: none overlaps another, each has a positive size, and
    all lie within the page width less the margins, between 12 mm and
    292 mm from the top, whatever the page width above 30 mm.  No outline
    is drawn. *)
Theorem main_frames argv pdf :
  written (main argv) = Some pdf -> (MM2XPS 30 < page_width)%Q ->
  length (pdf_frames pdf) = 4 /\ pdf_outlines pdf = [] /\
  (forall i j a b, i <> j -> pdf_frames pdf !! i = Some a -> pdf_frames pdf !! j = Some b -> ~ overlap a b) /\
  Forall (fun f => (0 < dX f)%Q /\ (0 < dY f)%Q /\
            rect_within {| x := MM2XPS 12; y := MM2XPS 12; dX := page_width - MM2XPS 12 * 2;
                           dY := MM2XPS 280 |} f) (pdf_frames pdf).
Proof.
  intros Hw Hpw. destruct (main_frames_eq _ _ Hw) as [-> ->]. split; [done|split; [done|split]].
  - intros i j a b Hij Ha Hb.
    destruct i as [|[|[|[|i]]]], j as [|[|[|[|j]]]]; cbn in Ha, Hb; simplify_eq;
      try lia; frames_apart.
  - unfold rect_within. eval_mm.
    repeat (apply Forall_cons_2; [cbn [x y dX dY]; repeat split; lra|]). apply Forall_nil_2.
Qed.

Section Fonts.
Variable arial : Font * nat.
Hypothesis arial_found : findFont "Arial" = Ok arial.
Hypothesis only_mako : forall name e, findFont name = Raise e -> exists m, e = MakoException m.

Lemma try_fonts_found names font :
  names <> [] -> try_fonts names font = Ok (Some (default arial (first_found names))).
Proof.
  revert font. induction names as [|name rest IH]; intros font Hne; [done|]. cbn [try_fonts first_found].
  destruct (findFont name) as [fi|e] eqn:E; [done|].
  destruct (only_mako _ _ E) as [m ->]. rewrite arial_found. cbn [res_bind].
  destruct rest as [|r rest]; [done|]. by apply IH.
Qed.

Lemma get_open_type_font_ok names : names <> [] -> exists r, get_open_type_font names = Ok r.
Proof.
  intros Hne. unfold get_open_type_font. rewrite try_fonts_found by done. cbn [res_bind].
  destruct (default _ _) as [f i]. destruct (getFontType f); by eexists.
Qed.

End Fonts.

(** [get_open_type_font] returns the first font of the list the SDK
    finds, or Arial when it finds none, as an OpenType font with its
    index, and [(None, 0)] for a font of another type; with an empty list
    it raises [AttributeError], [font] being still [None]. *)
Theorem get_open_type_font_spec names arial :
  findFont "Arial" = Ok arial ->
  (forall name e, findFont name = Raise e -> exists m, e = MakoException m) ->
  get_open_type_font [] = Raise (AttributeError "'NoneType' object has no attribute 'getFontType'") /\
  (names <> [] ->
   get_open_type_font names =
     let '(font, font_index) := default arial (first_found names) in
     match getFontType font with
     | eFontTypeOpenType => Ok (Some font, font_index)
     | _ => Ok (None, 0)
     end).
Proof.
  intros Ha Hm. split; [done|]. intros Hne. unfold get_open_type_font.
  by rewrite (try_fonts_found arial Ha Hm).
Qed.

(** The extensions [get_image] decodes, and the decoder of each. *)
Lemma get_image_decoded file kind image width height :
  path_exists file = true ->
  (Progress.str_lower (splitext_ext file) = ".jpg" /\ kind = JPEGImage \/
   Progress.str_lower (splitext_ext file) = ".png" /\ kind = PNGImage \/
   Progress.str_lower (splitext_ext file) = ".tif" /\ kind = TIFFImage) ->
  create_image kind file = Ok image ->
  get_image file width height =
    let '(img_w, img_h) := image_size image in
    if (img_h =? 0)%Z then Raise (ZeroDivisionError "division by zero") else
    let aspect := (inject_Z img_w / inject_Z img_h)%Q in
    if Qeq_bool width 0 && Qeq_bool height 0 then Ok (image, inject_Z img_w, inject_Z img_h)
    else if Qeq_bool height 0 then
      (if Qeq_bool aspect 0 then Raise (ZeroDivisionError "float division by zero")
       else Ok (image, width, (width / aspect)%Q))
    else if Qeq_bool width 0 then Ok (image, (height * aspect)%Q, height)
    else Ok (image, width, height).
Proof.
  intros He Hk Hi. unfold get_image. rewrite He. cbn [negb].
  destruct Hk as [[-> ->]|[[-> ->]|[-> ->]]]; cbn; rewrite Hi; reflexivity.
Qed.

Lemma Qeq_bool_false q : ~ (q == 0)%Q -> Qeq_bool q 0 = false.
Proof. intros Hq. destruct (Qeq_bool q 0) eqn:E; [|done]. by apply Qeq_bool_iff in E. Qed.

(** [get_image] keeps the aspect ratio of the image: given a width,
    the height it derives makes [width / height = img_w / img_h]; given a
    height, so does the width; given neither, the image's own size. *)
Theorem get_image_aspect file kind image img_w img_h width height :
  path_exists file = true ->
  (Progress.str_lower (splitext_ext file) = ".jpg" /\ kind = JPEGImage \/
   Progress.str_lower (splitext_ext file) = ".png" /\ kind = PNGImage \/
   Progress.str_lower (splitext_ext file) = ".tif" /\ kind = TIFFImage) ->
  create_image kind file = Ok image -> image_size image = (img_w, img_h) ->
  img_w <> 0%Z -> img_h <> 0%Z -> ~ (width == 0)%Q -> ~ (height == 0)%Q ->
  (exists h', get_image file width 0 = Ok (image, width, h') /\ (width * inject_Z img_h == h' * inject_Z img_w)%Q) /\
  (exists w', get_image file 0 height = Ok (image, w', height) /\ (w' * inject_Z img_h == height * inject_Z img_w)%Q) /\
  get_image file 0 0 = Ok (image, inject_Z img_w, inject_Z img_h).
Proof.
  intros He Hk Hi Hs Hw Hh Hwd Hhd.
  assert (~ (inject_Z img_w == 0)%Q) as Hw' by (rewrite inject_Z_injective with (b := 0%Z); done).
  assert (~ (inject_Z img_h == 0)%Q) as Hh' by (rewrite inject_Z_injective with (b := 0%Z); done).
  assert (~ (inject_Z img_w / inject_Z img_h == 0)%Q) as Ha.
  { intros E. apply Hw'. apply (Qmult_inj_r _ _ (inject_Z img_h)) in E; [|done]. field_simplify in E; [|done].
    by rewrite E. }
  rewrite !(get_image_decoded _ _ _ _ _ He Hk Hi), Hs. apply Z.eqb_neq in Hh. rewrite Hh. cbv zeta.
  rewrite ?(Qeq_bool_false _ Hwd), ?(Qeq_bool_false _ Hhd), ?(Qeq_bool_false _ Ha). cbn.
  split; [|split; [|done]]; eexists; (split; [reflexivity|]); field; auto.
Qed.

(** The errors of [get_image]: a missing file and an extension other
    than [.jpg], [.png] and [.tif] (in any case) raise [Exception] with
    the sample's message; an image of zero height raises
    [ZeroDivisionError] on [img_w / img_h], and one of zero width when
    only a width is given, on [width / aspect]. *)
Theorem get_image_errors file width height kind image img_w img_h :
  (path_exists file = false ->
   get_image file width height = Raise (Exception ("Image file " ++ file ++ " not found."))) /\
  (path_exists file = true ->
   ~ In (Progress.str_lower (splitext_ext file)) [".jpg"; ".png"; ".tif"] ->
   get_image file width height =
     Raise (Exception ("Unsupported image type " ++ Progress.str_lower (splitext_ext file)))) /\
  (path_exists file = true ->
   (Progress.str_lower (splitext_ext file) = ".jpg" /\ kind = JPEGImage \/
    Progress.str_lower (splitext_ext file) = ".png" /\ kind = PNGImage \/
    Progress.str_lower (splitext_ext file) = ".tif" /\ kind = TIFFImage) ->
   create_image kind file = Ok image ->
   (image_size image = (img_w, 0%Z) ->
    get_image file width height = Raise (ZeroDivisionError "division by zero")) /\
   (image_size image = (0%Z, img_h) -> img_h <> 0%Z -> ~ (width == 0)%Q ->
    get_image file width 0 = Raise (ZeroDivisionError "float division by zero"))).
Proof.
  split; [|split].
  - intros He. unfold get_image. by rewrite He.
  - intros He Hn. unfold get_image. rewrite He. cbn [negb].
    destruct (String.eqb_spec (Progress.str_lower (splitext_ext file)) ".jpg") as [E|_];
      [rewrite E in Hn; simpl in Hn; tauto|].
    destruct (String.eqb_spec (Progress.str_lower (splitext_ext file)) ".png") as [E|_];
      [rewrite E in Hn; simpl in Hn; tauto|].
    destruct (String.eqb_spec (Progress.str_lower (splitext_ext file)) ".tif") as [E|_];
      [rewrite E in Hn; simpl in Hn; tauto|].
    done.
  - intros He Hk Hi. rewrite !(get_image_decoded _ _ _ _ _ He Hk Hi). split.
    + intros ->. done.
    + intros Hs Hh Hw. rewrite Hs. apply Z.eqb_neq in Hh. rewrite Hh. cbv zeta.
      rewrite (Qeq_bool_false _ Hw). done.
Qed.

(** C23. When Arial is installed and fonts are only ever missing, [main]
    lays out ten paragraphs, each holding the text run of its paragraph
    in order (the title, the intro, the sidebar, five body paragraphs and
    the two right-to-left ones): every run goes to the paragraph appended
    just before it.  When a file is named and its image loads, the image
    run follows the sidebar text.  The PDF is written and reported. *)
Theorem main_paragraphs argv arial :
  findFont "Arial" = Ok arial ->
  (forall name e, findFont name = Raise e -> exists m, e = MakoException m) ->
  (input_file_of argv = "" \/
   input_file_of argv <> "" /\
   exists r, get_image (path_join "TestFiles/" (input_file_of argv))
               ((page_width - MM2XPS 12 * 2) / 3 * 2) 0 = Ok r) ->
  exists pdf, written (main argv) = Some pdf /\ printed (main argv) = ["Layout PDF written successfully!"] /\
    map (fun p => map run_text (runs p)) (pdf_paragraphs pdf) =
      imap (fun i t => Some t :: (if (i =? 2) && negb (String.eqb (input_file_of argv) "") then [None] else []))
           (paragraph_text ++ [david_header; david_para]).
Proof.
  intros Ha Hm Hin. unfold main.
  repeat match goal with |- context [get_open_type_font ?l] =>
    destruct (get_open_type_font_ok arial Ha Hm l) as [? ->]; [done|] end.
  cbn [res_bind].
  destruct Hin as [E|[Hne [[[img w] h] E]]].
  - rewrite E. cbn. eexists. split; [reflexivity|]. split; reflexivity.
  - rewrite E. apply String.eqb_neq in Hne. rewrite Hne. cbn. eexists. split; [reflexivity|].
    split; reflexivity.
Qed.

End Proofs.

(** ** Runs on the test SDK *)

#[local] Existing Instance test_layout_sdk.

Lemma test_layout_sdk_only_mako name e : findFont name = Raise e -> exists m, e = MakoException m.
Proof. cbn. case_decide; [done|]. intros [= <-]. by eexists. Qed.

Lemma main_frames_witness :
  match written (main ["main.py"]) with
  | Some pdf =>
      (MM2XPS 30 < page_width)%Q /\
      length (pdf_frames pdf) = 4 /\ pdf_outlines pdf = [] /\
      (forall i j a b, i <> j -> pdf_frames pdf !! i = Some a -> pdf_frames pdf !! j = Some b -> ~ overlap a b) /\
      Forall (fun f => (0 < dX f)%Q /\ (0 < dY f)%Q /\
                rect_within {| x := MM2XPS 12; y := MM2XPS 12; dX := page_width - MM2XPS 12 * 2;
                               dY := MM2XPS 280 |} f) (pdf_frames pdf)
  | None => False
  end.
Proof.
  destruct (written (main ["main.py"])) as [pdf|] eqn:E; [|vm_compute in E; discriminate].
  split; [vm_compute; reflexivity|]. apply (main_frames _ _ E). vm_compute. reflexivity.
Defined.

Lemma get_open_type_font_spec_witness :
  @findFont test_layout_sdk "Arial" = Ok ("Arial", 0) /\
  get_open_type_font [] = Raise (AttributeError "'NoneType' object has no attribute 'getFontType'") /\
  get_open_type_font ["DejaVu Sans Book"; "Gill Sans"; "Arial"] =
    (let '(font, font_index) := default (("Arial", 0) : @Font test_layout_sdk * nat) (first_found ["DejaVu Sans Book"; "Gill Sans"; "Arial"]) in
     match getFontType font with
     | eFontTypeOpenType => Ok (Some font, font_index)
     | _ => Ok (None, 0)
     end).
Proof.
  split; [reflexivity|].
  destruct (get_open_type_font_spec ["DejaVu Sans Book"; "Gill Sans"; "Arial"] (("Arial", 0) : @Font test_layout_sdk * nat))
    as [E1 E2]; [reflexivity|apply test_layout_sdk_only_mako|].
  split; [exact E1|]. apply E2. discriminate.
Defined.

Lemma get_image_aspect_witness :
  Progress.str_lower (splitext_ext "TestFiles/lake.jpg") = ".jpg" /\
  (exists h', get_image "TestFiles/lake.jpg" 500 0 = Ok ((4000, 3000)%Z : @Image test_layout_sdk, 500%Q, h') /\
              (500 * inject_Z 3000 == h' * inject_Z 4000)%Q) /\
  (exists w', get_image "TestFiles/lake.jpg" 0 300 = Ok ((4000, 3000)%Z : @Image test_layout_sdk, w', 300%Q) /\
              (w' * inject_Z 3000 == 300 * inject_Z 4000)%Q) /\
  get_image "TestFiles/lake.jpg" 0 0 = Ok ((4000, 3000)%Z : @Image test_layout_sdk, inject_Z 4000, inject_Z 3000).
Proof.
  split; [reflexivity|].
  apply (get_image_aspect "TestFiles/lake.jpg" JPEGImage ((4000, 3000)%Z : @Image test_layout_sdk) 4000 3000 500 300);
    [reflexivity | left; split; reflexivity | reflexivity | reflexivity | lia | lia | compute; discriminate
    | compute; discriminate].
Defined.

Lemma get_image_errors_witness :
  path_exists "TestFiles/missing.png" = false /\
  get_image "TestFiles/missing.png" 0 0 = Raise (Exception ("Image file " ++ "TestFiles/missing.png" ++ " not found.")).
Proof.
  split; [reflexivity|].
  apply (get_image_errors "TestFiles/missing.png" 0 0 PNGImage ((0, 0)%Z : @Image test_layout_sdk) 0 0). reflexivity.
Defined.

Lemma main_paragraphs_witness :
  exists pdf, written (main ["main.py"; "lake.jpg"]) = Some pdf /\
    printed (main ["main.py"; "lake.jpg"]) = ["Layout PDF written successfully!"] /\
    map (fun p => map run_text (runs p)) (pdf_paragraphs pdf) =
      imap (fun i t => Some t :: (if (i =? 2) && negb (String.eqb (input_file_of ["main.py"; "lake.jpg"]) "")
                                  then [None] else []))
           (paragraph_text ++ [david_header; david_para]).
Proof.
  apply (main_paragraphs ["main.py"; "lake.jpg"] (("Arial", 0) : @Font test_layout_sdk * nat));
    [reflexivity | apply test_layout_sdk_only_mako | right; split; [discriminate | eexists; reflexivity]].
Defined.

End Layout.
