(* ===== verification/OutputIntent.v ===== *)
(** * SaveWithOutputIntent: a PDF/X-4 file with one, then three, output intents

    [Python Projects/SaveWithOutputIntent/save_with_output_intent.py]
    lays out a page (one frame, a header, a body line naming the ICC
    profile, an image), loads the ICC profile, writes the document with
    one output intent, reads the file back to check that it has one
    intent, then writes it again with three intents and checks that.

    The layout data (paragraphs, runs, fonts, images) are those of
    [Layout]; the SDK adds the ICC profile loader ([IntentSDK]).  Files
    are explicit state: a list of the files written, each with its preset,
    output intents and page content.  Reading a file back returns the
    intents that were written into it: the writer and reader of the SDK
    are assumed to agree on them. *)

From S2P Require Import Prelude Shapes InkSelection Progress Layout.
From Stdlib Require Import Ascii.

#[local] Open Scope nat_scope.

Module OutputIntent.
Import Shapes Layout.

(** ** The SDK *)

(** The fonts, images and files of [Layout], and
    [IDOMICCProfile.create(factory, IInputStream.createFromFile(...))]. *)
Class IntentSDK := {
  intent_layout_sdk :: LayoutSDK;
  ICCProfile : Type;
  create_icc_profile : string -> result ICCProfile
}.

Section WithSDK.
Context `{SDK : IntentSDK}.

(** ** Units and images *)

(** Points and millimetres to 1/96 inch. *)
Definition P2X (value : Q) : Q := value / 72 * 96.

Definition M2X (value : Q) : Q := value / 25.4 * 96.

(** [get_image(jaws_mako, image_path)]. *)
Definition get_image (image_path : string) : result Image :=
  if negb (path_exists image_path) then
    Raise (FileNotFoundError ("Image file " ++ image_path ++ " not found.")) else
  let ext := Progress.str_lower (splitext_ext image_path) in
  if String.eqb ext ".jpg" then create_image JPEGImage image_path
  else if String.eqb ext ".png" then create_image PNGImage image_path
  else if String.eqb ext ".tif" then create_image TIFFImage image_path
  else Raise (Exception ("Unsupported image type: " ++ ext)).

(** ** Output intents and files *)

(** [IOutputIntent.create(jaws_mako, subtype, output_condition,
    output_condition_identifier, registry_name, info, icc_profile)]. *)
Record OutputIntentT := {
  subtype : string;
  output_condition : string;
  output_condition_identifier : string;
  registry_name : string;
  info : string;
  icc_profile : ICCProfile
}.

(** An [IPDFOutput]: its preset and output intents. *)
Record PdfOutput := { preset : string; output_intents : list OutputIntentT }.

(** The page the sample lays out: its size, the layout frames and the
    paragraphs flowed into them. *)
Record PageContent := { page_size : Q * Q; page_frames : list FRect; page_paragraphs : list Paragraph }.

(** A written PDF file. *)
Record PdfFile := { file_preset : string; file_intents : list OutputIntentT; file_page : PageContent }.

Abbreviation Files := (list (string * PdfFile)).

(** [output.writeAssembly(assembly, name)]. *)
Definition writeAssembly (output : PdfOutput) (page : PageContent) (name : string) (fs : Files) : Files :=
  fs ++ [(name, {| file_preset := preset output; file_intents := output_intents output; file_page := page |})].

(** [IPDFInput.create(jaws_mako).open(name).getDocument().getOutputIntents().size()]. *)
Definition output_intent_count (fs : Files) (name : string) : result nat :=
  match find (fun f => String.eqb f.1 name) fs with
  | Some (_, f) => Ok (length (file_intents f))
  | None => Raise (MakoException "Failed to open file")
  end.

(** [if test_doc.getOutputIntents().size() != n: raise Exception(msg)]. *)
Definition verify_count (fs : Files) (name : string) (n : nat) (msg : string) : result unit :=
  count <- output_intent_count fs name ;;
  if count =? n then Ok tt else Raise (Exception msg).

(** ** [main] *)

Definition profiles : list (string * string) :=
  [("Probev2_ICCv4.icc", "https://www.color.org/probeprofile.xalter");
   ("GRACoL2006_Coated1v2.icc", "https://idealliance.org");
   ("JapanColor2011Coated.icc", "https://www.xrite.com")].

(** [ILayoutParagraph.create(justification, spaceAfter)]. *)
Definition paragraph_create (just : Justification) (space_after : Q) : Paragraph :=
  {| justification := just; spacing_after := Some space_after; spacing_before := None;
     leading := None; runs := [] |}.

(** Lines 43-96: the page, its layout and the ICC profile; nothing is
    written yet. *)
Definition layout_phase : result (PageContent * ICCProfile) :=
  let page_size := (M2X 250, M2X 210) in
  fh <- findFont "Arial" ;;
  let '(font, font_index) := fh in
  let dark_blue := {| space := DeviceRGB; alpha := 1; components := [0; 0; 0.5]%Q |} in
  let frame_rect := {| x := M2X 12; y := M2X 12; dX := M2X 273; dY := M2X 186 |} in
  let frames := [frame_rect] in
  let header := paragraph_create eHALeft (P2X 6) in
  let body := paragraph_create eHALeft (P2X 5) in
  let paragraphs := [] in
  let para_index := 0 in
  (* Header text *)
  let text := "This PDF has an Output Intent referencing this ICC profile:" in
  let run := TextRun text (Some font) font_index (P2X 12) (Some dark_blue) in
  let paragraphs := paragraphs ++ [header] in
  paragraphs <- add_run paragraphs para_index run ;;
  (* Body text *)
  p0 <- py_get profiles 0 ;;
  let text := ("  ● " ++ p0.1 ++ " (from " ++ p0.2 ++ ")")%string in
  let run := TextRun text (Some font) font_index (P2X 10) None in
  let paragraphs := paragraphs ++ [body] in
  let para_index := para_index + 1 in
  paragraphs <- add_run paragraphs para_index run ;;
  (* Insert image *)
  parrot <- get_image (path_join "TestFiles" "Parrot.png") ;;
  let paragraphs := paragraphs ++ [new_paragraph eHALeft] in
  let para_index := para_index + 1 in
  paragraphs <- add_run paragraphs para_index (ImageRun parrot 0 (M2X 169)) ;;
  let page := {| page_size := page_size; page_frames := frames; page_paragraphs := paragraphs |} in
  (* Load ICC profile *)
  icc_profile <- create_icc_profile (path_join "TestFiles" p0.1) ;;
  Ok (page, icc_profile).

(** The intent of [profiles[i]] with the sample's subtype, registry and
    info, and the given profile. *)
Definition make_intent (sub registry inf : string) (profile_name : string) (icc : ICCProfile) : OutputIntentT :=
  {| subtype := sub; output_condition := profile_name; output_condition_identifier := profile_name;
     registry_name := registry; info := inf; icc_profile := icc |}.

Definition report (e : PyExc) : list string :=
  match e with
  | MakoException m => [("MakoException: " ++ m)%string]
  | _ => [("Exception: " ++ py_exc_str e)%string]
  end.

(** [main()]: the lines printed and the files written, also those
    written before an exception. *)
(** Lines 128-179: the first intent and two more, all three on the
    profile [icc_profile], written to a second file and counted back. *)
Definition three_intents (page : PageContent) (icc : ICCProfile) (output_intent : OutputIntentT)
    (fs : Files) : list string * Files :=
  let output_intents := [output_intent] in
  let output_intents := output_intents ++
    [make_intent "GGS_DUMMY" "https://idealliance.org" "The GRACoL 2006 Coated v2 from idealliance.org"
       "GRACoL2006_Coated1v2.icc" icc] in
  let output_intents := output_intents ++
    [make_intent "GGS_DUMMY" "https://www.xrite.com" "The Japan Color 2011 profile from xrite.com"
       "JapanColor2011Coated.icc" icc] in
  let output := {| preset := "PDF/X-4"; output_intents := output_intents |} in
  let fs := writeAssembly output page "OutputIntentExampleThreeIntents.pdf" fs in
  match verify_count fs "OutputIntentExampleThreeIntents.pdf" 3 "Output intent count not equal to 3" with
  | Raise e => (report e, fs)
  | Ok _ => (["✅ Output intents successfully created and verified."], fs)
  end.

Definition main : list string * Files :=
  match layout_phase with
  | Raise e => (report e, [])
  | Ok (page, icc) =>
      let output := {| preset := "PDF/X-4"; output_intents := [] |} in
      let output_intent := make_intent "GTS_PDFX" "http://www.color.org" "Output Intent test"
                             "Probev2_ICCv4.icc" icc in
      let output := {| preset := preset output; output_intents := [output_intent] |} in
      let fs := writeAssembly output page "OutputIntentExample.pdf" [] in
      match verify_count fs "OutputIntentExample.pdf" 1 "Output intent count not equal to 1" with
      | Raise e => (report e, fs)
      | Ok _ => three_intents page icc output_intent fs
      end
  end.

End WithSDK.

(** An SDK to run [main] on: the fonts, images and page of
    [test_layout_sdk], with [Parrot.png] beside the JPEG, and every ICC
    profile of [TestFiles] readable. *)
Definition test_intent_sdk : IntentSDK := {|
  intent_layout_sdk := {|
    Font := string;
    Image := Z * Z;
    findFont name := if decide (name = "Arial") then Ok (name, 0) else Raise (MakoException "Font not found");
    getFontType _ := eFontTypeOpenType;
    page_width := 793.7;
    path_exists f := String.eqb f "TestFiles/Parrot.png";
    create_image _ _ := Ok (1000, 750)%Z;
    image_size i := i |};
  ICCProfile := string;
  create_icc_profile p := Ok p
|}.

(** ** Properties *)

Section Runs.
Context `{SDK : IntentSDK}.
Variables (font : Font) (font_index : nat) (parrot : Image) (icc : ICCProfile).
Hypothesis font_found : findFont "Arial" = Ok (font, font_index).
Hypothesis parrot_exists : path_exists "TestFiles/Parrot.png" = true.
Hypothesis parrot_decoded : create_image PNGImage "TestFiles/Parrot.png" = Ok parrot.
Hypothesis icc_loaded : create_icc_profile "TestFiles/Probev2_ICCv4.icc" = Ok icc.

Lemma layout_phase_ok :
  exists page, layout_phase = Ok (page, icc) /\
    page_size page = (M2X 250, M2X 210) /\
    page_frames page = [{| x := M2X 12; y := M2X 12; dX := M2X 273; dY := M2X 186 |}].
Proof.
  unfold layout_phase, get_image. rewrite font_found.
  cbv -[intent_layout_sdk path_exists create_image create_icc_profile M2X P2X].
  rewrite parrot_exists, parrot_decoded, icc_loaded.
  eexists. split; [reflexivity|]. split; reflexivity.
Qed.

(** C24. When the font, the image and the ICC profile load, [main] writes
    [OutputIntentExample.pdf] with one PDF/X-4 output intent and
    [OutputIntentExampleThreeIntents.pdf] with three, named after the
    three profiles, passes both read-back checks and reports success.
    All three intents embed the profile loaded from
    [TestFiles/Probev2_ICCv4.icc]: the GRACoL and Japan Color profiles
    are named but never loaded. *)
Theorem main_intents :
  exists page,
    main = (["✅ Output intents successfully created and verified."],
            [("OutputIntentExample.pdf",
              {| file_preset := "PDF/X-4"; file_page := page;
                 file_intents := [make_intent "GTS_PDFX" "http://www.color.org" "Output Intent test"
                                    "Probev2_ICCv4.icc" icc] |});
             ("OutputIntentExampleThreeIntents.pdf",
              {| file_preset := "PDF/X-4"; file_page := page;
                 file_intents := [make_intent "GTS_PDFX" "http://www.color.org" "Output Intent test"
                                    "Probev2_ICCv4.icc" icc;
                                  make_intent "GGS_DUMMY" "https://idealliance.org"
                                    "The GRACoL 2006 Coated v2 from idealliance.org" "GRACoL2006_Coated1v2.icc" icc;
                                  make_intent "GGS_DUMMY" "https://www.xrite.com"
                                    "The Japan Color 2011 profile from xrite.com" "JapanColor2011Coated.icc" icc] |})]).
Proof.
  destruct layout_phase_ok as (page & E & _ & _). exists page.
  unfold main. rewrite E. reflexivity.
Qed.


End Runs.

Lemma main_intents_witness :
  exists page,
    @main test_intent_sdk =
      (["✅ Output intents successfully created and verified."],
       [("OutputIntentExample.pdf",
         {| file_preset := "PDF/X-4"; file_page := page;
            file_intents := [@make_intent test_intent_sdk "GTS_PDFX" "http://www.color.org" "Output Intent test"
                               "Probev2_ICCv4.icc" "TestFiles/Probev2_ICCv4.icc"] |});
        ("OutputIntentExampleThreeIntents.pdf",
         {| file_preset := "PDF/X-4"; file_page := page;
            file_intents := [@make_intent test_intent_sdk "GTS_PDFX" "http://www.color.org" "Output Intent test"
                               "Probev2_ICCv4.icc" "TestFiles/Probev2_ICCv4.icc";
                             @make_intent test_intent_sdk "GGS_DUMMY" "https://idealliance.org"
                               "The GRACoL 2006 Coated v2 from idealliance.org" "GRACoL2006_Coated1v2.icc"
                               "TestFiles/Probev2_ICCv4.icc";
                             @make_intent test_intent_sdk "GGS_DUMMY" "https://www.xrite.com"
                               "The Japan Color 2011 profile from xrite.com" "JapanColor2011Coated.icc"
                               "TestFiles/Probev2_ICCv4.icc"] |})]).
Proof. apply (@main_intents test_intent_sdk "Arial" 0 (1000, 750)%Z); reflexivity. Defined.


End OutputIntent.
