(* ===== verification/Recolor.v ===== *)
(** * RecolorImageWithSpot: an image turned into a mask for a spot colour

    [Python Projects/RecolorImageWithSpot/recolor_image_with_spot.py]
    makes a LAB spot colour ([make_separation_color]), loads a PNG, sizes
    it at 96 units per inch from its resolution ([image_bounds]), builds
    the filter chain that turns it into a mask (a conversion to gray for
    a colour image, then an inversion), paints a path of the image's size
    with the spot colour through the mask, scales it onto the page's crop
    box and writes the page.

    The colour model and page geometry are those of [Shapes]; the image
    decoder, the page's crop box and the matrix [FMatrix(from, to)] are
    the SDK's ([RecolorSDK]), the matrix being the one that maps the
    first rectangle onto the second. *)

From S2P Require Import Prelude Shapes.
From stdpp Require Import pretty.

#[local] Open Scope nat_scope.

Module Recolor.
Import Shapes.

(** ** The SDK *)

(** What [image.getImageFrame(factory)] tells of a decoded image. *)
Record FrameInfo := {
  frame_components : nat;     (** [getColorSpace().getNumComponents()] *)
  frame_width : Z; frame_height : Z;
  xres : Q; yres : Q
}.

(** [IDOMPNGImage.create(factory, IInputStream.createFromFile(factory,
    path))] and the frame of the image; the crop box of a new page; the
    [m_errorCode] of a [MakoException]. *)
Class RecolorSDK := {
  PNGImage : Type;
  create_png : string -> result PNGImage;
  image_frame : PNGImage -> FrameInfo;
  default_crop_box : FRect;
  error_code : string -> Z
}.

(** [IDOMImageColorConverterFilter] to DeviceGray, perceptual, and
    [IDOMImageInverterFilter]. *)
Inductive ImageFilter := ColorConverterToGray | InverterFilter.

(** [FMatrix(from, to)]: the scaling and translation taking [from] onto
    [to]. *)
Record FMatrix := { xx : Q; yy : Q; ddx : Q; ddy : Q }.

Definition rect_to_rect (from to : FRect) : FMatrix :=
  {| xx := dX to / dX from; yy := dY to / dY from;
     ddx := x to - x from * (dX to / dX from); ddy := y to - y from * (dY to / dY from) |}.

Definition apply_matrix (m : FMatrix) (p : Q * Q) : Q * Q :=
  (xx m * p.1 + ddx m, yy m * p.2 + ddy m)%Q.

Section WithSDK.
Context `{SDK : RecolorSDK}.

(** The path the sample draws: a rectangle filled with the spot colour
    through the mask, and its render transform. *)
Record MaskedPath := {
  path_box : FRect;
  mask_image : PNGImage;
  mask_filters : list ImageFilter;
  mask_brush : Brush;
  mask_bounds : FRect;
  render_transform : FMatrix
}.

(** ** Colours *)

(** [make_separation_color(jaws_mako, name, lab_representation)]: a
    one-colorant DeviceN space with the D50 LAB alternate of [Shapes]. *)
Definition make_separation_color (name : string) (lab_representation : list Q) : Color :=
  let colorant_info := {| colorant_name := name; representation := lab_representation |} in
  let colorants := [colorant_info] in
  let alternate := lab_d50 in
  let color_space := DeviceN colorants alternate in
  {| space := color_space; alpha := 1; components := [1%Q] |}.

(** [make_cmyk_separation_color(jaws_mako, name, cmyk_representation)]
    (not called by [main]). *)
Definition make_cmyk_separation_color (name : string) (cmyk_representation : list Q) : Color :=
  let colorant_info := {| colorant_name := name; representation := cmyk_representation |} in
  let color_space := DeviceN [colorant_info] DeviceCMYK in
  {| space := color_space; alpha := 1; components := [1%Q] |}.

(** ** [main] *)

(** [FRect(0.0, 0.0, image_width / image_xres * 96.0, image_height /
    image_yres * 96.0)]: a float division by a zero resolution raises. *)
Definition image_bounds (fr : FrameInfo) : result FRect :=
  if Qeq_bool (xres fr) 0 then Raise (ZeroDivisionError "float division by zero") else
  if Qeq_bool (yres fr) 0 then Raise (ZeroDivisionError "float division by zero") else
  Ok {| x := 0; y := 0; dX := inject_Z (frame_width fr) / xres fr * 96;
        dY := inject_Z (frame_height fr) / yres fr * 96 |}.

(** The filter chain of lines 44-51. *)
Definition image_filters (fr : FrameInfo) : list ImageFilter :=
  let filters := [] in
  let filters := if negb (frame_components fr =? 1) then filters ++ [ColorConverterToGray] else filters in
  filters ++ [InverterFilter].

(** The outcome of [main]: the file written with its page's children, or
    the line printed for an exception. *)
Record Output := { printed : list string; written : option (string * list MaskedPath) }.

Definition main : Output :=
  let test_filepath := "TestFiles/" in
  let run :=
    let rubine_red := make_separation_color "Pantone Rubine Red C" [43.92; 79; 13]%Q in
    let rubine_red_brush := SolidColorBrush rubine_red in
    image <- create_png (test_filepath ++ "Cheshire Cat.png") ;;
    let fr := image_frame image in
    bounds <- image_bounds fr ;;
    let filters := image_filters fr in
    let path := {| path_box := bounds; mask_image := image; mask_filters := filters;
                   mask_brush := rubine_red_brush; mask_bounds := bounds;
                   render_transform := rect_to_rect bounds default_crop_box |} in
    Ok [path] in
  match run with
  | Ok children => {| printed := []; written := Some ("Cheshire Cat.pdf", children) |}
  | Raise (MakoException m) =>
      {| printed := [("Exception thrown: " ++ pretty (error_code m) ++ ": " ++ m)%string]; written := None |}
  | Raise e => {| printed := [("Exception thrown: " ++ py_exc_str e)%string]; written := None |}
  end.

End WithSDK.

(** An SDK to run [main] on: a 1000 by 750 RGB image at 300 dpi and an
    A4 crop box. *)
Definition test_recolor_sdk : RecolorSDK := {|
  PNGImage := unit;
  create_png _ := Ok tt;
  image_frame _ := {| frame_components := 3; frame_width := 1000; frame_height := 750;
                      xres := 300; yres := 300 |};
  default_crop_box := {| x := 0; y := 0; dX := 793.7; dY := 1122.5 |};
  error_code _ := 1%Z
|}.

(** ** Properties *)

Lemma rect_to_rect_corners from to :
  ~ (dX from == 0)%Q -> ~ (dY from == 0)%Q ->
  let m := rect_to_rect from to in
  ((apply_matrix m (x from, y from)).1 == x to)%Q /\ ((apply_matrix m (x from, y from)).2 == y to)%Q /\
  ((apply_matrix m (x from + dX from, y from + dY from)).1 == x to + dX to)%Q /\
  ((apply_matrix m (x from + dX from, y from + dY from)).2 == y to + dY to)%Q.
Proof. intros Hx Hy m. unfold m, rect_to_rect, apply_matrix. cbn. repeat split; field; done. Qed.

Lemma scaled_nonzero (w : Z) (r : Q) : w <> 0%Z -> ~ (r == 0)%Q -> ~ (inject_Z w / r * 96 == 0)%Q.
Proof.
  intros Hw Hr E. apply Hw. apply (inject_Z_injective w 0).
  transitivity (inject_Z w / r * 96 * r / 96)%Q; [field; done|].
  rewrite E. reflexivity.
Qed.

Section Runs.
Context `{SDK : RecolorSDK}.

(** C27. When the PNG loads with nonzero resolutions, [main] writes
    [Cheshire Cat.pdf] with one path: the image's box at 96 units per
    inch, masked by the image converted to gray (unless it has one
    component) and inverted, painted in the Rubine Red spot colour, and
    scaled so that the box fills the page's crop box corner to corner.
    A zero resolution raises instead, and nothing is written. *)
Theorem recolor_main_spec image :
  create_png "TestFiles/Cheshire Cat.png" = Ok image ->
  (~ (xres (image_frame image) == 0)%Q -> ~ (yres (image_frame image) == 0)%Q ->
   exists p, written main = Some ("Cheshire Cat.pdf", [p]) /\
     (dX (path_box p) == inject_Z (frame_width (image_frame image)) / xres (image_frame image) * 96)%Q /\
     (dY (path_box p) == inject_Z (frame_height (image_frame image)) / yres (image_frame image) * 96)%Q /\
     mask_filters p = (if frame_components (image_frame image) =? 1 then [InverterFilter]
                       else [ColorConverterToGray; InverterFilter]) /\
     mask_brush p = SolidColorBrush (make_separation_color "Pantone Rubine Red C" [43.92; 79; 13]%Q) /\
     (frame_width (image_frame image) <> 0%Z -> frame_height (image_frame image) <> 0%Z ->
      ((apply_matrix (render_transform p) (x (path_box p), y (path_box p))).1 == x default_crop_box)%Q /\
      ((apply_matrix (render_transform p) (x (path_box p), y (path_box p))).2 == y default_crop_box)%Q /\
      ((apply_matrix (render_transform p) (x (path_box p) + dX (path_box p), y (path_box p) + dY (path_box p))).1
         == x default_crop_box + dX default_crop_box)%Q /\
      ((apply_matrix (render_transform p) (x (path_box p) + dX (path_box p), y (path_box p) + dY (path_box p))).2
         == y default_crop_box + dY default_crop_box)%Q)) /\
  ((xres (image_frame image) == 0)%Q ->
   main = {| printed := ["Exception thrown: float division by zero"]; written := None |}).
Proof.
  intros Hi. set (fr := image_frame image). unfold main. cbv zeta.
  change ("TestFiles/" ++ "Cheshire Cat.png")%string with "TestFiles/Cheshire Cat.png".
  rewrite Hi. cbn [res_bind].
  split.
  - intros Hx Hy. unfold image_bounds. fold fr.
    destruct (Qeq_bool (xres fr) 0) eqn:Ex; [apply Qeq_bool_iff in Ex; done|].
    destruct (Qeq_bool (yres fr) 0) eqn:Ey; [apply Qeq_bool_iff in Ey; done|].
    cbn. eexists. split; [reflexivity|]. cbn [path_box mask_filters mask_brush render_transform dX dY].
    split; [reflexivity|]. split; [reflexivity|]. split.
    { unfold image_filters. destruct (frame_components fr =? 1); reflexivity. }
    split; [reflexivity|]. intros Hw Hh.
    pose proof (rect_to_rect_corners {| x := 0; y := 0; dX := inject_Z (frame_width fr) / xres fr * 96;
      dY := inject_Z (frame_height fr) / yres fr * 96 |} default_crop_box) as C.
    apply C; cbn [dX dY]; by apply scaled_nonzero.
  - intros Hx. unfold image_bounds. fold fr.
    destruct (Qeq_bool (xres fr) 0) eqn:Ex; [reflexivity|].
    apply Qeq_bool_neq in Ex. done.
Qed.

End Runs.

Lemma recolor_main_spec_witness :
  (~ (xres (@image_frame test_recolor_sdk tt) == 0)%Q -> ~ (yres (@image_frame test_recolor_sdk tt) == 0)%Q ->
   exists p, written (@main test_recolor_sdk) = Some ("Cheshire Cat.pdf", [p]) /\
     (dX (path_box p) == inject_Z (frame_width (@image_frame test_recolor_sdk tt)) / xres (@image_frame test_recolor_sdk tt) * 96)%Q /\
     (dY (path_box p) == inject_Z (frame_height (@image_frame test_recolor_sdk tt)) / yres (@image_frame test_recolor_sdk tt) * 96)%Q /\
     mask_filters p = (if frame_components (@image_frame test_recolor_sdk tt) =? 1 then [InverterFilter]
                       else [ColorConverterToGray; InverterFilter]) /\
     mask_brush p = SolidColorBrush (make_separation_color "Pantone Rubine Red C" [43.92; 79; 13]%Q) /\
     (frame_width (@image_frame test_recolor_sdk tt) <> 0%Z -> frame_height (@image_frame test_recolor_sdk tt) <> 0%Z ->
      ((apply_matrix (render_transform p) (x (path_box p), y (path_box p))).1 == x (@default_crop_box test_recolor_sdk))%Q /\
      ((apply_matrix (render_transform p) (x (path_box p), y (path_box p))).2 == y (@default_crop_box test_recolor_sdk))%Q /\
      ((apply_matrix (render_transform p) (x (path_box p) + dX (path_box p), y (path_box p) + dY (path_box p))).1
         == x (@default_crop_box test_recolor_sdk) + dX (@default_crop_box test_recolor_sdk))%Q /\
      ((apply_matrix (render_transform p) (x (path_box p) + dX (path_box p), y (path_box p) + dY (path_box p))).2
         == y (@default_crop_box test_recolor_sdk) + dY (@default_crop_box test_recolor_sdk))%Q)) /\
  ((xres (@image_frame test_recolor_sdk tt) == 0)%Q ->
   @main test_recolor_sdk = {| printed := ["Exception thrown: float division by zero"]; written := None |}).
Proof. apply (@recolor_main_spec test_recolor_sdk tt). reflexivity. Defined.


End Recolor.
