(* ===== verification/PageInsert.v ===== *)
(** * PageInsert: a cover page put in front of a PDF

    [Python Projects/PageInsert/main.py] takes an input PDF, an output
    name and a cover PDF on the command line and inserts the first page
    of the cover before the first page of the input.  Documents are lists
    of pages read through [InsertSDK];
    [IPDFPageInserter.insert(stream, at, from, count)] is modelled from
    its documentation: the pages [from .. from + count - 1] of the
    inserted document go in before page [at]. *)

From S2P Require Import Prelude.

#[local] Open Scope nat_scope.

Module PageInsert.

(** Reading a PDF file as its pages, and the text of
    [f"{elapsed:.4f}"] for the time the run takes. *)
Class InsertSDK := {
  Page : Type;
  read_pdf : string -> result (list Page);
  elapsed_text : string
}.

(** An SDK to run [main] on: every file a two-page document. *)
Definition test_insert_sdk : InsertSDK := {|
  Page := string;
  read_pdf f := Ok [(f ++ "#0")%string; (f ++ "#1")%string];
  elapsed_text := "0.0100"
|}.

Section WithSDK.
Context `{SDK : InsertSDK}.

(** [page_inserter.insert(insert_stream, at, from, count)]. *)
Definition insert (doc cover : list Page) (at_page from count : nat) : result (list Page) :=
  if decide (at_page <= length doc /\ from + count <= length cover) then
    Ok (take at_page doc ++ take count (drop from cover) ++ drop at_page doc)
  else Raise (MakoException "IPDFPageInserter: page index out of range").

(** What a run leaves: the exit status, the lines printed and the file
    saved with its pages. *)
Record Outcome := { status : Z; lines : list string; saved : option (string * list Page) }.

(** [main()]; an exception raised before the [try] escapes [main]
    ([Raise]). *)
Definition main (argv : list string) : result Outcome :=
  if length argv <? 3 then
    Ok {| status := 1; lines := ["Usage: python insert_cover_page.py <input.pdf> <output.pdf> <cover.pdf>"];
          saved := None |}
  else
    let test_file_path := "TestFiles/" in
    a1 <- py_get argv 1 ;;
    let input_file := (test_file_path ++ a1)%string in
    output_file <- py_get argv 2 ;;
    a3 <- py_get argv 3 ;;
    let cover_file := (test_file_path ++ a3)%string in
    let body :=
      input_stream <- read_pdf input_file ;;
      insert_stream <- read_pdf cover_file ;;
      inserted <- insert input_stream insert_stream 0 0 1 ;;
      Ok (output_file, inserted) in
    match body with
    | Ok out => Ok {| status := 0; lines := [("Processing time: " ++ elapsed_text ++ " seconds")%string];
                      saved := Some out |}
    | Raise (MakoException m) => Ok {| status := 1; lines := [("MakoException: " ++ m)%string]; saved := None |}
    | Raise e => Ok {| status := 1; lines := [("Unexpected error: " ++ py_exc_str e)%string]; saved := None |}
    end.

(** Lines 66-67: [sys.exit(main())]; an exception that escapes [main]
    ends the interpreter with status 1 after its traceback. *)
Definition process_status (argv : list string) : Z :=
  match main argv with Ok o => sys_exit_status (status o) | Raise _ => 1%Z end.

(** ** Properties *)

(** C26. [main] checks for three entries of [sys.argv] but reads four: with
    fewer than three it prints the usage and returns 1, but with exactly
    three (two arguments) [sys.argv[3]] raises [IndexError] before the
    [try], and the exception escapes [main]. *)
Theorem main_missing_cover :
  (forall argv, length argv < 3 ->
   main argv = Ok {| status := 1; lines := ["Usage: python insert_cover_page.py <input.pdf> <output.pdf> <cover.pdf>"];
                     saved := None |}) /\
  (forall prog input output, main [prog; input; output] = Raise IndexError).
Proof.
  split.
  - intros argv Hl. unfold main. apply Nat.ltb_lt in Hl. by rewrite Hl.
  - intros prog input output. reflexivity.
Qed.

(** With four arguments and both files readable, [main] saves the first
    page of the cover in front of the input's pages and returns 0. *)
Lemma main_inserts_cover prog input output cover doc p cover_rest :
  read_pdf ("TestFiles/" ++ input) = Ok doc ->
  read_pdf ("TestFiles/" ++ cover) = Ok (p :: cover_rest) ->
  main [prog; input; output; cover] =
    Ok {| status := 0; lines := [("Processing time: " ++ elapsed_text ++ " seconds")%string];
          saved := Some (output, p :: doc) |}.
Proof.
  intros Hi Hc. unfold main. cbn -[read_pdf insert]. rewrite Hi, Hc. cbn [res_bind].
  unfold insert. rewrite decide_True by (cbn; lia). reflexivity.
Qed.

End WithSDK.

Lemma main_missing_cover_witness :
  length ["insert_cover_page.py"; "in.pdf"] < 3 /\
  @main test_insert_sdk ["insert_cover_page.py"; "in.pdf"] =
    Ok {| status := 1; lines := ["Usage: python insert_cover_page.py <input.pdf> <output.pdf> <cover.pdf>"];
          saved := None |} /\
  @main test_insert_sdk ["insert_cover_page.py"; "in.pdf"; "out.pdf"] = Raise IndexError.
Proof.
  destruct (@main_missing_cover test_insert_sdk) as [H1 H2].
  split; [cbn; lia|]. split; [apply H1; cbn; lia | apply H2].
Defined.

End PageInsert.
