(* ===== verification/Apex.v ===== *)
(** * ApexGettingStarted: page 0 of a PDF rendered at 300 dpi

    [Pycharm Projects/ApexGettingStarted/ApexGettingStarted.py] opens a
    PDF, sizes a render spec for 300 dpi from the page size, renders the
    page with the Apex renderer and writes a PNG.  Opening the page and
    its size are the SDK's ([ApexSDK]); the model records the spec the
    page is rendered with and the file written. *)

From S2P Require Import Prelude Shapes.

#[local] Open Scope nat_scope.

Module Apex.
Import Shapes.

(** [IInput.create(jaws_mako, eFFPDF).open(path).getDocument().getPage(0)]
    with its width, height and crop box; the [m_msg] of an error. *)
Class ApexSDK := {
  ApexPage : Type;
  open_first_page : string -> result ApexPage;
  page_width : ApexPage -> Q;
  page_height : ApexPage -> Q;
  crop_box : ApexPage -> FRect
}.

(** [CImageRenderSpec] as the sample fills it. *)
Record ImageRenderSpec := { width : Z; height : Z; sourceRect : FRect; processSpace : ColorSpace }.

(** An SDK to run [main] on: an A4 page. *)
Definition test_apex_sdk : ApexSDK := {|
  ApexPage := unit;
  open_first_page _ := Ok tt;
  page_width _ := 793.7%Q;
  page_height _ := 1122.5%Q;
  crop_box _ := {| x := 0; y := 0; dX := 793.7; dY := 1122.5 |}
|}.

Section WithSDK.
Context `{SDK : ApexSDK}.

(** The rendering of the sample: the PNG written, with the spec it was
    rendered with. *)
Record Outcome := { status : Z; lines : list string; png : option (string * ImageRenderSpec) }.

(** [main()]: [r"TestFiles\\"] is a raw string, so both backslashes stay
    in the paths. *)
Definition main : Outcome :=
  let test_file_path := "TestFiles\\" in
  let result_file_path := "TestFiles\\" in
  let run :=
    page <- open_first_page (test_file_path ++ "Cheshire Cat.pdf") ;;
    let image_spec := {| width := py_int (page_width page / 96 * 300);
                         height := py_int (page_height page / 96 * 300);
                         sourceRect := crop_box page;
                         processSpace := DeviceRGB |} in
    Ok ((result_file_path ++ "Cheshire Cat.png")%string, image_spec) in
  match run with
  | Ok out => {| status := 0; lines := ["Rendered page saved as Cheshire Cat.png"]; png := Some out |}
  | Raise (MakoException m) => {| status := 1; lines := [("MakoException thrown: " ++ m)%string]; png := None |}
  | Raise e => {| status := 1; lines := [("std::exception thrown: " ++ py_exc_str e)%string]; png := None |}
  end.

(** Lines 66-67: [sys.exit(main())]. *)
Definition process_status : Z := sys_exit_status (status main).

(** [int(v / 96.0 * 300.0)] pixels for [v] units of 1/96 inch. *)
Lemma py_int_pixels (v : Q) :
  (0 <= v)%Q ->
  (inject_Z (py_int (v / 96 * 300)) * 96 <= v * 300 < (inject_Z (py_int (v / 96 * 300)) + 1) * 96)%Q.
Proof.
  intros Hv. rewrite py_int_nonneg by (change (v / 96 * 300)%Q with (v * (1 # 96) * 300)%Q; lra).
  pose proof (Qfloor_bounds (v / 96 * 300)) as [Hl Hu].
  change (v / 96 * 300)%Q with (v * (1 # 96) * 300)%Q in *. lra.
Qed.

(** When page 0 opens, [main] renders it at 300 dpi: the PNG's pixel
    width and height are the page's width and height in inches times 300,
    rounded down, the source rectangle is the crop box and the process
    space RGB; the PNG goes to ["TestFiles\\Cheshire Cat.png"], with the
    two backslashes of the raw string. *)
Theorem main_render_size page :
  open_first_page "TestFiles\\Cheshire Cat.pdf" = Ok page ->
  (0 <= page_width page)%Q -> (0 <= page_height page)%Q ->
  exists spec, main = {| status := 0; lines := ["Rendered page saved as Cheshire Cat.png"];
                         png := Some ("TestFiles\\Cheshire Cat.png", spec) |} /\
    sourceRect spec = crop_box page /\ processSpace spec = DeviceRGB /\
    (inject_Z (width spec) * 96 <= page_width page * 300 < (inject_Z (width spec) + 1) * 96)%Q /\
    (inject_Z (height spec) * 96 <= page_height page * 300 < (inject_Z (height spec) + 1) * 96)%Q.
Proof.
  intros Ho Hw Hh. unfold main. cbv zeta.
  change ("TestFiles\\" ++ "Cheshire Cat.pdf")%string with "TestFiles\\Cheshire Cat.pdf". rewrite Ho.
  cbn [res_bind]. eexists. split; [reflexivity|]. cbn [sourceRect processSpace width height].
  split; [done|split; [done|]].
  split; apply py_int_pixels; done.
Qed.

End WithSDK.

Lemma main_render_size_witness :
  exists spec, @main test_apex_sdk =
      {| status := 0; lines := ["Rendered page saved as Cheshire Cat.png"];
         png := Some ("TestFiles\\Cheshire Cat.png", spec) |} /\
    sourceRect spec = {| x := 0; y := 0; dX := 793.7; dY := 1122.5 |} /\ processSpace spec = DeviceRGB /\
    (inject_Z (width spec) * 96 <= 793.7 * 300 < (inject_Z (width spec) + 1) * 96)%Q /\
    (inject_Z (height spec) * 96 <= 1122.5 * 300 < (inject_Z (height spec) + 1) * 96)%Q.
Proof.
  apply (@main_render_size test_apex_sdk tt); [reflexivity | apply Qle_bool_iff; reflexivity
    | apply Qle_bool_iff; reflexivity].
Defined.

End Apex.
