(* ===== verification/Scripts.v ===== *)
(** * Four scripts that build or open one page and write it

    [Pycharm Projects/GettingStarted/getting_started.py],
    [Pycharm Projects/AddImageToPdf/AddImageToPdf.py],
    [Pycharm Projects/CreatePdf/main.py] and
    [Python Projects/OpenPdf/main.py] run at module level: each creates
    or opens a page, puts at most one node on it and writes
    [TestPython.pdf] beside the script.  Fonts, images and PDFs are the
    SDK's ([ScriptSDK]); the model records the page written. *)

From S2P Require Import Prelude Shapes.

#[local] Open Scope nat_scope.

Module Scripts.
Import Shapes.

(** Fonts, images and PDFs as the scripts use them, and
    [os.path.dirname(os.path.realpath(__file__))]. *)
Class ScriptSDK := {
  ScriptFont : Type;
  ScriptImage : Type;
  ScriptPage : Type;
  findFont : string -> result (ScriptFont * nat);
  create_png : string -> result ScriptImage;
  image_size : ScriptImage -> Z * Z;
  open_first_page : string -> result ScriptPage;
  script_dir : string
}.

Section WithSDK.
Context `{SDK : ScriptSDK}.

(** The content the scripts put on a page. *)
Inductive Content :=
  | Glyphs (text : string) (size : Q) (origin : Q * Q) (brush : Brush) (font : ScriptFont) (index : nat)
  | ImageNode (image : ScriptImage) (bounds : FRect).

(** A page written: a new fixed page of a size ([None] for the SDK's
    default) with children, or an existing page written back. *)
Inductive PageOut :=
  | NewPage (size : option (Q * Q)) (children : list Content)
  | EditedPage (page : ScriptPage).

(** A script's run: the PDF written and the line printed, or the
    exception that ends it. *)
Definition ScriptRun := result (string * PageOut * string).

(** [getting_started.py]: "Mako Python API" in 72 pt blue Arial Bold,
    10 units from the left edge, on the vertical middle of a 793.7 by
    561.1 page. *)
Definition getting_started : ScriptRun :=
  let pagewidth := 793.7%Q in
  let pageheight := 561.1%Q in
  font <- findFont "Arial Bold" ;;
  let hcolorspace := ICCBased "sRGB" 3 in
  let bluecolor := {| space := hcolorspace; alpha := 1; components := [0; 0; 1]%Q |} in
  let solidBrush := SolidColorBrush bluecolor in
  let message := "Mako Python API" in
  let glyphs := Glyphs message 72 (10, pageheight / 2)%Q solidBrush font.1 0 in
  Ok ((script_dir ++ "/TestPython.pdf")%string, NewPage (Some (pagewidth, pageheight)) [glyphs], "File created.").

(** [AddImageToPdf.py]: the PNG at its pixel size at the page origin;
    ["TestFiles\\"] is an ordinary string, a single backslash. *)
Definition add_image_to_pdf : ScriptRun :=
  let testFilepath := "TestFiles\" in
  image <- create_png (testFilepath ++ "makologo.png") ;;
  let '(width, height) := image_size image in
  let imageNode := ImageNode image {| x := 0; y := 0; dX := inject_Z width; dY := inject_Z height |} in
  Ok ((script_dir ++ "/TestPython.pdf")%string, NewPage None [imageNode], "File created.").

(** [CreatePdf/main.py]: an empty page. *)
Definition create_pdf : ScriptRun :=
  Ok ((script_dir ++ "/TestPython.pdf")%string, NewPage None [], "File created.").

(** [OpenPdf/main.py]: page 0 of [Cheshire Cat.pdf], opened for editing
    and written back unchanged. *)
Definition open_pdf : ScriptRun :=
  page <- open_first_page "Cheshire Cat.pdf" ;;
  Ok ((script_dir ++ "/TestPython.pdf")%string, EditedPage page, "File created.").

End WithSDK.

End Scripts.
